(** * Node formation, annotation and classification of prjxray_form_channels.py

    A shallow embedding of [src/xc7/utils/prjxray_form_channels.py].  The
    script keeps its whole state in an SQLite connection database; every
    table is embedded as the list of its rows in rowid order, a row's
    primary key being its position (SQLite hands out rowids 1, 2, 3, ... to
    rows inserted without an explicit key, and the script never deletes).
    SQL statements become list programs over those tables, Python
    exceptions (a failed [assert], unpacking the [None] of an exhausted
    cursor, a missing dictionary key) become the [Raise] results of a small
    error monad. *)

From Stdlib Require Import ZArith Lia.
From stdpp Require Import base option list strings gmap.

Local Open Scope Z_scope.
Local Open Scope nat_scope.

#[local] Set Warnings "-clear-no-such-hyp".

(** ** Python exceptions *)

Inductive error : Type :=
  | AssertionError
  | TypeError
  | KeyError.

Inductive result (A : Type) : Type :=
  | Ok (a : A)
  | Raise (e : error).
Arguments Ok {A} a.
Arguments Raise {A} e.

(** Sequencing stops at the first exception; [x ← m; k] is stdpp's
    notation for [mbind]. *)
Global Instance result_bind : MBind result := λ A B k m,
  match m with
  | Ok a => k a
  | Raise e => Raise e
  end.

Global Instance result_ret : MRet result := λ A a, Ok a.

(** Whether a run returned. *)
Definition returns {A : Type} (m : result A) : bool :=
  match m with
  | Ok _ => true
  | Raise _ => false
  end.

(** [assert cond] *)
Definition assert (cond : bool) : result unit :=
  if cond then Ok tt else Raise AssertionError.

(** [(a, b, ...) = c.fetchone()]: unpacking [None] is a [TypeError]. *)
Definition fetchone {A : Type} (cursor : list A) : result (A * list A) :=
  match cursor with
  | [] => Raise TypeError
  | r :: rest => Ok (r, rest)
  end.

(** [assert c.fetchone() is None] *)
Definition assert_exhausted {A : Type} (cursor : list A) : result unit :=
  assert (bool_decide (cursor = [])).

Fixpoint foldM {A S : Type} (f : S → A → result S) (s : S) (l : list A)
  : result S :=
  match l with
  | [] => Ok s
  | x :: l' => s' ← f s x; foldM f s' l'
  end.

(** ** Tables *)

Definition pkey : Type := nat.

(** [SELECT ... FROM t WHERE pkey = ?] *)
Definition row_at {A : Type} (t : list A) (k : pkey) : option A :=
  match k with
  | O => None
  | S i => t !! i
  end.

(** [SELECT pkey, * FROM t] *)
Definition rows {A : Type} (t : list A) : list (pkey * A) :=
  imap (λ i r, (S i, r)) t.

(** [UPDATE t SET ... WHERE ...] *)
Definition update_where {A : Type} (cond : pkey → A → bool)
    (set : pkey → A → A) (t : list A) : list A :=
  imap (λ i r, if cond (S i) r then set (S i) r else r) t.

(** A scalar subquery [(SELECT ...)]: the first row, [NULL] without one. *)
Definition scalar {A : Type} (l : list A) : option A := head l.

(** [FROM l1 INNER JOIN l2 WHERE on]: the nested loop, [l1] outermost. *)
Definition inner_join {A B : Type} (l1 : list A) (l2 : list B)
    (on : A → B → bool) : list (A * B) :=
  a ← l1; (λ b, (a, b)) <$> filter (λ b, on a b) l2.

(** [SELECT key, count(...) ... GROUP BY key] over the listed keys. *)
Definition group_count {K : Type} `{EqDecision K} (keys : list K)
  : list (K * Z) :=
  (λ k, (k, Z.of_nat (length (filter (k =.) keys)))) <$> remove_dups keys.

(** [SELECT max(...)]: [NULL] over no rows. *)
Definition sql_max (l : list Z) : option Z :=
  match l with
  | [] => None
  | x :: l' => Some (foldr Z.max x l')
  end.

(** [lib.connection_database.NodeClassification] *)
Inductive NodeClassification : Type :=
  | NULL
  | CHANNEL
  | EDGE_WITH_MUX
  | EDGES_TO_CHANNEL.

Global Instance NodeClassification_eq_dec : EqDecision NodeClassification.
Proof. solve_decision. Defined.

Record site_type_row : Type := {
  site_type_name : string;
}.

Record site_pin_row : Type := {
  site_pin_name : string;
  site_pin_site_type_pkey : pkey;
}.

Record wire_in_tile_row : Type := {
  wire_in_tile_name : string;
  wire_in_tile_tile_type_pkey : pkey;
  wire_in_tile_site_pkey : option pkey;
  wire_in_tile_site_pin_pkey : option pkey;
}.

Record pip_in_tile_row : Type := {
  pip_name : string;
  pip_tile_type_pkey : pkey;
  src_wire_in_tile_pkey : pkey;
  dest_wire_in_tile_pkey : pkey;
  can_invert : bool;
  is_directional : bool;
  is_pseudo : bool;
}.

Record phy_tile_row : Type := {
  phy_tile_name : string;
  phy_tile_tile_type_pkey : pkey;
  phy_tile_grid_x : Z;
  phy_tile_grid_y : Z;
}.

Record tile_row : Type := {
  tile_phy_tile_pkey : pkey;
  tile_grid_x : Z;
  tile_grid_y : Z;
}.

Record wire_row : Type := {
  wire_phy_tile_pkey : pkey;
  wire_wire_in_tile_pkey : pkey;
  wire_node_pkey : option pkey;
  wire_tile_pkey : option pkey;
}.

Record node_row : Type := {
  number_pips : option Z;
  track_pkey : option pkey;
  site_wire_pkey : option pkey;
  classification : option NodeClassification;
}.

Record edge_with_mux_row : Type := {
  src_wire_pkey : pkey;
  dest_wire_pkey : pkey;
  pip_in_tile_pkey : pkey;
}.

Global Instance edge_with_mux_row_eq_dec : EqDecision edge_with_mux_row.
Proof. solve_decision. Defined.

(** The connection database [conn]. *)
Record connection : Type := {
  site_type : list site_type_row;
  site_pin : list site_pin_row;
  wire_in_tile : list wire_in_tile_row;
  pip_in_tile : list pip_in_tile_row;
  phy_tile : list phy_tile_row;
  tile : list tile_row;
  wire : list wire_row;
  node : list node_row;
  edge_with_mux : list edge_with_mux_row;
}.

Definition with_wire (f : list wire_row → list wire_row) (conn : connection)
  : connection :=
  {| site_type := site_type conn; site_pin := site_pin conn;
     wire_in_tile := wire_in_tile conn; pip_in_tile := pip_in_tile conn;
     phy_tile := phy_tile conn; tile := tile conn;
     wire := f (wire conn); node := node conn;
     edge_with_mux := edge_with_mux conn |}.

Definition with_node (f : list node_row → list node_row) (conn : connection)
  : connection :=
  {| site_type := site_type conn; site_pin := site_pin conn;
     wire_in_tile := wire_in_tile conn; pip_in_tile := pip_in_tile conn;
     phy_tile := phy_tile conn; tile := tile conn;
     wire := wire conn; node := f (node conn);
     edge_with_mux := edge_with_mux conn |}.

Definition with_edge_with_mux
    (f : list edge_with_mux_row → list edge_with_mux_row) (conn : connection)
  : connection :=
  {| site_type := site_type conn; site_pin := site_pin conn;
     wire_in_tile := wire_in_tile conn; pip_in_tile := pip_in_tile conn;
     phy_tile := phy_tile conn; tile := tile conn;
     wire := wire conn; node := node conn;
     edge_with_mux := f (edge_with_mux conn) |}.

Definition set_number_pips (v : option Z) (n : node_row) : node_row :=
  {| number_pips := v; track_pkey := track_pkey n;
     site_wire_pkey := site_wire_pkey n; classification := classification n |}.

Definition set_track_pkey (v : option pkey) (n : node_row) : node_row :=
  {| number_pips := number_pips n; track_pkey := v;
     site_wire_pkey := site_wire_pkey n; classification := classification n |}.

Definition set_site_wire_pkey (v : option pkey) (n : node_row) : node_row :=
  {| number_pips := number_pips n; track_pkey := track_pkey n;
     site_wire_pkey := v; classification := classification n |}.

Definition set_classification (v : NodeClassification) (n : node_row)
  : node_row :=
  {| number_pips := number_pips n; track_pkey := track_pkey n;
     site_wire_pkey := site_wire_pkey n; classification := Some v |}.

Definition set_node_pkey (v : option pkey) (w : wire_row) : wire_row :=
  {| wire_phy_tile_pkey := wire_phy_tile_pkey w;
     wire_wire_in_tile_pkey := wire_wire_in_tile_pkey w;
     wire_node_pkey := v; wire_tile_pkey := wire_tile_pkey w |}.

(** ** The schema and the architecture database

    [lib.connection_database.create_tables] and the prjxray database are
    not part of the sources.  What the script relies on is kept abstract:
    the column defaults a fresh [wire] or [node] row starts from, and the
    track decomposition of [lib.rr_graph]. *)

(** A tile of [grid.tiles()] with the wires [get_wires()] of its type. *)
Record grid_tile : Type := {
  grid_tile_name : string;
  get_wires : list string;
}.

(** An endpoint of a connection of [db.connections()]: a tile and a wire. *)
Definition tile_wire : Type := string * string.

(** ** Stage 2: [import_nodes] *)

(** The Python objects of [import_nodes].  A node under construction is a
    mutable [set] shared by all the entries of [wires] that refer to it, so
    the sets live in a [heap] and [wires] holds their identities. *)
Record objects : Type := {
  heap : list (gset pkey);
  wires : gmap pkey (option nat);
  wires_keys : list pkey;
}.

(** [set((wire_pkey, ))]: a new object. *)
Definition new_set (wire_pkey : pkey) (o : objects) : nat * objects :=
  (length (heap o),
   {| heap := heap o ++ [{[wire_pkey]}]; wires := wires o;
      wires_keys := wires_keys o |}).

(** [wires[wire_pkey] = v]; a new key goes last in iteration order. *)
Definition wires_set (wire_pkey : pkey) (v : option nat) (o : objects)
  : objects :=
  {| heap := heap o; wires := <[wire_pkey := v]> (wires o);
     wires_keys := if decide (wire_pkey ∈ wires_keys o) then wires_keys o
                   else wires_keys o ++ [wire_pkey] |}.

(** [wires[wire_pkey]] *)
Definition wires_get (wire_pkey : pkey) (o : objects) : result (option nat) :=
  match wires o !! wire_pkey with
  | Some v => Ok v
  | None => Raise KeyError
  end.

(** The set object with identity [l]. *)
Definition deref (o : objects) (l : nat) : gset pkey :=
  default ∅ (heap o !! l).

(** [wires.items()] *)
Definition wires_items (o : objects) : list (pkey * option nat) :=
  omap (λ k, (λ v, (k, v)) <$> wires o !! k) (wires_keys o).

(** [a_node |= b_node; for wire in a_node: wires[wire] = a_node] *)
Definition merge (a_node b_node : nat) (o : objects) : objects :=
  let merged := deref o a_node ∪ deref o b_node in
  let o := {| heap := <[a_node := merged]> (heap o); wires := wires o;
              wires_keys := wires_keys o |} in
  foldr (λ wire o, wires_set wire (Some a_node) o) o (elements merged).

(** One turn of the loop over the connections (lines 264-282). *)
Definition connect (tile_wire_map : gmap tile_wire pkey) (o : objects)
    (connection : tile_wire * tile_wire) : result objects :=
  match tile_wire_map !! connection.1, tile_wire_map !! connection.2 with
  | Some a_pkey, Some b_pkey =>
      a_node ← wires_get a_pkey o;
      b_node ← wires_get b_pkey o;
      let '(a_node, o) :=
        match a_node with
        | Some l => (l, o)
        | None => new_set a_pkey o
        end in
      let '(b_node, o) :=
        match b_node with
        | Some l => (l, o)
        | None => new_set b_pkey o
        end in
      if decide (a_node ≠ b_node) then Ok (merge a_node b_node o) else Ok o
  | _, _ => Raise KeyError
  end.

(** One turn of the loop that collects the node sets (lines 285-291);
    [nodes] lists the keys [id(node)] of the dictionary in insertion order. *)
Definition collect (st : objects * list nat) (item : pkey * option nat)
  : result (objects * list nat) :=
  let '(o, nodes) := st in
  let '(wire_pkey, node) := item in
  let '(node, o) :=
    match node with
    | Some l => (l, o)
    | None => new_set wire_pkey o
    end in
  _ ← assert (bool_decide (wire_pkey ∈ deref o node));
  Ok (o, if decide (node ∈ nodes) then nodes else nodes ++ [node]).

Section schema.

Variable wire_default : wire_row.
Variable node_default : node_row.

(** [INSERT INTO wire(phy_tile_pkey, wire_in_tile_pkey) VALUES (?, ?)] *)
Definition new_wire (phy_tile_pkey wire_in_tile_pkey : pkey) : wire_row :=
  {| wire_phy_tile_pkey := phy_tile_pkey;
     wire_wire_in_tile_pkey := wire_in_tile_pkey;
     wire_node_pkey := wire_node_pkey wire_default;
     wire_tile_pkey := wire_tile_pkey wire_default |}.

(** The state of the first loop: the database, [tile_wire_map] and
    [wires]. *)
Definition catalog : Type := connection * gmap tile_wire pkey * objects.

(** Lines 238-257, for one wire of one tile. *)
Definition add_wire (tile : string) (phy_tile_pkey tile_type_pkey : pkey)
    (st : catalog) (wire_name : string) : result catalog :=
  let '(conn, tile_wire_map, o) := st in
  '(wire_in_tile_pkey, _) ← fetchone
    ((filter (λ r, wire_in_tile_name r.2 = wire_name
                   ∧ wire_in_tile_tile_type_pkey r.2 = tile_type_pkey)
             (rows (wire_in_tile conn))).*1);
  let conn :=
    with_wire (λ t, t ++ [new_wire phy_tile_pkey wire_in_tile_pkey]) conn in
  _ ← assert (bool_decide (tile_wire_map !! (tile, wire_name) = None));
  let wire_pkey := length (wire conn) in
  Ok (conn, <[(tile, wire_name) := wire_pkey]> tile_wire_map,
      wires_set wire_pkey None o).

(** Lines 228-257, for one tile. *)
Definition add_tile (st : catalog) (tile : grid_tile) : result catalog :=
  '(r, _) ← fetchone
    (filter (λ r, phy_tile_name r.2 = grid_tile_name tile)
            (rows (phy_tile st.1.1)));
  foldM (add_wire (grid_tile_name tile) r.1 (phy_tile_tile_type_pkey r.2))
        st (get_wires tile).

(** Lines 294-306, for one node set: a new [node] row, whose key every
    wire of the set receives. *)
Definition insert_node (st : connection * gset pkey)
    (node_wires : gset pkey) : connection * gset pkey :=
  let '(conn, wires_assigned) := st in
  let conn :=
    with_node (λ t, t ++ [set_number_pips (Some 0%Z) node_default]) conn in
  let node_pkey := length (node conn) in
  (with_wire (update_where (λ pkey _, bool_decide (pkey ∈ node_wires))
                           (λ _, set_node_pkey (Some node_pkey))) conn,
   wires_assigned ∪ node_wires).

(** The node sets [nodes.values()] formed from the wires of the catalog. *)
Definition form_nodes (tile_wire_map : gmap tile_wire pkey) (o : objects)
    (connections : list (tile_wire * tile_wire))
  : result (objects * list (gset pkey)) :=
  o ← foldM (connect tile_wire_map) o connections;
  '(o', nodes) ← foldM collect (o, []) (wires_items o);
  Ok (o, fmap (M := list) (deref o') nodes).

Definition import_nodes (tiles : list grid_tile)
    (connections : list (tile_wire * tile_wire)) (conn : connection)
  : result connection :=
  '(conn, tile_wire_map, o) ← foldM add_tile
    (conn, ∅, {| heap := []; wires := ∅; wires_keys := [] |}) tiles;
  '(o, nodes) ← form_nodes tile_wire_map o connections;
  let '(conn, wires_assigned) := foldl insert_node (conn, ∅) nodes in
  let keys : gset pkey := list_to_set (wires_keys o) in
  _ ← assert (bool_decide
        (size ((keys ∖ wires_assigned) ∪ (wires_assigned ∖ keys)) = 0));
  Ok conn.

End schema.

(** ** Stage 3: [count_sites_and_pips_on_nodes] *)

(** [wire_in_tile.site_pin_pkey IS NOT NULL] *)
Definition has_site_pin (wit : wire_in_tile_row) : bool :=
  bool_decide (is_Some (wire_in_tile_site_pin_pkey wit)).

(** [FROM wire_in_tile INNER JOIN wire
     ON wire.wire_in_tile_pkey = wire_in_tile.pkey
     WHERE wire_in_tile.site_pin_pkey IS NOT NULL] *)
Definition site_pin_wires (conn : connection)
  : list ((pkey * wire_in_tile_row) * (pkey * wire_row)) :=
  inner_join (rows (wire_in_tile conn)) (rows (wire conn))
    (λ wit w, bool_decide (wire_wire_in_tile_pkey w.2 = wit.1)
              && has_site_pin wit.2).

(** The common table [node_sites(node_pkey, number_site_pins)]. *)
Definition node_sites (conn : connection) : list (option pkey * Z) :=
  group_count ((λ r, wire_node_pkey r.2.2) <$> site_pin_wires conn).

(** The common table [site_wires(wire_pkey, node_pkey)]. *)
Definition site_wires (conn : connection) : list (pkey * option pkey) :=
  (λ r, (r.2.1, wire_node_pkey r.2.2)) <$> site_pin_wires conn.

(** [pip_in_tile.is_directional = 1 AND pip_in_tile.is_pseudo = 0 AND
     (pip_in_tile.src_wire_in_tile_pkey = w
      OR pip_in_tile.dest_wire_in_tile_pkey = w)] *)
Definition pip_touches (p : pip_in_tile_row) (w : pkey) : bool :=
  is_directional p && negb (is_pseudo p)
  && (bool_decide (src_wire_in_tile_pkey p = w)
      || bool_decide (dest_wire_in_tile_pkey p = w)).

(** The temporary table [node_pip_count(node_pkey, number_pips)]. *)
Definition node_pip_count (conn : connection) : list (option pkey * Z) :=
  group_count
    ((λ r, wire_node_pkey r.2.2) <$>
     inner_join (rows (pip_in_tile conn)) (rows (wire conn))
       (λ p w, pip_touches p.2 (wire_wire_in_tile_pkey w.2))).

(** Lines 351-376: [UPDATE node SET site_wire_pkey = (SELECT
    site_wires.wire_pkey FROM site_wires WHERE site_wires.node_pkey =
    node.pkey)]. *)
Definition assign_site_wires (conn : connection) : connection :=
  let site_wires := site_wires conn in
  with_node (update_where (λ _ _, true) (λ pkey n,
    set_site_wire_pkey
      (scalar ((filter (λ r, r.2 = Some pkey) site_wires).*1)) n)) conn.

(** Lines 378-428: the PIP counts go through the temporary table
    [node_pip_count] into the nodes that have a row there. *)
Definition insert_pip_counts (conn : connection) : connection :=
  let node_pip_count := node_pip_count conn in
  with_node (update_where
    (λ pkey _, bool_decide (Some pkey ∈ node_pip_count.*1))
    (λ pkey n,
      set_number_pips
        (scalar ((filter (λ r, r.1 = Some pkey) node_pip_count).*2)) n))
    conn.

Definition count_sites_and_pips_on_nodes (conn : connection)
  : result connection :=
  (* Nodes are only expected to have 1 site *)
  _ ← assert (bool_decide (sql_max ((node_sites conn).*2) = Some 1%Z));
  Ok (insert_pip_counts (assign_site_wires conn)).

(** ** Stage 4: [classify_nodes] *)

(** A comparison of a nullable column with a constant inside a [WHERE]
    clause (or of a fetched value with [==] in Python): a [NULL] never
    selects the row. *)
Definition cmp (op : Z → Z → bool) (x : option Z) (y : Z) : bool :=
  match x with
  | Some v => op v y
  | None => false
  end.

Definition is_null {A : Type} (x : option A) : bool :=
  match x with
  | Some _ => false
  | None => true
  end.

(** The rows of the traversal query of one node: the node's wires joined
    with the directional, non-pseudo PIPs that touch them. *)
Definition wire_in_node (conn : connection) (node_pkey : pkey)
  : list (pkey * wire_row) :=
  filter (λ w, wire_node_pkey w.2 = Some node_pkey) (rows (wire conn)).

Definition pips_of_node (conn : connection) (node_pkey : pkey)
  : list ((pkey * wire_row) * (pkey * pip_in_tile_row)) :=
  inner_join (wire_in_node conn node_pkey) (rows (pip_in_tile conn))
    (λ w p, pip_touches p.2 (wire_wire_in_tile_pkey w.2)).

(** [SELECT node_pkey FROM wire WHERE wire_in_tile_pkey = ? AND
     phy_tile_pkey = ?] *)
Definition wires_at (conn : connection) (wire_in_tile_pkey phy_tile_pkey : pkey)
  : list (option pkey) :=
  wire_node_pkey <$>
  filter (λ w, wire_wire_in_tile_pkey w = wire_in_tile_pkey
               ∧ wire_phy_tile_pkey w = phy_tile_pkey) (wire conn).

(** What one turn of the loop learns before it decides (lines 487-558). *)
Record traversal : Type := {
  pip_pkey : pkey;
  pip : pip_in_tile_row;
  wire_in_node_pkey : pkey;
  wire_in_tile_pkey : pkey;
  phy_tile_pkey : pkey;
  other_wire : pkey;
  other_node_pkey : pkey;
  other_site_wire_pkey : option pkey;
  other_number_pips : option Z;
}.

Definition traverse (conn : connection) (node_pkey : pkey) : result traversal :=
  '(row, c) ← fetchone (take 1 (pips_of_node conn node_pkey));
  let '((wire_in_node_pkey, w), (pip_pkey, pip)) := row in
  let wire_in_tile_pkey := wire_wire_in_tile_pkey w in
  let phy_tile_pkey := wire_phy_tile_pkey w in
  _ ← assert_exhausted c;
  _ ← assert (bool_decide (wire_in_tile_pkey = src_wire_in_tile_pkey pip)
              || bool_decide (wire_in_tile_pkey = dest_wire_in_tile_pkey pip));
  let other_wire :=
    if decide (src_wire_in_tile_pkey pip = wire_in_tile_pkey)
    then dest_wire_in_tile_pkey pip
    else src_wire_in_tile_pkey pip in
  '(other_node_pkey, c) ← fetchone (wires_at conn other_wire phy_tile_pkey);
  _ ← assert_exhausted c;
  match other_node_pkey with
  | None => Raise AssertionError
  | Some other_node_pkey =>
      match row_at (node conn) other_node_pkey with
      | None => Raise AssertionError
      | Some other =>
          Ok {| pip_pkey := pip_pkey; pip := pip;
                wire_in_node_pkey := wire_in_node_pkey;
                wire_in_tile_pkey := wire_in_tile_pkey;
                phy_tile_pkey := phy_tile_pkey;
                other_wire := other_wire;
                other_node_pkey := other_node_pkey;
                other_site_wire_pkey := site_wire_pkey other;
                other_number_pips := number_pips other |}
      end
  end.

(** The three work lists filled by the loop. *)
Record worklists : Type := {
  null_nodes : list pkey;
  edges_to_channel : list pkey;
  edge_with_mux_list : list ((pkey * pkey) * edge_with_mux_row);
}.

(** Lines 560-579, for the node [node] with site wire [site_wire]. *)
Definition decide_node (node site_wire : pkey) (t : traversal)
    (l : worklists) : worklists :=
  match other_site_wire_pkey t with
  | Some other_site_wire =>
      if cmp Z.eqb (other_number_pips t) 1 then
        let '(src_wire, dest_wire) :=
          if decide (src_wire_in_tile_pkey (pip t) = wire_in_tile_pkey t)
          then (site_wire, other_site_wire)
          else (other_site_wire, site_wire) in
        {| null_nodes := null_nodes l;
           edges_to_channel := edges_to_channel l;
           edge_with_mux_list := edge_with_mux_list l ++
             [((node, other_node_pkey t),
               {| src_wire_pkey := src_wire; dest_wire_pkey := dest_wire;
                  pip_in_tile_pkey := pip_pkey t |})] |}
      else
        {| null_nodes := null_nodes l;
           edges_to_channel := edges_to_channel l ++ [node];
           edge_with_mux_list := edge_with_mux_list l |}
  | None =>
      if cmp Z.eqb (other_number_pips t) 1 then
        {| null_nodes := null_nodes l ++ [node; other_node_pkey t];
           edges_to_channel := edges_to_channel l;
           edge_with_mux_list := edge_with_mux_list l |}
      else
        {| null_nodes := null_nodes l;
           edges_to_channel := edges_to_channel l ++ [node];
           edge_with_mux_list := edge_with_mux_list l |}
  end.

(** [SELECT pkey, site_wire_pkey FROM node
     WHERE number_pips == 1 AND site_wire_pkey IS NOT NULL] *)
Definition ambiguous_nodes (conn : connection) : list (pkey * pkey) :=
  omap (λ r, if cmp Z.eqb (number_pips r.2) 1
             then (λ s, (r.1, s)) <$> site_wire_pkey r.2 else None)
       (rows (node conn)).

Definition classify_loop (conn : connection) (l : worklists)
    (r : pkey * pkey) : result worklists :=
  t ← traverse conn r.1; Ok (decide_node r.1 r.2 t l).

Definition set_class_at (c : NodeClassification) (ks : list pkey)
    (conn : connection) : connection :=
  with_node (update_where (λ pkey _, bool_decide (pkey ∈ ks))
                          (λ _, set_classification c)) conn.

(** Lines 438-456: the three [UPDATE]s of the unambiguous nodes. *)
Definition classify_unambiguous (conn : connection) : connection :=
  (* Nodes are NULL if they they only have either a site pin or 1 pip, but
     nothing else. *)
  let conn := with_node (update_where
    (λ _ n, is_null (site_wire_pkey n) && cmp Z.leb (number_pips n) 1
            || negb (is_null (site_wire_pkey n))
               && cmp Z.eqb (number_pips n) 0)
    (λ _, set_classification NULL)) conn in
  let conn := with_node (update_where
    (λ _ n, cmp Z.gtb (number_pips n) 1 && is_null (site_wire_pkey n))
    (λ _, set_classification CHANNEL)) conn in
  with_node (update_where
    (λ _ n, cmp Z.gtb (number_pips n) 1 && negb (is_null (site_wire_pkey n)))
    (λ _, set_classification EDGES_TO_CHANNEL)) conn.

(** Lines 581-616: the work lists are written back, in this order. *)
Definition apply_worklists (l : worklists) (conn : connection) : connection :=
  let conn := foldl (λ conn e,
    with_edge_with_mux (λ t, t ++ [e.2])
      (set_class_at EDGE_WITH_MUX [e.1.1; e.1.2] conn))
    conn (edge_with_mux_list l) in
  let conn := foldl (λ conn node, set_class_at EDGES_TO_CHANNEL [node] conn)
    conn (edges_to_channel l) in
  foldl (λ conn null_node, set_class_at NULL [null_node] conn)
    conn (null_nodes l).

Definition classify_nodes (conn : connection) : result connection :=
  let conn := classify_unambiguous conn in
  l ← foldM (classify_loop conn)
        {| null_nodes := []; edges_to_channel := [];
           edge_with_mux_list := [] |}
        (ambiguous_nodes conn);
  Ok (apply_worklists l conn).

(** ** Stages 5 and 6: the constant network *)

(** [SELECT grid_x, grid_y FROM tile], less the positions the loop of
    [create_constant_tracks] skips (lines 1231-1236). *)
Definition constant_positions (conn : connection) : gset (Z * Z) :=
  foldl (λ unique_pos r,
           if bool_decide (tile_grid_x r = 0%Z) || bool_decide (tile_grid_y r = 0%Z)
           then unique_pos
           else unique_pos ∪ {[ (tile_grid_x r, tile_grid_y r) ]})
        ∅ (tile conn).

Section tracks.

Variable node_default : node_row.

(** What [lib.rr_graph] makes of a set of positions: the track list, the
    track connections and the track model of [create_track]. *)
Variable tracks : Type.
Variable make_tracks : gset (Z * Z) → tracks.

(** [create_track(node, unique_pos)] *)
Definition create_track (node_pkey : pkey) (unique_pos : gset (Z * Z))
  : pkey * tracks :=
  (node_pkey, make_tracks unique_pos).

(** [INSERT INTO node(classification) VALUES (?)] *)
Definition insert_classified (c : NodeClassification) (conn : connection)
  : pkey * connection :=
  let conn := with_node (λ t, t ++ [set_classification c node_default]) conn in
  (length (node conn), conn).

Definition create_constant_tracks (conn : connection)
  : connection * ((pkey * tracks) * (pkey * tracks)) :=
  let unique_pos := constant_positions conn in
  let '(vcc_node, conn) := insert_classified CHANNEL conn in
  let '(gnd_node, conn) := insert_classified CHANNEL conn in
  (conn, (create_track vcc_node unique_pos, create_track gnd_node unique_pos)).

End tracks.

(** [SELECT pkey FROM site_pin WHERE site_type_pkey = ? and name = ?] *)
Definition site_pins_named (conn : connection) (site_type_pkey : pkey)
    (name : string) : list pkey :=
  (filter (λ r, site_pin_site_type_pkey r.2 = site_type_pkey
                ∧ site_pin_name r.2 = name) (rows (site_pin conn))).*1.

(** [SELECT pkey FROM wire_in_tile WHERE site_pin_pkey = ?] *)
Definition wires_of_site_pin (conn : connection) (site_pin_pkey : pkey)
  : list pkey :=
  (filter (λ r, wire_in_tile_site_pin_pkey r.2 = Some site_pin_pkey)
          (rows (wire_in_tile conn))).*1.

(** [UPDATE node SET track_pkey = ? WHERE pkey IN
     (SELECT node_pkey FROM wire WHERE wire_in_tile_pkey = ?)] *)
Definition retarget (track : pkey) (conn : connection)
    (wire_in_tile_pkey : pkey) : connection :=
  let owners :=
    wire_node_pkey <$>
    filter (λ w, wire_wire_in_tile_pkey w = wire_in_tile_pkey) (wire conn) in
  with_node (update_where (λ pkey _, bool_decide (Some pkey ∈ owners))
                          (λ _, set_track_pkey (Some track))) conn.

Definition connect_hardpins_to_constant_network (conn : connection)
    (vcc_track_pkey gnd_track_pkey : pkey) : result connection :=
  let results :=
    (filter (λ r, site_type_name r.2 = "TIEOFF") (rows (site_type conn))).*1 in
  _ ← assert (bool_decide (length results = 1));
  '(tieoff_site_type_pkey, _) ← fetchone results;
  '(vcc_site_pin_pkey, _) ←
    fetchone (site_pins_named conn tieoff_site_type_pkey "HARD1");
  let conn := foldl (retarget vcc_track_pkey) conn
                    (wires_of_site_pin conn vcc_site_pin_pkey) in
  '(gnd_site_pin_pkey, _) ←
    fetchone (site_pins_named conn tieoff_site_type_pkey "HARD0");
  let conn := foldl (retarget gnd_track_pkey) conn
                    (wires_of_site_pin conn gnd_site_pin_pkey) in
  Ok conn.

(** ** Stage 5: [form_tracks] and [insert_tracks]

    The tables the track former writes besides those of [connection],
    and the one exception it can raise that the earlier stages cannot. *)

Inductive exception : Type :=
  | Error (e : error)
  | IndexError.

Inductive outcome (A : Type) : Type :=
  | Return (a : A)
  | Except (e : exception).
Arguments Return {A} a.
Arguments Except {A} e.

Global Instance outcome_bind : MBind outcome := λ A B k m,
  match m with
  | Return a => k a
  | Except e => Except e
  end.

Global Instance outcome_ret : MRet outcome := λ A a, Return a.

(** A call of a function of the earlier stages. *)
Definition lift {A : Type} (m : result A) : outcome A :=
  match m with
  | Ok a => Return a
  | Raise e => Except (Error e)
  end.

Fixpoint foldO {A S : Type} (f : S → A → outcome S) (s : S) (l : list A)
  : outcome S :=
  match l with
  | [] => Return s
  | x :: l' => s' ← f s x; foldO f s' l'
  end.

(** [l[i]] *)
Definition index {A : Type} (l : list A) (i : nat) : outcome A :=
  match l !! i with
  | Some a => Return a
  | None => Except IndexError
  end.

(** [d[k] = v] on a dictionary kept in insertion order. *)
Definition dict_set {V : Type} (k : pkey) (v : V) (d : list (pkey * V))
  : list (pkey * V) :=
  if decide (k ∈ d.*1)
  then (λ kv, if decide (kv.1 = k) then (k, v) else kv) <$> d
  else d ++ [(k, v)].

(** The members of [graph2.NodeType] the track former uses. *)
Inductive NodeType : Type :=
  | CHANX
  | CHANY.

(** [lib.rr_graph.tracks.Track] *)
Record Track : Type := {
  direction : string;
  x_low : Z;
  x_high : Z;
  y_low : Z;
  y_high : Z;
}.

Record graph_node_row : Type := {
  graph_node_type : NodeType;
  graph_node_track_pkey : pkey;
  graph_node_node_pkey : pkey;
  graph_node_x_low : Z;
  graph_node_x_high : Z;
  graph_node_y_low : Z;
  graph_node_y_high : Z;
  capacity : Z;
}.

Record graph_edge_row : Type := {
  src_graph_node_pkey : pkey;
  dest_graph_node_pkey : pkey;
  switch_pkey : pkey;
  graph_edge_track_pkey : pkey;
}.

(** The connection database with the tables of the track former: the
    names of [switch], the number of rows of [track] (whose columns all
    hold defaults), [graph_node], [graph_edge], [constant_sources], and
    the column [graph_node_pkey] of [wire], [NULL] where the map has no
    entry. *)
Record database : Type := {
  tables : connection;
  switch : list string;
  track : nat;
  graph_node : list graph_node_row;
  graph_edge : list graph_edge_row;
  constant_sources : list (pkey * pkey);
  wire_graph_node_pkey : gmap pkey pkey;
}.

Definition with_tables (f : connection → connection) (db : database)
  : database :=
  {| tables := f (tables db); switch := switch db; track := track db;
     graph_node := graph_node db; graph_edge := graph_edge db;
     constant_sources := constant_sources db;
     wire_graph_node_pkey := wire_graph_node_pkey db |}.

Definition with_track (f : nat → nat) (db : database) : database :=
  {| tables := tables db; switch := switch db; track := f (track db);
     graph_node := graph_node db; graph_edge := graph_edge db;
     constant_sources := constant_sources db;
     wire_graph_node_pkey := wire_graph_node_pkey db |}.

Definition with_graph_node
    (f : list graph_node_row → list graph_node_row) (db : database)
  : database :=
  {| tables := tables db; switch := switch db; track := track db;
     graph_node := f (graph_node db); graph_edge := graph_edge db;
     constant_sources := constant_sources db;
     wire_graph_node_pkey := wire_graph_node_pkey db |}.

Definition with_graph_edge
    (f : list graph_edge_row → list graph_edge_row) (db : database)
  : database :=
  {| tables := tables db; switch := switch db; track := track db;
     graph_node := graph_node db; graph_edge := f (graph_edge db);
     constant_sources := constant_sources db;
     wire_graph_node_pkey := wire_graph_node_pkey db |}.

Definition with_constant_sources
    (f : list (pkey * pkey) → list (pkey * pkey)) (db : database)
  : database :=
  {| tables := tables db; switch := switch db; track := track db;
     graph_node := graph_node db; graph_edge := graph_edge db;
     constant_sources := f (constant_sources db);
     wire_graph_node_pkey := wire_graph_node_pkey db |}.

Definition with_wire_graph_node_pkey
    (f : gmap pkey pkey → gmap pkey pkey) (db : database) : database :=
  {| tables := tables db; switch := switch db; track := track db;
     graph_node := graph_node db; graph_edge := graph_edge db;
     constant_sources := constant_sources db;
     wire_graph_node_pkey := f (wire_graph_node_pkey db) |}.

(** The query of [insert_tracks] for the wires of a node and the grid
    positions of their tiles:
    [FROM tile INNER JOIN wires_from_node
     ON tile.pkey = wires_from_node.tile_pkey]. *)
Definition wires_from_node (conn : connection) (node_pkey : pkey)
  : list (pkey * (Z * Z)) :=
  (λ r, (r.2.1, (tile_grid_x r.1.2, tile_grid_y r.1.2))) <$>
  inner_join (rows (tile conn))
    (filter (λ w, wire_node_pkey w.2 = Some node_pkey) (rows (wire conn)))
    (λ t w, bool_decide (wire_tile_pkey w.2 = Some t.1)).

(** The same query in [form_tracks], with
    [WHERE node_pkey = ? AND tile_pkey IS NOT NULL]. *)
Definition placed_wires_from_node (conn : connection) (node_pkey : pkey)
  : list (pkey * (Z * Z)) :=
  (λ r, (r.2.1, (tile_grid_x r.1.2, tile_grid_y r.1.2))) <$>
  inner_join (rows (tile conn))
    (filter (λ w, wire_node_pkey w.2 = Some node_pkey
                  ∧ is_Some (wire_tile_pkey w.2)) (rows (wire conn)))
    (λ t w, bool_decide (wire_tile_pkey w.2 = Some t.1)).

(** [SELECT pkey FROM node WHERE classification == CHANNEL] *)
Definition channel_nodes (conn : connection) : list pkey :=
  (filter (λ r, classification r.2 = Some CHANNEL) (rows (node conn))).*1.

Section track_graph.

Variable node_default : node_row.

(** What [lib.rr_graph] makes of a set of positions, as in the section
    [tracks] above, and how [insert_tracks] reads it: the list of tracks,
    the pairs of indices of connected tracks, and the method
    [get_tracks_for_wire_at_coord] of the track model. *)
Variable tracks : Type.
Variable pin_dir : Type.
Variable make_tracks : gset (Z * Z) → tracks.
Variable tracks_list : tracks → list Track.
Variable track_connections : tracks → list (nat * nat).
Variable get_tracks_for_wire_at_coord : tracks → Z * Z → list (nat * pin_dir).

(** Lines 640-661: one track of the list becomes a [graph_node] row. *)
Definition insert_graph_node (track_pkey node_pkey : pkey)
    (st : database * list pkey) (t : Track)
  : outcome (database * list pkey) :=
  let '(db, track_graph_node_pkey) := st in
  node_type ←
    (if decide (direction t = "X") then Return CHANX
     else if decide (direction t = "Y") then Return CHANY
     else Except (Error AssertionError));
  let db :=
    with_graph_node (λ rows, rows ++
      [ {| graph_node_type := node_type;
           graph_node_track_pkey := track_pkey;
           graph_node_node_pkey := node_pkey;
           graph_node_x_low := x_low t; graph_node_x_high := x_high t;
           graph_node_y_low := y_low t; graph_node_y_high := y_high t;
           capacity := 1 |} ]) db in
  Return (db, track_graph_node_pkey ++ [length (graph_node db)]).

(** Lines 665-683: one track connection becomes two [graph_edge] rows. *)
Definition insert_graph_edge (short_pkey track_pkey : pkey)
    (track_graph_node_pkey : list pkey) (db : database)
    (connection : nat * nat) : outcome database :=
  a ← index track_graph_node_pkey connection.1;
  b ← index track_graph_node_pkey connection.2;
  Return (with_graph_edge (λ rows, rows ++
    [ {| src_graph_node_pkey := a; dest_graph_node_pkey := b;
         switch_pkey := short_pkey; graph_edge_track_pkey := track_pkey |};
      {| src_graph_node_pkey := b; dest_graph_node_pkey := a;
         switch_pkey := short_pkey; graph_edge_track_pkey := track_pkey |} ])
    db).

(** Lines 629-683: one turn of the first loop of [insert_tracks]. *)
Definition insert_track (short_pkey : pkey)
    (st : database * gmap pkey (list pkey) * list pkey)
    (entry : pkey * tracks)
  : outcome (database * gmap pkey (list pkey) * list pkey) :=
  let '(db, track_graph_nodes, track_pkeys) := st in
  let '(node_pkey, tr) := entry in
  let db := with_track S db in
  let track_pkey := track db in
  let track_pkeys := track_pkeys ++ [track_pkey] in
  let db :=
    with_tables (with_node (update_where
      (λ pkey _, bool_decide (pkey = node_pkey))
      (λ _, set_track_pkey (Some track_pkey)))) db in
  '(db, track_graph_node_pkey) ←
    foldO (insert_graph_node track_pkey node_pkey) (db, []) (tracks_list tr);
  let track_graph_nodes :=
    <[node_pkey := track_graph_node_pkey]> track_graph_nodes in
  db ← foldO (insert_graph_edge short_pkey track_pkey track_graph_node_pkey)
             db (track_connections tr);
  Return (db, track_graph_nodes, track_pkeys).

(** Lines 714-722, for one wire of the node. *)
Definition wire_to_graph_node (tr : tracks)
    (track_graph_node_pkey : list pkey) (wire_to_graph : list (pkey * pkey))
    (w : pkey * (Z * Z)) : outcome (list (pkey * pkey)) :=
  let '(wire_pkey, coord) := w in
  let connections := get_tracks_for_wire_at_coord tr coord in
  _ ← lift (assert (bool_decide (0 < length connections)));
  connection ← index connections 0;
  graph_node_pkey ← index track_graph_node_pkey connection.1;
  Return (dict_set wire_pkey graph_node_pkey wire_to_graph).

(** Lines 688-722: one turn of the second loop of [insert_tracks]. *)
Definition wires_to_graph_nodes (db : database)
    (track_graph_nodes : gmap pkey (list pkey))
    (wire_to_graph : list (pkey * pkey)) (entry : pkey * tracks)
  : outcome (list (pkey * pkey)) :=
  let '(node_pkey, tr) := entry in
  track_graph_node_pkey ←
    match track_graph_nodes !! node_pkey with
    | Some l => Return l
    | None => Except (Error KeyError)
    end;
  foldO (wire_to_graph_node tr track_graph_node_pkey) wire_to_graph
        (wires_from_node (tables db) node_pkey).

(** [UPDATE wire SET graph_node_pkey = ? WHERE pkey = ?] *)
Definition set_graph_node_pkey (db : database) (item : pkey * pkey)
  : database :=
  if decide (is_Some (row_at (wire (tables db)) item.1))
  then with_wire_graph_node_pkey (λ m, <[item.1 := item.2]> m) db
  else db.

Definition insert_tracks (db : database)
    (tracks_to_insert : list (pkey * tracks))
  : outcome (database * list pkey) :=
  '(short_pkey, _) ← lift (fetchone
    ((filter (λ r, r.2 = "short") (rows (switch db))).*1));
  '(db, track_graph_nodes, track_pkeys) ←
    foldO (insert_track short_pkey) (db, ∅, []) tracks_to_insert;
  wire_to_graph ←
    foldO (wires_to_graph_nodes db track_graph_nodes) [] tracks_to_insert;
  let db := foldl set_graph_node_pkey db wire_to_graph in
  Return (db, track_pkeys).

(** Lines 768-788: the grid positions of the tiles of the wires of a
    node. *)
Definition node_positions (conn : connection) (node_pkey : pkey)
  : gset (Z * Z) :=
  foldl (λ unique_pos w, unique_pos ∪ {[ w.2 ]}) ∅
        (placed_wires_from_node conn node_pkey).

Definition form_tracks (db : database) : outcome database :=
  let tracks_to_insert :=
    (λ node_pkey,
       create_track tracks make_tracks node_pkey
         (node_positions (tables db) node_pkey))
    <$> channel_nodes (tables db) in
  (* Create constant tracks *)
  let '(conn, (vcc_track_to_insert, gnd_track_to_insert)) :=
    create_constant_tracks node_default tracks make_tracks (tables db) in
  let db := with_tables (λ _, conn) db in
  let vcc_idx := length tracks_to_insert in
  let tracks_to_insert := tracks_to_insert ++ [vcc_track_to_insert] in
  let gnd_idx := length tracks_to_insert in
  let tracks_to_insert := tracks_to_insert ++ [gnd_track_to_insert] in
  '(db, track_pkeys) ← insert_tracks db tracks_to_insert;
  vcc_track_pkey ← index track_pkeys vcc_idx;
  gnd_track_pkey ← index track_pkeys gnd_idx;
  let db :=
    with_constant_sources (λ rows, rows ++ [(vcc_track_pkey, gnd_track_pkey)])
                          db in
  conn ← lift (connect_hardpins_to_constant_network (tables db)
                 vcc_track_pkey gnd_track_pkey);
  Return (with_tables (λ _, conn) db).

End track_graph.

(** ** [traverse_pip]

    The helper of [create_vpr_grid]: the wire type on the other side of a
    PIP of the wire type [wire_in_tile_pkey], [None] without one.  The
    PIPs that drive the wire are asked for first. *)
Definition traverse_pip (conn : connection) (wire_in_tile_pkey : pkey)
  : option pkey :=
  match
    filter (λ p, is_directional p && negb (is_pseudo p)
                 && bool_decide (dest_wire_in_tile_pkey p = wire_in_tile_pkey))
           (pip_in_tile conn)
  with
  | result :: _ => Some (src_wire_in_tile_pkey result)
  | [] =>
      match
        filter (λ p, is_directional p && negb (is_pseudo p)
                     && bool_decide (src_wire_in_tile_pkey p = wire_in_tile_pkey))
               (pip_in_tile conn)
      with
      | result :: _ => Some (dest_wire_in_tile_pkey result)
      | [] => None
      end
  end.

(** ** Stage 1: [import_phy_grid]

    The stage reads the prjxray database, which is not part of the
    sources; the objects it reads are records of what the script asks them
    for. *)
Module prjxray.

(** [site_type.get_site_pin(site_pin)] *)
Record SiteTypePin : Type := {
  pin_name : string;
  direction : string;
}.

Record Pip : Type := {
  name : string;
  net_from : string;
  net_to : string;
  can_invert : bool;
  is_directional : bool;
  is_pseudo : bool;
}.

(** A pin of a site of a tile type, [wire] being [None] for a pin that no
    wire of the tile reaches. *)
Record SitePin : Type := {
  site_pin_name : string;
  wire : option string;
}.

Record Site : Type := {
  site_name : string;
  type : string;
  x : Z;
  y : Z;
  site_pins : list SitePin;
}.

Record TileType : Type := {
  get_wires : list string;
  get_pips : list Pip;
  get_sites : list Site;
}.

(** A tile of [grid.tiles()] with what [gridinfo_at_tilename] and
    [loc_of_tilename] tell of it. *)
Record Tile : Type := {
  tile : string;
  tile_type : string;
  grid_x : Z;
  grid_y : Z;
}.

End prjxray.

Record site_row : Type := {
  site_row_name : string;
  x_coord : Z;
  y_coord : Z;
  site_row_site_type_pkey : pkey;
}.

(** The connection database with what only this stage writes: the tables
    [tile_type] and [site] and the column [direction] of [site_pin]. *)
Record phy_database : Type := {
  phy_tables : connection;
  tile_type : list string;
  site : list site_row;
  site_pin_direction : list string;
}.

Definition with_phy_tables (f : connection → connection) (c : phy_database)
  : phy_database :=
  {| phy_tables := f (phy_tables c); tile_type := tile_type c;
     site := site c; site_pin_direction := site_pin_direction c |}.

Definition with_tile_type (f : list string → list string) (c : phy_database)
  : phy_database :=
  {| phy_tables := phy_tables c; tile_type := f (tile_type c);
     site := site c; site_pin_direction := site_pin_direction c |}.

Definition with_site (f : list site_row → list site_row) (c : phy_database)
  : phy_database :=
  {| phy_tables := phy_tables c; tile_type := tile_type c;
     site := f (site c); site_pin_direction := site_pin_direction c |}.

Definition with_site_pin_direction (f : list string → list string)
    (c : phy_database) : phy_database :=
  {| phy_tables := phy_tables c; tile_type := tile_type c;
     site := site c; site_pin_direction := f (site_pin_direction c) |}.

Definition with_site_type (f : list site_type_row → list site_type_row)
    (conn : connection) : connection :=
  {| site_type := f (site_type conn); site_pin := site_pin conn;
     wire_in_tile := wire_in_tile conn; pip_in_tile := pip_in_tile conn;
     phy_tile := phy_tile conn; tile := tile conn;
     wire := wire conn; node := node conn;
     edge_with_mux := edge_with_mux conn |}.

Definition with_site_pin (f : list site_pin_row → list site_pin_row)
    (conn : connection) : connection :=
  {| site_type := site_type conn; site_pin := f (site_pin conn);
     wire_in_tile := wire_in_tile conn; pip_in_tile := pip_in_tile conn;
     phy_tile := phy_tile conn; tile := tile conn;
     wire := wire conn; node := node conn;
     edge_with_mux := edge_with_mux conn |}.

Definition with_wire_in_tile
    (f : list wire_in_tile_row → list wire_in_tile_row) (conn : connection)
  : connection :=
  {| site_type := site_type conn; site_pin := site_pin conn;
     wire_in_tile := f (wire_in_tile conn); pip_in_tile := pip_in_tile conn;
     phy_tile := phy_tile conn; tile := tile conn;
     wire := wire conn; node := node conn;
     edge_with_mux := edge_with_mux conn |}.

Definition with_pip_in_tile
    (f : list pip_in_tile_row → list pip_in_tile_row) (conn : connection)
  : connection :=
  {| site_type := site_type conn; site_pin := site_pin conn;
     wire_in_tile := wire_in_tile conn; pip_in_tile := f (pip_in_tile conn);
     phy_tile := phy_tile conn; tile := tile conn;
     wire := wire conn; node := node conn;
     edge_with_mux := edge_with_mux conn |}.

Definition with_phy_tile (f : list phy_tile_row → list phy_tile_row)
    (conn : connection) : connection :=
  {| site_type := site_type conn; site_pin := site_pin conn;
     wire_in_tile := wire_in_tile conn; pip_in_tile := pip_in_tile conn;
     phy_tile := f (phy_tile conn); tile := tile conn;
     wire := wire conn; node := node conn;
     edge_with_mux := edge_with_mux conn |}.

(** The dictionaries [tile_types] and [site_types], as the lists of their
    items in insertion order: [d[k]] and [d[k] = v]. *)
Definition dict_get {V : Type} (d : list (string * V)) (k : string)
  : result V :=
  match filter (λ item, item.1 = k) d with
  | item :: _ => Ok item.2
  | [] => Raise KeyError
  end.

Definition dict_put {V : Type} (k : string) (v : V) (d : list (string * V))
  : list (string * V) :=
  if decide (k ∈ d.*1)
  then (λ item, if decide (item.1 = k) then (k, v) else item) <$> d
  else d ++ [(k, v)].

(** [wires[k]] of the dictionary [wires] of [import_tile_type]. *)
Definition wires_lookup (wires : gmap string pkey) (k : string)
  : result pkey :=
  match wires !! k with
  | Some v => Ok v
  | None => Raise KeyError
  end.

Definition set_wire_in_tile_site (site_pkey site_pin_pkey : option pkey)
    (w : wire_in_tile_row) : wire_in_tile_row :=
  {| wire_in_tile_name := wire_in_tile_name w;
     wire_in_tile_tile_type_pkey := wire_in_tile_tile_type_pkey w;
     wire_in_tile_site_pkey := site_pkey;
     wire_in_tile_site_pin_pkey := site_pin_pkey |}.

Section import_phy_grid.

(** [db.get_site_type(name)], as the pins
    [get_site_pin(p) for p in get_site_pins()], and
    [db.get_tile_type(name)]. *)
Variable get_site_type : string → list prjxray.SiteTypePin.
Variable get_tile_type : string → prjxray.TileType.

(** The columns of a [wire_in_tile] row that an [INSERT] does not name
    start from the defaults of the schema. *)
Variable wire_in_tile_default : wire_in_tile_row.

Definition new_wire_in_tile (name : string) (tile_type_pkey : pkey)
  : wire_in_tile_row :=
  {| wire_in_tile_name := name;
     wire_in_tile_tile_type_pkey := tile_type_pkey;
     wire_in_tile_site_pkey := wire_in_tile_site_pkey wire_in_tile_default;
     wire_in_tile_site_pin_pkey :=
       wire_in_tile_site_pin_pkey wire_in_tile_default |}.

(** Lines 60-71: one pin of the site type becomes a [site_pin] row. *)
Definition insert_site_pin (site_types : list (string * pkey))
    (site_type_name : string) (c : phy_database)
    (pin_info : prjxray.SiteTypePin) : result phy_database :=
  site_type_pkey ← dict_get site_types site_type_name;
  Ok (with_site_pin_direction (λ t, t ++ [prjxray.direction pin_info])
        (with_phy_tables (with_site_pin (λ t, t ++
           [ {| site_pin_name := prjxray.pin_name pin_info;
                site_pin_site_type_pkey := site_type_pkey |} ])) c)).

Definition import_site_type (st : phy_database * list (string * pkey))
    (site_type_name : string)
  : result (phy_database * list (string * pkey)) :=
  let '(c, site_types) := st in
  _ ← assert (bool_decide (site_type_name ∉ site_types.*1));
  let site_type_obj := get_site_type site_type_name in
  if decide (site_type_name ∈ site_types.*1) then Ok (c, site_types)
  else
    let c :=
      with_phy_tables (with_site_type (λ t, t ++
        [ {| site_type_name := site_type_name |} ])) c in
    let site_types :=
      dict_put site_type_name (length (site_type (phy_tables c)))
               site_types in
    c ← foldM (insert_site_pin site_types site_type_name) c site_type_obj;
    Ok (c, site_types).

(** Lines 82-89: one wire of the tile type becomes a [wire_in_tile] row. *)
Definition insert_wire_in_tile (tile_types : list (string * pkey))
    (tile_type_name : string) (st : phy_database * gmap string pkey)
    (wire : string) : result (phy_database * gmap string pkey) :=
  let '(c, wires) := st in
  tile_type_pkey ← dict_get tile_types tile_type_name;
  let c :=
    with_phy_tables (with_wire_in_tile (λ t, t ++
      [ new_wire_in_tile wire tile_type_pkey ])) c in
  Ok (c, <[wire := length (wire_in_tile (phy_tables c))]> wires).

(** Lines 91-106: one PIP of the tile type becomes a [pip_in_tile] row. *)
Definition insert_pip_in_tile (tile_types : list (string * pkey))
    (tile_type_name : string) (wires : gmap string pkey) (c : phy_database)
    (pip : prjxray.Pip) : result phy_database :=
  tile_type_pkey ← dict_get tile_types tile_type_name;
  src ← wires_lookup wires (prjxray.net_from pip);
  dest ← wires_lookup wires (prjxray.net_to pip);
  Ok (with_phy_tables (with_pip_in_tile (λ t, t ++
        [ {| pip_name := prjxray.name pip;
             pip_tile_type_pkey := tile_type_pkey;
             src_wire_in_tile_pkey := src;
             dest_wire_in_tile_pkey := dest;
             can_invert := prjxray.can_invert pip;
             is_directional := prjxray.is_directional pip;
             is_pseudo := prjxray.is_pseudo pip |} ])) c).

(** Lines 108-110 *)
Definition import_site_type_of (st : phy_database * list (string * pkey))
    (site : prjxray.Site) : result (phy_database * list (string * pkey)) :=
  if decide (prjxray.type site ∉ st.2.*1)
  then import_site_type st (prjxray.type site)
  else Ok st.

Definition import_tile_type
    (st : phy_database * list (string * pkey) * list (string * pkey))
    (tile_type_name : string)
  : result (phy_database * list (string * pkey) * list (string * pkey)) :=
  let '(c, tile_types, site_types) := st in
  _ ← assert (bool_decide (tile_type_name ∉ tile_types.*1));
  let tile_type_obj := get_tile_type tile_type_name in
  let c := with_tile_type (λ t, t ++ [tile_type_name]) c in
  let tile_types :=
    dict_put tile_type_name (length (tile_type c)) tile_types in
  '(c, wires) ←
    foldM (insert_wire_in_tile tile_types tile_type_name) (c, ∅)
          (prjxray.get_wires tile_type_obj);
  c ← foldM (insert_pip_in_tile tile_types tile_type_name wires) c
            (prjxray.get_pips tile_type_obj);
  '(c, site_types) ←
    foldM import_site_type_of (c, site_types)
          (prjxray.get_sites tile_type_obj);
  Ok (c, tile_types, site_types).

(** Lines 123-149: one pin of a site binds the wire type it names. *)
Definition bind_site_pin (tile_types site_types : list (string * pkey))
    (tile_type_name : string) (site : prjxray.Site) (site_pkey : pkey)
    (c : phy_database) (site_pin_obj : prjxray.SitePin)
  : result phy_database :=
  site_type_pkey ← dict_get site_types (prjxray.type site);
  '(site_pin_pkey, _) ← fetchone
    ((filter (λ r, site_pin_name r.2 = prjxray.site_pin_name site_pin_obj
                   ∧ site_pin_site_type_pkey r.2 = site_type_pkey)
             (rows (site_pin (phy_tables c)))).*1);
  tile_type_pkey ← dict_get tile_types tile_type_name;
  Ok (with_phy_tables (with_wire_in_tile (update_where
        (λ _ r, bool_decide
                  (prjxray.wire site_pin_obj = Some (wire_in_tile_name r)
                   ∧ wire_in_tile_tile_type_pkey r = tile_type_pkey))
        (λ _, set_wire_in_tile_site (Some site_pkey) (Some site_pin_pkey))))
        c).

(** Lines 114-149: one site of the tile type. *)
Definition add_site (tile_types site_types : list (string * pkey))
    (tile_type_name : string) (c : phy_database) (site_obj : prjxray.Site)
  : result phy_database :=
  site_type_pkey ← dict_get site_types (prjxray.type site_obj);
  let c :=
    with_site (λ t, t ++
      [ {| site_row_name := prjxray.site_name site_obj;
           x_coord := prjxray.x site_obj; y_coord := prjxray.y site_obj;
           site_row_site_type_pkey := site_type_pkey |} ]) c in
  let site_pkey := length (site c) in
  foldM (bind_site_pin tile_types site_types tile_type_name site_obj
                       site_pkey) c (prjxray.site_pins site_obj).

Definition add_wire_to_site_relation
    (tile_types site_types : list (string * pkey)) (c : phy_database)
    (tile_type_name : string) : result phy_database :=
  let tile_type_obj := get_tile_type tile_type_name in
  foldM (add_site tile_types site_types tile_type_name) c
        (prjxray.get_sites tile_type_obj).

(** Lines 186-193: one turn of the first loop of [import_phy_grid]. *)
Definition import_tile_type_of
    (st : phy_database * list (string * pkey) * list (string * pkey))
    (tile : prjxray.Tile)
  : result (phy_database * list (string * pkey) * list (string * pkey)) :=
  if decide (prjxray.tile_type tile ∉ st.1.2.*1)
  then
    if decide (prjxray.tile_type tile ∈ st.1.2.*1) then Ok st
    else import_tile_type st (prjxray.tile_type tile)
  else Ok st.

(** Lines 203-214: one tile of the grid becomes a [phy_tile] row. *)
Definition insert_phy_tile (tile_types : list (string * pkey))
    (c : phy_database) (tile : prjxray.Tile) : result phy_database :=
  tile_type_pkey ← dict_get tile_types (prjxray.tile_type tile);
  Ok (with_phy_tables (with_phy_tile (λ t, t ++
        [ {| phy_tile_name := prjxray.tile tile;
             phy_tile_tile_type_pkey := tile_type_pkey;
             phy_tile_grid_x := prjxray.grid_x tile;
             phy_tile_grid_y := prjxray.grid_y tile |} ])) c).

Definition import_phy_grid (grid : list prjxray.Tile) (c : phy_database)
  : result phy_database :=
  '(c, tile_types, site_types) ← foldM import_tile_type_of (c, [], []) grid;
  c ← foldM (add_wire_to_site_relation tile_types site_types) c
            tile_types.*1;
  foldM (insert_phy_tile tile_types) c grid.

End import_phy_grid.

(** * Specification vocabulary *)

(** The wires of the node [k] that are bound to a site pin. *)
Definition site_pin_wires_of (conn : connection) (k : pkey) : list pkey :=
  (filter (λ r, r.2 = Some k) (site_wires conn)).*1.

(** The invariant of the loop over the connections: the keys of [wires]
    are listed once; a wire that refers to a set is a member of it, and
    all the members of a set some wire refers to refer to that set. *)
Definition objects_ok (o : objects) : Prop :=
  NoDup (wires_keys o)
  ∧ (∀ w, w ∈ wires_keys o ↔ is_Some (wires o !! w))
  ∧ (∀ w l, wires o !! w = Some (Some l) →
            w ∈ deref o l ∧ l < length (heap o))
  ∧ (∀ w w' l, wires o !! w = Some (Some l) → w' ∈ deref o l →
               wires o !! w' = Some (Some l)).

(** A set about to be merged: an allocated set of keys of [wires] that
    either all refer to it, or do not refer to any set while no wire
    refers to it (a set just made for one wire). *)
Definition mergeable (o : objects) (l : nat) : Prop :=
  l < length (heap o)
  ∧ (∀ w, w ∈ deref o l → w ∈ wires_keys o)
  ∧ ((∀ w, w ∈ deref o l → wires o !! w = Some (Some l))
     ∨ ((∀ w, w ∈ deref o l → wires o !! w = Some None)
        ∧ ∀ w, wires o !! w ≠ Some (Some l))).

(** The invariant of the loop that collects the node sets, once the
    wires [ws] of [wires.items()] have been seen: the sets of [nodes] are
    the sets those wires refer to and one new singleton for each of them
    that refers to none. *)
Definition collected (o0 : objects) (ws : list pkey)
    (st : objects * list nat) : Prop :=
  wires st.1 = wires o0
  ∧ (∀ l, l < length (heap o0) → deref st.1 l = deref o0 l)
  ∧ length (heap o0) ≤ length (heap st.1)
  ∧ NoDup st.2
  ∧ (∀ l, l ∈ st.2 →
       (∃ w, w ∈ ws ∧ wires o0 !! w = Some (Some l))
       ∨ (length (heap o0) ≤ l < length (heap st.1)
          ∧ ∃ w, w ∈ ws ∧ wires o0 !! w = Some None
                 ∧ deref st.1 l = {[w]}))
  ∧ (∀ w, w ∈ ws → ∃ l, l ∈ st.2 ∧ w ∈ deref st.1 l)
  ∧ (∀ l1 l2 w, l1 ∈ st.2 → l2 ∈ st.2 →
       length (heap o0) ≤ l1 → length (heap o0) ≤ l2 →
       deref st.1 l1 = {[w]} → deref st.1 l2 = {[w]} → l1 = l2).

(** The node sets [nodes] partition the wires [ws]: every wire of [ws] is
    in exactly one set, and the sets hold nothing else. *)
Definition partitions (nodes : list (gset pkey)) (ws : list pkey) : Prop :=
  (∀ w, w ∈ ws →
     ∃ i, (∃ s, nodes !! i = Some s ∧ w ∈ s)
          ∧ ∀ j s, nodes !! j = Some s → w ∈ s → j = i)
  ∧ (∀ s w, s ∈ nodes → w ∈ s → w ∈ ws).

(** The invariant of the loop that fills the wire catalog, for a database
    that held [n0] wires before: the new wires are the keys of [wires], in
    order, none refers to a set yet, and [tile_wire_map] names only them. *)
Definition catalog_ok (n0 : nat) (st : connection * gmap tile_wire pkey * objects)
  : Prop :=
  n0 ≤ length (wire st.1.1)
  ∧ heap st.2 = []
  ∧ wires_keys st.2 = seq (S n0) (length (wire st.1.1) - n0)
  ∧ (∀ w, w ∈ wires_keys st.2 → wires st.2 !! w = Some None)
  ∧ (∀ w, is_Some (wires st.2 !! w) → w ∈ wires_keys st.2)
  ∧ (∀ key w, st.1.2 !! key = Some w → w ∈ wires_keys st.2).

(** The endpoints of the connection [c] are wires of the catalog. *)
Definition known (m : gmap tile_wire pkey) (c : tile_wire * tile_wire) : Prop :=
  is_Some (m !! c.1) ∧ is_Some (m !! c.2).

(** The wire [w] is not an endpoint of the connection [c]. *)
Definition apart (m : gmap tile_wire pkey) (w : pkey)
    (c : tile_wire * tile_wire) : Prop :=
  m !! c.1 ≠ Some w ∧ m !! c.2 ≠ Some w.

(** The [graph_node] row [insert_tracks] makes of a track. *)
Definition graph_node_of (track_pkey node_pkey : pkey) (t : Track)
  : graph_node_row :=
  {| graph_node_type := if decide (direction t = "X") then CHANX else CHANY;
     graph_node_track_pkey := track_pkey;
     graph_node_node_pkey := node_pkey;
     graph_node_x_low := x_low t; graph_node_x_high := x_high t;
     graph_node_y_low := y_low t; graph_node_y_high := y_high t;
     capacity := 1 |}.

(** The edge in the other direction. *)
Definition reverse_edge (e : graph_edge_row) : graph_edge_row :=
  {| src_graph_node_pkey := dest_graph_node_pkey e;
     dest_graph_node_pkey := src_graph_node_pkey e;
     switch_pkey := switch_pkey e;
     graph_edge_track_pkey := graph_edge_track_pkey e |}.

(** The two [graph_edge] rows [insert_tracks] makes of a connection
    between the tracks with the graph nodes [gn]. *)
Definition graph_edges_of (short_pkey track_pkey : pkey) (gn : list pkey)
    (c : nat * nat) : list graph_edge_row :=
  match gn !! c.1, gn !! c.2 with
  | Some a, Some b =>
      let e := {| src_graph_node_pkey := a; dest_graph_node_pkey := b;
                  switch_pkey := short_pkey;
                  graph_edge_track_pkey := track_pkey |} in
      [e; reverse_edge e]
  | _, _ => []
  end.

(** What a successful turn of the first loop of [insert_tracks] does to
    the database. *)
Definition track_effect {tracks : Type} (tracks_list : tracks → list Track)
    (track_connections : tracks → list (nat * nat)) (short_pkey : pkey)
    (db : database) (entry : pkey * tracks) : database :=
  let track_pkey := S (track db) in
  let gn := seq (S (length (graph_node db))) (length (tracks_list entry.2)) in
  {| tables :=
       with_node (update_where (λ pkey _, bool_decide (pkey = entry.1))
                               (λ _, set_track_pkey (Some track_pkey)))
                 (tables db);
     switch := switch db;
     track := track_pkey;
     graph_node :=
       graph_node db
       ++ (graph_node_of track_pkey entry.1 <$> tracks_list entry.2);
     graph_edge :=
       graph_edge db
       ++ mjoin (graph_edges_of short_pkey track_pkey gn
                 <$> track_connections entry.2);
     constant_sources := constant_sources db;
     wire_graph_node_pkey := wire_graph_node_pkey db |}.

(** [SELECT pkey FROM switch WHERE name = "short"] *)
Definition short_switches (db : database) : list pkey :=
  (filter (λ r, r.2 = "short") (rows (switch db))).*1.

(** The wires of the grid in the order stage 2 enumerates them. *)
Definition tile_wires (tiles : list grid_tile) : list tile_wire :=
  t ← tiles; (λ w, (grid_tile_name t, w)) <$> get_wires t.

(** [SELECT pkey, tile_type_pkey FROM phy_tile WHERE name = ?] *)
Definition phy_tiles_named (conn : connection) (name : string)
  : list (pkey * phy_tile_row) :=
  filter (λ r, phy_tile_name r.2 = name) (rows (phy_tile conn)).

(** [SELECT pkey FROM wire_in_tile WHERE name = ? and tile_type_pkey = ?] *)
Definition wires_in_tile_named (conn : connection) (name : string)
    (tile_type_pkey : pkey) : list pkey :=
  (filter (λ r, wire_in_tile_name r.2 = name
                ∧ wire_in_tile_tile_type_pkey r.2 = tile_type_pkey)
          (rows (wire_in_tile conn))).*1.

(** The [wire] row stage 2 inserts for the wire [key] of the grid: the
    keys of the first [phy_tile] row of that name and of the first
    [wire_in_tile] row of that name in the tile's type. *)
Definition catalog_row (wire_default : wire_row) (conn : connection)
    (key : tile_wire) (row : wire_row) : Prop :=
  ∃ phy pt rest wit rest',
    phy_tiles_named conn key.1 = (phy, pt) :: rest
    ∧ wires_in_tile_named conn key.2 (phy_tile_tile_type_pkey pt)
      = wit :: rest'
    ∧ row = new_wire wire_default phy wit.

(** The invariant of the loop that fills the wire catalog, once the
    wires [ks] of the grid have been handled. *)
Definition cataloged (wire_default : wire_row) (conn : connection)
    (ks : list tile_wire) (st : catalog) : Prop :=
  phy_tile st.1.1 = phy_tile conn
  ∧ wire_in_tile st.1.1 = wire_in_tile conn
  ∧ (∃ rows, wire st.1.1 = wire conn ++ rows
             ∧ Forall2 (catalog_row wire_default conn) ks rows)
  ∧ NoDup ks
  ∧ ∀ key w, st.1.2 !! key = Some w
             ↔ ∃ i, ks !! i = Some key ∧ w = length (wire conn) + S i.

(** The grid stage 2 can enumerate: no (tile, wire) pair is listed twice,
    every tile has a [phy_tile] row of its name, and every wire of a tile
    a [wire_in_tile] row of its name in the type of the first such row. *)
Definition grid_ok (conn : connection) (tiles : list grid_tile) : Prop :=
  NoDup (tile_wires tiles)
  ∧ ∀ t, t ∈ tiles →
      ∃ phy pt rest,
        phy_tiles_named conn (grid_tile_name t) = (phy, pt) :: rest
        ∧ ∀ w, w ∈ get_wires t →
               wires_in_tile_named conn w (phy_tile_tile_type_pkey pt) ≠ [].


(** The wires [a] and [b] are the two ends of a connection of [cs]. *)
Definition joined (m : gmap tile_wire pkey)
    (cs : list (tile_wire * tile_wire)) (a b : pkey) : Prop :=
  ∃ c, c ∈ cs ∧ m !! c.1 = Some a ∧ m !! c.2 = Some b.

(** The wires reachable from one another along connections, in either
    direction. *)
Definition linked (m : gmap tile_wire pkey)
    (cs : list (tile_wire * tile_wire)) : relation pkey :=
  rtsc (joined m cs).

(** The invariant of the loop over the connections, once the connections
    [cs] have been handled: the two ends of each refer to one set, and
    the members of a set a wire refers to are linked to the wire. *)
Definition links_ok (m : gmap tile_wire pkey)
    (cs : list (tile_wire * tile_wire)) (o : objects) : Prop :=
  (∀ a b, joined m cs a b →
     ∃ l, wires o !! a = Some (Some l) ∧ wires o !! b = Some (Some l))
  ∧ (∀ w w' l, wires o !! w = Some (Some l) → w' ∈ deref o l →
               linked m cs w w').

(** Every wire that refers to a node refers to a row of the [node]
    table, as stage 2 leaves the wires. *)
Definition wires_refer_to_nodes (conn : connection) : Prop :=
  Forall (λ wr, default true
                  ((λ k, bool_decide (is_Some (row_at (node conn) k)))
                   <$> wire_node_pkey wr))
         (wire conn).

Global Instance wires_refer_to_nodes_dec conn :
  Decision (wires_refer_to_nodes conn).
Proof. unfold wires_refer_to_nodes. apply _. Defined.

(** No node has more than one site-pin wire, as the assertion of stage 3
    checks. *)
Definition one_site_pin_per_node (conn : connection) : Prop :=
  Forall (λ r, length (site_pin_wires_of conn r.1) ≤ 1) (rows (node conn)).

Global Instance one_site_pin_per_node_dec conn :
  Decision (one_site_pin_per_node conn).
Proof. unfold one_site_pin_per_node. apply _. Defined.

(** A site type does not have two pins of the same name. *)
Definition site_pins_unique (conn : connection) : Prop :=
  NoDup ((λ r, (site_pin_site_type_pkey r, site_pin_name r))
         <$> site_pin conn).

Global Instance site_pins_unique_dec conn : Decision (site_pins_unique conn).
Proof. unfold site_pins_unique. apply _. Defined.

(** The CHANNEL criterion of the classifier: PIP count above 1 and no
    site-pin wire. *)
Definition channel_criterion (n : node_row) : bool :=
  cmp Z.gtb (number_pips n) 1 && is_null (site_wire_pkey n).

(** The node [k] owns an instance of one of the wire types [wits]. *)
Definition owns (conn : connection) (wits : list pkey) (k : pkey) : Prop :=
  Exists (λ wr, wire_node_pkey wr = Some k ∧ wire_wire_in_tile_pkey wr ∈ wits)
         (wire conn).

Global Instance owns_dec conn wits k : Decision (owns conn wits k).
Proof. unfold owns. apply _. Defined.

(** The wire [w] of the node [k] is bound to the pin [name] of a site of
    type TIEOFF. *)
Definition tieoff_wire (conn : connection) (name : string) (w k : pkey)
  : Prop :=
  ∃ wr wit p pin st,
    row_at (wire conn) w = Some wr ∧ wire_node_pkey wr = Some k
    ∧ row_at (wire_in_tile conn) (wire_wire_in_tile_pkey wr) = Some wit
    ∧ wire_in_tile_site_pin_pkey wit = Some p
    ∧ row_at (site_pin conn) p = Some pin ∧ site_pin_name pin = name
    ∧ row_at (site_type conn) (site_pin_site_type_pkey pin) = Some st
    ∧ site_type_name st = "TIEOFF".

(** The node keys of the site-pin wires, one entry per wire: the column
    stage 3 groups by. *)
Definition site_pin_wire_nodes (conn : connection) : list (option pkey) :=
  (λ r, wire_node_pkey r.2.2) <$> site_pin_wires conn.

(** [SELECT pkey FROM site_type WHERE name = "TIEOFF"] *)
Definition tieoff_site_types (conn : connection) : list pkey :=
  (filter (λ r, site_type_name r.2 = "TIEOFF") (rows (site_type conn))).*1.

(** The annotated facts of the node [k]: its PIP count and site wire. *)
Definition facts (conn : connection) (k : pkey) (pips : option Z)
    (site_wire : option pkey) : Prop :=
  ∃ n, row_at (node conn) k = Some n
       ∧ number_pips n = pips ∧ site_wire_pkey n = site_wire.

(** The ambiguous nodes: one PIP and a site wire [s]. *)
Definition ambiguous (conn : connection) (k s : pkey) : Prop :=
  facts conn k (Some 1%Z) (Some s).

(** [SELECT classification FROM node WHERE pkey = k] *)
Definition class_of (conn : connection) (k : pkey)
  : option NodeClassification :=
  row_at (node conn) k ≫= classification.

(** The PIP count of every node is the number of directional, non-pseudo
    PIPs on its wires, as stage 3 leaves it. *)
Definition pips_annotated (conn : connection) : Prop :=
  Forall (λ r, number_pips r.2
               = Some (Z.of_nat (length (pips_of_node conn r.1))))
         (rows (node conn)).

Global Instance pips_annotated_dec conn : Decision (pips_annotated conn).
Proof. unfold pips_annotated. apply _. Defined.

(** The site wire of a node is one of the node's own wires. *)
Definition site_wires_annotated (conn : connection) : Prop :=
  Forall (λ r, default true
                 ((λ w, bool_decide (wire_node_pkey <$> row_at (wire conn) w
                                     = Some (Some r.1)))
                  <$> site_wire_pkey r.2))
         (rows (node conn)).

Global Instance site_wires_annotated_dec conn :
  Decision (site_wires_annotated conn).
Proof. unfold site_wires_annotated. apply _. Defined.

(** What the turn of the loop for one node adds to the work lists. *)
Definition no_work : worklists :=
  {| null_nodes := []; edges_to_channel := []; edge_with_mux_list := [] |}.

Definition work_of (v : (pkey * pkey) * traversal) : worklists :=
  decide_node v.1.1 v.1.2 v.2 no_work.

(** A row with another classification. *)
Definition reclassified (c : option NodeClassification) (n : node_row)
  : node_row :=
  {| number_pips := number_pips n; track_pkey := track_pkey n;
     site_wire_pkey := site_wire_pkey n; classification := c |}.

(** The work of all the visits [vs] of the loop. *)
Definition work (vs : list ((pkey * pkey) * traversal)) : worklists :=
  {| null_nodes := mjoin (null_nodes ∘ work_of <$> vs);
     edges_to_channel := mjoin (edges_to_channel ∘ work_of <$> vs);
     edge_with_mux_list := mjoin (edge_with_mux_list ∘ work_of <$> vs) |}.

(** The nodes named by the pairs of the [edge_with_mux] work list. *)
Definition mux_nodes (l : worklists) : list pkey :=
  mjoin ((λ e, [e.1.1; e.1.2]) <$> edge_with_mux_list l).

(** The classification the three [UPDATE]s leave on a row. *)
Definition unambiguous_class (n : node_row) : option NodeClassification :=
  if cmp Z.gtb (number_pips n) 1 && negb (is_null (site_wire_pkey n))
  then Some EDGES_TO_CHANNEL
  else if cmp Z.gtb (number_pips n) 1 && is_null (site_wire_pkey n)
  then Some CHANNEL
  else if is_null (site_wire_pkey n) && cmp Z.leb (number_pips n) 1
          || negb (is_null (site_wire_pkey n)) && cmp Z.eqb (number_pips n) 0
  then Some NULL
  else classification n.

(** The classification once the work lists are written back: the list
    written last wins. *)
Definition final_class (l : worklists) (k : pkey) (n : node_row)
  : option NodeClassification :=
  if decide (k ∈ null_nodes l) then Some NULL
  else if decide (k ∈ edges_to_channel l) then Some EDGES_TO_CHANNEL
  else if decide (k ∈ mux_nodes l) then Some EDGE_WITH_MUX
  else unambiguous_class n.



(** The [EdgeWithMux] record of the PIP found by [t] between the site
    wires [site_wire] of the traversed node and [other] of its neighbour:
    the source is the site wire on the side of the PIP's source. *)
Definition oriented (t : traversal) (site_wire other : pkey)
  : edge_with_mux_row :=
  if decide (src_wire_in_tile_pkey (pip t) = wire_in_tile_pkey t)
  then {| src_wire_pkey := site_wire; dest_wire_pkey := other;
          pip_in_tile_pkey := pip_pkey t |}
  else {| src_wire_pkey := other; dest_wire_pkey := site_wire;
          pip_in_tile_pkey := pip_pkey t |}.

Section phy_grid_effect.

Variable get_site_type : string → list prjxray.SiteTypePin.
Variable get_tile_type : string → prjxray.TileType.
Variable wire_in_tile_default : wire_in_tile_row.

(** The [site_pin] rows of the pins of a site type with the key [k]. *)
Definition site_pin_rows (k : pkey) (pins : list prjxray.SiteTypePin)
  : list site_pin_row :=
  (λ p, {| site_pin_name := prjxray.pin_name p;
           site_pin_site_type_pkey := k |}) <$> pins.

(** What [import_site_type] does to the database when it returns. *)
Definition site_type_effect (c : phy_database) (site_type_name : string)
  : phy_database :=
  let k := S (length (site_type (phy_tables c))) in
  with_site_pin_direction
    (λ t, t ++ (prjxray.direction <$> get_site_type site_type_name))
    (with_phy_tables
       (λ conn,
          with_site_pin
            (λ t, t ++ site_pin_rows k (get_site_type site_type_name))
            (with_site_type
               (λ t, t ++ [ {| site_type_name := site_type_name |} ]) conn))
       c).

(** A turn of the loop over the sites of a tile type (lines 108-110). *)
Definition site_types_effect (st : phy_database * list (string * pkey))
    (site_obj : prjxray.Site) : phy_database * list (string * pkey) :=
  if decide (prjxray.type site_obj ∈ st.2.*1) then st
  else (site_type_effect st.1 (prjxray.type site_obj),
        st.2 ++ [(prjxray.type site_obj,
                  S (length (site_type (phy_tables st.1))))]).

(** The dictionary [wires] of [import_tile_type] after the wires [l] went
    into a table of [base] rows. *)
Fixpoint wire_keys (base : nat) (l : list string) (wires : gmap string pkey)
  : gmap string pkey :=
  match l with
  | [] => wires
  | w :: l' => wire_keys (S base) l' (<[w := S base]> wires)
  end.

(** The [pip_in_tile] row of a PIP of the tile type with the key [k]. *)
Definition pip_row (k : pkey) (wires : gmap string pkey) (pip : prjxray.Pip)
  : pip_in_tile_row :=
  {| pip_name := prjxray.name pip;
     pip_tile_type_pkey := k;
     src_wire_in_tile_pkey := default 0 (wires !! prjxray.net_from pip);
     dest_wire_in_tile_pkey := default 0 (wires !! prjxray.net_to pip);
     can_invert := prjxray.can_invert pip;
     is_directional := prjxray.is_directional pip;
     is_pseudo := prjxray.is_pseudo pip |}.

(** The two ends of every PIP of the tile type are wires of the tile
    type. *)
Definition pips_ok (tile_type_name : string) : Prop :=
  Forall (λ pip,
            prjxray.net_from pip
              ∈ prjxray.get_wires (get_tile_type tile_type_name)
            ∧ prjxray.net_to pip
                ∈ prjxray.get_wires (get_tile_type tile_type_name))
         (prjxray.get_pips (get_tile_type tile_type_name)).

(** What [import_tile_type] does when it returns. *)
Definition tile_type_effect
    (st : phy_database * list (string * pkey) * list (string * pkey))
    (tile_type_name : string)
  : phy_database * list (string * pkey) * list (string * pkey) :=
  let k := S (length (tile_type st.1.1)) in
  let obj := get_tile_type tile_type_name in
  let wires :=
    wire_keys (length (wire_in_tile (phy_tables st.1.1)))
              (prjxray.get_wires obj) ∅ in
  let c :=
    with_phy_tables
      (λ conn,
         with_pip_in_tile
           (λ t, t ++ (pip_row k wires <$> prjxray.get_pips obj))
           (with_wire_in_tile
              (λ t, t ++ ((λ w, new_wire_in_tile wire_in_tile_default w k)
                          <$> prjxray.get_wires obj)) conn))
      (with_tile_type (λ t, t ++ [tile_type_name]) st.1.1) in
  let st' := foldl site_types_effect (c, st.2) (prjxray.get_sites obj) in
  (st'.1, st.1.2 ++ [(tile_type_name, k)], st'.2).

(** A turn of the first loop of [import_phy_grid] that returns. *)
Definition tile_types_effect
    (st : phy_database * list (string * pkey) * list (string * pkey))
    (tile : prjxray.Tile)
  : phy_database * list (string * pkey) * list (string * pkey) :=
  if decide (prjxray.tile_type tile ∈ st.1.2.*1) then st
  else tile_type_effect st (prjxray.tile_type tile).

(** The [pip_in_tile] row [p] is a PIP of its tile type, between the wire
    types of that tile type that are named as the ends of the PIP. *)
Definition pip_joins (c : phy_database) (p : pip_in_tile_row) : Prop :=
  ∃ n pip s d,
    row_at (tile_type c) (pip_tile_type_pkey p) = Some n
    ∧ pip ∈ prjxray.get_pips (get_tile_type n)
    ∧ pip_name p = prjxray.name pip
    ∧ can_invert p = prjxray.can_invert pip
    ∧ is_directional p = prjxray.is_directional pip
    ∧ is_pseudo p = prjxray.is_pseudo pip
    ∧ row_at (wire_in_tile (phy_tables c)) (src_wire_in_tile_pkey p) = Some s
    ∧ wire_in_tile_name s = prjxray.net_from pip
    ∧ wire_in_tile_tile_type_pkey s = pip_tile_type_pkey p
    ∧ row_at (wire_in_tile (phy_tables c)) (dest_wire_in_tile_pkey p) = Some d
    ∧ wire_in_tile_name d = prjxray.net_to pip
    ∧ wire_in_tile_tile_type_pkey d = pip_tile_type_pkey p.

(** The tables of [c'] that the import of site types does not write are
    those of [c]. *)
Definition site_types_frame (c c' : phy_database) : Prop :=
  tile_type c' = tile_type c
  ∧ site c' = site c
  ∧ wire_in_tile (phy_tables c') = wire_in_tile (phy_tables c)
  ∧ pip_in_tile (phy_tables c') = pip_in_tile (phy_tables c)
  ∧ phy_tile (phy_tables c') = phy_tile (phy_tables c)
  ∧ tile (phy_tables c') = tile (phy_tables c)
  ∧ wire (phy_tables c') = wire (phy_tables c)
  ∧ node (phy_tables c') = node (phy_tables c)
  ∧ edge_with_mux (phy_tables c') = edge_with_mux (phy_tables c).

(** The dictionary [site_types] and the tables [site_type] and [site_pin]
    while the stage imports into the database [c0]: the dictionary lists
    the site types imported, with their keys, and the pins of each are
    the rows of [site_pin] that refer to it. *)
Record site_types_inv (c0 c : phy_database)
    (site_types : list (string * pkey)) : Prop := {
  inv_site_type :
    site_type (phy_tables c)
    = site_type (phy_tables c0)
      ++ ((λ n, {| site_type_name := n |}) <$> site_types.*1);
  inv_site_types_NoDup : NoDup site_types.*1;
  inv_site_types_keys :
    site_types.*2
    = seq (S (length (site_type (phy_tables c0)))) (length site_types);
  inv_site_pin :
    site_pin (phy_tables c)
    = site_pin (phy_tables c0)
      ++ mjoin ((λ nk, site_pin_rows nk.2 (get_site_type nk.1))
                <$> site_types);
  inv_site_pin_direction :
    site_pin_direction c
    = site_pin_direction c0
      ++ mjoin ((λ nk, prjxray.direction <$> get_site_type nk.1)
                <$> site_types);
}.

(** The same for the dictionary [tile_types] and the tables [tile_type],
    [wire_in_tile] and [pip_in_tile]. *)
Record tile_types_inv (c0 : phy_database)
    (st : phy_database * list (string * pkey) * list (string * pkey))
  : Prop := {
  inv_site_types : site_types_inv c0 st.1.1 st.2;
  inv_tile_type : tile_type st.1.1 = tile_type c0 ++ st.1.2.*1;
  inv_tile_types_NoDup : NoDup st.1.2.*1;
  inv_tile_types_keys :
    st.1.2.*2 = seq (S (length (tile_type c0))) (length st.1.2);
  inv_wire_in_tile :
    wire_in_tile (phy_tables st.1.1)
    = wire_in_tile (phy_tables c0)
      ++ mjoin ((λ nk, (λ w, new_wire_in_tile wire_in_tile_default w nk.2)
                       <$> prjxray.get_wires (get_tile_type nk.1))
                <$> st.1.2);
  inv_pip_in_tile :
    ∃ new,
      pip_in_tile (phy_tables st.1.1) = pip_in_tile (phy_tables c0) ++ new
      ∧ Forall (pip_joins st.1.1) new;
  inv_sites :
    ∀ n site_obj,
      n ∈ st.1.2.*1 → site_obj ∈ prjxray.get_sites (get_tile_type n) →
      prjxray.type site_obj ∈ st.2.*1;
  inv_site_types_used :
    ∀ m, m ∈ st.2.*1 →
         ∃ n site_obj,
           n ∈ st.1.2.*1 ∧ site_obj ∈ prjxray.get_sites (get_tile_type n)
           ∧ prjxray.type site_obj = m;
  inv_site : site st.1.1 = site c0;
  inv_phy_tile : phy_tile (phy_tables st.1.1) = phy_tile (phy_tables c0);
  inv_tile : tile (phy_tables st.1.1) = tile (phy_tables c0);
  inv_wire : wire (phy_tables st.1.1) = wire (phy_tables c0);
  inv_node : node (phy_tables st.1.1) = node (phy_tables c0);
  inv_edge_with_mux :
    edge_with_mux (phy_tables st.1.1) = edge_with_mux (phy_tables c0);
}.

(** The [phy_tile] row of a tile of the grid. *)
Definition phy_tile_of (tile_types : list (string * pkey))
    (tile : prjxray.Tile) : phy_tile_row :=
  {| phy_tile_name := prjxray.tile tile;
     phy_tile_tile_type_pkey :=
       match dict_get tile_types (prjxray.tile_type tile) with
       | Ok k => k
       | Raise _ => 0
       end;
     phy_tile_grid_x := prjxray.grid_x tile;
     phy_tile_grid_y := prjxray.grid_y tile |}.

(** The name and the tile type of a wire type, and its site columns. *)
Definition wire_in_tile_id (r : wire_in_tile_row) : string * pkey :=
  (wire_in_tile_name r, wire_in_tile_tile_type_pkey r).

Definition site_columns (r : wire_in_tile_row) : option pkey * option pkey :=
  (wire_in_tile_site_pkey r, wire_in_tile_site_pin_pkey r).

(** The wire type [r] is bound to a pin of a site of its tile type: the
    pin names the wire, the [site] row is that of the site, the
    [site_pin] row is the pin of that name of the type of the site. *)
Definition site_pin_bound (c : phy_database) (r : wire_in_tile_row) : Prop :=
  ∃ n site_obj pin ks s ksp sp,
    row_at (tile_type c) (wire_in_tile_tile_type_pkey r) = Some n
    ∧ site_obj ∈ prjxray.get_sites (get_tile_type n)
    ∧ pin ∈ prjxray.site_pins site_obj
    ∧ prjxray.wire pin = Some (wire_in_tile_name r)
    ∧ wire_in_tile_site_pkey r = Some ks
    ∧ row_at (site c) ks = Some s
    ∧ site_row_name s = prjxray.site_name site_obj
    ∧ x_coord s = prjxray.x site_obj
    ∧ y_coord s = prjxray.y site_obj
    ∧ wire_in_tile_site_pin_pkey r = Some ksp
    ∧ row_at (site_pin (phy_tables c)) ksp = Some sp
    ∧ site_pin_name sp = prjxray.site_pin_name pin
    ∧ site_pin_site_type_pkey sp = site_row_site_type_pkey s
    ∧ row_at (site_type (phy_tables c)) (site_row_site_type_pkey s)
      = Some {| site_type_name := prjxray.type site_obj |}.

(** The wire type with the key [key] is bound to a site pin. *)
Definition bound_at (c : phy_database) (key : pkey) : Prop :=
  ∃ r, row_at (wire_in_tile (phy_tables c)) key = Some r
       ∧ site_pin_bound c r.

(** What the second loop of [import_phy_grid] keeps of the database [c1]
    it starts from: it adds [site] rows and writes the site columns of
    wire types, which it binds to site pins. *)
Record site_relation_inv (c1 c : phy_database) : Prop := {
  rel_tile_type : tile_type c = tile_type c1;
  rel_site_pin_direction : site_pin_direction c = site_pin_direction c1;
  rel_tables :
    with_wire_in_tile (λ _, []) (phy_tables c)
    = with_wire_in_tile (λ _, []) (phy_tables c1);
  rel_site : ∃ new, site c = site c1 ++ new;
  rel_wire_in_tile :
    wire_in_tile_id <$> wire_in_tile (phy_tables c)
    = wire_in_tile_id <$> wire_in_tile (phy_tables c1);
  rel_bound :
    ∀ key r,
      row_at (wire_in_tile (phy_tables c)) key = Some r →
      site_columns <$> row_at (wire_in_tile (phy_tables c1)) key
      = Some (site_columns r)
      ∨ site_pin_bound c r;
}.


(** The tiles of the grid as stage 2 reads them from the same prjxray
    database: a tile with the wires of its tile type. *)
Definition grid_tiles (grid : list prjxray.Tile) : list grid_tile :=
  (λ tile,
     {| grid_tile_name := prjxray.tile tile;
        get_wires :=
          prjxray.get_wires (get_tile_type (prjxray.tile_type tile)) |})
  <$> grid.

End phy_grid_effect.

(** * A small fabric

    One tile type with nine wires and seven PIPs, placed twice.  [PIN_O]
    drives [PIN_A] through the only PIP of either; [PIN_B] drives the
    stub [STUB]; [CH] is a routing junction that feeds [PIN_C] and is fed
    by the two tie-off pins and by [LONG], whose two instances the only
    inter-tile connection joins. *)

Definition example_wire (name : string) (site_pin : option pkey)
  : wire_in_tile_row :=
  {| wire_in_tile_name := name; wire_in_tile_tile_type_pkey := 1;
     wire_in_tile_site_pkey := (λ _, 1) <$> site_pin;
     wire_in_tile_site_pin_pkey := site_pin |}.

Definition example_pip (name : string) (src dest : pkey) (pseudo : bool)
  : pip_in_tile_row :=
  {| pip_name := name; pip_tile_type_pkey := 1;
     src_wire_in_tile_pkey := src; dest_wire_in_tile_pkey := dest;
     can_invert := false; is_directional := true; is_pseudo := pseudo |}.

Definition example_grid : connection :=
  {| site_type := [ {| site_type_name := "TIEOFF" |};
                    {| site_type_name := "SLICEL" |} ];
     site_pin :=
       [ {| site_pin_name := "HARD0"; site_pin_site_type_pkey := 1 |};
         {| site_pin_name := "HARD1"; site_pin_site_type_pkey := 1 |};
         {| site_pin_name := "A"; site_pin_site_type_pkey := 2 |};
         {| site_pin_name := "O"; site_pin_site_type_pkey := 2 |};
         {| site_pin_name := "B"; site_pin_site_type_pkey := 2 |};
         {| site_pin_name := "C"; site_pin_site_type_pkey := 2 |} ];
     wire_in_tile :=
       [ example_wire "PIN_A" (Some 3); example_wire "PIN_O" (Some 4);
         example_wire "PIN_B" (Some 5); example_wire "STUB" None;
         example_wire "PIN_C" (Some 6); example_wire "CH" None;
         example_wire "VCC_WIRE" (Some 2); example_wire "GND_WIRE" (Some 1);
         example_wire "LONG" None ];
     pip_in_tile :=
       [ example_pip "P1" 2 1 false; example_pip "P2" 3 4 false;
         example_pip "P3" 6 5 false; example_pip "P4" 7 6 false;
         example_pip "P5" 8 6 false; example_pip "P6" 9 6 false;
         example_pip "P7" 1 6 true ];
     phy_tile :=
       [ {| phy_tile_name := "T_X1Y1"; phy_tile_tile_type_pkey := 1;
            phy_tile_grid_x := 1; phy_tile_grid_y := 1 |};
         {| phy_tile_name := "T_X2Y1"; phy_tile_tile_type_pkey := 1;
            phy_tile_grid_x := 2; phy_tile_grid_y := 1 |} ];
     tile :=
       [ {| tile_phy_tile_pkey := 1; tile_grid_x := 1; tile_grid_y := 1 |};
         {| tile_phy_tile_pkey := 2; tile_grid_x := 2; tile_grid_y := 1 |};
         {| tile_phy_tile_pkey := 2; tile_grid_x := 0; tile_grid_y := 1 |};
         {| tile_phy_tile_pkey := 2; tile_grid_x := 1; tile_grid_y := 0 |} ];
     wire := []; node := []; edge_with_mux := [] |}.

Definition example_wires : list string :=
  [ "PIN_A"; "PIN_O"; "PIN_B"; "STUB"; "PIN_C"; "CH"; "VCC_WIRE"; "GND_WIRE";
    "LONG" ]%string.

Definition example_tiles : list grid_tile :=
  [ {| grid_tile_name := "T_X1Y1"; get_wires := example_wires |};
    {| grid_tile_name := "T_X2Y1"; get_wires := example_wires |} ].

Definition example_connections : list (tile_wire * tile_wire) :=
  [ (("T_X1Y1", "LONG"), ("T_X2Y1", "LONG")) ]%string.

(** Column defaults of a schema without [DEFAULT] clauses. *)
Definition null_wire : wire_row :=
  {| wire_phy_tile_pkey := 0; wire_wire_in_tile_pkey := 0;
     wire_node_pkey := None; wire_tile_pkey := None |}.

Definition null_node : node_row :=
  {| number_pips := None; track_pkey := None; site_wire_pkey := None;
     classification := None |}.

Definition or_else (d : connection) (r : result connection) : connection :=
  match r with
  | Ok conn => conn
  | Raise _ => d
  end.

(** The fabric after stage 2, after stage 3 and after stage 4. *)
Definition example_nodes : connection :=
  Eval vm_compute in
    or_else example_grid
      (import_nodes null_wire null_node example_tiles example_connections
                    example_grid).

Definition example_annotated : connection :=
  Eval vm_compute in
    or_else example_grid (count_sites_and_pips_on_nodes example_nodes).

Definition example_classified : connection :=
  Eval vm_compute in or_else example_grid (classify_nodes example_annotated).





(** Scenario A of the specification: two tiles without site pins; the
    wire [W] of each drives the wire [V] through a PIP, and the two [W]
    are connected. *)
Definition scenario_a_grid : connection :=
  {| site_type := []; site_pin := [];
     wire_in_tile := [ example_wire "W" None; example_wire "V" None ];
     pip_in_tile := [ example_pip "W_TO_V" 1 2 false ];
     phy_tile :=
       [ {| phy_tile_name := "T_X1Y1"; phy_tile_tile_type_pkey := 1;
            phy_tile_grid_x := 1; phy_tile_grid_y := 1 |};
         {| phy_tile_name := "T_X2Y1"; phy_tile_tile_type_pkey := 1;
            phy_tile_grid_x := 2; phy_tile_grid_y := 1 |} ];
     tile :=
       [ {| tile_phy_tile_pkey := 1; tile_grid_x := 1; tile_grid_y := 1 |};
         {| tile_phy_tile_pkey := 2; tile_grid_x := 2; tile_grid_y := 1 |} ];
     wire := []; node := []; edge_with_mux := [] |}.

Definition scenario_a_tiles : list grid_tile :=
  [ {| grid_tile_name := "T_X1Y1"; get_wires := [ "W"; "V" ]%string |};
    {| grid_tile_name := "T_X2Y1"; get_wires := [ "W"; "V" ]%string |} ].

Definition scenario_a_connections : list (tile_wire * tile_wire) :=
  [ (("T_X1Y1", "W"), ("T_X2Y1", "W")) ]%string.

Definition scenario_a_nodes : connection :=
  Eval vm_compute in
    or_else scenario_a_grid
      (import_nodes null_wire null_node scenario_a_tiles
                    scenario_a_connections scenario_a_grid).

(** Two tiles whose site-pin wires [P] are connected: one node with two
    site-pin wires. *)
Definition two_pins_grid : connection :=
  {| site_type := [ {| site_type_name := "SLICEL" |} ];
     site_pin := [ {| site_pin_name := "A"; site_pin_site_type_pkey := 1 |} ];
     wire_in_tile := [ example_wire "P" (Some 1) ];
     pip_in_tile := [];
     phy_tile :=
       [ {| phy_tile_name := "T_X1Y1"; phy_tile_tile_type_pkey := 1;
            phy_tile_grid_x := 1; phy_tile_grid_y := 1 |};
         {| phy_tile_name := "T_X2Y1"; phy_tile_tile_type_pkey := 1;
            phy_tile_grid_x := 2; phy_tile_grid_y := 1 |} ];
     tile := [];
     wire := []; node := []; edge_with_mux := [] |}.

Definition two_pins_nodes : connection :=
  Eval vm_compute in
    or_else two_pins_grid
      (import_nodes null_wire null_node
         [ {| grid_tile_name := "T_X1Y1"; get_wires := [ "P" ]%string |};
           {| grid_tile_name := "T_X2Y1"; get_wires := [ "P" ]%string |} ]
         [ (("T_X1Y1", "P"), ("T_X2Y1", "P")) ]%string two_pins_grid).

(** The column defaults of a schema whose [number_pips] defaults to 0. *)
Definition zero_node : node_row := set_number_pips (Some 0%Z) null_node.

(** The fabric after stage 5, and after stage 6 with the power track
    stored under key 1 and the ground track under key 2. *)
Definition example_constants : connection :=
  Eval vm_compute in
    (create_constant_tracks zero_node unit (λ _, ()) example_classified).1.

Definition example_routed : connection :=
  Eval vm_compute in
    or_else example_grid
      (connect_hardpins_to_constant_network example_constants 1 2).

(** A database with a TIEOFF site type that has no pins. *)
Definition bare_tieoff : connection :=
  {| site_type := [ {| site_type_name := "TIEOFF" |} ];
     site_pin := []; wire_in_tile := []; pip_in_tile := []; phy_tile := [];
     tile := []; wire := []; node := []; edge_with_mux := [] |}.

(** A track library for the examples: one track along X at every position
    of the set, each connected to the next, and a wire attached to the
    tracks at its own position. *)
Definition example_make_tracks (unique_pos : gset (Z * Z)) : list (Z * Z) :=
  elements unique_pos.

Definition example_tracks_list (tr : list (Z * Z)) : list Track :=
  (λ p, {| direction := "X"; x_low := p.1; x_high := p.1;
           y_low := p.2; y_high := p.2 |}) <$> tr.

Definition example_track_connections (tr : list (Z * Z)) : list (nat * nat) :=
  (λ i, (i, S i)) <$> seq 0 (length tr - 1).

Definition example_get_tracks (tr : list (Z * Z)) (coord : Z * Z)
  : list (nat * unit) :=
  omap (λ r, if decide (r.2 = coord) then Some (r.1, tt) else None)
       (imap pair tr).

(** The example fabric with every wire placed in the tile of the same key
    as its physical tile, a [switch] table, and no track yet. *)
Definition example_database : database :=
  {| tables :=
       with_wire (fmap (λ w, {| wire_phy_tile_pkey := wire_phy_tile_pkey w;
                               wire_wire_in_tile_pkey := wire_wire_in_tile_pkey w;
                               wire_node_pkey := wire_node_pkey w;
                               wire_tile_pkey := Some (wire_phy_tile_pkey w) |}))
                 example_classified;
     switch := [ "mux"; "short" ]%string;
     track := 0;
     graph_node := []; graph_edge := []; constant_sources := [];
     wire_graph_node_pkey := ∅ |}.

(** The tracks of the CHANNEL nodes of the example. *)
Definition example_entries : list (pkey * list (Z * Z)) :=
  (λ node_pkey,
     create_track (list (Z * Z)) example_make_tracks node_pkey
       (node_positions (tables example_database) node_pkey))
  <$> channel_nodes (tables example_database).

(** Whether a run of the track former returned. *)
Definition returned {A : Type} (m : outcome A) : bool :=
  match m with
  | Return _ => true
  | Except _ => false
  end.

(** The prjxray database of the small fabric: the tile type has a tie-off
    site and a slice. *)
Definition example_site_type (name : string) : list prjxray.SiteTypePin :=
  if decide (name = "TIEOFF")
  then [ {| prjxray.pin_name := "HARD0"; prjxray.direction := "OUT" |};
         {| prjxray.pin_name := "HARD1"; prjxray.direction := "OUT" |} ]
  else if decide (name = "SLICEL")
  then [ {| prjxray.pin_name := "A"; prjxray.direction := "IN" |};
         {| prjxray.pin_name := "O"; prjxray.direction := "OUT" |};
         {| prjxray.pin_name := "B"; prjxray.direction := "OUT" |};
         {| prjxray.pin_name := "C"; prjxray.direction := "IN" |} ]
  else [].

Definition example_prjxray_pip (name net_from net_to : string)
    (pseudo : bool) : prjxray.Pip :=
  {| prjxray.name := name; prjxray.net_from := net_from;
     prjxray.net_to := net_to; prjxray.can_invert := false;
     prjxray.is_directional := true; prjxray.is_pseudo := pseudo |}.

Definition example_tile_type (name : string) : prjxray.TileType :=
  {| prjxray.get_wires := example_wires;
     prjxray.get_pips :=
       [ example_prjxray_pip "P1" "PIN_O" "PIN_A" false;
         example_prjxray_pip "P2" "PIN_B" "STUB" false;
         example_prjxray_pip "P3" "CH" "PIN_C" false;
         example_prjxray_pip "P4" "VCC_WIRE" "CH" false;
         example_prjxray_pip "P5" "GND_WIRE" "CH" false;
         example_prjxray_pip "P6" "LONG" "CH" false;
         example_prjxray_pip "P7" "PIN_A" "CH" true ];
     prjxray.get_sites :=
       [ {| prjxray.site_name := "TIEOFF_X0Y0"; prjxray.type := "TIEOFF";
            prjxray.x := 0; prjxray.y := 0;
            prjxray.site_pins :=
              [ {| prjxray.site_pin_name := "HARD0";
                   prjxray.wire := Some "GND_WIRE" |};
                {| prjxray.site_pin_name := "HARD1";
                   prjxray.wire := Some "VCC_WIRE" |} ] |};
         {| prjxray.site_name := "SLICE_X0Y0"; prjxray.type := "SLICEL";
            prjxray.x := 0; prjxray.y := 0;
            prjxray.site_pins :=
              [ {| prjxray.site_pin_name := "A";
                   prjxray.wire := Some "PIN_A" |};
                {| prjxray.site_pin_name := "O";
                   prjxray.wire := Some "PIN_O" |};
                {| prjxray.site_pin_name := "B";
                   prjxray.wire := Some "PIN_B" |};
                {| prjxray.site_pin_name := "C";
                   prjxray.wire := Some "PIN_C" |} ] |} ] |}.

Definition example_phy_grid : list prjxray.Tile :=
  [ {| prjxray.tile := "T_X1Y1"; prjxray.tile_type := "T";
       prjxray.grid_x := 1; prjxray.grid_y := 1 |};
    {| prjxray.tile := "T_X2Y1"; prjxray.tile_type := "T";
       prjxray.grid_x := 2; prjxray.grid_y := 1 |} ].

Definition null_wire_in_tile : wire_in_tile_row :=
  {| wire_in_tile_name := ""; wire_in_tile_tile_type_pkey := 0;
     wire_in_tile_site_pkey := None; wire_in_tile_site_pin_pkey := None |}.

(** The database after [create_tables]. *)
Definition empty_database : phy_database :=
  {| phy_tables :=
       {| site_type := []; site_pin := []; wire_in_tile := [];
          pip_in_tile := []; phy_tile := []; tile := []; wire := [];
          node := []; edge_with_mux := [] |};
     tile_type := []; site := []; site_pin_direction := [] |}.

(** The small fabric after stage 1. *)
Definition example_imported : phy_database :=
  Eval vm_compute in
    match import_phy_grid example_site_type example_tile_type
                          null_wire_in_tile example_phy_grid empty_database
    with
    | Ok c => c
    | Raise _ => empty_database
    end.

(** * Properties *)

(** ** Tables *)

Lemma row_at_Some_lt {A : Type} (t : list A) (k : pkey) (r : A) :
  row_at t k = Some r → 1 ≤ k ≤ length t.
Proof.
  destruct k as [|i]; simpl; [done|].
  intros H%lookup_lt_Some. lia.
Qed.

Lemma row_at_is_Some {A : Type} (t : list A) (k : pkey) :
  is_Some (row_at t k) ↔ 1 ≤ k ≤ length t.
Proof.
  destruct k as [|i]; simpl.
  - split; [by intros [? ?]|lia].
  - rewrite lookup_lt_is_Some. lia.
Qed.

Lemma elem_of_rows {A : Type} (t : list A) (k : pkey) (r : A) :
  (k, r) ∈ rows t ↔ row_at t k = Some r.
Proof.
  unfold rows. rewrite elem_of_lookup_imap. split.
  - intros (i & x & [= -> ->] & Hi). done.
  - destruct k as [|i]; simpl; [done|]. intros Hi. by exists i, r.
Qed.

Lemma rows_app {A : Type} (t1 t2 : list A) :
  rows (t1 ++ t2) = rows t1 ++ imap (λ i r, (S (length t1 + i), r)) t2.
Proof. unfold rows. by rewrite imap_app. Qed.

Lemma rows_fst {A : Type} (t : list A) : (rows t).*1 = seq 1 (length t).
Proof.
  unfold rows. rewrite fmap_imap.
  change (λ n, fst ∘ (λ r : A, (S n, r))) with (λ (n : nat) (_ : A), S n).
  induction t as [|r t IH] using rev_ind; [done|].
  rewrite imap_app, length_app, seq_app, IH. simpl.
  by rewrite Nat.add_0_r.
Qed.

Lemma NoDup_rows_fst {A : Type} (t : list A) : NoDup (rows t).*1.
Proof. rewrite rows_fst. apply NoDup_seq. Qed.

Lemma NoDup_rows {A : Type} (t : list A) : NoDup (rows t).
Proof. eapply NoDup_fmap_1, NoDup_rows_fst. Qed.

Lemma row_at_update_where {A : Type} cond set (t : list A) (k : pkey) :
  row_at (update_where cond set t) k
  = (λ r, if cond k r then set k r else r) <$> row_at t k.
Proof.
  destruct k as [|i]; simpl; [done|].
  unfold update_where. by rewrite list_lookup_imap.
Qed.

Lemma length_update_where {A : Type} cond set (t : list A) :
  length (update_where cond set t) = length t.
Proof. apply length_imap. Qed.

Lemma row_at_app_l {A : Type} (t1 t2 : list A) (k : pkey) :
  k ≤ length t1 → row_at (t1 ++ t2) k = row_at t1 k.
Proof.
  destruct k as [|i]; simpl; [done|].
  intros Hk. apply lookup_app_l. lia.
Qed.

Lemma row_at_snoc {A : Type} (t : list A) (r : A) :
  row_at (t ++ [r]) (S (length t)) = Some r.
Proof. simpl. by apply list_lookup_middle. Qed.

(** ** Joins and groups *)

Lemma elem_of_inner_join {A B : Type} (l1 : list A) (l2 : list B) on a b :
  (a, b) ∈ inner_join l1 l2 on ↔ a ∈ l1 ∧ b ∈ l2 ∧ on a b.
Proof.
  unfold inner_join. rewrite list_elem_of_bind. split.
  - intros (a' & (b' & [= -> ->] & [Hon Hb]%list_elem_of_filter)%list_elem_of_fmap & Ha).
    done.
  - intros (Ha & Hb & Hon). exists a. split; [|done].
    apply list_elem_of_fmap. exists b. split; [done|].
    by apply list_elem_of_filter.
Qed.

Lemma inner_join_cons {A B : Type} (a : A) (l1 : list A) (l2 : list B) on :
  inner_join (a :: l1) l2 on
  = ((λ b, (a, b)) <$> filter (λ b, on a b) l2) ++ inner_join l1 l2 on.
Proof. done. Qed.

Lemma length_inner_join_cons_r {A B : Type} (l1 : list A) (b : B)
    (l2 : list B) on :
  length (inner_join l1 (b :: l2) on)
  = length (filter (λ a, on a b) l1) + length (inner_join l1 l2 on).
Proof.
  induction l1 as [|a l1 IH]; [done|].
  rewrite !inner_join_cons, !length_app, !length_fmap, IH.
  rewrite !filter_cons. destruct (on a b); simpl; lia.
Qed.

Lemma length_inner_join_comm {A B : Type} (l1 : list A) (l2 : list B) on :
  length (inner_join l1 l2 on) = length (inner_join l2 l1 (λ b a, on a b)).
Proof.
  induction l1 as [|a l1 IH].
  - induction l2 as [|b l2 IH]; [done|].
    by rewrite inner_join_cons, length_app, <- IH.
  - rewrite inner_join_cons, length_app, length_fmap, IH.
    by rewrite length_inner_join_cons_r.
Qed.

Lemma filter_inner_join_l {A B : Type} (P : A → Prop) `{∀ a, Decision (P a)}
    (l1 : list A) (l2 : list B) on :
  filter (λ r, P r.1) (inner_join l1 l2 on) = inner_join (filter P l1) l2 on.
Proof.
  induction l1 as [|a l1 IH]; [done|].
  rewrite inner_join_cons, filter_app, IH, filter_cons.
  destruct (decide (P a)) as [Ha|Ha].
  - rewrite inner_join_cons. f_equal.
    induction (filter (λ b, on a b) l2) as [|b l IHl]; [done|].
    rewrite fmap_cons, filter_cons. simpl.
    rewrite decide_True by done. by rewrite IHl.
  - rewrite <- (app_nil_l (inner_join _ _ _)) at 2. f_equal.
    induction (filter (λ b, on a b) l2) as [|b l IHl]; [done|].
    rewrite fmap_cons, filter_cons. simpl.
    by rewrite decide_False.
Qed.

Lemma filter_inner_join_r {A B : Type} (P : B → Prop)
    `{∀ b, Decision (P b)} (l1 : list A) (l2 : list B) on :
  filter (λ r, P r.2) (inner_join l1 l2 on) = inner_join l1 (filter P l2) on.
Proof.
  induction l1 as [|a l1 IH]; [done|].
  rewrite !inner_join_cons, filter_app, IH. f_equal.
  clear IH. induction l2 as [|b l2 IHl]; [done|].
  rewrite (filter_cons (λ b, on a b) b l2), (filter_cons P b l2).
  destruct (decide (on a b)) as [Hab|Hab], (decide (P b)) as [Hb|Hb].
  - rewrite fmap_cons, !filter_cons. simpl.
    rewrite decide_True, decide_True by done. by rewrite fmap_cons, IHl.
  - rewrite fmap_cons, filter_cons. simpl.
    by rewrite decide_False.
  - rewrite filter_cons, decide_False by done. done.
  - done.
Qed.

Lemma length_filter_inner_join_r {A B : Type} (P : B → Prop)
    `{∀ b, Decision (P b)} (l1 : list A) (l2 : list B) on :
  length (filter (λ r, P r.2) (inner_join l1 l2 on))
  = length (inner_join (filter P l2) l1 (λ b a, on a b)).
Proof. by rewrite filter_inner_join_r, length_inner_join_comm. Qed.

(** ** The error monad *)

Lemma bind_Ok {A B : Type} (m : result A) (k : A → result B) (b : B) :
  m ≫= k = Ok b ↔ ∃ a, m = Ok a ∧ k a = Ok b.
Proof.
  destruct m as [a|e]; simpl.
  - split; [by exists a|]. by intros (? & [= <-] & ?).
  - split; [done|]. by intros (? & [=] & ?).
Qed.

Lemma assert_Ok (cond : bool) (u : unit) : assert cond = Ok u ↔ cond = true.
Proof. destruct cond, u; simpl; split; done. Qed.

Lemma fetchone_Ok {A : Type} (cursor : list A) r rest :
  fetchone cursor = Ok (r, rest) ↔ cursor = r :: rest.
Proof. destruct cursor; simpl; split; congruence. Qed.

Lemma assert_exhausted_Ok {A : Type} `{EqDecision A} (cursor : list A) u :
  assert_exhausted cursor = Ok u ↔ cursor = [].
Proof.
  unfold assert_exhausted. rewrite assert_Ok.
  destruct cursor; simpl; split; done.
Qed.

Lemma foldM_app {A S : Type} (f : S → A → result S) s (l1 l2 : list A) :
  foldM f s (l1 ++ l2) = foldM f s l1 ≫= λ s', foldM f s' l2.
Proof.
  revert s. induction l1 as [|x l1 IH]; intros s; simpl; [done|].
  destruct (f s x); simpl; [apply IH|done].
Qed.

Lemma foldM_invariant {A S : Type} (I : S → Prop) (f : S → A → result S)
    s (l : list A) s' :
  (∀ s x s', x ∈ l → I s → f s x = Ok s' → I s') →
  I s → foldM f s l = Ok s' → I s'.
Proof.
  revert s. induction l as [|x l IH]; intros s Hf Hs; simpl.
  - by intros [= <-].
  - intros (s1 & H1 & H2)%bind_Ok. apply (IH s1); [| |done].
    + intros s2 y s3 Hy. apply Hf. by right.
    + apply (Hf s x s1); [by left|done..].
Qed.

(** ** Stage 4: the traversal *)

Lemma elem_of_ambiguous_nodes conn k s :
  (k, s) ∈ ambiguous_nodes conn ↔ ambiguous conn k s.
Proof.
  unfold ambiguous_nodes, ambiguous, facts. rewrite list_elem_of_omap. split.
  - intros ([k' n] & Hin%elem_of_rows & H). simpl in H.
    destruct (number_pips n) as [p|] eqn:Hp; simpl in H; [|done].
    destruct (Z.eqb_spec p 1) as [->|]; [|done].
    destruct (site_wire_pkey n) as [s'|] eqn:Hs; simplify_eq/=.
    by exists n.
  - intros (n & Hn & Hp & Hs). exists (k, n). split; [by apply elem_of_rows|].
    simpl. by rewrite Hp, Hs.
Qed.

Lemma NoDup_ambiguous_nodes_fst conn : NoDup (ambiguous_nodes conn).*1.
Proof.
  unfold ambiguous_nodes.
  assert (Hnd := NoDup_rows_fst (node conn)).
  induction (rows (node conn)) as [|[k n] l IH]; simpl; [constructor|].
  apply NoDup_cons in Hnd as [Hk Hnd].
  destruct (cmp Z.eqb (number_pips n) 1); [|by apply IH].
  destruct (site_wire_pkey n) as [s|]; simpl; [|by apply IH].
  apply NoDup_cons. split; [|by apply IH].
  intros ([k' s'] & -> & ([k'' n'] & Hin & H)%list_elem_of_omap)%list_elem_of_fmap.
  apply Hk. apply list_elem_of_fmap. exists (k'', n'). split; [|done].
  simpl in *. destruct (cmp Z.eqb (number_pips n') 1); [|done].
  destruct (site_wire_pkey n'); by simplify_eq/=.
Qed.

Lemma elem_of_wire_in_node conn k w wr :
  (w, wr) ∈ wire_in_node conn k
  ↔ row_at (wire conn) w = Some wr ∧ wire_node_pkey wr = Some k.
Proof.
  unfold wire_in_node. rewrite list_elem_of_filter, elem_of_rows. naive_solver.
Qed.

Lemma pip_touches_spec p w :
  pip_touches p w ↔
  is_directional p = true ∧ is_pseudo p = false
  ∧ (src_wire_in_tile_pkey p = w ∨ dest_wire_in_tile_pkey p = w).
Proof.
  unfold pip_touches.
  rewrite !andb_True, orb_True, negb_True, !bool_decide_spec.
  destruct (is_directional p), (is_pseudo p); naive_solver.
Qed.

Lemma elem_of_pips_of_node conn k w wr p pr :
  ((w, wr), (p, pr)) ∈ pips_of_node conn k
  ↔ row_at (wire conn) w = Some wr ∧ wire_node_pkey wr = Some k
    ∧ row_at (pip_in_tile conn) p = Some pr
    ∧ pip_touches pr (wire_wire_in_tile_pkey wr).
Proof.
  unfold pips_of_node.
  rewrite elem_of_inner_join, elem_of_wire_in_node, elem_of_rows. naive_solver.
Qed.

Lemma traverse_Ok conn k t :
  traverse conn k = Ok t ↔
  ∃ wr rest o,
    pips_of_node conn k
    = ((wire_in_node_pkey t, wr), (pip_pkey t, pip t)) :: rest
    ∧ wire_in_tile_pkey t = wire_wire_in_tile_pkey wr
    ∧ phy_tile_pkey t = wire_phy_tile_pkey wr
    ∧ other_wire t
      = (if decide (src_wire_in_tile_pkey (pip t) = wire_in_tile_pkey t)
         then dest_wire_in_tile_pkey (pip t)
         else src_wire_in_tile_pkey (pip t))
    ∧ wires_at conn (other_wire t) (phy_tile_pkey t)
      = [Some (other_node_pkey t)]
    ∧ row_at (node conn) (other_node_pkey t) = Some o
    ∧ other_site_wire_pkey t = site_wire_pkey o
    ∧ other_number_pips t = number_pips o.
Proof.
  unfold traverse. split.
  - destruct (pips_of_node conn k) as [|[[w wr] [p pr]] rest] eqn:Hrows;
      simpl; [done|].
    destruct (bool_decide (wire_wire_in_tile_pkey wr = src_wire_in_tile_pkey pr)
              || bool_decide (wire_wire_in_tile_pkey wr
                              = dest_wire_in_tile_pkey pr)); simpl; [|done].
    destruct (wires_at conn _ _) as [|[o|] [|? ?]] eqn:Hat; simpl; try done.
    destruct (row_at (node conn) o) as [n|] eqn:Ho; simpl; [|done].
    intros [= <-]. simpl. by exists wr, rest, n.
  - intros (wr & rest & o & Hrows & Hwit & Hphy & Hother & Hat & Ho & Hs & Hp).
    rewrite Hrows. simpl.
    assert (Hin : ((wire_in_node_pkey t, wr), (pip_pkey t, pip t))
                  ∈ pips_of_node conn k) by (rewrite Hrows; left).
    apply elem_of_pips_of_node in Hin as (_ & _ & _ & Htouch).
    apply pip_touches_spec in Htouch as (_ & _ & Htouch).
    replace (bool_decide _ || bool_decide _) with true; simpl.
    2:{ symmetry. apply Is_true_true. rewrite orb_True, !bool_decide_spec.
        naive_solver. }
    rewrite <- Hwit, <- Hother, <- Hphy, Hat. simpl. rewrite Ho.
    destruct t; simpl in *. by subst.
Qed.

(** The neighbour found by a traversal is a node of the table, and the
    traversal reports its annotated facts. *)
Lemma traverse_other_facts conn k t :
  traverse conn k = Ok t →
  facts conn (other_node_pkey t) (other_number_pips t)
        (other_site_wire_pkey t).
Proof.
  intros (wr & rest & o & _ & _ & _ & _ & _ & Ho & Hs & Hp)%traverse_Ok.
  by exists o.
Qed.

(** ** Stage 4: the work lists *)

Lemma decide_node_app k s t l :
  decide_node k s t l
  = {| null_nodes := null_nodes l ++ null_nodes (work_of ((k, s), t));
       edges_to_channel :=
         edges_to_channel l ++ edges_to_channel (work_of ((k, s), t));
       edge_with_mux_list :=
         edge_with_mux_list l ++ edge_with_mux_list (work_of ((k, s), t)) |}.
Proof.
  unfold work_of, decide_node. simpl.
  destruct (other_site_wire_pkey t), (cmp Z.eqb (other_number_pips t) 1);
    simpl; rewrite ?app_nil_r; try done.
  destruct (decide _); simpl; by rewrite !app_nil_r.
Qed.

(** The loop succeeds exactly when every traversal does, and then the work
    lists collect, in order, the work of every ambiguous node. *)
Lemma classify_loop_Ok conn rs l0 l :
  foldM (classify_loop conn) l0 rs = Ok l ↔
  ∃ ts, Forall2 (λ r t, traverse conn r.1 = Ok t) rs ts ∧
    l = {| null_nodes :=
             null_nodes l0 ++ mjoin (null_nodes ∘ work_of <$> zip rs ts);
           edges_to_channel :=
             edges_to_channel l0
             ++ mjoin (edges_to_channel ∘ work_of <$> zip rs ts);
           edge_with_mux_list :=
             edge_with_mux_list l0
             ++ mjoin (edge_with_mux_list ∘ work_of <$> zip rs ts) |}.
Proof.
  revert l0 l. induction rs as [|[k s] rs IH]; intros l0 l; simpl.
  - split.
    + intros [= <-]. exists []. split; [constructor|].
      destruct l0; simpl. by rewrite !app_nil_r.
    + intros (ts & ->%Forall2_nil_inv_l & ->). destruct l0; simpl.
      by rewrite !app_nil_r.
  - split.
    + intros (l1 & Hstep & Hrest)%bind_Ok.
      unfold classify_loop in Hstep. simpl in Hstep.
      apply bind_Ok in Hstep as (t & Ht & [= <-]).
      apply IH in Hrest as (ts & Hts & ->).
      exists (t :: ts). split; [by constructor|].
      rewrite decide_node_app. simpl. by rewrite <- !app_assoc.
    + intros (ts & Hts & ->).
      apply Forall2_cons_inv_l in Hts as (t & ts' & Ht & Hts & ->).
      simpl in Ht. apply bind_Ok. exists (decide_node k s t l0). split.
      { unfold classify_loop. simpl. by rewrite Ht. }
      apply IH. exists ts'. split; [done|].
      rewrite decide_node_app. simpl. by rewrite <- !app_assoc.
Qed.

Lemma Forall2_zip_elem {A B : Type} (R : A → B → Prop) (l1 : list A)
    (l2 : list B) a :
  Forall2 R l1 l2 → a ∈ l1 → ∃ b, (a, b) ∈ zip l1 l2 ∧ R a b.
Proof.
  induction 1 as [|x y l1 l2 Hxy _ IH]; [by intros ?%elem_of_nil|].
  intros [->|Ha]%elem_of_cons.
  - exists y. split; [left|done].
  - destruct (IH Ha) as (b & Hb & HR). exists b. split; [by right|done].
Qed.

Lemma elem_of_zip_Forall2 {A B : Type} (R : A → B → Prop) (l1 : list A)
    (l2 : list B) a b :
  Forall2 R l1 l2 → (a, b) ∈ zip l1 l2 → a ∈ l1 ∧ R a b.
Proof.
  induction 1 as [|x y l1 l2 Hxy _ IH]; [by intros ?%elem_of_nil|].
  simpl. intros [[= -> ->]|Hab]%elem_of_cons.
  - split; [left|done].
  - destruct (IH Hab). split; [by right|done].
Qed.


(** ** Stage 4: the classification written to the table *)

Lemma reclassified_id n : reclassified (classification n) n = n.
Proof. by destruct n. Qed.

Lemma classify_unambiguous_row conn k :
  row_at (node (classify_unambiguous conn)) k
  = (λ n, reclassified (unambiguous_class n) n) <$> row_at (node conn) k.
Proof.
  unfold classify_unambiguous. simpl. rewrite !row_at_update_where.
  destruct (row_at (node conn) k) as [[p t s c]|]; simpl; [|done].
  f_equal. unfold unambiguous_class, reclassified. simpl.
  destruct s, p as [p|]; simpl; try done;
    destruct (Z.leb p 1) eqn:E1, (Z.gtb p 1) eqn:E2, (Z.eqb p 0) eqn:E3;
    simpl; rewrite ?E1, ?E2, ?E3; simpl; rewrite ?E1, ?E2, ?E3; simpl;
    try done; exfalso; rewrite Z.gtb_ltb in E2;
    rewrite ?Z.leb_le, ?Z.leb_gt, ?Z.ltb_lt, ?Z.ltb_ge, ?Z.eqb_eq,
      ?Z.eqb_neq in *; lia.
Qed.

Lemma facts_classify_unambiguous conn k p s :
  facts (classify_unambiguous conn) k p s ↔ facts conn k p s.
Proof.
  unfold facts. rewrite classify_unambiguous_row. split.
  - intros (n' & Hn & Hp & Hs).
    destruct (row_at (node conn) k) as [n|]; simplify_eq/=. by exists n.
  - intros (n & -> & Hp & Hs). by eexists.
Qed.

Lemma traverse_classify_unambiguous conn k :
  traverse (classify_unambiguous conn) k = traverse conn k.
Proof.
  unfold traverse.
  assert (Hp : pips_of_node (classify_unambiguous conn) k
               = pips_of_node conn k) by done.
  assert (Hw : ∀ a b, wires_at (classify_unambiguous conn) a b
                      = wires_at conn a b) by done.
  assert (Hn := classify_unambiguous_row conn).
  generalize dependent (classify_unambiguous conn). intros c3 Hp Hw Hn.
  rewrite Hp.
  destruct (fetchone (take 1 _)) as [[[[w wr] [p pr]] c]|]; simpl; [|done].
  destruct (assert_exhausted c); simpl; [|done].
  destruct (assert (_ || _)); simpl; [|done].
  rewrite Hw.
  destruct (fetchone (wires_at conn _ _)) as [[[o|] c']|]; simpl; try done.
  destruct (assert_exhausted c'); simpl; [|done].
  rewrite Hn. by destruct (row_at (node conn) o).
Qed.

Lemma set_class_at_row c ks conn k :
  row_at (node (set_class_at c ks conn)) k
  = (λ n, if decide (k ∈ ks) then reclassified (Some c) n else n)
    <$> row_at (node conn) k.
Proof.
  unfold set_class_at. simpl. rewrite row_at_update_where.
  destruct (row_at (node conn) k); simpl; [|done].
  rewrite bool_decide_decide. by destruct (decide _).
Qed.

Lemma foldl_set_class_at_row {X : Type} (f : connection → X → connection)
    (g : X → list pkey) c :
  (∀ conn x, node (f conn x) = node (set_class_at c (g x) conn)) →
  ∀ l conn k,
    row_at (node (foldl f conn l)) k
    = (λ n, if decide (k ∈ mjoin (g <$> l))
            then reclassified (Some c) n else n) <$> row_at (node conn) k.
Proof.
  intros Hf l. induction l as [|x l IH]; intros conn k; simpl.
  - by destruct (row_at (node conn) k).
  - rewrite IH, Hf, set_class_at_row.
    destruct (row_at (node conn) k) as [n|]; simpl; [|done]. f_equal.
    destruct (decide (k ∈ g x)) as [Hx|Hx].
    + rewrite (decide_True (P := k ∈ g x ++ _)) by (apply elem_of_app; by left).
      by destruct (decide _).
    + destruct (decide (k ∈ mjoin (g <$> l))) as [Hl|Hl].
      * by rewrite decide_True by (apply elem_of_app; by right).
      * rewrite decide_False; [done|]. by intros [?|?]%elem_of_app.
Qed.

Lemma foldl_frame {X S T : Type} (f : S → X → S) (proj : S → T) :
  (∀ s x, proj (f s x) = proj s) → ∀ l s, proj (foldl f s l) = proj s.
Proof.
  intros Hf l. induction l as [|x l IH]; intros s; simpl; [done|].
  by rewrite IH.
Qed.

Lemma apply_worklists_row l conn k :
  row_at (node (apply_worklists l conn)) k
  = (λ n, reclassified
            (if decide (k ∈ null_nodes l) then Some NULL
             else if decide (k ∈ edges_to_channel l) then Some EDGES_TO_CHANNEL
             else if decide (k ∈ mux_nodes l) then Some EDGE_WITH_MUX
             else classification n) n) <$> row_at (node conn) k.
Proof.
  unfold apply_worklists.
  rewrite (foldl_set_class_at_row _ (λ x, [x]) NULL) by done.
  rewrite (foldl_set_class_at_row _ (λ x, [x]) EDGES_TO_CHANNEL) by done.
  rewrite (foldl_set_class_at_row _ (λ e, [e.1.1; e.1.2]) EDGE_WITH_MUX)
    by done.
  fold (mux_nodes l).
  assert (Hsingle : ∀ ks : list pkey, mjoin ((λ x, [x]) <$> ks) = ks).
  { intros ks. induction ks as [|x ks IH]; simpl; [done|]. f_equal. apply IH. }
  rewrite !Hsingle.
  destruct (row_at (node conn) k) as [n|]; simpl; [|done]. f_equal.
  destruct (decide (k ∈ null_nodes l)), (decide (k ∈ edges_to_channel l)),
    (decide (k ∈ mux_nodes l)); by destruct n.
Qed.

Lemma apply_worklists_edge_with_mux l conn :
  edge_with_mux (apply_worklists l conn)
  = edge_with_mux conn ++ (edge_with_mux_list l).*2.
Proof.
  unfold apply_worklists.
  rewrite (foldl_frame _ edge_with_mux) by done.
  rewrite (foldl_frame _ edge_with_mux) by done.
  generalize (edge_with_mux_list l). intros es. revert conn.
  induction es as [|e es IH]; intros conn; simpl.
  - by rewrite app_nil_r.
  - rewrite IH. simpl. by rewrite <- app_assoc.
Qed.

Lemma apply_worklists_wire l conn :
  wire (apply_worklists l conn) = wire conn.
Proof.
  unfold apply_worklists. by rewrite !(foldl_frame _ wire) by done.
Qed.

(** ** Stage 4: what a successful run did *)

(** A run succeeds exactly when every ambiguous node can be traversed. *)
Lemma classify_nodes_Ok conn conn' :
  classify_nodes conn = Ok conn' ↔
  ∃ ts,
    Forall2 (λ r t, traverse conn r.1 = Ok t)
            (ambiguous_nodes (classify_unambiguous conn)) ts
    ∧ conn' = apply_worklists
                (work (zip (ambiguous_nodes (classify_unambiguous conn)) ts))
                (classify_unambiguous conn).
Proof.
  unfold classify_nodes. cbv zeta. rewrite bind_Ok. split.
  - intros (l & (ts & Hts & ->)%classify_loop_Ok & [= <-]).
    exists ts. split; [|done].
    eapply Forall2_impl; [done|]. intros r t. simpl.
    by rewrite traverse_classify_unambiguous.
  - intros (ts & Hts & ->). eexists. split; [|done].
    apply classify_loop_Ok. exists ts. split; [|done].
    eapply Forall2_impl; [done|]. intros r t. simpl.
    by rewrite traverse_classify_unambiguous.
Qed.

(** The visits of a successful run: every ambiguous node once, with what
    its traversal found; the final table in terms of their work. *)
Lemma classify_nodes_visits conn conn' :
  classify_nodes conn = Ok conn' →
  ∃ vs : list ((pkey * pkey) * traversal),
    (∀ k s, ambiguous conn k s ↔ (k, s) ∈ vs.*1)
    ∧ NoDup vs.*1.*1
    ∧ Forall (λ v, traverse conn v.1.1 = Ok v.2) vs
    ∧ (∀ k, row_at (node conn') k
            = (λ n, reclassified (final_class (work vs) k n) n)
              <$> row_at (node conn) k)
    ∧ edge_with_mux conn'
      = edge_with_mux conn ++ (edge_with_mux_list (work vs)).*2
    ∧ wire conn' = wire conn.
Proof.
  intros (ts & Hts & ->)%classify_nodes_Ok.
  set (rs := ambiguous_nodes (classify_unambiguous conn)) in *.
  assert (Hfst : (zip rs ts).*1 = rs).
  { apply fst_zip. by rewrite (Forall2_length _ _ _ Hts). }
  exists (zip rs ts). rewrite Hfst. split_and!.
  - intros k s. unfold rs. rewrite elem_of_ambiguous_nodes. unfold ambiguous.
    by rewrite facts_classify_unambiguous.
  - apply NoDup_ambiguous_nodes_fst.
  - apply Forall_forall. intros [r t] Hin.
    by apply (elem_of_zip_Forall2 _ _ _ _ _ Hts) in Hin as [_ ?].
  - intros k. rewrite apply_worklists_row, classify_unambiguous_row.
    by destruct (row_at (node conn) k) as [n|].
  - by rewrite apply_worklists_edge_with_mux.
  - by rewrite apply_worklists_wire.
Qed.

Lemma work_of_cases k s t :
  work_of ((k, s), t)
  = match other_site_wire_pkey t, cmp Z.eqb (other_number_pips t) 1 with
    | Some o, true =>
        {| null_nodes := []; edges_to_channel := [];
           edge_with_mux_list := [((k, other_node_pkey t), oriented t s o)] |}
    | None, true =>
        {| null_nodes := [k; other_node_pkey t]; edges_to_channel := [];
           edge_with_mux_list := [] |}
    | _, false =>
        {| null_nodes := []; edges_to_channel := [k];
           edge_with_mux_list := [] |}
    end.
Proof.
  unfold work_of, decide_node, oriented. simpl.
  destruct (other_site_wire_pkey t), (cmp Z.eqb (other_number_pips t) 1);
    try done.
  by destruct (decide _).
Qed.

Lemma elem_of_null_nodes_work vs x :
  x ∈ null_nodes (work vs) ↔ ∃ v, v ∈ vs ∧ x ∈ null_nodes (work_of v).
Proof.
  unfold work. simpl. rewrite list_elem_of_join. split.
  - intros (l & Hx & (v & -> & Hv)%list_elem_of_fmap). by exists v.
  - intros (v & Hv & Hx). eexists. split; [done|].
    apply list_elem_of_fmap. by exists v.
Qed.

Lemma elem_of_edges_to_channel_work vs x :
  x ∈ edges_to_channel (work vs)
  ↔ ∃ v, v ∈ vs ∧ x ∈ edges_to_channel (work_of v).
Proof.
  unfold work. simpl. rewrite list_elem_of_join. split.
  - intros (l & Hx & (v & -> & Hv)%list_elem_of_fmap). by exists v.
  - intros (v & Hv & Hx). eexists. split; [done|].
    apply list_elem_of_fmap. by exists v.
Qed.

Lemma elem_of_edge_with_mux_list_work vs e :
  e ∈ edge_with_mux_list (work vs)
  ↔ ∃ v, v ∈ vs ∧ e ∈ edge_with_mux_list (work_of v).
Proof.
  unfold work. simpl. rewrite list_elem_of_join. split.
  - intros (l & Hx & (v & -> & Hv)%list_elem_of_fmap). by exists v.
  - intros (v & Hv & Hx). eexists. split; [done|].
    apply list_elem_of_fmap. by exists v.
Qed.

Lemma elem_of_mux_nodes l x :
  x ∈ mux_nodes l ↔ ∃ e, e ∈ edge_with_mux_list l ∧ (x = e.1.1 ∨ x = e.1.2).
Proof.
  unfold mux_nodes. rewrite list_elem_of_join. split.
  - intros (ks & Hx & (e & -> & He)%list_elem_of_fmap). exists e.
    split; [done|]. set_solver.
  - intros (e & He & Hx). exists [e.1.1; e.1.2]. split; [set_solver|].
    apply list_elem_of_fmap. by exists e.
Qed.

Lemma cmp_eqb_Some x y : cmp Z.eqb x y = true ↔ x = Some y.
Proof.
  destruct x as [v|]; simpl; [|done].
  rewrite Z.eqb_eq. naive_solver.
Qed.

(** Every node on a work list has exactly one PIP; the nodes on the
    [edges_to_channel] and [edge_with_mux] lists have a site wire too. *)
Lemma worked_nodes conn vs x :
  (∀ v, v ∈ vs → ambiguous conn v.1.1 v.1.2 ∧ traverse conn v.1.1 = Ok v.2) →
  (x ∈ null_nodes (work vs) → ∃ s, facts conn x (Some 1%Z) s)
  ∧ (x ∈ edges_to_channel (work vs) ∨ x ∈ mux_nodes (work vs) →
     ∃ s, facts conn x (Some 1%Z) (Some s)).
Proof.
  intros Hvs. split.
  - intros ([[k s] t] & Hv & Hx)%elem_of_null_nodes_work.
    destruct (Hvs _ Hv) as [Hamb Ht]. simpl in *.
    apply traverse_other_facts in Ht.
    rewrite work_of_cases in Hx.
    destruct (other_site_wire_pkey t),
      (cmp Z.eqb (other_number_pips t) 1) eqn:Hp; simpl in Hx;
      try by apply elem_of_nil in Hx.
    apply cmp_eqb_Some in Hp. rewrite Hp in Ht.
    apply elem_of_cons in Hx as [->|Hx]; [by eexists|].
    apply list_elem_of_singleton in Hx as ->. by eexists.
  - intros [([[k s] t] & Hv & Hx)%elem_of_edges_to_channel_work|
            (e & ([[k s] t] & Hv & He)%elem_of_edge_with_mux_list_work
               & Hx)%elem_of_mux_nodes];
      destruct (Hvs _ Hv) as [Hamb Ht]; simpl in *;
      apply traverse_other_facts in Ht.
    + rewrite work_of_cases in Hx.
      destruct (other_site_wire_pkey t),
        (cmp Z.eqb (other_number_pips t) 1); simpl in Hx;
        try (by apply elem_of_nil in Hx);
        apply list_elem_of_singleton in Hx as ->; by eexists.
    + rewrite work_of_cases in He.
      destruct (other_site_wire_pkey t) as [o|] eqn:Ho,
        (cmp Z.eqb (other_number_pips t) 1) eqn:Hp; simpl in He;
        try by apply elem_of_nil in He.
      apply list_elem_of_singleton in He as ->. simpl in Hx.
      apply cmp_eqb_Some in Hp. rewrite Hp in Ht.
      destruct Hx as [->| ->]; by eexists.
Qed.

(** ** Stage 4: the unambiguous nodes *)

Lemma final_class_not_worked l k n :
  k ∉ null_nodes l → k ∉ edges_to_channel l → k ∉ mux_nodes l →
  final_class l k n = unambiguous_class n.
Proof.
  intros H1 H2 H3. unfold final_class.
  by rewrite !decide_False by done.
Qed.

Lemma final_class_null l k n :
  k ∈ null_nodes l → final_class l k n = Some NULL.
Proof. intros H1. unfold final_class. by rewrite decide_True. Qed.


Lemma unambiguous_class_spec n p :
  number_pips n = Some p →
  ((site_wire_pkey n = None ∧ (p ≤ 1)%Z
    ∨ is_Some (site_wire_pkey n) ∧ p = 0%Z) →
   unambiguous_class n = Some NULL)
  ∧ ((p > 1)%Z ∧ site_wire_pkey n = None →
     unambiguous_class n = Some CHANNEL)
  ∧ ((p > 1)%Z ∧ is_Some (site_wire_pkey n) →
     unambiguous_class n = Some EDGES_TO_CHANNEL).
Proof.
  intros Hp. unfold unambiguous_class. rewrite Hp. simpl.
  destruct (Z.gtb_spec p 1), (Z.leb_spec p 1), (Z.eqb_spec p 0);
    destruct (site_wire_pkey n); simpl;
    split_and!; (intros [[? ?]|[[? ?] ?]] || intros [? [? ?]] || intros [? ?]);
    try done; lia.
Qed.

(** C1.  After a successful run of the classifier, a node whose annotated
    facts are "no site-pin wire and PIP count at most 1" or "a site-pin
    wire and PIP count 0" is classified NULL, one with PIP count above 1
    and no site-pin wire CHANNEL, and one with PIP count above 1 and a
    site-pin wire EDGES_TO_CHANNEL. *)
Theorem classify_nodes_unambiguous conn conn' k n p :
  classify_nodes conn = Ok conn' →
  row_at (node conn) k = Some n →
  number_pips n = Some p →
  ((site_wire_pkey n = None ∧ (p ≤ 1)%Z
    ∨ is_Some (site_wire_pkey n) ∧ p = 0%Z) →
   class_of conn' k = Some NULL)
  ∧ ((p > 1)%Z ∧ site_wire_pkey n = None →
     class_of conn' k = Some CHANNEL)
  ∧ ((p > 1)%Z ∧ is_Some (site_wire_pkey n) →
     class_of conn' k = Some EDGES_TO_CHANNEL).
Proof.
  intros (vs & Hamb & _ & Hts & Hrow & _)%classify_nodes_visits Hn Hp.
  assert (Hvs : ∀ v, v ∈ vs →
            ambiguous conn v.1.1 v.1.2 ∧ traverse conn v.1.1 = Ok v.2).
  { intros [[k' s'] t] Hv. split.
    - apply Hamb. apply list_elem_of_fmap. by exists (k', s', t).
    - by apply (proj1 (Forall_forall _ _) Hts) in Hv. }
  destruct (worked_nodes conn vs k Hvs) as [Hnull Hsite].
  assert (Hclass : class_of conn' k = final_class (work vs) k n).
  { unfold class_of. by rewrite Hrow, Hn. }
  rewrite Hclass. clear Hclass Hrow.
  assert (Hone : ∀ s, facts conn k (Some 1%Z) s →
                      p = 1%Z ∧ site_wire_pkey n = s).
  { intros s (n' & Hn' & Hp' & Hs'). by simplify_eq. }
  assert (Hsite' : k ∈ edges_to_channel (work vs) ∨ k ∈ mux_nodes (work vs) →
                   p = 1%Z ∧ is_Some (site_wire_pkey n)).
  { intros [s [-> Hs]%Hone]%Hsite. by rewrite Hs. }
  assert (Hnull' : k ∈ null_nodes (work vs) → p = 1%Z).
  { by intros [s [-> _]%Hone]%Hnull. }
  destruct (unambiguous_class_spec n p Hp) as (HN & HC & HE).
  destruct (decide (k ∈ null_nodes (work vs))) as [Hin|Hnin].
  { rewrite final_class_null by done. specialize (Hnull' Hin).
    split_and!; [done|intros [? ?]; lia..]. }
  assert (Hne : p ≠ 1%Z ∨ site_wire_pkey n = None →
                final_class (work vs) k n = unambiguous_class n).
  { intros Hcase. apply final_class_not_worked; [done|..];
      intros Hin; destruct Hsite' as [? [s Hs]]; [by left| |by right|];
      destruct Hcase; by simplify_eq. }
  split_and!.
  - intros Hcase. rewrite Hne; [by apply HN|].
    destruct Hcase as [[-> _]|[_ ->]]; [by right|by left].
  - intros Hcase. rewrite Hne; [by apply HC|]. right. apply Hcase.
  - intros Hcase. rewrite Hne; [by apply HE|]. left. lia.
Qed.

Lemma classify_nodes_unambiguous_witness :
  classify_nodes example_annotated = Ok example_classified
  ∧ row_at (node example_annotated) 6
    = Some {| number_pips := Some 4%Z; track_pkey := None;
              site_wire_pkey := None; classification := None |}
  ∧ class_of example_classified 6 = Some CHANNEL.
Proof.
  split; [reflexivity|]. split; [reflexivity|].
  refine (proj1 (proj2
    (classify_nodes_unambiguous example_annotated example_classified 6
       _ 4%Z _ _ _)) _).
  - reflexivity.
  - reflexivity.
  - reflexivity.
  - split; [lia|reflexivity].
Defined.

(** ** Stage 4: the ambiguous nodes *)

Lemma pips_annotated_row conn k n :
  pips_annotated conn → row_at (node conn) k = Some n →
  number_pips n = Some (Z.of_nat (length (pips_of_node conn k))).
Proof.
  intros Hann Hn%elem_of_rows.
  by apply (proj1 (Forall_forall _ _) Hann) in Hn.
Qed.







(** The neighbour found by a traversal carries the traversed PIP on the
    wire the neighbour query found. *)
Lemma neighbour_row conn k t :
  traverse conn k = Ok t →
  ∃ w' wr',
    ((w', wr'), (pip_pkey t, pip t)) ∈ pips_of_node conn (other_node_pkey t)
    ∧ wire_wire_in_tile_pkey wr' = other_wire t
    ∧ wire_phy_tile_pkey wr' = phy_tile_pkey t.
Proof.
  intros (wr & rest & o & Hrows & Hwit & Hphy & Hother & Hat & _)%traverse_Ok.
  assert (Hin : ((wire_in_node_pkey t, wr), (pip_pkey t, pip t))
                ∈ pips_of_node conn k) by (rewrite Hrows; left).
  apply elem_of_pips_of_node in Hin as (_ & _ & Hpip & Htouch).
  apply pip_touches_spec in Htouch as (Hdir & Hpseudo & Htouch).
  assert (Hsome : Some (other_node_pkey t)
                  ∈ wires_at conn (other_wire t) (phy_tile_pkey t))
    by (rewrite Hat; left).
  unfold wires_at in Hsome.
  apply list_elem_of_fmap in Hsome
    as (wr' & Hnode & [[Hwit' Hphy'] [i Hi]%list_elem_of_lookup]%list_elem_of_filter).
  exists (S i), wr'. split_and!; [|done..].
  apply elem_of_pips_of_node. split_and!; [done..|].
  apply pip_touches_spec. split_and!; [done..|].
  rewrite Hwit', Hother. destruct (decide _); [by right|by left].
Qed.

(** In an annotated table the neighbour of a traversed node has a PIP. *)
Lemma neighbour_pips conn k t p :
  pips_annotated conn → traverse conn k = Ok t →
  other_number_pips t = Some p → (1 ≤ p)%Z.
Proof.
  intros Hann Ht Hp.
  destruct (traverse_other_facts _ _ _ Ht) as (o & Ho & Hpo & _).
  rewrite (pips_annotated_row _ _ _ Hann Ho) in Hpo.
  destruct (neighbour_row _ _ _ Ht) as (w' & wr' & Hin & _).
  destruct (pips_of_node conn (other_node_pkey t)) as [|r l];
    [by apply elem_of_nil in Hin|].
  simpl in Hpo. rewrite Hp in Hpo. injection Hpo as <-. lia.
Qed.

(** The visit of an ambiguous node is the one its traversal dictates. *)
Lemma visit_of_ambiguous conn vs k s t :
  (∀ k s, ambiguous conn k s ↔ (k, s) ∈ vs.*1) →
  Forall (λ v, traverse conn v.1.1 = Ok v.2) vs →
  ambiguous conn k s → traverse conn k = Ok t → ((k, s), t) ∈ vs.
Proof.
  intros Hvs Hts Hamb Ht.
  apply Hvs in Hamb as ([[k' s'] t'] & [= <- <-] & Hv)%list_elem_of_fmap.
  assert (Ht' := proj1 (Forall_forall _ _) Hts _ Hv). simpl in Ht'.
  rewrite Ht in Ht'. by injection Ht' as <-.
Qed.

(** C4.  In an annotated table, when the neighbour across the single PIP
    of an ambiguous node has no site-pin wire and PIP count at most 1, a
    run that succeeds classifies both the node and the neighbour NULL. *)
Theorem stub_pair_is_null conn conn' k s t p :
  pips_annotated conn →
  classify_nodes conn = Ok conn' →
  ambiguous conn k s →
  traverse conn k = Ok t →
  facts conn (other_node_pkey t) (Some p) None → (p ≤ 1)%Z →
  class_of conn' k = Some NULL
  ∧ class_of conn' (other_node_pkey t) = Some NULL.
Proof.
  intros Hann (vs & Hvs & _ & Hts & Hrow & _)%classify_nodes_visits
    Hamb Ht (o & Ho & Hpo & Hso) Hle.
  destruct (traverse_other_facts _ _ _ Ht) as (o' & Ho' & Hpo' & Hso').
  assert (o' = o) as -> by congruence.
  rewrite Hpo in Hpo'. rewrite Hso in Hso'.
  symmetry in Hpo', Hso'.
  assert (Hge := neighbour_pips _ _ _ _ Hann Ht Hpo').
  assert (p = 1%Z) as -> by lia.
  assert (Hwork : null_nodes (work_of ((k, s), t)) = [k; other_node_pkey t]).
  { rewrite work_of_cases, Hso', Hpo'. done. }
  assert (Hv := visit_of_ambiguous _ _ _ _ _ Hvs Hts Hamb Ht).
  destruct Hamb as (n & Hn & _).
  unfold class_of. rewrite !Hrow, Hn, Ho. simpl.
  rewrite !final_class_null; [done|..];
    apply elem_of_null_nodes_work; exists ((k, s), t);
    (split; [done|]); rewrite Hwork; set_solver.
Qed.

Lemma stub_pair_is_null_witness :
  pips_annotated example_annotated
  ∧ classify_nodes example_annotated = Ok example_classified
  ∧ ambiguous example_annotated 3 3
  ∧ (∃ t, traverse example_annotated 3 = Ok t
          ∧ facts example_annotated (other_node_pkey t) (Some 1%Z) None
          ∧ class_of example_classified 3 = Some NULL
          ∧ class_of example_classified (other_node_pkey t) = Some NULL).
Proof.
  assert (Hann : pips_annotated example_annotated) by compute_done.
  assert (Hamb : ambiguous example_annotated 3 3).
  { eexists. split_and!; reflexivity. }
  split; [exact Hann|]. split; [reflexivity|]. split; [exact Hamb|].
  destruct (traverse example_annotated 3) as [t|] eqn:Ht; [|discriminate].
  assert (Hfacts : facts example_annotated (other_node_pkey t) (Some 1%Z) None).
  { injection Ht as <-. eexists. split_and!; reflexivity. }
  exists t. split; [reflexivity|]. split; [exact Hfacts|].
  apply (stub_pair_is_null example_annotated example_classified 3 3 t 1%Z
           Hann eq_refl Hamb Ht Hfacts).
  lia.
Defined.

(** ** Stage 4: pairs of site pins joined by one PIP *)

Lemma row_at_elem_of {A : Type} (t : list A) (k : pkey) (r : A) :
  row_at t k = Some r → r ∈ t.
Proof.
  destruct k as [|i]; simpl; [done|]. intros Hi.
  apply list_elem_of_lookup. by exists i.
Qed.







Section visits.

Context (conn : connection) (vs : list ((pkey * pkey) * traversal)).
Hypothesis Hvs : ∀ k s, ambiguous conn k s ↔ (k, s) ∈ vs.*1.
Hypothesis Hts : Forall (λ v, traverse conn v.1.1 = Ok v.2) vs.




End visits.

Lemma length_filter_fmap {A B : Type} (f : A → B) (P : B → Prop)
    `{∀ b, Decision (P b)} (l : list A) :
  length (filter (λ a, P (f a)) l) = length (filter P (f <$> l)).
Proof.
  induction l as [|a l IH]; [done|].
  rewrite fmap_cons, !filter_cons. destruct (decide (P (f a))); simpl; lia.
Qed.





(** ** Stage 3: the annotator *)

Lemma elem_of_group_count {K : Type} `{EqDecision K} (keys : list K) k c :
  (k, c) ∈ group_count keys
  ↔ k ∈ keys ∧ c = Z.of_nat (length (filter (k =.) keys)).
Proof.
  unfold group_count. rewrite list_elem_of_fmap. split.
  - intros (k' & Heq & Hk). rewrite elem_of_remove_dups in Hk.
    injection Heq as -> ->. done.
  - intros [Hk ->]. exists k. split; [done|]. by apply elem_of_remove_dups.
Qed.

Lemma group_count_fst {K : Type} `{EqDecision K} (keys : list K) :
  (group_count keys).*1 = remove_dups keys.
Proof.
  unfold group_count. rewrite <- list_fmap_compose.
  induction (remove_dups keys) as [|k l IH]; [done|].
  rewrite fmap_cons. simpl. by rewrite IH.
Qed.

Lemma group_count_scalar {K : Type} `{EqDecision K} (keys : list K) k :
  k ∈ keys →
  scalar ((filter (λ r, r.1 = k) (group_count keys)).*2)
  = Some (Z.of_nat (length (filter (k =.) keys))).
Proof.
  intros Hk. rewrite <- elem_of_remove_dups in Hk. unfold group_count.
  induction (remove_dups keys) as [|k' l IH]; [by apply elem_of_nil in Hk|].
  rewrite fmap_cons, filter_cons. simpl.
  destruct (decide (k' = k)) as [->|Hne]; [done|].
  apply IH. apply elem_of_cons in Hk as [?|?]; [congruence|done].
Qed.

Lemma foldr_max_ge (l : list Z) y x :
  x = y ∨ x ∈ l → (x ≤ foldr Z.max y l)%Z.
Proof.
  induction l as [|z l IH]; simpl.
  - intros [->|?%elem_of_nil]; [lia|done].
  - intros [->|[->|Hx]%elem_of_cons].
    + specialize (IH (or_introl eq_refl)). lia.
    + lia.
    + specialize (IH (or_intror Hx)). lia.
Qed.

Lemma sql_max_ge (l : list Z) x :
  x ∈ l → ∃ m, sql_max l = Some m ∧ (x ≤ m)%Z.
Proof.
  destruct l as [|y l]; [by intros ?%elem_of_nil|]. simpl.
  intros Hx%elem_of_cons. eexists. split; [done|]. by apply foldr_max_ge.
Qed.

Lemma sql_max_elem_of (l : list Z) m : sql_max l = Some m → m ∈ l.
Proof.
  destruct l as [|y l]; [done|]. simpl. intros [= <-].
  induction l as [|z l IH]; simpl; [left|].
  destruct (Z.max_spec z (foldr Z.max y l)) as [[_ ->]|[_ ->]].
  - apply elem_of_cons in IH as [->|IH]; [left|]. right. by right.
  - right. left.
Qed.

Lemma elem_of_site_pin_wires conn wp wit w wr :
  ((wp, wit), (w, wr)) ∈ site_pin_wires conn
  ↔ row_at (wire_in_tile conn) wp = Some wit
    ∧ row_at (wire conn) w = Some wr
    ∧ wire_wire_in_tile_pkey wr = wp
    ∧ is_Some (wire_in_tile_site_pin_pkey wit).
Proof.
  unfold site_pin_wires, has_site_pin.
  rewrite elem_of_inner_join, !elem_of_rows, andb_True, !bool_decide_spec.
  simpl. naive_solver.
Qed.

(** The site-pin wires of a node, in plain terms. *)
Lemma elem_of_site_pin_wires_of conn k w :
  w ∈ site_pin_wires_of conn k
  ↔ ∃ wr wit,
      row_at (wire conn) w = Some wr ∧ wire_node_pkey wr = Some k
      ∧ row_at (wire_in_tile conn) (wire_wire_in_tile_pkey wr) = Some wit
      ∧ is_Some (wire_in_tile_site_pin_pkey wit).
Proof.
  unfold site_pin_wires_of, site_wires. split.
  - intros ([w' o] & -> & [Ho Hin]%list_elem_of_filter)%list_elem_of_fmap.
    apply list_elem_of_fmap in Hin as ([[wp wit] [w'' wr]] & [= -> ->] & Hin).
    simpl in *. apply elem_of_site_pin_wires in Hin as (Hwit & Hw & <- & Hpin).
    by exists wr, wit.
  - intros (wr & wit & Hw & Hk & Hwit & Hpin).
    apply list_elem_of_fmap. exists (w, Some k). split; [done|].
    apply list_elem_of_filter. split; [done|].
    apply list_elem_of_fmap.
    exists ((wire_wire_in_tile_pkey wr, wit), (w, wr)). simpl.
    split; [by rewrite Hk|]. by apply elem_of_site_pin_wires.
Qed.

Lemma length_site_pin_wires_of conn k :
  length (site_pin_wires_of conn k)
  = length (filter (Some k =.)
              ((λ r, wire_node_pkey r.2.2) <$> site_pin_wires conn)).
Proof.
  unfold site_pin_wires_of, site_wires. rewrite length_fmap.
  induction (site_pin_wires conn) as [|r l IH]; [done|].
  rewrite !fmap_cons, !filter_cons. simpl.
  destruct (decide (wire_node_pkey r.2.2 = Some k)) as [Heq|Hne].
  - rewrite decide_True by done. simpl. by rewrite IH.
  - by rewrite decide_False by congruence.
Qed.

Lemma assign_site_wires_row conn k :
  row_at (node (assign_site_wires conn)) k
  = set_site_wire_pkey (scalar (site_pin_wires_of conn k))
    <$> row_at (node conn) k.
Proof.
  unfold assign_site_wires. simpl. by rewrite row_at_update_where.
Qed.

Lemma insert_pip_counts_row conn k :
  row_at (node (insert_pip_counts conn)) k
  = (λ n, if decide (Some k ∈ (node_pip_count conn).*1)
          then set_number_pips
                 (scalar ((filter (λ r, r.1 = Some k)
                                  (node_pip_count conn)).*2)) n
          else n) <$> row_at (node conn) k.
Proof.
  unfold insert_pip_counts. simpl. rewrite row_at_update_where.
  destruct (row_at (node conn) k); simpl; [|done].
  rewrite bool_decide_decide. by destruct (decide _).
Qed.

Lemma count_sites_and_pips_on_nodes_Ok conn conn' :
  count_sites_and_pips_on_nodes conn = Ok conn'
  ↔ sql_max ((node_sites conn).*2) = Some 1%Z
    ∧ conn' = insert_pip_counts (assign_site_wires conn).
Proof.
  unfold count_sites_and_pips_on_nodes. rewrite bind_Ok. split.
  - intros ([] & Hmax%assert_Ok%bool_decide_eq_true & [= <-]). done.
  - intros [Hmax ->]. exists tt. split; [|done].
    by apply assert_Ok, bool_decide_eq_true.
Qed.

(** The number of site-pin wires of a node is one of the counts the
    assertion takes the maximum of. *)
Lemma node_sites_count conn k :
  site_pin_wires_of conn k ≠ [] →
  Z.of_nat (length (site_pin_wires_of conn k)) ∈ (node_sites conn).*2.
Proof.
  intros Hne. apply list_elem_of_fmap.
  exists (Some k, Z.of_nat (length (site_pin_wires_of conn k))).
  split; [done|]. unfold node_sites. apply elem_of_group_count.
  assert (Hlen : length (site_pin_wires_of conn k) ≠ 0).
  { by destruct (site_pin_wires_of conn k). }
  rewrite length_site_pin_wires_of in *. split; [|done].
  set (keys := (λ r, wire_node_pkey r.2.2) <$> site_pin_wires conn) in *.
  destruct (filter (Some k =.) keys) as [|o l] eqn:Hf; [done|].
  assert (Hin : o ∈ filter (Some k =.) keys) by (rewrite Hf; left).
  by apply list_elem_of_filter in Hin as [<- ?].
Qed.

(** C8.  A run of the annotator aborts when some node has more than one
    site-pin wire among its wires; a run that succeeds records for every
    node its site-pin wires, of which there is at most one. *)
Theorem at_most_one_site_wire conn k :
  (1 < length (site_pin_wires_of conn k) →
   count_sites_and_pips_on_nodes conn = Raise AssertionError)
  ∧ (∀ conn' n,
       count_sites_and_pips_on_nodes conn = Ok conn' →
       row_at (node conn') k = Some n →
       site_pin_wires_of conn k = option_list (site_wire_pkey n)).
Proof.
  assert (Hbound : ∀ m, sql_max ((node_sites conn).*2) = Some m →
                        (Z.of_nat (length (site_pin_wires_of conn k)) ≤ m)%Z).
  { intros m Hm.
    destruct (site_pin_wires_of conn k) as [|w l] eqn:Hl.
    - apply sql_max_elem_of, list_elem_of_fmap in Hm as ([o c] & -> & Hin).
      apply elem_of_group_count in Hin as [_ ->]. simpl. lia.
    - rewrite <- Hl.
      destruct (sql_max_ge _ _ (node_sites_count conn k ltac:(by rewrite Hl)))
        as (m' & Hm' & Hle). congruence. }
  split.
  - intros Hlen. unfold count_sites_and_pips_on_nodes.
    destruct (sql_max ((node_sites conn).*2)) as [m|] eqn:Hm.
    + specialize (Hbound m eq_refl).
      rewrite bool_decide_false; [done|]. intros [= ->]. lia.
    + by rewrite bool_decide_false.
  - intros conn' n [Hmax ->]%count_sites_and_pips_on_nodes_Ok.
    specialize (Hbound _ Hmax).
    rewrite insert_pip_counts_row, assign_site_wires_row.
    destruct (row_at (node conn) k) as [n0|]; simpl; [|done].
    intros [= <-].
    assert (site_wire_pkey
              (if decide (Some k ∈ (node_pip_count (assign_site_wires conn)).*1)
               then set_number_pips
                      (scalar ((filter (λ r, r.1 = Some k)
                          (node_pip_count (assign_site_wires conn))).*2))
                      (set_site_wire_pkey
                         (scalar (site_pin_wires_of conn k)) n0)
               else set_site_wire_pkey (scalar (site_pin_wires_of conn k)) n0)
            = scalar (site_pin_wires_of conn k)) as ->
      by (by destruct (decide _)).
    destruct (site_pin_wires_of conn k) as [|w [|w' l]]; simpl in *;
      [done..|lia].
Qed.

Lemma at_most_one_site_wire_witness :
  (1 < length (site_pin_wires_of two_pins_nodes 1)
   ∧ count_sites_and_pips_on_nodes two_pins_nodes = Raise AssertionError)
  ∧ (count_sites_and_pips_on_nodes example_nodes = Ok example_annotated
     ∧ site_pin_wires_of example_nodes 1 = [1]
     ∧ site_wire_pkey <$> row_at (node example_annotated) 1 = Some (Some 1)).
Proof.
  split.
  - assert (Hlen : 1 < length (site_pin_wires_of two_pins_nodes 1))
      by (vm_compute; lia).
    split; [exact Hlen|].
    exact (proj1 (at_most_one_site_wire two_pins_nodes 1) Hlen).
  - split; [reflexivity|]. split; [|reflexivity].
    destruct (row_at (node example_annotated) 1) as [n|] eqn:Hn;
      [|discriminate].
    rewrite (proj2 (at_most_one_site_wire example_nodes 1) example_annotated n
               eq_refl Hn).
    by injection Hn as <-.
Defined.

(** C9.  The assertion compares the maximum with 1, so the annotator
    also aborts on a fabric whose wires all belong to nodes and in which
    no node has a site-pin wire: the maximum over no group is [NULL]. *)
Theorem no_site_pin_aborts conn :
  Forall (λ wr, is_Some (wire_node_pkey wr)) (wire conn) →
  (∀ k, site_pin_wires_of conn k = []) →
  count_sites_and_pips_on_nodes conn = Raise AssertionError.
Proof.
  intros Hassigned Hnone.
  assert (Hempty : site_pin_wires conn = []).
  { destruct (site_pin_wires conn) as [|[[wp wit] [w wr]] l] eqn:Hl; [done|].
    assert (Hin : ((wp, wit), (w, wr)) ∈ site_pin_wires conn)
      by (rewrite Hl; left).
    apply elem_of_site_pin_wires in Hin as (Hwit & Hw & <- & Hpin).
    destruct (proj1 (Forall_forall _ _) Hassigned wr) as [k Hk].
    { by eapply row_at_elem_of. }
    assert (Hin : w ∈ site_pin_wires_of conn k).
    { apply elem_of_site_pin_wires_of. by exists wr, wit. }
    rewrite Hnone in Hin. by apply elem_of_nil in Hin. }
  unfold count_sites_and_pips_on_nodes, node_sites. by rewrite Hempty.
Qed.

Lemma no_site_pin_aborts_witness :
  Forall (λ wr, is_Some (wire_node_pkey wr)) (wire scenario_a_nodes)
  ∧ (∀ k, site_pin_wires_of scenario_a_nodes k = [])
  ∧ count_sites_and_pips_on_nodes scenario_a_nodes = Raise AssertionError.
Proof.
  assert (Hassigned :
            Forall (λ wr, is_Some (wire_node_pkey wr)) (wire scenario_a_nodes))
    by compute_done.
  assert (Hnone : ∀ k, site_pin_wires_of scenario_a_nodes k = [])
    by (intros k; reflexivity).
  split; [exact Hassigned|]. split; [exact Hnone|].
  exact (no_site_pin_aborts scenario_a_nodes Hassigned Hnone).
Defined.

(** The annotator leaves the wires alone. *)
Lemma count_sites_and_pips_on_nodes_wire conn conn' :
  count_sites_and_pips_on_nodes conn = Ok conn' →
  wire conn' = wire conn ∧ pip_in_tile conn' = pip_in_tile conn
  ∧ wire_in_tile conn' = wire_in_tile conn
  ∧ length (node conn') = length (node conn).
Proof.
  intros [_ ->]%count_sites_and_pips_on_nodes_Ok.
  unfold insert_pip_counts, assign_site_wires. simpl.
  by rewrite !length_update_where.
Qed.

(** The count of a group of [node_pip_count] is the number of rows of the
    traversal query of the node. *)
Lemma node_pip_count_length conn k :
  length (filter (Some k =.)
            ((λ r, wire_node_pkey r.2.2) <$>
             inner_join (rows (pip_in_tile conn)) (rows (wire conn))
               (λ p w, pip_touches p.2 (wire_wire_in_tile_pkey w.2))))
  = length (pips_of_node conn k).
Proof.
  rewrite <- (length_filter_fmap (λ r, wire_node_pkey r.2.2) (Some k =.)).
  unfold pips_of_node, wire_in_node.
  rewrite <- (length_filter_inner_join_r
                (λ w : pkey * wire_row, wire_node_pkey w.2 = Some k)).
  f_equal. apply list_filter_iff. intros r. simpl. naive_solver.
Qed.

(** Stage 3 establishes the annotation stage 4 relies on, when the PIP
    counts start at 0 as stage 2 inserts them. *)
Lemma count_sites_and_pips_on_nodes_annotates conn conn' :
  Forall (λ n, number_pips n = Some 0%Z) (node conn) →
  count_sites_and_pips_on_nodes conn = Ok conn' →
  pips_annotated conn' ∧ site_wires_annotated conn'.
Proof.
  intros Hzero Hrun.
  destruct (count_sites_and_pips_on_nodes_wire _ _ Hrun)
    as (Hwire & Hpip & _ & _).
  apply count_sites_and_pips_on_nodes_Ok in Hrun as [Hmax ->].
  split.
  - apply Forall_forall. intros [k n] Hn%elem_of_rows. simpl.
    assert (pips_of_node (insert_pip_counts (assign_site_wires conn)) k
            = pips_of_node conn k) as -> by done.
    rewrite insert_pip_counts_row, assign_site_wires_row in Hn.
    destruct (row_at (node conn) k) as [n0|] eqn:Hn0; simplify_eq/=.
    assert (Hp0 : number_pips n0 = Some 0%Z).
    { apply row_at_elem_of in Hn0.
      by apply (proj1 (Forall_forall _ _) Hzero). }
    rewrite <- node_pip_count_length.
    set (keys := (λ r : pkey * pip_in_tile_row * (pkey * wire_row),
                    wire_node_pkey r.2.2) <$>
                 inner_join (rows (pip_in_tile conn)) (rows (wire conn))
                   (λ p w, pip_touches p.2 (wire_wire_in_tile_pkey w.2))).
    change (node_pip_count (assign_site_wires conn))
      with (group_count keys).
    destruct (decide (Some k ∈ (group_count keys).*1)) as [Hin|Hnin].
    + rewrite group_count_fst, elem_of_remove_dups in Hin. simpl.
      by rewrite group_count_scalar.
    + rewrite group_count_fst, elem_of_remove_dups in Hnin. simpl.
      rewrite Hp0.
      destruct (filter (Some k =.) keys) as [|o l] eqn:Hf; [done|].
      destruct Hnin.
      assert (Hin : o ∈ o :: l) by left. rewrite <- Hf in Hin.
      by apply list_elem_of_filter in Hin as [<- ?].
  - apply Forall_forall. intros [k n] Hn%elem_of_rows. simpl.
    rewrite insert_pip_counts_row, assign_site_wires_row in Hn.
    destruct (row_at (node conn) k) as [n0|] eqn:Hn0; simplify_eq/=.
    assert (site_wire_pkey
              (if decide (Some k ∈ (node_pip_count (assign_site_wires conn)).*1)
               then set_number_pips
                      (scalar ((filter (λ r, r.1 = Some k)
                          (node_pip_count (assign_site_wires conn))).*2))
                      (set_site_wire_pkey
                         (scalar (site_pin_wires_of conn k)) n0)
               else set_site_wire_pkey (scalar (site_pin_wires_of conn k)) n0)
            = scalar (site_pin_wires_of conn k)) as ->
      by (by destruct (decide _)).
    destruct (site_pin_wires_of conn k) as [|w l] eqn:Hl; simpl; [done|].
    assert (Hin : w ∈ site_pin_wires_of conn k) by (rewrite Hl; left).
    apply elem_of_site_pin_wires_of in Hin as (wr & wit & Hw & Hk & _).
    apply bool_decide_pack.
    change (wire (insert_pip_counts (assign_site_wires conn)))
      with (wire conn).
    by rewrite Hw, <- Hk.
Qed.

(** ** Stage 2: the shared sets *)

Lemma deref_new_set_old wire_pkey o l :
  l < length (heap o) → deref (new_set wire_pkey o).2 l = deref o l.
Proof.
  intros Hl. unfold deref, new_set. simpl. by rewrite lookup_app_l.
Qed.

Lemma deref_new_set_new wire_pkey o :
  deref (new_set wire_pkey o).2 (new_set wire_pkey o).1 = {[wire_pkey]}.
Proof.
  unfold deref, new_set. simpl. by rewrite list_lookup_middle.
Qed.

Lemma foldr_wires_set_heap v ws o :
  heap (foldr (λ w o, wires_set w v o) o ws) = heap o.
Proof. induction ws as [|w ws IH]; simpl; [done|]. done. Qed.

Lemma foldr_wires_set_lookup v ws o w :
  wires (foldr (λ w o, wires_set w v o) o ws) !! w
  = if decide (w ∈ ws) then Some v else wires o !! w.
Proof.
  induction ws as [|w' ws IH]; simpl; [done|].
  destruct (decide (w' = w)) as [->|Hne].
  - rewrite lookup_insert_eq. by rewrite decide_True by left.
  - rewrite lookup_insert_ne by done. rewrite IH.
    destruct (decide (w ∈ ws)) as [Hin|Hnin].
    + by rewrite decide_True by (by right).
    + rewrite decide_False; [done|].
      intros [?|?]%elem_of_cons; by simplify_eq.
Qed.

Lemma foldr_wires_set_keys v ws o :
  (∀ w, w ∈ ws → w ∈ wires_keys o) →
  wires_keys (foldr (λ w o, wires_set w v o) o ws) = wires_keys o.
Proof.
  induction ws as [|w ws IH]; intros Hws; simpl; [done|].
  rewrite IH by (intros; apply Hws; by right).
  rewrite decide_True; [done|]. apply Hws. left.
Qed.

Lemma merge_heap a b o :
  heap (merge a b o) = <[a := deref o a ∪ deref o b]> (heap o).
Proof. unfold merge. by rewrite foldr_wires_set_heap. Qed.

Lemma merge_lookup a b o w :
  wires (merge a b o) !! w
  = if decide (w ∈ deref o a ∪ deref o b) then Some (Some a)
    else wires o !! w.
Proof.
  unfold merge. rewrite foldr_wires_set_lookup. simpl.
  destruct (decide (w ∈ elements _)) as [Hin|Hnin].
  - rewrite elem_of_elements in Hin. by rewrite decide_True.
  - rewrite elem_of_elements in Hnin. by rewrite decide_False.
Qed.

Lemma merge_keys a b o :
  (∀ w, w ∈ deref o a ∪ deref o b → w ∈ wires_keys o) →
  wires_keys (merge a b o) = wires_keys o.
Proof.
  intros Hws. unfold merge. rewrite foldr_wires_set_keys; [done|].
  intros w Hw%elem_of_elements. by apply Hws.
Qed.

Lemma deref_merge a b o l :
  a < length (heap o) →
  deref (merge a b o) l
  = if decide (l = a) then deref o a ∪ deref o b else deref o l.
Proof.
  intros Ha. unfold deref at 1. rewrite merge_heap.
  destruct (decide (l = a)) as [->|Hne].
  - by rewrite list_lookup_insert_eq.
  - by rewrite list_lookup_insert_ne.
Qed.

Lemma merge_ok a b o :
  objects_ok o → mergeable o a → mergeable o b →
  objects_ok (merge a b o).
Proof.
  intros (Hnd & Hkeys & Hmem & Hall) (Ha & Hka & Hsa) (Hb & Hkb & Hsb).
  assert (Hk : ∀ w, w ∈ deref o a ∪ deref o b → w ∈ wires_keys o).
  { intros w [?|?]%elem_of_union; auto. }
  unfold objects_ok. rewrite merge_keys by done.
  split_and!; [done|..].
  - intros w. rewrite merge_lookup.
    destruct (decide _) as [Hin|Hnin]; [|apply Hkeys].
    split; [done|]. intros _. by apply Hk.
  - intros w l. rewrite merge_lookup, merge_heap, length_insert.
    rewrite deref_merge by done.
    destruct (decide (w ∈ _)) as [Hin|Hnin].
    + intros [= <-]. by rewrite decide_True.
    + intros Hw. destruct (Hmem _ _ Hw) as [Hwl Hl].
      rewrite decide_False; [done|]. intros ->. set_solver.
  - intros w w' l. rewrite !merge_lookup. rewrite deref_merge by done.
    destruct (decide (w ∈ _)) as [Hin|Hnin].
    + intros [= <-]. rewrite decide_True by done. intros Hw'.
      by rewrite decide_True.
    + intros Hw. destruct (Hmem _ _ Hw) as [Hwl Hl].
      rewrite decide_False by (intros ->; set_solver).
      intros Hw'. assert (Hold := Hall _ _ _ Hw Hw').
      rewrite decide_False; [done|].
      intros [Hin|Hin]%elem_of_union.
      * destruct Hsa as [Hsa|[Hsa _]]; apply Hsa in Hin; [|congruence].
        assert (l = a) as -> by congruence. set_solver.
      * destruct Hsb as [Hsb|[Hsb _]]; apply Hsb in Hin; [|congruence].
        assert (l = b) as -> by congruence. set_solver.
Qed.

Lemma new_set_ok w o :
  objects_ok o → objects_ok (new_set w o).2.
Proof.
  intros (Hnd & Hkeys & Hmem & Hall). unfold objects_ok.
  change (wires (new_set w o).2) with (wires o).
  change (wires_keys (new_set w o).2) with (wires_keys o).
  split_and!; [done..| |].
  - intros w' l Hw'. destruct (Hmem _ _ Hw') as [Hin Hl].
    rewrite deref_new_set_old by done. split; [done|].
    unfold new_set. simpl. rewrite length_app. lia.
  - intros w1 w2 l Hw1. destruct (Hmem _ _ Hw1) as [Hin Hl].
    rewrite deref_new_set_old by done. by apply (Hall _ _ _ Hw1).
Qed.

Lemma mergeable_new_set_old w o l :
  objects_ok o → mergeable o l → mergeable (new_set w o).2 l.
Proof.
  intros Hok (Hl & Hk & Hs). unfold mergeable.
  rewrite deref_new_set_old by done. split_and!; [|done..].
  unfold new_set. simpl. rewrite length_app. lia.
Qed.

(** The set of a wire that refers to one is mergeable. *)
Lemma mergeable_referred o w l :
  objects_ok o → wires o !! w = Some (Some l) → mergeable o l.
Proof.
  intros (Hnd & Hkeys & Hmem & Hall) Hw.
  destruct (Hmem _ _ Hw) as [Hin Hl]. split_and!; [done| |].
  - intros w' Hw'. apply Hkeys. by rewrite (Hall _ _ _ Hw Hw').
  - left. intros w' Hw'. by apply (Hall _ _ _ Hw).
Qed.

(** The set just made for a wire that refers to none is mergeable. *)
Lemma mergeable_new_set w o :
  objects_ok o → wires o !! w = Some None →
  mergeable (new_set w o).2 (new_set w o).1.
Proof.
  intros (Hnd & Hkeys & Hmem & Hall) Hw. unfold mergeable.
  rewrite deref_new_set_new. split_and!.
  - unfold new_set. simpl. rewrite length_app. simpl. lia.
  - intros w' ->%elem_of_singleton. apply Hkeys. by rewrite Hw.
  - right. split.
    + by intros w' ->%elem_of_singleton.
    + intros w' Hw'. apply Hmem in Hw' as [_ Hl].
      unfold new_set in Hl. simpl in Hl. lia.
Qed.

Lemma merge_untouched a b o w :
  objects_ok o → mergeable o a → mergeable o b →
  w ∉ deref o a → w ∉ deref o b →
  wires (merge a b o) !! w = wires o !! w.
Proof.
  intros _ _ _ Ha Hb. rewrite merge_lookup.
  rewrite decide_False; [done|]. by intros [?|?]%elem_of_union.
Qed.

(** A wire that refers to no set is in no mergeable set but its own. *)
Lemma mergeable_not_elem o l w :
  objects_ok o → mergeable o l → wires o !! w = Some None →
  (∀ w', w' ∈ deref o l → wires o !! w' = Some (Some l)) → w ∉ deref o l.
Proof. intros _ _ Hw Hall Hin. apply Hall in Hin. congruence. Qed.

(** One connection: the loop body succeeds on known wires, keeps the
    invariant and the keys, and leaves alone the wires that refer to no
    set and are not an endpoint. *)
Lemma connect_spec m o c a b :
  objects_ok o →
  m !! c.1 = Some a → m !! c.2 = Some b →
  a ∈ wires_keys o → b ∈ wires_keys o →
  ∃ o', connect m o c = Ok o' ∧ objects_ok o'
        ∧ wires_keys o' = wires_keys o
        ∧ (∀ w, w ≠ a → w ≠ b → wires o !! w = Some None →
                wires o' !! w = Some None).
Proof.
  intros Hok Hma Hmb Ha Hb.
  assert (Hkeys := proj1 (proj2 Hok)).
  destruct (proj1 (Hkeys a) Ha) as [va Hva].
  destruct (proj1 (Hkeys b) Hb) as [vb Hvb].
  unfold connect, wires_get. rewrite Hma, Hmb, Hva, Hvb. simpl.
  assert (Hstep : ∀ o1 la lb,
            objects_ok o1 → mergeable o1 la → mergeable o1 lb →
            wires_keys o1 = wires_keys o → wires o1 = wires o →
            (∀ w, w ≠ a → w ≠ b → wires o !! w = Some None → w ∉ deref o1 la) →
            (∀ w, w ≠ a → w ≠ b → wires o !! w = Some None → w ∉ deref o1 lb) →
            ∃ o', (if decide (la ≠ lb) then Ok (merge la lb o1) else Ok o1)
                  = Ok o'
                  ∧ objects_ok o' ∧ wires_keys o' = wires_keys o
                  ∧ (∀ w, w ≠ a → w ≠ b → wires o !! w = Some None →
                          wires o' !! w = Some None)).
  { intros o1 la lb Hok1 Hla Hlb Hk1 Hw1 Hna Hnb.
    destruct (decide (la ≠ lb)).
    - eexists. split_and!; [done|by apply merge_ok| |].
      + rewrite merge_keys; [done|].
        intros w [?|?]%elem_of_union; [by apply Hla|by apply Hlb].
      + intros w ? ? Hw. rewrite merge_untouched; [by rewrite Hw1|done..| |];
          auto.
    - eexists. split_and!; [done..|]. intros w _ _ Hw. by rewrite Hw1. }
  assert (Hreferred : ∀ o1 w0 l,
            objects_ok o1 → wires o1 = wires o →
            wires o !! w0 = Some (Some l) →
            ∀ w, wires o !! w = Some None → w ∉ deref o1 l).
  { intros o1 w0 l Hok1 Hw1 Hw0 w Hw Hin.
    destruct Hok1 as (_ & _ & _ & Hall1). rewrite <- Hw1 in Hw0, Hw.
    rewrite (Hall1 _ _ _ Hw0 Hin) in Hw. done. }
  destruct va as [la|], vb as [lb|]; simpl.
  - apply Hstep; [done|by eapply mergeable_referred..|done|done| |];
      intros w _ _; by eapply Hreferred.
  - apply Hstep.
    + by apply new_set_ok.
    + apply mergeable_new_set_old; [done|]. by eapply mergeable_referred.
    + by apply mergeable_new_set.
    + done.
    + done.
    + intros w _ _. eapply Hreferred; [by apply new_set_ok|done..].
    + intros w _ Hne _. unfold deref, new_set. simpl.
      rewrite list_lookup_middle by done. simpl. set_solver.
  - apply Hstep.
    + by apply new_set_ok.
    + by apply mergeable_new_set.
    + eapply mergeable_referred; [by apply new_set_ok|done].
    + done.
    + done.
    + intros w Hne _ _. unfold deref, new_set. simpl.
      rewrite list_lookup_middle by done. simpl. set_solver.
    + intros w _ _. eapply Hreferred; [by apply new_set_ok|done..].
  - assert (Hok1 := new_set_ok a o Hok).
    apply (Hstep (new_set b (new_set a o).2).2 (new_set a o).1
             (new_set b (new_set a o).2).1).
    + by apply new_set_ok.
    + apply mergeable_new_set_old; [done|]. by apply mergeable_new_set.
    + by apply (mergeable_new_set b (new_set a o).2).
    + done.
    + done.
    + intros w Hne _ _. unfold deref, new_set. simpl.
      rewrite lookup_app_l by (rewrite length_app; simpl; lia).
      rewrite list_lookup_middle by done. simpl. set_solver.
    + intros w _ Hne _. unfold deref, new_set. simpl.
      rewrite list_lookup_middle by (by rewrite length_app). simpl.
      set_solver.
Qed.

Lemma connections_spec m cs o :
  objects_ok o →
  Forall (λ c, ∃ a b, m !! c.1 = Some a ∧ m !! c.2 = Some b
                      ∧ a ∈ wires_keys o ∧ b ∈ wires_keys o) cs →
  ∃ o', foldM (connect m) o cs = Ok o' ∧ objects_ok o'
        ∧ wires_keys o' = wires_keys o
        ∧ (∀ w, Forall (λ c, m !! c.1 ≠ Some w ∧ m !! c.2 ≠ Some w) cs →
                wires o !! w = Some None → wires o' !! w = Some None).
Proof.
  revert o. induction cs as [|c cs IH]; intros o Hok Hcs; simpl.
  - by exists o.
  - apply Forall_cons in Hcs as [(a & b & Hma & Hmb & Ha & Hb) Hcs].
    destruct (connect_spec m o c a b Hok Hma Hmb Ha Hb)
      as (o1 & Hrun & Hok1 & Hkeys1 & Hnone1).
    destruct (IH o1 Hok1) as (o' & Hrun' & Hok' & Hkeys' & Hnone').
    { by rewrite Hkeys1. }
    exists o'. rewrite Hrun. simpl. split_and!; [done..|congruence|].
    intros w [[Hwa Hwb] Hw]%Forall_cons Hnone. apply Hnone'; [done|].
    apply Hnone1; [congruence..|done].
Qed.

(** One turn of the collecting loop, for a wire not seen before. *)
Lemma collect_spec o0 ws st w v :
  objects_ok o0 → collected o0 ws st →
  wires o0 !! w = Some v → w ∉ ws →
  ∃ st', collect st (w, v) = Ok st' ∧ collected o0 (ws ++ [w]) st'.
Proof.
  intros (Hnd & Hkeys & Hmem & Hall)
    (Hw & Hold & Hlen & Hnodes & Horigin & Hseen & Hdisj) Hv Hnew.
  destruct st as [o nodes]. simpl in *. destruct v as [l|].
  - (* the wire refers to a set *)
    destruct (Hmem _ _ Hv) as [Hin Hl]. simpl.
    rewrite bool_decide_true by (by rewrite Hold). simpl.
    eexists. split; [done|]. unfold collected. simpl.
    split_and!; [done..| | | |].
    + destruct (decide (l ∈ nodes)); [done|].
      apply NoDup_app. split_and!; [done| |apply NoDup_singleton].
      by intros l' Hl' ->%list_elem_of_singleton.
    + intros l' Hl'.
      assert (Hcase : l' ∈ nodes ∨ l' = l).
      { destruct (decide (l ∈ nodes)); [by left|].
        apply elem_of_app in Hl' as [?|?%list_elem_of_singleton]; auto. }
      destruct Hcase as [Hl''| ->].
      * destruct (Horigin _ Hl'') as [(w' & Hw' & Hr)|(Hfresh & w' & Hw' & Hr)].
        -- left. exists w'. split; [|done]. apply elem_of_app. by left.
        -- right. split; [done|]. exists w'. split; [|done].
           apply elem_of_app. by left.
      * left. exists w. split; [|done]. apply elem_of_app. right. left.
    + intros w' [Hw'| ->%list_elem_of_singleton]%elem_of_app.
      * destruct (Hseen _ Hw') as (l' & Hl' & Hin'). exists l'.
        split; [|done]. destruct (decide (l ∈ nodes)); [done|].
        apply elem_of_app. by left.
      * exists l. rewrite Hold by done. split; [|done].
        destruct (decide (l ∈ nodes)); [done|]. apply elem_of_app.
        right. left.
    + intros l1 l2 w' Hl1 Hl2 Hf1 Hf2.
      assert (Hcase : ∀ l', l' ∈ (if decide (l ∈ nodes) then nodes
                                  else nodes ++ [l]) →
                length (heap o0) ≤ l' → l' ∈ nodes).
      { intros l' Hl' Hf'. destruct (decide (l ∈ nodes)); [done|].
        apply elem_of_app in Hl' as [?|?%list_elem_of_singleton]; [done|lia]. }
      intros Hd1 Hd2. apply (Hdisj l1 l2 w'); auto.
  - (* the wire refers to no set: a new singleton *)
    simpl. rewrite bool_decide_true.
    2:{ unfold deref. simpl. rewrite list_lookup_middle by done. simpl.
        set_solver. }
    simpl.
    assert (Hfresh : length (heap o) ∉ nodes).
    { intros Hin. destruct (Horigin _ Hin) as [(w' & _ & Hr)|[[_ ?] _]]; [|lia].
      apply Hmem in Hr as [_ ?]. lia. }
    rewrite decide_False by done.
    eexists. split; [done|]. unfold collected. simpl.
    assert (Hderef : ∀ l, l < length (heap o) →
              deref {| heap := heap o ++ [{[w]}]; wires := wires o;
                       wires_keys := wires_keys o |} l = deref o l).
    { intros l Hl. unfold deref. simpl. by rewrite lookup_app_l. }
    assert (Hbound : ∀ l, l ∈ nodes → l < length (heap o)).
    { intros l Hl. destruct (Horigin _ Hl) as [(w' & _ & Hr)|[[_ ?] _]]; [|lia].
      apply Hmem in Hr as [_ ?]. lia. }
    split_and!; [done| | | | | |].
    + intros l Hl. rewrite Hderef by lia. by apply Hold.
    + rewrite length_app. simpl. lia.
    + apply NoDup_app. split_and!; [done| |apply NoDup_singleton].
      by intros l' Hl' ->%list_elem_of_singleton.
    + intros l' [Hl'| ->%list_elem_of_singleton]%elem_of_app.
      * destruct (Horigin _ Hl') as [(w' & Hw' & Hr)|(Hfr & w' & Hw' & Hr & Hd)].
        -- left. exists w'. split; [|done]. apply elem_of_app. by left.
        -- right. rewrite length_app. simpl. split; [lia|]. exists w'.
           split_and!; [apply elem_of_app; by left|done|].
           rewrite Hderef by lia. done.
      * right. rewrite length_app. simpl. split; [lia|]. exists w.
        split_and!; [apply elem_of_app; right; left|done|].
        unfold deref. simpl. by rewrite list_lookup_middle.
    + intros w' [Hw'| ->%list_elem_of_singleton]%elem_of_app.
      * destruct (Hseen _ Hw') as (l' & Hl' & Hin'). exists l'.
        split; [apply elem_of_app; by left|].
        rewrite Hderef by (by apply Hbound). done.
      * exists (length (heap o)). split; [apply elem_of_app; right; left|].
        unfold deref. simpl. rewrite list_lookup_middle by done. simpl.
        set_solver.
    + assert (Hnew_set :
                deref {| heap := heap o ++ [{[w]}]; wires := wires o;
                         wires_keys := wires_keys o |} (length (heap o))
                = {[w]}).
      { unfold deref. simpl. by rewrite list_lookup_middle. }
      assert (Hother : ∀ l' w', l' ∈ nodes → length (heap o0) ≤ l' →
                deref o l' = {[w']} → w' ≠ w).
      { intros l' w' Hl' Hf' Hd' ->.
        destruct (Horigin _ Hl') as [(w' & _ & Hr)|(_ & w' & Hw' & _ & Hd'')].
        - apply Hmem in Hr as [_ ?]. lia.
        - rewrite Hd' in Hd''.
          assert (w' = w) as -> by set_solver. done. }
      intros l1 l2 w' [Hl1| ->%list_elem_of_singleton]%elem_of_app
        [Hl2| ->%list_elem_of_singleton]%elem_of_app Hf1 Hf2;
        rewrite ?Hnew_set, ?Hderef by (by apply Hbound); intros Hd1 Hd2.
      * by eapply Hdisj.
      * assert (w' = w) as -> by set_solver. by destruct (Hother _ _ Hl1 Hf1 Hd1).
      * assert (w' = w) as -> by set_solver. by destruct (Hother _ _ Hl2 Hf2 Hd2).
      * done.
Qed.

Lemma wires_items_spec o :
  objects_ok o →
  (wires_items o).*1 = wires_keys o
  ∧ ∀ w v, (w, v) ∈ wires_items o → wires o !! w = Some v.
Proof.
  intros (_ & Hkeys & _). unfold wires_items. split.
  - assert (Hall : ∀ w, w ∈ wires_keys o → is_Some (wires o !! w))
      by (intros; by apply Hkeys).
    clear Hkeys. induction (wires_keys o) as [|w ws IH]; [done|]. simpl.
    destruct (Hall w ltac:(left)) as [v Hv]. rewrite Hv. simpl.
    f_equal. apply IH. intros; apply Hall; by right.
  - intros w v (w' & _ & Hw')%list_elem_of_omap.
    destruct (wires o !! w') eqn:Hv; by simplify_eq/=.
Qed.

Lemma collect_all o0 items :
  objects_ok o0 →
  ∀ ws st,
    collected o0 ws st → NoDup (ws ++ items.*1) →
    (∀ w v, (w, v) ∈ items → wires o0 !! w = Some v) →
    ∃ st', foldM collect st items = Ok st'
           ∧ collected o0 (ws ++ items.*1) st'.
Proof.
  intros Hok. induction items as [|[w v] items IH]; intros ws st Hst Hnd Hv.
  - simpl. rewrite app_nil_r. by exists st.
  - rewrite fmap_cons in *. simpl in Hnd.
    assert (Hnew : w ∉ ws).
    { apply NoDup_app in Hnd as (_ & Hdisj & _). intros Hin.
      apply (Hdisj _ Hin). left. }
    destruct (collect_spec o0 ws st w v Hok Hst) as (st1 & Hrun & Hst1);
      [apply Hv; left|done|].
    destruct (IH (ws ++ [w]) st1 Hst1) as (st' & Hrun' & Hst').
    { by rewrite <- app_assoc. }
    { intros; apply Hv; by right. }
    exists st'. simpl. rewrite Hrun. simpl. split; [done|].
    by rewrite <- app_assoc in Hst'.
Qed.

(** From the invariant of the two loops to the partition. *)
Lemma collected_partitions o0 o nodes :
  objects_ok o0 → collected o0 (wires_keys o0) (o, nodes) →
  partitions (deref o <$> nodes) (wires_keys o0)
  ∧ (∀ w, wires o0 !! w = Some None → {[w]} ∈ deref o <$> nodes).
Proof.
  intros (Hnd & Hkeys & Hmem & Hall)
    (Hw & Hold & Hlen & Hnodes & Horigin & Hseen & Hdisj). simpl in *.
  assert (Hmember : ∀ l w, l ∈ nodes → w ∈ deref o l →
            (wires o0 !! w = Some (Some l))
            ∨ (wires o0 !! w = Some None ∧ deref o l = {[w]}
               ∧ length (heap o0) ≤ l)).
  { intros l w Hl Hin.
    destruct (Horigin _ Hl) as [(w' & _ & Hr)|(Hfr & w' & _ & Hr & Hd)].
    - left. destruct (Hmem _ _ Hr) as [_ Hlt].
      rewrite Hold in Hin by done. by apply (Hall _ _ _ Hr).
    - right. rewrite Hd in Hin. apply elem_of_singleton in Hin as ->.
      split_and!; [done..|lia]. }
  assert (Hunique : ∀ l1 l2 w, l1 ∈ nodes → l2 ∈ nodes →
            w ∈ deref o l1 → w ∈ deref o l2 → l1 = l2).
  { intros l1 l2 w Hl1 Hl2 Hin1 Hin2.
    destruct (Hmember _ _ Hl1 Hin1) as [Hr1|(Hn1 & Hd1 & Hf1)],
      (Hmember _ _ Hl2 Hin2) as [Hr2|(Hn2 & Hd2 & Hf2)]; try congruence.
    by eapply Hdisj. }
  split; [split|].
  - intros w Hwk. destruct (Hseen _ Hwk) as (l & Hl & Hin).
    apply list_elem_of_lookup in Hl as [i Hi]. exists i. split.
    + exists (deref o l). by rewrite list_lookup_fmap, Hi.
    + intros j s. rewrite list_lookup_fmap.
      destruct (nodes !! j) as [l'|] eqn:Hj; [|done]. intros [= <-] Hin'.
      assert (l' = l) as ->.
      { eapply Hunique; [by eapply list_elem_of_lookup_2| |done..].
        by eapply list_elem_of_lookup_2. }
      by eapply NoDup_lookup.
  - intros s w (l & -> & Hl)%list_elem_of_fmap Hin. apply Hkeys.
    destruct (Hmember _ _ Hl Hin) as [->|[-> _]]; done.
  - intros w Hnone. destruct (Hseen w) as (l & Hl & Hin).
    { apply Hkeys. by rewrite Hnone. }
    apply list_elem_of_fmap. exists l. split; [|done].
    destruct (Hmember _ _ Hl Hin) as [?|(_ & -> & _)]; [congruence|done].
Qed.

(** The two loops over the Python objects: they succeed when the
    endpoints of the connections are known, and the sets they return
    partition the keys of [wires]; a wire that no connection names is a
    set of its own. *)
Lemma form_nodes_spec m o cs :
  objects_ok o →
  (∀ key w, m !! key = Some w → w ∈ wires_keys o) →
  Forall (known m) cs →
  ∃ o' nodes,
    form_nodes m o cs = Ok (o', nodes)
    ∧ wires_keys o' = wires_keys o
    ∧ partitions nodes (wires_keys o)
    ∧ (∀ w, Forall (apart m w) cs → wires o !! w = Some None →
            {[w]} ∈ nodes).
Proof.
  intros Hok Hm Hcs.
  destruct (connections_spec m cs o Hok) as (o1 & Hrun & Hok1 & Hkeys1 & Hnone1).
  { eapply Forall_impl; [exact Hcs|]. intros c [[a Ha] [b Hb]].
    exists a, b. split_and!; eauto. }
  destruct (wires_items_spec o1 Hok1) as [Hfst Hitems].
  destruct (collect_all o1 (wires_items o1) Hok1 [] (o1, []))
    as ([o2 nodes] & Hrun2 & Hst).
  { unfold collected. simpl. split_and!; try done.
    - constructor.
    - by intros l ?%elem_of_nil.
    - by intros w ?%elem_of_nil.
    - by intros l1 l2 w ?%elem_of_nil. }
  { simpl. rewrite Hfst. apply Hok1. }
  { done. }
  simpl in Hst. rewrite Hfst in Hst.
  destruct (collected_partitions o1 o2 nodes Hok1 Hst) as [Hpart Hsingle].
  exists o1, (deref o2 <$> nodes). unfold form_nodes.
  rewrite Hrun. simpl. rewrite Hrun2. simpl.
  rewrite <- Hkeys1. split_and!; [done..|].
  intros w Hw Hnone. apply Hsingle. by apply Hnone1.
Qed.

Lemma partitions_union nodes ws :
  partitions nodes ws → ⋃ nodes = list_to_set ws.
Proof.
  intros [Hcover Honly]. apply set_eq. intros w.
  rewrite elem_of_union_list, elem_of_list_to_set. split.
  - intros (s & Hs & Hw). by eapply Honly.
  - intros Hw. destruct (Hcover _ Hw) as (i & (s & Hi & Hin) & _).
    exists s. split; [|done]. by eapply list_elem_of_lookup_2.
Qed.

(** ** Stage 2: the rows written *)

Lemma set_node_pkey_twice p q wr :
  set_node_pkey p (set_node_pkey q wr) = set_node_pkey p wr.
Proof. done. Qed.

Lemma foldl_insert_node nd nodes conn assigned :
  ∃ conn',
    foldl (insert_node nd) (conn, assigned) nodes
    = (conn', assigned ∪ ⋃ nodes)
    ∧ node conn'
      = node conn ++ replicate (length nodes) (set_number_pips (Some 0%Z) nd)
    ∧ length (wire conn') = length (wire conn)
    ∧ ∀ w wr', row_at (wire conn') w = Some wr' →
        ∃ wr, row_at (wire conn) w = Some wr
          ∧ ((∀ s, s ∈ nodes → w ∉ s) ∧ wr' = wr
             ∨ ∃ i s, nodes !! i = Some s ∧ w ∈ s
                 ∧ wr' = set_node_pkey (Some (length (node conn) + S i)) wr).
Proof.
  induction nodes as [|s nodes IH] using rev_ind.
  - exists conn. simpl. split_and!; [|by rewrite app_nil_r|done|].
    + f_equal. set_solver.
    + intros w wr' Hw. exists wr'. split; [done|]. left.
      split; [|done]. by intros s ?%elem_of_nil.
  - destruct IH as (c1 & Hrun & Hnode & Hlen & Hrows).
    rewrite foldl_snoc, Hrun. unfold insert_node at 1.
    eexists. split_and!.
    + f_equal. rewrite union_list_app_L. simpl. set_solver.
    + simpl. rewrite Hnode, length_app. simpl.
      rewrite <- app_assoc. f_equal.
      by rewrite Nat.add_1_r, replicate_S_end.
    + simpl. by rewrite length_update_where.
    + intros w wr'. simpl. rewrite row_at_update_where.
      destruct (row_at (wire c1) w) as [wr1|] eqn:Hw1; [|done]. simpl.
      intros [= <-]. destruct (Hrows _ _ Hw1) as (wr & Hw & Hcase).
      exists wr. split; [done|].
      rewrite length_app, Hnode, length_app, length_replicate. simpl.
      rewrite bool_decide_decide.
      destruct (decide (w ∈ s)) as [Hin|Hnin].
      * right. exists (length nodes), s. split_and!; [|done|].
        { by rewrite list_lookup_middle. }
        replace (length (node conn) + length nodes + 1)
          with (length (node conn) + S (length nodes)) by lia.
        destruct Hcase as [[_ ->]|(i & s' & _ & _ & ->)]; done.
      * destruct Hcase as [[Hnone ->]|(i & s' & Hi & Hin & ->)].
        -- left. split; [|done].
           intros s' [?| ->%list_elem_of_singleton]%elem_of_app; auto.
        -- right. exists i, s'. split_and!; [|done..].
           by apply lookup_app_l_Some.
Qed.

Lemma add_wire_ok wd n0 tile phy tt st wire_name st' :
  catalog_ok n0 st →
  add_wire wd tile phy tt st wire_name = Ok st' →
  catalog_ok n0 st' ∧ node st'.1.1 = node st.1.1.
Proof.
  destruct st as [[conn m] o].
  intros (Hn0 & Hheap & Hkeys & Hnone & Hsome & Hm). simpl in *.
  unfold add_wire.
  intros ([wit rest] & _ & ([] & _ & [= <-])%bind_Ok)%bind_Ok.
  simpl. rewrite length_app. simpl.
  replace (length (wire conn) + 1) with (S (length (wire conn))) by lia.
  assert (Hfresh : S (length (wire conn)) ∉ wires_keys o).
  { rewrite Hkeys, elem_of_seq. lia. }
  assert (Hkeys' :
            (if decide (S (length (wire conn)) ∈ wires_keys o)
             then wires_keys o else wires_keys o ++ [S (length (wire conn))])
            = seq (S n0) (S (length (wire conn)) - n0)).
  { rewrite decide_False by done.
    replace (S (length (wire conn)) - n0) with (S (length (wire conn) - n0))
      by lia.
    rewrite seq_S, Hkeys. do 2 f_equal. lia. }
  split; [|done]. unfold catalog_ok. simpl.
  rewrite length_app. simpl.
  replace (length (wire conn) + 1) with (S (length (wire conn))) by lia.
  split_and!; [lia|done|exact Hkeys'|..]; rewrite decide_False by done.
  - intros w [Hw| ->%list_elem_of_singleton]%elem_of_app.
    + rewrite lookup_insert_ne by (intros <-; done). by apply Hnone.
    + by rewrite lookup_insert_eq.
  - intros w. destruct (decide (w = S (length (wire conn)))) as [->|Hne].
    + intros _. apply elem_of_app. right. left.
    + rewrite lookup_insert_ne by done. intros Hw. apply elem_of_app. left.
      by apply Hsome.
  - intros key w.
    destruct (decide (key = (tile, wire_name))) as [->|Hne].
    + rewrite lookup_insert_eq. intros [= <-]. apply elem_of_app. right. left.
    + rewrite lookup_insert_ne by done. intros Hw. apply elem_of_app. left.
      by eapply Hm.
Qed.

Lemma add_tile_ok wd n0 st tile st' :
  catalog_ok n0 st → add_tile wd st tile = Ok st' →
  catalog_ok n0 st' ∧ node st'.1.1 = node st.1.1.
Proof.
  intros Hst. unfold add_tile. intros ([r rest] & _ & Hrun)%bind_Ok.
  revert Hrun. generalize (get_wires tile). intros ws. revert st Hst.
  induction ws as [|w ws IH]; intros st Hst; simpl.
  - by intros [= <-].
  - intros (st1 & Hstep & Hrest)%bind_Ok.
    destruct (add_wire_ok _ _ _ _ _ _ _ _ Hst Hstep) as [Hst1 Hnode1].
    destruct (IH _ Hst1 Hrest) as [Hst' Hnode']. split; [done|congruence].
Qed.

Lemma add_tiles_ok wd n0 tiles st st' :
  catalog_ok n0 st → foldM (add_tile wd) st tiles = Ok st' →
  catalog_ok n0 st' ∧ node st'.1.1 = node st.1.1.
Proof.
  revert st. induction tiles as [|t tiles IH]; intros st Hst; simpl.
  - by intros [= <-].
  - intros (st1 & Hstep & Hrest)%bind_Ok.
    destruct (add_tile_ok _ _ _ _ _ Hst Hstep) as [Hst1 Hnode1].
    destruct (IH _ Hst1 Hrest) as [Hst' Hnode']. split; [done|congruence].
Qed.

Lemma catalog_ok_objects n0 st : catalog_ok n0 st → objects_ok st.2.
Proof.
  intros (Hn0 & Hheap & Hkeys & Hnone & Hsome & Hm). unfold objects_ok.
  split_and!.
  - rewrite Hkeys. apply NoDup_seq.
  - intros w. split; [|apply Hsome]. intros Hw. by rewrite (Hnone _ Hw).
  - intros w l Hw. assert (Hin : w ∈ wires_keys st.2)
      by (apply Hsome; by rewrite Hw).
    apply Hnone in Hin. congruence.
  - intros w w' l Hw. assert (Hin : w ∈ wires_keys st.2)
      by (apply Hsome; by rewrite Hw).
    apply Hnone in Hin. congruence.
Qed.

(** C5.  When the wire catalog is built and the endpoints of all
    connections are wires of it, [import_nodes] succeeds, and there are
    node sets, one per new [node] row, that partition the new wires:
    every wire is in exactly one set and the sets hold nothing else; each
    wire row refers to the node of its set, and a wire that no connection
    names is a set of its own. *)
Theorem import_nodes_partition wd nd tiles cs conn conn1 m o1 :
  foldM (add_tile wd)
        (conn, ∅, {| heap := []; wires := ∅; wires_keys := [] |}) tiles
  = Ok (conn1, m, o1) →
  Forall (known m) cs →
  ∃ conn' nodes,
    import_nodes wd nd tiles cs conn = Ok conn'
    ∧ length (wire conn') = length (wire conn1)
    ∧ partitions nodes
        (seq (S (length (wire conn)))
             (length (wire conn') - length (wire conn)))
    ∧ node conn'
      = node conn ++ replicate (length nodes) (set_number_pips (Some 0%Z) nd)
    ∧ (∀ w wr, length (wire conn) < w → row_at (wire conn') w = Some wr →
         ∃ i s, nodes !! i = Some s ∧ w ∈ s
                ∧ wire_node_pkey wr = Some (length (node conn) + S i))
    ∧ (∀ w, length (wire conn) < w ≤ length (wire conn') →
            Forall (apart m w) cs → {[w]} ∈ nodes).
Proof.
  intros Hcat Hcs.
  assert (Hinit : catalog_ok (length (wire conn))
            (conn, ∅, {| heap := []; wires := ∅; wires_keys := [] |})).
  { unfold catalog_ok. simpl. rewrite Nat.sub_diag.
    split_and!; try done.
    - by intros w ?%elem_of_nil.
    - intros w [? Hw]. by rewrite lookup_empty in Hw. }
  destruct (add_tiles_ok wd _ tiles _ _ Hinit Hcat) as [Hok Hnode].
  simpl in Hnode.
  assert (Hobj := catalog_ok_objects _ _ Hok).
  destruct Hok as (Hn0 & Hheap & Hkeys & Hnone & Hsome & Hm). simpl in *.
  destruct (form_nodes_spec m o1 cs Hobj Hm Hcs)
    as (o' & nodes & Hform & Hkeys' & Hpart & Hsingle).
  destruct (foldl_insert_node nd nodes conn1 ∅)
    as (conn2 & Hfold & Hnode2 & Hlen2 & Hrows).
  exists conn2, nodes. rewrite Hlen2, <- Hkeys.
  split_and!; [|done|done|by rewrite Hnode2, Hnode| |].
  - unfold import_nodes. rewrite Hcat. simpl. rewrite Hform. simpl.
    rewrite Hfold. rewrite Hkeys', (partitions_union _ _ Hpart).
    rewrite bool_decide_true; [done|].
    apply size_empty_iff. set_solver.
  - intros w wr Hlt Hw.
    assert (Hkey : w ∈ wires_keys o1).
    { rewrite Hkeys, elem_of_seq. apply row_at_Some_lt in Hw. lia. }
    destruct (Hrows _ _ Hw) as (wr0 & _ & [[Hnot _]|(i & s & Hi & Hin & ->)]).
    + destruct (proj1 Hpart _ Hkey) as (i & (s & Hi & Hin) & _).
      destruct (Hnot s); [by eapply list_elem_of_lookup_2|done].
    + exists i, s. by rewrite Hnode.
  - intros w Hw Happart. apply Hsingle; [done|]. apply Hnone.
    rewrite Hkeys, elem_of_seq. lia.
Qed.

(** Every wire of every tile of the grid gets a key in [tile_wire_map]. *)
Lemma add_wire_known wd tile phy tt st wire_name st' :
  add_wire wd tile phy tt st wire_name = Ok st' →
  is_Some (st'.1.2 !! (tile, wire_name))
  ∧ ∀ key, is_Some (st.1.2 !! key) → is_Some (st'.1.2 !! key).
Proof.
  destruct st as [[conn m] o]. unfold add_wire.
  intros ([wit rest] & _ & ([] & _ & [= <-])%bind_Ok)%bind_Ok. simpl.
  split.
  - by rewrite lookup_insert_eq.
  - intros key Hkey. rewrite lookup_insert_is_Some.
    destruct (decide ((tile, wire_name) = key)); auto.
Qed.

Lemma add_tile_known wd st tile st' :
  add_tile wd st tile = Ok st' →
  (∀ w, w ∈ get_wires tile → is_Some (st'.1.2 !! (grid_tile_name tile, w)))
  ∧ ∀ key, is_Some (st.1.2 !! key) → is_Some (st'.1.2 !! key).
Proof.
  unfold add_tile. intros ([r rest] & _ & Hrun)%bind_Ok.
  revert Hrun. generalize (get_wires tile). intros ws. revert st.
  induction ws as [|w ws IH]; intros st; simpl.
  - intros [= <-]. split; [by intros w ?%elem_of_nil|done].
  - intros (st1 & Hstep & Hrest)%bind_Ok.
    destruct (add_wire_known _ _ _ _ _ _ _ Hstep) as [Hnew Hold].
    destruct (IH _ Hrest) as [Hnew' Hold']. split.
    + intros w' [->|Hw']%elem_of_cons; auto.
    + auto.
Qed.

Lemma add_tiles_known wd tiles st st' :
  foldM (add_tile wd) st tiles = Ok st' →
  (∀ t w, t ∈ tiles → w ∈ get_wires t →
          is_Some (st'.1.2 !! (grid_tile_name t, w)))
  ∧ ∀ key, is_Some (st.1.2 !! key) → is_Some (st'.1.2 !! key).
Proof.
  revert st. induction tiles as [|t tiles IH]; intros st; simpl.
  - intros [= <-]. split; [by intros t w ?%elem_of_nil|done].
  - intros (st1 & Hstep & Hrest)%bind_Ok.
    destruct (add_tile_known _ _ _ _ Hstep) as [Hnew Hold].
    destruct (IH _ Hrest) as [Hnew' Hold']. split.
    + intros t' w [->|Ht']%elem_of_cons Hw; eauto.
    + auto.
Qed.

Lemma import_nodes_partition_witness :
  ∃ conn1 m o1,
    foldM (add_tile null_wire)
          (scenario_a_grid, ∅, {| heap := []; wires := ∅; wires_keys := [] |})
          scenario_a_tiles
    = Ok (conn1, m, o1)
    ∧ Forall (known m) scenario_a_connections
    ∧ ∃ conn' nodes,
        import_nodes null_wire null_node scenario_a_tiles
                     scenario_a_connections scenario_a_grid = Ok conn'
        ∧ length (wire conn') = length (wire conn1)
        ∧ partitions nodes
            (seq (S (length (wire scenario_a_grid)))
                 (length (wire conn') - length (wire scenario_a_grid)))
        ∧ node conn'
          = node scenario_a_grid
            ++ replicate (length nodes)
                 (set_number_pips (Some 0%Z) null_node)
        ∧ (∀ w wr, length (wire scenario_a_grid) < w →
             row_at (wire conn') w = Some wr →
             ∃ i s, nodes !! i = Some s ∧ w ∈ s
                    ∧ wire_node_pkey wr
                      = Some (length (node scenario_a_grid) + S i))
        ∧ (∀ w, length (wire scenario_a_grid) < w ≤ length (wire conn') →
                Forall (apart m w) scenario_a_connections → {[w]} ∈ nodes).
Proof.
  assert (Hreturns :
            returns (foldM (add_tile null_wire)
              (scenario_a_grid, ∅,
               {| heap := []; wires := ∅; wires_keys := [] |})
              scenario_a_tiles) = true) by (vm_compute; reflexivity).
  destruct (foldM (add_tile null_wire)
              (scenario_a_grid, ∅,
               {| heap := []; wires := ∅; wires_keys := [] |})
              scenario_a_tiles) as [[[conn1 m] o1]|e] eqn:Hcat;
    [|discriminate Hreturns].
  assert (Hknown : Forall (known m) scenario_a_connections).
  { destruct (add_tiles_known _ _ _ _ Hcat) as [Hall _].
    constructor; [|constructor]. split.
    - apply (Hall {| grid_tile_name := "T_X1Y1";
                     get_wires := ["W"; "V"]%string |} "W"%string);
        [left|left].
    - apply (Hall {| grid_tile_name := "T_X2Y1";
                     get_wires := ["W"; "V"]%string |} "W"%string);
        [right; left|left]. }
  exists conn1, m, o1. split; [reflexivity|]. split; [exact Hknown|].
  exact (import_nodes_partition null_wire null_node scenario_a_tiles
           scenario_a_connections scenario_a_grid _ _ _ Hcat Hknown).
Defined.

(** ** Stages 5 and 6: the constant network *)



(** ** Stage 6: the fixed-value pins *)

Lemma foldl_retarget_frame track wits conn :
  wire (foldl (retarget track) conn wits) = wire conn
  ∧ wire_in_tile (foldl (retarget track) conn wits) = wire_in_tile conn
  ∧ site_pin (foldl (retarget track) conn wits) = site_pin conn
  ∧ site_type (foldl (retarget track) conn wits) = site_type conn.
Proof.
  revert conn. induction wits as [|wit wits IH]; intros conn; simpl; [done|].
  destruct (IH (retarget track conn wit)) as (-> & -> & -> & ->). done.
Qed.

Lemma retarget_row track conn wit k :
  row_at (node (retarget track conn wit)) k
  = (λ n, if decide (owns conn [wit] k) then set_track_pkey (Some track) n
          else n) <$> row_at (node conn) k.
Proof.
  unfold retarget. simpl. rewrite row_at_update_where.
  destruct (row_at (node conn) k) as [n|]; simpl; [|done]. f_equal.
  rewrite bool_decide_decide. unfold owns.
  destruct (decide (Some k ∈ _)) as [Hin|Hnin].
  - rewrite decide_True; [done|]. apply Exists_exists.
    apply list_elem_of_fmap in Hin as (wr & Hk & [Hwit Hwr]%list_elem_of_filter).
    exists wr. split_and!; [done..|]. apply list_elem_of_singleton, Hwit.
  - rewrite decide_False; [done|].
    intros (wr & Hwr & Hk & Hwit%list_elem_of_singleton)%Exists_exists.
    apply Hnin. apply list_elem_of_fmap. exists wr. split; [done|].
    by apply list_elem_of_filter.
Qed.

Lemma owns_cons conn wit wits k :
  owns conn (wit :: wits) k ↔ owns conn [wit] k ∨ owns conn wits k.
Proof.
  unfold owns. rewrite !Exists_exists. split.
  - intros (wr & Hwr & Hk & [Heq|Hin]%elem_of_cons).
    + left. exists wr. split_and!; [done..|]. by apply list_elem_of_singleton.
    + right. by exists wr.
  - intros [(wr & Hwr & Hk & Heq%list_elem_of_singleton)|(wr & Hwr & Hk & Hin)];
      exists wr; split_and!; try done.
    + rewrite Heq. left.
    + by right.
Qed.

Lemma foldl_retarget_row track wits conn k :
  row_at (node (foldl (retarget track) conn wits)) k
  = (λ n, if decide (owns conn wits k) then set_track_pkey (Some track) n
          else n) <$> row_at (node conn) k.
Proof.
  revert conn. induction wits as [|wit wits IH]; intros conn; simpl.
  - destruct (row_at (node conn) k); simpl; [|done].
    rewrite decide_False; [done|]. unfold owns. rewrite Exists_exists.
    by intros (wr & _ & _ & ?%elem_of_nil).
  - rewrite IH, retarget_row.
    destruct (row_at (node conn) k) as [n|]; simpl; [|done]. f_equal.
    assert (Hsame : owns (retarget track conn wit) wits k ↔ owns conn wits k)
      by done.
    destruct (decide (owns conn [wit] k)) as [H1|H1],
      (decide (owns conn wits k)) as [H2|H2].
    + rewrite decide_True by (by apply Hsame).
      by rewrite decide_True by (apply owns_cons; by left).
    + rewrite decide_False by (by rewrite Hsame).
      by rewrite decide_True by (apply owns_cons; by left).
    + rewrite decide_True by (by apply Hsame).
      by rewrite decide_True by (apply owns_cons; by right).
    + rewrite decide_False by (by rewrite Hsame).
      rewrite decide_False; [done|]. rewrite owns_cons. tauto.
Qed.

Lemma elem_of_site_pins_named conn t name p :
  p ∈ site_pins_named conn t name
  ↔ ∃ pin, row_at (site_pin conn) p = Some pin
           ∧ site_pin_site_type_pkey pin = t ∧ site_pin_name pin = name.
Proof.
  unfold site_pins_named. rewrite list_elem_of_fmap. split.
  - intros ([p' pin] & -> & [[Ht Hn] Hin%elem_of_rows]%list_elem_of_filter).
    by exists pin.
  - intros (pin & Hp & Ht & Hn). exists (p, pin). split; [done|].
    apply list_elem_of_filter. split; [done|]. by apply elem_of_rows.
Qed.

Lemma elem_of_wires_of_site_pin conn p w :
  w ∈ wires_of_site_pin conn p
  ↔ ∃ wit, row_at (wire_in_tile conn) w = Some wit
           ∧ wire_in_tile_site_pin_pkey wit = Some p.
Proof.
  unfold wires_of_site_pin. rewrite list_elem_of_fmap. split.
  - intros ([w' wit] & -> & [Hp Hin%elem_of_rows]%list_elem_of_filter).
    by exists wit.
  - intros (wit & Hw & Hp). exists (w, wit). split; [done|].
    apply list_elem_of_filter. split; [done|]. by apply elem_of_rows.
Qed.

Lemma site_pins_named_unique conn t name p1 p2 :
  site_pins_unique conn →
  p1 ∈ site_pins_named conn t name → p2 ∈ site_pins_named conn t name →
  p1 = p2.
Proof.
  intros Hnd (pin1 & Hp1 & Ht1 & Hn1)%elem_of_site_pins_named
    (pin2 & Hp2 & Ht2 & Hn2)%elem_of_site_pins_named.
  destruct p1 as [|i1], p2 as [|i2]; simpl in *; try done. f_equal.
  eapply (NoDup_lookup _ i1 i2 (t, name) Hnd);
    rewrite list_lookup_fmap; [rewrite Hp1|rewrite Hp2]; simpl; congruence.
Qed.

(** What a successful run of stage 6 looked up and wrote. *)
Lemma connect_hardpins_to_constant_network_Ok conn vcc gnd conn' :
  connect_hardpins_to_constant_network conn vcc gnd = Ok conn' →
  ∃ tieoff vp gp,
    (∀ t st, row_at (site_type conn) t = Some st →
             site_type_name st = "TIEOFF" → t = tieoff)
    ∧ vp ∈ site_pins_named conn tieoff "HARD1"
    ∧ gp ∈ site_pins_named conn tieoff "HARD0"
    ∧ wire conn' = wire conn
    ∧ ∀ k, row_at (node conn') k
           = (λ n, if decide (owns conn (wires_of_site_pin conn gp) k)
                   then set_track_pkey (Some gnd) n
                   else if decide (owns conn (wires_of_site_pin conn vp) k)
                   then set_track_pkey (Some vcc) n
                   else n) <$> row_at (node conn) k.
Proof.
  unfold connect_hardpins_to_constant_network.
  intros ([] & Hone%assert_Ok%bool_decide_eq_true
          & ([tieoff rest] & Htieoff%fetchone_Ok
             & ([vp vrest] & Hvp%fetchone_Ok
                & ([gp grest] & Hgp%fetchone_Ok & [= <-])%bind_Ok)%bind_Ok
            )%bind_Ok)%bind_Ok.
  rewrite Htieoff in Hone. destruct rest; [|done]. clear Hone.
  exists tieoff, vp, gp.
  set (c1 := foldl (retarget vcc) conn (wires_of_site_pin conn vp)) in *.
  destruct (foldl_retarget_frame vcc (wires_of_site_pin conn vp) conn)
    as (Hw1 & Hwit1 & Hpin1 & Hst1). fold c1 in Hw1, Hwit1, Hpin1, Hst1.
  assert (Hnamed : site_pins_named c1 tieoff "HARD0"
                   = site_pins_named conn tieoff "HARD0").
  { unfold site_pins_named. by rewrite Hpin1. }
  assert (Hwires : wires_of_site_pin c1 gp = wires_of_site_pin conn gp).
  { unfold wires_of_site_pin. by rewrite Hwit1. }
  rewrite Hnamed in Hgp. rewrite Hwires.
  split_and!.
  - intros t st Ht Hname.
    assert (Hin : t ∈ (filter (λ r, site_type_name r.2 = "TIEOFF")
                         (rows (site_type conn))).*1).
    { apply list_elem_of_fmap. exists (t, st). split; [done|].
      apply list_elem_of_filter. split; [done|]. by apply elem_of_rows. }
    rewrite Htieoff in Hin. by apply list_elem_of_singleton in Hin.
  - rewrite Hvp. left.
  - rewrite Hgp. left.
  - destruct (foldl_retarget_frame gnd (wires_of_site_pin conn gp) c1)
      as (-> & _). done.
  - intros k. rewrite foldl_retarget_row.
    assert (Hrow1 := foldl_retarget_row vcc (wires_of_site_pin conn vp) conn k).
    fold c1 in Hrow1. rewrite Hrow1.
    destruct (row_at (node conn) k) as [n|]; simpl; [|done]. f_equal.
    assert (Hsame : owns c1 (wires_of_site_pin conn gp) k
                    ↔ owns conn (wires_of_site_pin conn gp) k).
    { unfold owns. by rewrite Hw1. }
    destruct (decide (owns conn (wires_of_site_pin conn gp) k)).
    + rewrite decide_True by (by apply Hsame). by destruct (decide _).
    + by rewrite decide_False by (by rewrite Hsame).
Qed.

Lemma wires_refer_to_nodes_row conn w wr k :
  wires_refer_to_nodes conn → row_at (wire conn) w = Some wr →
  wire_node_pkey wr = Some k → is_Some (row_at (node conn) k).
Proof.
  intros Hrefer Hw%row_at_elem_of Hk.
  apply (proj1 (Forall_forall _ _) Hrefer) in Hw. rewrite Hk in Hw.
  simpl in Hw. by apply bool_decide_unpack in Hw.
Qed.

(** Two site-pin wires of a node with at most one are the same wire. *)
Lemma one_site_pin_wire conn k w1 w2 :
  one_site_pin_per_node conn → is_Some (row_at (node conn) k) →
  w1 ∈ site_pin_wires_of conn k → w2 ∈ site_pin_wires_of conn k → w1 = w2.
Proof.
  intros Hone [n Hn%elem_of_rows] H1 H2.
  apply (proj1 (Forall_forall _ _) Hone) in Hn. simpl in Hn.
  destruct (site_pin_wires_of conn k) as [|w [|w' l]]; simpl in Hn; [|..|lia].
  - by apply elem_of_nil in H1.
  - apply list_elem_of_singleton in H1, H2. congruence.
Qed.

(** A wire bound to a pin of a TIEOFF site is an instance of one of the
    wire types stage 6 retargets for the pin of that name. *)
Lemma tieoff_wire_owns conn name tieoff p w k :
  site_pins_unique conn →
  (∀ t st, row_at (site_type conn) t = Some st →
           site_type_name st = "TIEOFF" → t = tieoff) →
  p ∈ site_pins_named conn tieoff name →
  tieoff_wire conn name w k →
  owns conn (wires_of_site_pin conn p) k
  ∧ ∃ wr wit, row_at (wire conn) w = Some wr
              ∧ row_at (wire_in_tile conn) (wire_wire_in_tile_pkey wr)
                = Some wit
              ∧ wire_in_tile_site_pin_pkey wit = Some p.
Proof.
  intros Huniq Htieoff Hp
    (wr & wit & p' & pin & st & Hw & Hk & Hwit & Hpin & Hp' & Hname & Hst & Hty).
  assert (p' = p) as ->.
  { eapply site_pins_named_unique; [done| |done].
    apply elem_of_site_pins_named. exists pin. split_and!; [done| |done].
    by eapply Htieoff. }
  split; [|by exists wr, wit].
  unfold owns. apply Exists_exists. exists wr.
  split_and!; [by eapply row_at_elem_of|done|].
  apply elem_of_wires_of_site_pin. by exists wit.
Qed.

(** C7.  After stage 6, the node of every wire bound to the HARD1 pin of
    a TIEOFF site refers to the power track and the node of every wire
    bound to the HARD0 pin to the ground track; the stage rewrites
    nothing but the track reference of nodes: the wires, and with them
    the membership of wires in nodes, stay as they were. *)
Theorem hard_pins_on_constant_tracks conn conn' vcc gnd :
  wires_refer_to_nodes conn → one_site_pin_per_node conn →
  site_pins_unique conn →
  connect_hardpins_to_constant_network conn vcc gnd = Ok conn' →
  wire conn' = wire conn
  ∧ (∀ k, set_track_pkey None <$> row_at (node conn') k
          = set_track_pkey None <$> row_at (node conn) k)
  ∧ (∀ w k, tieoff_wire conn "HARD1" w k →
            track_pkey <$> row_at (node conn') k = Some (Some vcc))
  ∧ (∀ w k, tieoff_wire conn "HARD0" w k →
            track_pkey <$> row_at (node conn') k = Some (Some gnd)).
Proof.
  intros Hrefer Hone Huniq
    (tieoff & vp & gp & Htieoff & Hvp & Hgp & Hwire & Hrow)%connect_hardpins_to_constant_network_Ok.
  split_and!; [done|..].
  - intros k. rewrite Hrow.
    destruct (row_at (node conn) k) as [n|]; simpl; [|done]. f_equal.
    by repeat destruct (decide _).
  - intros w k Hw.
    destruct (tieoff_wire_owns _ _ _ _ _ _ Huniq Htieoff Hvp Hw)
      as (Howns & wr & wit & Hwr & Hwit & Hpin).
    assert (Hk : wire_node_pkey wr = Some k).
    { destruct Hw as (wr' & ? & ? & ? & ? & Hwr' & Hk & _). congruence. }
    destruct (wires_refer_to_nodes_row _ _ _ _ Hrefer Hwr Hk) as [n Hn].
    rewrite Hrow, Hn. simpl.
    rewrite decide_False; [by rewrite decide_True|].
    intros (wr' & [i Hi]%list_elem_of_lookup & Hk'
            & (wit' & Hwit' & Hpin')%elem_of_wires_of_site_pin)%Exists_exists.
    assert (w = S i) as ->.
    { apply (one_site_pin_wire conn k); [done|by exists n|..];
        apply elem_of_site_pin_wires_of; eexists _, _; split_and!; try done;
        by eexists. }
    simpl in Hwr. assert (wr' = wr) as -> by congruence.
    assert (gp = vp) as -> by congruence.
    apply elem_of_site_pins_named in Hvp as (pin1 & Hp1 & _ & Hn1).
    apply elem_of_site_pins_named in Hgp as (pin2 & Hp2 & _ & Hn2).
    assert (pin1 = pin2) as -> by congruence. by rewrite Hn1 in Hn2.
  - intros w k Hw.
    destruct (tieoff_wire_owns _ _ _ _ _ _ Huniq Htieoff Hgp Hw)
      as (Howns & wr & wit & Hwr & Hwit & Hpin).
    assert (Hk : wire_node_pkey wr = Some k).
    { destruct Hw as (wr' & ? & ? & ? & ? & Hwr' & Hk & _). congruence. }
    destruct (wires_refer_to_nodes_row _ _ _ _ Hrefer Hwr Hk) as [n Hn].
    rewrite Hrow, Hn. simpl. by rewrite decide_True.
Qed.

Lemma hard_pins_on_constant_tracks_witness :
  (wires_refer_to_nodes example_constants
   ∧ one_site_pin_per_node example_constants
   ∧ site_pins_unique example_constants
   ∧ connect_hardpins_to_constant_network example_constants 1 2
     = Ok example_routed)
  ∧ wire example_routed = wire example_constants
  ∧ (tieoff_wire example_constants "HARD1" 16 16
     ∧ track_pkey <$> row_at (node example_routed) 16 = Some (Some 1))
  ∧ (tieoff_wire example_constants "HARD0" 8 8
     ∧ track_pkey <$> row_at (node example_routed) 8 = Some (Some 2)).
Proof.
  assert (Hrefer : wires_refer_to_nodes example_constants) by compute_done.
  assert (Hone : one_site_pin_per_node example_constants) by compute_done.
  assert (Huniq : site_pins_unique example_constants) by compute_done.
  assert (Hrun : connect_hardpins_to_constant_network example_constants 1 2
                 = Ok example_routed) by reflexivity.
  assert (Hvcc : tieoff_wire example_constants "HARD1" 16 16)
    by (eexists _, _, _, _, _; split_and!; reflexivity).
  assert (Hgnd : tieoff_wire example_constants "HARD0" 8 8)
    by (eexists _, _, _, _, _; split_and!; reflexivity).
  destruct (hard_pins_on_constant_tracks example_constants example_routed 1 2
              Hrefer Hone Huniq Hrun) as (Hwire & _ & Hhard1 & Hhard0).
  split; [done|]. split; [exact Hwire|].
  split; [split; [exact Hvcc|exact (Hhard1 16 16 Hvcc)]|].
  split; [exact Hgnd|exact (Hhard0 8 8 Hgnd)].
Defined.

(** The rows of the two nodes stage 5 appends: the column defaults with
    the classification CHANNEL. *)
Lemma create_constant_tracks_node (nd : node_row) (tracks : Type)
    (make_tracks : gset (Z * Z) → tracks) (conn : connection) :
  let out := create_constant_tracks nd tracks make_tracks conn in
  wire out.1 = wire conn
  ∧ node out.1 = node conn ++ replicate 2 (set_classification CHANNEL nd)
  ∧ out.2.1.1 = S (length (node conn))
  ∧ out.2.2.1 = S (S (length (node conn))).
Proof.
  unfold create_constant_tracks, insert_classified, create_track. simpl.
  rewrite <- (assoc_L (++)), !length_app. simpl.
  split_and!; [done|done|lia|lia].
Qed.




(** ** The pipeline establishes what stage 6 relies on *)

Lemma site_pin_wires_bound conn k m :
  sql_max ((node_sites conn).*2) = Some m →
  (Z.of_nat (length (site_pin_wires_of conn k)) ≤ m)%Z.
Proof.
  intros Hm.
  destruct (site_pin_wires_of conn k) as [|w l] eqn:Hl.
  - apply sql_max_elem_of, list_elem_of_fmap in Hm as ([o c] & -> & Hin).
    apply elem_of_group_count in Hin as [_ ->]. simpl. lia.
  - rewrite <- Hl.
    destruct (sql_max_ge _ _ (node_sites_count conn k ltac:(by rewrite Hl)))
      as (m' & Hm' & Hle). congruence.
Qed.

(** After a successful run of stage 3 no node has two site-pin wires. *)
Lemma count_sites_and_pips_on_nodes_one_site_pin conn conn' :
  count_sites_and_pips_on_nodes conn = Ok conn' →
  one_site_pin_per_node conn'.
Proof.
  intros Hrun.
  destruct (count_sites_and_pips_on_nodes_wire _ _ Hrun)
    as (Hwire & _ & Hwit & _).
  apply count_sites_and_pips_on_nodes_Ok in Hrun as [Hmax _].
  apply Forall_forall. intros [k n] _. simpl.
  assert (site_pin_wires_of conn' k = site_pin_wires_of conn k) as ->.
  { unfold site_pin_wires_of, site_wires, site_pin_wires.
    by rewrite Hwire, Hwit. }
  pose proof (site_pin_wires_bound conn k 1%Z Hmax). lia.
Qed.

(** ** [traverse_pip] *)

Lemma filter_nil_iff {A : Type} (P : A → Prop) `{∀ a, Decision (P a)}
    (l : list A) :
  filter P l = [] ↔ ∀ a, a ∈ l → ¬ P a.
Proof.
  split.
  - intros Hnil a Ha HP.
    assert (Hin : a ∈ filter P l) by (by apply list_elem_of_filter).
    rewrite Hnil in Hin. by apply elem_of_nil in Hin.
  - intros Hnone. destruct (filter P l) as [|a l'] eqn:Hl; [done|].
    assert (Hin : a ∈ filter P l) by (rewrite Hl; left).
    apply list_elem_of_filter in Hin as [HP Ha]. by destruct (Hnone a Ha).
Qed.

Lemma pip_drives_spec (p : pip_in_tile_row) (w : pkey) (end_of : pkey) :
  is_directional p && negb (is_pseudo p) && bool_decide (end_of = w)
  ↔ is_directional p = true ∧ is_pseudo p = false ∧ end_of = w.
Proof.
  rewrite !andb_True, negb_True, bool_decide_spec.
  destruct (is_directional p), (is_pseudo p); naive_solver.
Qed.

(** X1.  [traverse_pip] answers [None] exactly when no directional,
    non-pseudo PIP has the wire type as its source or destination. *)
Theorem traverse_pip_None conn w :
  traverse_pip conn w = None
  ↔ ∀ p, p ∈ pip_in_tile conn → pip_touches p w = false.
Proof.
  unfold traverse_pip. split.
  - destruct (filter _ _) as [|r l] eqn:Hdest; [|done].
    destruct (filter _ (pip_in_tile conn)) as [|r' l'] eqn:Hsrc in |- *;
      [|done].
    intros _ p Hp.
    apply (proj1 (filter_nil_iff _ _)) with (a := p) in Hdest; [|done].
    apply (proj1 (filter_nil_iff _ _)) with (a := p) in Hsrc; [|done].
    rewrite pip_drives_spec in Hdest, Hsrc.
    destruct (pip_touches p w) eqn:Htouch; [|done].
    apply Is_true_true, pip_touches_spec in Htouch. naive_solver.
  - intros Hnone.
    rewrite (proj2 (filter_nil_iff _ _)).
    2:{ intros p Hp (Hd & Hs & Hw)%pip_drives_spec.
        specialize (Hnone p Hp). apply Is_true_false in Hnone.
        apply Hnone, pip_touches_spec. by split_and!; [..|right]. }
    rewrite (proj2 (filter_nil_iff _ _)); [done|].
    intros p Hp (Hd & Hs & Hw)%pip_drives_spec.
    specialize (Hnone p Hp). apply Is_true_false in Hnone.
    apply Hnone, pip_touches_spec. by split_and!; [..|left].
Qed.

(** X2.  An answer of [traverse_pip] is the far end of a directional,
    non-pseudo PIP of the table: the source of a PIP that drives the wire
    type or, when no PIP drives it, the destination of a PIP it drives. *)
Theorem traverse_pip_Some conn w o :
  traverse_pip conn w = Some o →
  ∃ p, p ∈ pip_in_tile conn
       ∧ is_directional p = true ∧ is_pseudo p = false
       ∧ (dest_wire_in_tile_pkey p = w ∧ src_wire_in_tile_pkey p = o
          ∨ src_wire_in_tile_pkey p = w ∧ dest_wire_in_tile_pkey p = o
            ∧ ∀ q, q ∈ pip_in_tile conn →
                   is_directional q = true → is_pseudo q = false →
                   dest_wire_in_tile_pkey q ≠ w).
Proof.
  unfold traverse_pip.
  destruct (filter _ _) as [|r l] eqn:Hdest.
  - destruct (filter _ (pip_in_tile conn)) as [|r' l'] eqn:Hsrc in |- *;
      [done|].
    intros [= <-].
    assert (Hin : r' ∈ r' :: l') by left.
    rewrite <- Hsrc in Hin.
    apply list_elem_of_filter in Hin as [(Hd & Hs & Hw)%pip_drives_spec Hin].
    exists r'. split_and!; [done..|]. right. split_and!; [done..|].
    intros q Hq Hqd Hqs Hqw.
    apply (proj1 (filter_nil_iff _ _)) with (a := q) in Hdest; [|done].
    apply Hdest, pip_drives_spec. by split_and!.
  - intros [= <-].
    assert (Hin : r ∈ r :: l) by left.
    rewrite <- Hdest in Hin.
    apply list_elem_of_filter in Hin as [(Hd & Hs & Hw)%pip_drives_spec Hin].
    exists r. split_and!; [done..|]. by left.
Qed.

Lemma traverse_pip_Some_witness :
  traverse_pip example_grid 1 = Some 2
  ∧ ∃ p, p ∈ pip_in_tile example_grid
         ∧ is_directional p = true ∧ is_pseudo p = false
         ∧ (dest_wire_in_tile_pkey p = 1 ∧ src_wire_in_tile_pkey p = 2
            ∨ src_wire_in_tile_pkey p = 1 ∧ dest_wire_in_tile_pkey p = 2
              ∧ ∀ q, q ∈ pip_in_tile example_grid →
                     is_directional q = true → is_pseudo q = false →
                     dest_wire_in_tile_pkey q ≠ 1).
Proof.
  assert (Hrun : traverse_pip example_grid 1 = Some 2) by reflexivity.
  split; [exact Hrun|].
  exact (traverse_pip_Some example_grid 1 2 Hrun).
Defined.

(** X3.  On a node with a single row in the traversal query, the
    classifier's traversal and [traverse_pip] agree on the wire type on
    the far side of the PIP. *)
Theorem traverse_pip_agrees conn k t r :
  pips_of_node conn k = [r] →
  traverse conn k = Ok t →
  traverse_pip conn (wire_in_tile_pkey t) = Some (other_wire t).
Proof.
  intros Hone (wr & rest & o & Hrows & Hwit & Hphy & Hother & _)%traverse_Ok.
  rewrite Hone in Hrows. injection Hrows as -> <-.
  assert (Hin : ((wire_in_node_pkey t, wr), (pip_pkey t, pip t))
                ∈ pips_of_node conn k) by (rewrite Hone; left).
  apply elem_of_pips_of_node in Hin as (Hw & Hnode & Hpip & Htouch).
  apply pip_touches_spec in Htouch as (Hdir & Hpseudo & Htouch).
  rewrite <- Hwit in Htouch.
  assert (Honly : ∀ q, q ∈ pip_in_tile conn →
            is_directional q = true → is_pseudo q = false →
            src_wire_in_tile_pkey q = wire_in_tile_pkey t
            ∨ dest_wire_in_tile_pkey q = wire_in_tile_pkey t →
            q = pip t).
  { intros q [i Hi]%list_elem_of_lookup Hqd Hqs Hq.
    assert (Hin : ((wire_in_node_pkey t, wr), (S i, q))
                  ∈ pips_of_node conn k).
    { apply elem_of_pips_of_node. split_and!; [done..|].
      apply pip_touches_spec. rewrite <- Hwit. by split_and!. }
    rewrite Hone in Hin. apply list_elem_of_singleton in Hin. congruence. }
  assert (Hpip' : pip t ∈ pip_in_tile conn) by (by eapply row_at_elem_of).
  rewrite Hother. unfold traverse_pip.
  destruct (filter _ _) as [|q l] eqn:Hdest.
  - assert (Hnot : dest_wire_in_tile_pkey (pip t) ≠ wire_in_tile_pkey t).
    { intros Heq.
      apply (proj1 (filter_nil_iff _ _)) with (a := pip t) in Hdest; [|done].
      apply Hdest, pip_drives_spec. by split_and!. }
    destruct Htouch as [Hsrc|?]; [|done].
    destruct (filter _ (pip_in_tile conn)) as [|q l] eqn:Hfilter in |- *.
    + apply (proj1 (filter_nil_iff _ _)) with (a := pip t) in Hfilter;
        [|done].
      destruct Hfilter. apply pip_drives_spec. by split_and!.
    + assert (Hin : q ∈ q :: l) by left.
      rewrite <- Hfilter in Hin.
      apply list_elem_of_filter in Hin as [(Hd & Hs & Hq)%pip_drives_spec Hin].
      rewrite (Honly q) by (by try left). by rewrite decide_True.
  - assert (Hin : q ∈ q :: l) by left.
    rewrite <- Hdest in Hin.
    apply list_elem_of_filter in Hin as [(Hd & Hs & Hq)%pip_drives_spec Hin].
    assert (q = pip t) as -> by (apply Honly; by try right).
    destruct (decide _) as [Heq|Hne]; congruence.
Qed.

Lemma traverse_pip_agrees_witness :
  ∃ t r, pips_of_node example_annotated 5 = [r]
         ∧ traverse example_annotated 5 = Ok t
         ∧ traverse_pip example_annotated (wire_in_tile_pkey t)
           = Some (other_wire t).
Proof.
  destruct (traverse example_annotated 5) as [t|] eqn:Ht; [|discriminate].
  destruct (pips_of_node example_annotated 5) as [|r [|]] eqn:Hr;
    [discriminate| |discriminate].
  exists t, r. split; [reflexivity|]. split; [reflexivity|].
  exact (traverse_pip_agrees example_annotated 5 t r Hr Ht).
Defined.

(** ** Stage 4: further properties of a run *)



(** The three [UPDATE]s classify every row with a PIP count that is not
    negative, the ambiguous rows apart. *)
Lemma unambiguous_class_is_Some n p :
  number_pips n = Some p → (0 ≤ p)%Z →
  (p = 1%Z → site_wire_pkey n = None) →
  is_Some (unambiguous_class n).
Proof.
  intros Hp Hpos Hone. unfold unambiguous_class. rewrite Hp. simpl.
  destruct (site_wire_pkey n) as [s|]; simpl.
  - destruct (Z.gtb_spec p 1); simpl; [by eexists|].
    destruct (Z.eqb_spec p 0); simpl; [by eexists|].
    assert (p = 1%Z) as -> by lia. by specialize (Hone eq_refl).
  - destruct (Z.gtb_spec p 1); simpl; [by eexists|].
    destruct (Z.leb_spec p 1); simpl; [by eexists|lia].
Qed.

(** X5.  A run that succeeds leaves no node with a PIP count
    unclassified, and a node whose PIP count is [NULL] with the
    classification it had. *)
Theorem classify_nodes_total conn conn' k n :
  classify_nodes conn = Ok conn' →
  row_at (node conn) k = Some n →
  (∀ p, number_pips n = Some p → (0 ≤ p)%Z → is_Some (class_of conn' k))
  ∧ (number_pips n = None → class_of conn' k = classification n).
Proof.
  intros (vs & Hvs & _ & Hts & Hrow & _)%classify_nodes_visits Hn.
  assert (Hvs' : ∀ v, v ∈ vs →
            ambiguous conn v.1.1 v.1.2 ∧ traverse conn v.1.1 = Ok v.2).
  { intros [[k' s'] t] Hv. split.
    - apply Hvs. apply list_elem_of_fmap. by exists (k', s', t).
    - by apply (proj1 (Forall_forall _ _) Hts) in Hv. }
  destruct (worked_nodes conn vs k Hvs') as [Hnull Hsite].
  unfold class_of. rewrite Hrow, Hn. simpl. unfold final_class. split.
  - intros p Hp Hpos.
    destruct (decide (k ∈ null_nodes (work vs))); [by eexists|].
    destruct (decide (k ∈ edges_to_channel (work vs))); [by eexists|].
    destruct (decide (k ∈ mux_nodes (work vs))); [by eexists|].
    apply (unambiguous_class_is_Some n p); [done..|].
    intros ->. destruct (site_wire_pkey n) as [s|] eqn:Hs; [|done].
    assert (Hamb : ambiguous conn k s) by (by exists n).
    apply Hvs in Hamb as ([[k' s'] t] & [= <- <-] & Hv)%list_elem_of_fmap.
    assert (Hwork := work_of_cases k s t).
    assert (k ∈ null_nodes (work vs) ∨ k ∈ edges_to_channel (work vs)
            ∨ k ∈ mux_nodes (work vs)) as [?|[?|?]]; [|done..].
    destruct (other_site_wire_pkey t),
      (cmp Z.eqb (other_number_pips t) 1).
    + right. right. apply elem_of_mux_nodes. eexists. split.
      * apply elem_of_edge_with_mux_list_work. exists ((k, s), t).
        split; [done|]. rewrite Hwork. left.
      * by left.
    + right. left. apply elem_of_edges_to_channel_work.
      exists ((k, s), t). split; [done|]. rewrite Hwork. left.
    + left. apply elem_of_null_nodes_work.
      exists ((k, s), t). split; [done|]. rewrite Hwork. left.
    + right. left. apply elem_of_edges_to_channel_work.
      exists ((k, s), t). split; [done|]. rewrite Hwork. left.
  - intros Hnone.
    assert (Hnot : ∀ s, ¬ facts conn k (Some 1%Z) s).
    { intros s (n' & Hn' & Hp' & _). congruence. }
    rewrite !decide_False.
    + unfold unambiguous_class. rewrite Hnone.
      by destruct (site_wire_pkey n).
    + intros Hin. destruct (Hsite (or_intror Hin)) as [s Hs].
      by eapply Hnot.
    + intros Hin. destruct (Hsite (or_introl Hin)) as [s Hs].
      by eapply Hnot.
    + intros [s Hs]%Hnull. by eapply Hnot.
Qed.

Lemma classify_nodes_total_witness :
  classify_nodes example_annotated = Ok example_classified
  ∧ ∃ n, row_at (node example_annotated) 5 = Some n
         ∧ number_pips n = Some 1%Z
         ∧ is_Some (class_of example_classified 5).
Proof.
  split; [reflexivity|].
  destruct (row_at (node example_annotated) 5) as [n|] eqn:Hn;
    [|discriminate].
  assert (Hp : number_pips n = Some 1%Z) by (by injection Hn as <-).
  exists n. split; [reflexivity|]. split; [exact Hp|].
  apply (proj1 (classify_nodes_total example_annotated example_classified 5 n
                  eq_refl Hn) 1%Z Hp).
  lia.
Defined.

Lemma apply_worklists_frame {T : Type} (proj : connection → T) l conn :
  (∀ f conn, proj (with_node f conn) = proj conn) →
  (∀ f conn, proj (with_edge_with_mux f conn) = proj conn) →
  proj (apply_worklists l conn) = proj conn.
Proof.
  intros Hnode Hedge. unfold apply_worklists, set_class_at.
  rewrite !(foldl_frame _ proj); [done|intros; by rewrite ?Hedge, ?Hnode..].
Qed.

(** X6.  What the classifier never touches: a run that succeeds leaves
    every table but [node] and [edge_with_mux] as it was, changes no
    column of a node row but its classification, and only appends to
    [edge_with_mux]. *)
Theorem classify_nodes_frame conn conn' :
  classify_nodes conn = Ok conn' →
  site_type conn' = site_type conn ∧ site_pin conn' = site_pin conn
  ∧ wire_in_tile conn' = wire_in_tile conn
  ∧ pip_in_tile conn' = pip_in_tile conn
  ∧ phy_tile conn' = phy_tile conn ∧ tile conn' = tile conn
  ∧ wire conn' = wire conn
  ∧ length (node conn') = length (node conn)
  ∧ (∀ k, reclassified None <$> row_at (node conn') k
          = reclassified None <$> row_at (node conn) k)
  ∧ edge_with_mux conn `prefix_of` edge_with_mux conn'.
Proof.
  intros Hrun.
  destruct (classify_nodes_visits _ _ Hrun)
    as (vs & _ & _ & _ & Hrow & Hedge & Hwire).
  apply classify_nodes_Ok in Hrun as (ts & _ & ->).
  split_and!; try (by rewrite apply_worklists_frame); try done.
  - apply Nat.le_antisymm.
    + destruct (decide (length (node (apply_worklists
                  (work (zip (ambiguous_nodes (classify_unambiguous conn)) ts))
                  (classify_unambiguous conn))) ≤ length (node conn)))
        as [|Hgt]; [done|].
      destruct (proj2 (row_at_is_Some (node (apply_worklists
                  (work (zip (ambiguous_nodes (classify_unambiguous conn)) ts))
                  (classify_unambiguous conn))) (S (length (node conn)))))
        as [n Hn]; [lia|].
      rewrite Hrow in Hn. simpl in Hn.
      rewrite lookup_ge_None_2 in Hn by lia. done.
    + destruct (decide (length (node conn) ≤ length (node (apply_worklists
                  (work (zip (ambiguous_nodes (classify_unambiguous conn)) ts))
                  (classify_unambiguous conn))))) as [|Hgt]; [done|].
      destruct (proj2 (row_at_is_Some (node conn) (length (node conn))))
        as [n Hn]; [lia|].
      assert (Hn' := Hrow (length (node conn))). rewrite Hn in Hn'.
      simpl in Hn'. apply row_at_Some_lt in Hn'. lia.
  - intros k. rewrite Hrow.
    by destruct (row_at (node conn) k) as [[]|].
  - rewrite Hedge. by apply prefix_app_r.
Qed.

Lemma classify_nodes_frame_witness :
  classify_nodes example_annotated = Ok example_classified
  ∧ wire example_classified = wire example_annotated
  ∧ length (node example_classified) = length (node example_annotated)
  ∧ edge_with_mux example_annotated `prefix_of` edge_with_mux example_classified.
Proof.
  split; [reflexivity|].
  destruct (classify_nodes_frame example_annotated example_classified eq_refl)
    as (_ & _ & _ & _ & _ & _ & Hwire & Hlen & _ & Hedge).
  by split_and!.
Defined.

(** The visit of an ambiguous node puts it on a work list. *)
Lemma ambiguous_worked conn vs k s :
  (∀ k s, ambiguous conn k s ↔ (k, s) ∈ vs.*1) →
  ambiguous conn k s →
  k ∈ null_nodes (work vs) ∨ k ∈ edges_to_channel (work vs)
  ∨ k ∈ mux_nodes (work vs).
Proof.
  intros Hvs Hamb.
  apply Hvs in Hamb as ([[k' s'] t] & [= <- <-] & Hv)%list_elem_of_fmap.
  assert (Hwork := work_of_cases k s t).
  destruct (other_site_wire_pkey t), (cmp Z.eqb (other_number_pips t) 1).
  - right. right. apply elem_of_mux_nodes. eexists. split.
    + apply elem_of_edge_with_mux_list_work. exists ((k, s), t).
      split; [done|]. rewrite Hwork. left.
    + by left.
  - right. left. apply elem_of_edges_to_channel_work.
    exists ((k, s), t). split; [done|]. rewrite Hwork. left.
  - left. apply elem_of_null_nodes_work.
    exists ((k, s), t). split; [done|]. rewrite Hwork. left.
  - right. left. apply elem_of_edges_to_channel_work.
    exists ((k, s), t). split; [done|]. rewrite Hwork. left.
Qed.

(** X7.  Right after stage 4 the classification CHANNEL and the CHANNEL
    criterion coincide: a node with a PIP count that is not negative is
    classified CHANNEL by a run that succeeds exactly when its PIP count
    exceeds 1 and it has no site-pin wire. *)
Theorem channel_iff_criterion conn conn' k n p :
  classify_nodes conn = Ok conn' →
  row_at (node conn) k = Some n →
  number_pips n = Some p → (0 ≤ p)%Z →
  class_of conn' k = Some CHANNEL ↔ channel_criterion n = true.
Proof.
  intros (vs & Hvs & _ & Hts & Hrow & _)%classify_nodes_visits Hn Hp Hpos.
  assert (Hvs' : ∀ v, v ∈ vs →
            ambiguous conn v.1.1 v.1.2 ∧ traverse conn v.1.1 = Ok v.2).
  { intros [[k' s'] t] Hv. split.
    - apply Hvs. apply list_elem_of_fmap. by exists (k', s', t).
    - by apply (proj1 (Forall_forall _ _) Hts) in Hv. }
  destruct (worked_nodes conn vs k Hvs') as [Hnull Hsite].
  assert (Hworked : (∃ s, facts conn k (Some 1%Z) s) →
                    channel_criterion n = false).
  { intros (s & n' & Hn' & Hp' & _). assert (n' = n) as -> by congruence.
    unfold channel_criterion. by rewrite Hp'. }
  unfold class_of. rewrite Hrow, Hn. simpl. unfold final_class.
  destruct (decide (k ∈ null_nodes (work vs))) as [Hin|Hnin1].
  { rewrite Hworked by (by apply Hnull). done. }
  destruct (decide (k ∈ edges_to_channel (work vs))) as [Hin|Hnin2].
  { destruct (Hsite (or_introl Hin)) as [s Hs].
    rewrite Hworked by (by eexists). done. }
  destruct (decide (k ∈ mux_nodes (work vs))) as [Hin|Hnin3].
  { destruct (Hsite (or_intror Hin)) as [s Hs].
    rewrite Hworked by (by eexists). done. }
  assert (Hplain : p = 1%Z → site_wire_pkey n = None).
  { intros ->. destruct (site_wire_pkey n) as [s|] eqn:Hs; [|done].
    destruct (ambiguous_worked conn vs k s Hvs) as [?|[?|?]]; [|done..].
    by exists n. }
  unfold unambiguous_class, channel_criterion. rewrite Hp. simpl.
  destruct (site_wire_pkey n); simpl; rewrite ?andb_true_r, ?andb_false_r;
    simpl.
  - destruct (Z.gtb_spec p 1); simpl; [done|].
    destruct (Z.eqb_spec p 0); simpl; [done|].
    assert (p = 1%Z) as -> by lia. by specialize (Hplain eq_refl).
  - destruct (Z.gtb_spec p 1); simpl; [done|].
    destruct (Z.leb_spec p 1); simpl; [done|lia].
Qed.

Lemma channel_iff_criterion_witness :
  classify_nodes example_annotated = Ok example_classified
  ∧ ∃ n, row_at (node example_annotated) 6 = Some n
         ∧ number_pips n = Some 4%Z
         ∧ (class_of example_classified 6 = Some CHANNEL
            ↔ channel_criterion n = true).
Proof.
  split; [reflexivity|].
  destruct (row_at (node example_annotated) 6) as [n|] eqn:Hn;
    [|discriminate].
  assert (Hp : number_pips n = Some 4%Z) by (by injection Hn as <-).
  exists n. split; [reflexivity|]. split; [exact Hp|].
  apply (channel_iff_criterion example_annotated example_classified 6 n 4%Z
           eq_refl Hn Hp).
  lia.
Defined.

(** ** Stage 3: further properties of a run *)

(** X8.  On the nodes as stage 2 leaves them, with PIP count 0, a run of
    the annotator that succeeds stores in every node the number of rows
    of its traversal query, that is of pairs of one of its wires and a
    directional, non-pseudo PIP on that wire, and as site wire a wire of
    the node itself. *)
Theorem annotator_counts_pips conn conn' k n :
  Forall (λ n, number_pips n = Some 0%Z) (node conn) →
  count_sites_and_pips_on_nodes conn = Ok conn' →
  row_at (node conn') k = Some n →
  number_pips n = Some (Z.of_nat (length (pips_of_node conn k)))
  ∧ ∀ w, site_wire_pkey n = Some w →
         wire_node_pkey <$> row_at (wire conn) w = Some (Some k).
Proof.
  intros Hzero Hrun Hn.
  destruct (count_sites_and_pips_on_nodes_wire _ _ Hrun)
    as (Hwire & Hpip & _ & _).
  destruct (count_sites_and_pips_on_nodes_annotates _ _ Hzero Hrun)
    as [Hpips Hsites].
  apply elem_of_rows in Hn. split.
  - apply (proj1 (Forall_forall _ _) Hpips) in Hn. simpl in Hn.
    rewrite Hn. unfold pips_of_node, wire_in_node. by rewrite Hwire, Hpip.
  - intros w Hw.
    apply (proj1 (Forall_forall _ _) Hsites) in Hn. simpl in Hn.
    rewrite Hw in Hn. simpl in Hn. apply bool_decide_unpack in Hn.
    by rewrite <- Hwire.
Qed.

Lemma annotator_counts_pips_witness :
  Forall (λ n, number_pips n = Some 0%Z) (node example_nodes)
  ∧ count_sites_and_pips_on_nodes example_nodes = Ok example_annotated
  ∧ ∃ n, row_at (node example_annotated) 6 = Some n
         ∧ number_pips n
           = Some (Z.of_nat (length (pips_of_node example_nodes 6)))
         ∧ ∀ w, site_wire_pkey n = Some w →
                wire_node_pkey <$> row_at (wire example_nodes) w
                = Some (Some 6).
Proof.
  assert (Hzero : Forall (λ n, number_pips n = Some 0%Z) (node example_nodes))
    by (repeat constructor).
  split; [exact Hzero|]. split; [reflexivity|].
  destruct (row_at (node example_annotated) 6) as [n|] eqn:Hn;
    [|discriminate].
  exists n. split; [reflexivity|].
  exact (annotator_counts_pips example_nodes example_annotated 6 n
           Hzero eq_refl Hn).
Defined.

Lemma NoDup_filter_count {A : Type} `{EqDecision A} (l : list A) :
  NoDup l ↔ ∀ k, length (filter (k =.) l) ≤ 1.
Proof.
  split.
  - induction 1 as [|x l Hx Hnd IH]; intros k; [simpl; lia|].
    rewrite filter_cons. destruct (decide (k = x)) as [->|Hne]; [|apply IH].
    simpl. rewrite (proj2 (filter_nil_iff _ l)); [simpl; lia|].
    by intros a Ha <-.
  - induction l as [|x l IH]; intros Hcount; [constructor|].
    apply NoDup_cons. split.
    + intros Hx. specialize (Hcount x). rewrite filter_cons in Hcount.
      rewrite decide_True in Hcount by done. simpl in Hcount.
      destruct (filter (x =.) l) as [|y l'] eqn:Hf; [|simpl in Hcount; lia].
      by apply (proj1 (filter_nil_iff _ l) Hf x).
    + apply IH. intros k. specialize (Hcount k).
      rewrite filter_cons in Hcount.
      destruct (decide (k = x)); simpl in Hcount; lia.
Qed.

(** X9.  The outcome of the annotator: it returns exactly when some wire
    is a site-pin wire and no two site-pin wires have the same node key
    (which also forbids two site-pin wires without a node); in every other
    case it raises [AssertionError]. *)
Theorem annotator_returns_iff conn :
  ((∃ conn', count_sites_and_pips_on_nodes conn = Ok conn')
   ↔ site_pin_wire_nodes conn ≠ [] ∧ NoDup (site_pin_wire_nodes conn))
  ∧ ∀ e, count_sites_and_pips_on_nodes conn = Raise e → e = AssertionError.
Proof.
  split.
  - assert (Hmax : sql_max ((node_sites conn).*2) = Some 1%Z
                   ↔ site_pin_wire_nodes conn ≠ []
                     ∧ NoDup (site_pin_wire_nodes conn)).
    { unfold node_sites. fold (site_pin_wire_nodes conn).
      generalize (site_pin_wire_nodes conn). intros keys.
      rewrite NoDup_filter_count. split.
      - intros Hm. split.
        + intros ->. done.
        + intros k.
          destruct (decide (k ∈ keys)) as [Hk|Hk].
          * assert (Hin : Z.of_nat (length (filter (k =.) keys))
                          ∈ (group_count keys).*2).
            { apply list_elem_of_fmap. eexists (k, _). split; [done|].
              by apply elem_of_group_count. }
            apply sql_max_ge in Hin as (m & Hm' & Hle).
            rewrite Hm in Hm'. injection Hm' as <-. lia.
          * rewrite (proj2 (filter_nil_iff _ keys)); [simpl; lia|].
            by intros a Ha <-.
      - intros [Hne Hcount].
        destruct (sql_max (group_count keys).*2) as [m|] eqn:Hm.
        + assert (Hin := sql_max_elem_of _ _ Hm).
          apply list_elem_of_fmap in Hin as ([k c] & -> & Hin).
          apply elem_of_group_count in Hin as [Hk ->]. simpl.
          specialize (Hcount k).
          destruct (filter (k =.) keys) as [|y l'] eqn:Hf.
          * by destruct (proj1 (filter_nil_iff _ keys) Hf k).
          * simpl in *. do 2 f_equal. lia.
        + destruct keys as [|k keys]; [done|].
          unfold group_count in Hm.
          destruct (remove_dups (k :: keys)) as [|k' l] eqn:Hd; [|done].
          assert (Hk : k ∈ remove_dups (k :: keys))
            by (apply elem_of_remove_dups; left).
          rewrite Hd in Hk. by apply elem_of_nil in Hk. }
    rewrite <- Hmax. split.
    + by intros [conn' [? _]%count_sites_and_pips_on_nodes_Ok].
    + intros Hm. eexists. by apply count_sites_and_pips_on_nodes_Ok.
  - unfold count_sites_and_pips_on_nodes.
    destruct (bool_decide _); simpl; [done|]. by intros e [= <-].
Qed.

Lemma annotator_returns_iff_witness :
  (site_pin_wire_nodes example_nodes ≠ []
   ∧ NoDup (site_pin_wire_nodes example_nodes))
  ∧ (∃ conn', count_sites_and_pips_on_nodes example_nodes = Ok conn')
  ∧ count_sites_and_pips_on_nodes two_pins_nodes = Raise AssertionError.
Proof.
  assert (Hkeys : site_pin_wire_nodes example_nodes ≠ []
                  ∧ NoDup (site_pin_wire_nodes example_nodes)).
  { split; [discriminate|compute_done]. }
  split; [exact Hkeys|]. split.
  - exact (proj2 (proj1 (annotator_returns_iff example_nodes)) Hkeys).
  - destruct (count_sites_and_pips_on_nodes two_pins_nodes) as [|e] eqn:Hrun;
      [discriminate|].
    f_equal.
    exact (proj2 (annotator_returns_iff two_pins_nodes) e Hrun).
Defined.

(** X10.  What the annotator never touches: a run that succeeds leaves
    every table but [node] as it was and, in a node row, the track and
    the classification; the site wire is overwritten in every row, the
    PIP count only in the rows of nodes with a PIP, so that a node without
    one keeps the count it had. *)
Theorem annotator_frame conn conn' k n :
  count_sites_and_pips_on_nodes conn = Ok conn' →
  row_at (node conn) k = Some n →
  (site_type conn' = site_type conn ∧ site_pin conn' = site_pin conn
   ∧ wire_in_tile conn' = wire_in_tile conn
   ∧ pip_in_tile conn' = pip_in_tile conn
   ∧ phy_tile conn' = phy_tile conn ∧ tile conn' = tile conn
   ∧ wire conn' = wire conn ∧ edge_with_mux conn' = edge_with_mux conn)
  ∧ ∃ n', row_at (node conn') k = Some n'
          ∧ track_pkey n' = track_pkey n
          ∧ classification n' = classification n
          ∧ site_wire_pkey n' = scalar (site_pin_wires_of conn k)
          ∧ (pips_of_node conn k = [] → number_pips n' = number_pips n).
Proof.
  intros [_ ->]%count_sites_and_pips_on_nodes_Ok Hn.
  split; [done|].
  rewrite insert_pip_counts_row, assign_site_wires_row, Hn. simpl.
  eexists. split; [done|].
  destruct (decide (Some k ∈ _)) as [Hin|Hnin]; simpl;
    (split_and!; [done..|]); [|done].
  intros Hnone. exfalso.
  assert (Hlen := node_pip_count_length conn k).
  rewrite Hnone in Hlen. simpl in Hlen.
  apply list_elem_of_fmap in Hin as ([o c] & Ho & Hin).
  apply elem_of_group_count in Hin as [Hin _]. simpl in *. subst o.
  change (wire (assign_site_wires conn)) with (wire conn) in Hin.
  change (pip_in_tile (assign_site_wires conn)) with (pip_in_tile conn) in Hin.
  apply length_zero_iff_nil in Hlen.
  by apply (proj1 (filter_nil_iff _ _) Hlen (Some k)).
Qed.

Lemma annotator_frame_witness :
  count_sites_and_pips_on_nodes example_nodes = Ok example_annotated
  ∧ wire example_annotated = wire example_nodes
  ∧ ∃ n n', row_at (node example_nodes) 6 = Some n
            ∧ row_at (node example_annotated) 6 = Some n'
            ∧ track_pkey n' = track_pkey n
            ∧ classification n' = classification n.
Proof.
  split; [reflexivity|].
  destruct (row_at (node example_nodes) 6) as [n|] eqn:Hn; [|discriminate].
  destruct (annotator_frame example_nodes example_annotated 6 n eq_refl Hn)
    as [(_ & _ & _ & _ & _ & _ & Hwire & _) (n' & Hn' & Htrack & Hclass & _)].
  split; [exact Hwire|]. by exists n, n'.
Defined.

(** ** Stage 6: further properties of a run *)

(** X11.  The outcome of stage 6: [AssertionError] unless exactly one
    site type is named TIEOFF; with one, [TypeError] when it lacks a pin
    HARD1 or a pin HARD0, and a result otherwise. *)
Theorem connect_hardpins_outcome conn vcc gnd :
  (length (tieoff_site_types conn) ≠ 1 →
   connect_hardpins_to_constant_network conn vcc gnd = Raise AssertionError)
  ∧ ∀ t, tieoff_site_types conn = [t] →
      (site_pins_named conn t "HARD1" = []
       ∨ site_pins_named conn t "HARD0" = [] →
       connect_hardpins_to_constant_network conn vcc gnd = Raise TypeError)
      ∧ (site_pins_named conn t "HARD1" ≠ [] →
         site_pins_named conn t "HARD0" ≠ [] →
         ∃ conn', connect_hardpins_to_constant_network conn vcc gnd
                  = Ok conn').
Proof.
  unfold connect_hardpins_to_constant_network.
  fold (tieoff_site_types conn). split.
  - intros Hlen. by rewrite bool_decide_false.
  - intros t ->. simpl.
    assert (Hnamed : ∀ c1 : connection, site_pin c1 = site_pin conn →
              site_pins_named c1 t "HARD0" = site_pins_named conn t "HARD0").
    { intros c1 Hpin. unfold site_pins_named. by rewrite Hpin. }
    destruct (site_pins_named conn t "HARD1") as [|vp vrest] eqn:Hvp; simpl.
    { split; [done|]. by intros Hne. }
    rewrite (Hnamed (foldl (retarget vcc) conn (wires_of_site_pin conn vp)))
      by (by destruct (foldl_retarget_frame vcc (wires_of_site_pin conn vp)
                         conn) as (_ & _ & -> & _)).
    destruct (site_pins_named conn t "HARD0") as [|gp grest] eqn:Hgp; simpl.
    { split; [done|]. by intros _ Hne. }
    split; [by intros [?|?]|]. intros _ _. by eexists.
Qed.

Lemma connect_hardpins_outcome_witness :
  (length (tieoff_site_types scenario_a_nodes) ≠ 1
   ∧ connect_hardpins_to_constant_network scenario_a_nodes 1 2
     = Raise AssertionError)
  ∧ (tieoff_site_types bare_tieoff = [1]
     ∧ site_pins_named bare_tieoff 1 "HARD1" = []
     ∧ connect_hardpins_to_constant_network bare_tieoff 1 2
       = Raise TypeError)
  ∧ (tieoff_site_types example_constants = [1]
     ∧ site_pins_named example_constants 1 "HARD1" ≠ []
     ∧ site_pins_named example_constants 1 "HARD0" ≠ []
     ∧ ∃ conn', connect_hardpins_to_constant_network example_constants 1 2
                = Ok conn').
Proof.
  split; [|split].
  - assert (Hlen : length (tieoff_site_types scenario_a_nodes) ≠ 1)
      by (simpl; lia).
    split; [exact Hlen|].
    exact (proj1 (connect_hardpins_outcome scenario_a_nodes 1 2) Hlen).
  - split; [reflexivity|]. split; [reflexivity|].
    exact (proj1 (proj2 (connect_hardpins_outcome bare_tieoff 1 2) 1 eq_refl)
             (or_introl eq_refl)).
  - assert (Hvcc : site_pins_named example_constants 1 "HARD1" ≠ [])
      by discriminate.
    assert (Hgnd : site_pins_named example_constants 1 "HARD0" ≠ [])
      by discriminate.
    split; [reflexivity|]. split; [exact Hvcc|]. split; [exact Hgnd|].
    exact (proj2 (proj2 (connect_hardpins_outcome example_constants 1 2)
                    1 eq_refl) Hvcc Hgnd).
Defined.

(** The site type stage 6 looked up is a row named TIEOFF. *)
Lemma connect_hardpins_tieoff conn vcc gnd conn' :
  connect_hardpins_to_constant_network conn vcc gnd = Ok conn' →
  ∃ t st, row_at (site_type conn) t = Some st
          ∧ site_type_name st = "TIEOFF".
Proof.
  unfold connect_hardpins_to_constant_network.
  intros ([] & _ & ([t rest] & Htieoff%fetchone_Ok & _)%bind_Ok)%bind_Ok.
  fold (tieoff_site_types conn) in Htieoff.
  assert (Hin : t ∈ tieoff_site_types conn) by (rewrite Htieoff; left).
  apply list_elem_of_fmap in Hin
    as ([t' st'] & -> & [Hname Hin%elem_of_rows]%list_elem_of_filter).
  by exists t', st'.
Qed.

(** X12.  Stage 6 rewrites no other node: a node none of whose wires is
    bound to the pin HARD1 or HARD0 of a TIEOFF site keeps its whole
    row. *)
Theorem hard_pins_leave_other_nodes conn conn' vcc gnd k :
  connect_hardpins_to_constant_network conn vcc gnd = Ok conn' →
  (∀ w, ¬ tieoff_wire conn "HARD1" w k) →
  (∀ w, ¬ tieoff_wire conn "HARD0" w k) →
  row_at (node conn') k = row_at (node conn) k.
Proof.
  intros Hrun Hvcc Hgnd.
  destruct (connect_hardpins_tieoff _ _ _ _ Hrun) as (t & st & Ht & Hname).
  apply connect_hardpins_to_constant_network_Ok in Hrun
    as (tieoff & vp & gp & Htieoff & Hvp & Hgp & _ & Hrow).
  assert (t = tieoff) as -> by (by eapply Htieoff).
  assert (Hbound : ∀ name p, p ∈ site_pins_named conn tieoff name →
            owns conn (wires_of_site_pin conn p) k →
            ∃ w, tieoff_wire conn name w k).
  { intros name p (pin & Hp & Hty & Hpin)%elem_of_site_pins_named
      (wr & [i Hi]%list_elem_of_lookup & Hk
       & (wit & Hwit & Hsp)%elem_of_wires_of_site_pin)%Exists_exists.
    exists (S i), wr, wit, p, pin, st. split_and!; try done.
    by rewrite Hty. }
  rewrite Hrow. destruct (row_at (node conn) k) as [n|]; simpl; [|done].
  rewrite !decide_False; [done|..].
  - intros [w Hw]%(Hbound "HARD1" vp Hvp). by eapply Hvcc.
  - intros [w Hw]%(Hbound "HARD0" gp Hgp). by eapply Hgnd.
Qed.

Lemma hard_pins_leave_other_nodes_witness :
  connect_hardpins_to_constant_network example_constants 1 2
  = Ok example_routed
  ∧ (∀ w, ¬ tieoff_wire example_constants "HARD1" w 18)
  ∧ (∀ w, ¬ tieoff_wire example_constants "HARD0" w 18)
  ∧ row_at (node example_routed) 18 = row_at (node example_constants) 18.
Proof.
  assert (Hnone : ∀ name w, ¬ tieoff_wire example_constants name w 18).
  { intros name w (wr & _ & _ & _ & _ & Hw%row_at_elem_of & Hk & _).
    assert (Hall : Forall (λ wr, wire_node_pkey wr ≠ Some 18)
                     (wire example_constants)) by compute_done.
    by apply (proj1 (Forall_forall _ _) Hall) in Hw. }
  split; [reflexivity|]. split; [apply Hnone|]. split; [apply Hnone|].
  exact (hard_pins_leave_other_nodes example_constants example_routed 1 2 18
           eq_refl (Hnone "HARD1") (Hnone "HARD0")).
Defined.

(** ** Stage 2: nodes are the classes of connected wires *)

Lemma linked_mono m cs cs' a b :
  (∀ c, c ∈ cs → c ∈ cs') → linked m cs a b → linked m cs' a b.
Proof.
  intros Hsub. apply (rtsc_congruence id). intros x y (c & Hc & Hx & Hy).
  exists c. auto.
Qed.

Lemma merge_links m cs0 c a b la lb o :
  objects_ok o → mergeable o la → mergeable o lb →
  links_ok m cs0 o →
  m !! c.1 = Some a → m !! c.2 = Some b →
  a ∈ deref o la → b ∈ deref o lb →
  (∀ w, w ∈ deref o la → linked m cs0 a w) →
  (∀ w, w ∈ deref o lb → linked m cs0 b w) →
  links_ok m (cs0 ++ [c]) (merge la lb o).
Proof.
  intros (Hnd & Hkeys & Hmem & Hall) (Hla & Hka & Hsa) (Hlb & Hkb & Hsb)
    [HA HB] Hma Hmb Ha Hb Hlinka Hlinkb.
  assert (Hin : ∀ w l, wires o !! w = Some (Some l) →
            w ∈ deref o la ∪ deref o lb →
            ∀ w', w' ∈ deref o l → w' ∈ deref o la ∪ deref o lb).
  { intros w l Hw [Hwa|Hwb]%elem_of_union w' Hw'.
    - destruct Hsa as [Hsa|[Hsa _]]; apply Hsa in Hwa; [|congruence].
      assert (l = la) as -> by congruence. set_solver.
    - destruct Hsb as [Hsb|[Hsb _]]; apply Hsb in Hwb; [|congruence].
      assert (l = lb) as -> by congruence. set_solver. }
  split.
  - intros a' b' (c' & [Hc'| ->%list_elem_of_singleton]%elem_of_app
                  & Ha' & Hb').
    + destruct (HA a' b') as (l & Hal & Hbl); [by exists c'|].
      destruct (Hmem _ _ Hal) as [Hain _], (Hmem _ _ Hbl) as [Hbin _].
      rewrite !merge_lookup.
      destruct (decide (a' ∈ deref o la ∪ deref o lb)) as [Hi|Hni].
      * exists la. rewrite decide_True by (by apply (Hin a' l)). done.
      * exists l. rewrite decide_False; [done|].
        intros Hi. apply Hni. by apply (Hin b' l).
    + assert (a' = a) as -> by congruence.
      assert (b' = b) as -> by congruence.
      exists la. rewrite !merge_lookup.
      rewrite !decide_True by set_solver. done.
  - intros w w' l. rewrite merge_lookup, deref_merge by done.
    assert (Hab : linked m (cs0 ++ [c]) a b).
    { apply rtsc_lr. exists c. split; [|done]. apply elem_of_app.
      right. left. }
    assert (Hmono : ∀ x y, linked m cs0 x y → linked m (cs0 ++ [c]) x y).
    { intros x y. apply linked_mono. intros c' Hc'. apply elem_of_app.
      by left. }
    assert (Hfrom : ∀ x, x ∈ deref o la ∪ deref o lb →
              linked m (cs0 ++ [c]) a x).
    { intros x [Hx|Hx]%elem_of_union; [by apply Hmono, Hlinka|].
      etrans; [exact Hab|]. by apply Hmono, Hlinkb. }
    destruct (decide (w ∈ deref o la ∪ deref o lb)) as [Hi|Hni].
    + intros [= <-]. rewrite decide_True by done. intros Hw'.
      etrans; [symmetry; by apply Hfrom|by apply Hfrom].
    + intros Hw. destruct (Hmem _ _ Hw) as [Hwl _].
      rewrite decide_False by (intros ->; set_solver).
      intros Hw'. apply Hmono. by eapply HB.
Qed.

Lemma same_set_links m cs0 c a b l o :
  links_ok m cs0 o →
  m !! c.1 = Some a → m !! c.2 = Some b →
  wires o !! a = Some (Some l) → wires o !! b = Some (Some l) →
  links_ok m (cs0 ++ [c]) o.
Proof.
  intros [HA HB] Hma Hmb Ha Hb. split.
  - intros a' b' (c' & [Hc'| ->%list_elem_of_singleton]%elem_of_app
                  & Ha' & Hb').
    + apply HA. by exists c'.
    + assert (a' = a) as -> by congruence.
      assert (b' = b) as -> by congruence. by exists l.
  - intros w w' l' Hw Hw'. eapply linked_mono; [|by eapply HB].
    intros c' Hc'. apply elem_of_app. by left.
Qed.

Lemma links_new_set m cs0 w o :
  objects_ok o → links_ok m cs0 o → links_ok m cs0 (new_set w o).2.
Proof.
  intros (_ & _ & Hmem & _) [HA HB]. split; [done|].
  intros w1 w2 l Hw1. destruct (Hmem _ _ Hw1) as [_ Hl].
  rewrite deref_new_set_old by done. by apply HB.
Qed.

(** One turn of the loop over the connections extends the invariant by
    the connection handled. *)
Lemma connect_links m cs0 o c a b o' :
  objects_ok o → links_ok m cs0 o →
  m !! c.1 = Some a → m !! c.2 = Some b →
  connect m o c = Ok o' →
  links_ok m (cs0 ++ [c]) o'.
Proof.
  intros Hok Hlinks Hma Hmb.
  assert (Hmem := proj1 (proj2 (proj2 Hok))).
  unfold connect, wires_get. rewrite Hma, Hmb.
  destruct (wires o !! a) as [va|] eqn:Hva; simpl; [|done].
  destruct (wires o !! b) as [vb|] eqn:Hvb; simpl; [|done].
  destruct va as [la|], vb as [lb|]; simpl.
  - destruct (decide (la ≠ lb)) as [Hne|Heq]; intros [= <-].
    + apply (merge_links m cs0 c a b); try done.
      * by eapply mergeable_referred.
      * by eapply mergeable_referred.
      * by apply (Hmem _ _ Hva).
      * by apply (Hmem _ _ Hvb).
      * intros w Hw. by apply (proj2 Hlinks a w la).
      * intros w Hw. by apply (proj2 Hlinks b w lb).
    + assert (la = lb) as -> by (destruct (decide (la = lb)); [done|tauto]).
      by eapply same_set_links.
  - destruct (Hmem _ _ Hva) as [Hain Hla].
    rewrite decide_True by (simpl; lia). intros [= <-].
    apply (merge_links m cs0 c a b la (new_set b o).1 (new_set b o).2).
    + by apply new_set_ok.
    + apply mergeable_new_set_old; [done|]. by eapply mergeable_referred.
    + by apply mergeable_new_set.
    + by apply links_new_set.
    + done.
    + done.
    + by rewrite deref_new_set_old.
    + rewrite deref_new_set_new. set_solver.
    + intros w. rewrite deref_new_set_old by done. intros Hw.
      by apply (proj2 Hlinks a w la).
    + intros w. rewrite deref_new_set_new.
      intros ->%elem_of_singleton. done.
  - destruct (Hmem _ _ Hvb) as [Hbin Hlb].
    rewrite decide_True by (simpl; lia). intros [= <-].
    apply (merge_links m cs0 c a b (new_set a o).1 lb (new_set a o).2).
    + by apply new_set_ok.
    + by apply mergeable_new_set.
    + apply mergeable_new_set_old; [done|]. by eapply mergeable_referred.
    + by apply links_new_set.
    + done.
    + done.
    + rewrite deref_new_set_new. set_solver.
    + by rewrite deref_new_set_old.
    + intros w. rewrite deref_new_set_new.
      intros ->%elem_of_singleton. done.
    + intros w. rewrite deref_new_set_old by done. intros Hw.
      by apply (proj2 Hlinks b w lb).
  - rewrite decide_True by (simpl; rewrite length_app; simpl; lia).
    intros [= <-].
    assert (Hok1 := new_set_ok a o Hok).
    assert (Hderef_a : deref (new_set b (new_set a o).2).2 (new_set a o).1
                       = {[a]}).
    { rewrite deref_new_set_old
        by (simpl; rewrite length_app; simpl; lia).
      apply deref_new_set_new. }
    apply (merge_links m cs0 c a b (new_set a o).1
             (new_set b (new_set a o).2).1 (new_set b (new_set a o).2).2).
    + by apply new_set_ok.
    + apply mergeable_new_set_old; [done|]. by apply mergeable_new_set.
    + by apply (mergeable_new_set b (new_set a o).2).
    + apply links_new_set; [done|]. by apply links_new_set.
    + done.
    + done.
    + rewrite Hderef_a. set_solver.
    + rewrite deref_new_set_new. set_solver.
    + intros w. rewrite Hderef_a. intros ->%elem_of_singleton. done.
    + intros w. rewrite deref_new_set_new.
      intros ->%elem_of_singleton. done.
Qed.

Lemma connections_links m cs :
  ∀ cs0 o o',
    objects_ok o → links_ok m cs0 o →
    Forall (λ c, ∃ a b, m !! c.1 = Some a ∧ m !! c.2 = Some b
                        ∧ a ∈ wires_keys o ∧ b ∈ wires_keys o) cs →
    foldM (connect m) o cs = Ok o' →
    links_ok m (cs0 ++ cs) o'.
Proof.
  induction cs as [|c cs IH]; intros cs0 o o' Hok Hlinks Hcs; simpl.
  - intros [= <-]. by rewrite app_nil_r.
  - apply Forall_cons in Hcs as [(a & b & Hma & Hmb & Ha & Hb) Hcs].
    intros (o1 & Hstep & Hrest)%bind_Ok.
    destruct (connect_spec m o c a b Hok Hma Hmb Ha Hb)
      as (o1' & Hrun & Hok1 & Hkeys1 & _).
    assert (o1' = o1) as -> by congruence.
    replace (cs0 ++ c :: cs) with ((cs0 ++ [c]) ++ cs)
      by (by rewrite <- app_assoc).
    apply (IH _ o1); [done| |by rewrite Hkeys1|done].
    exact (connect_links m cs0 o c a b o1 Hok Hlinks Hma Hmb Hstep).
Qed.

(** Where the members of a collected set come from. *)
Lemma collected_members o0 o nodes l w :
  objects_ok o0 → collected o0 (wires_keys o0) (o, nodes) →
  l ∈ nodes → w ∈ deref o l →
  wires o0 !! w = Some (Some l) ∧ deref o l = deref o0 l
  ∨ wires o0 !! w = Some None ∧ deref o l = {[w]}.
Proof.
  intros (Hnd & Hkeys & Hmem & Hall)
    (Hw & Hold & Hlen & Hnodes & Horigin & Hseen & Hdisj) Hl Hin.
  simpl in *.
  destruct (Horigin _ Hl) as [(w' & _ & Hr)|(Hfr & w' & _ & Hr & Hd)].
  - left. destruct (Hmem _ _ Hr) as [_ Hlt].
    rewrite Hold in Hin by done. split; [|by apply Hold].
    by apply (Hall _ _ _ Hr).
  - right. rewrite Hd in Hin. apply elem_of_singleton in Hin as ->. done.
Qed.

(** The node sets hold linked wires only, and the two ends of every
    connection are in one set. *)
Lemma form_nodes_links m o cs o' nodes :
  objects_ok o →
  (∀ key w, m !! key = Some w → w ∈ wires_keys o) →
  Forall (known m) cs →
  links_ok m [] o →
  form_nodes m o cs = Ok (o', nodes) →
  (∀ s w w', s ∈ nodes → w ∈ s → w' ∈ s → linked m cs w w')
  ∧ (∀ w w', joined m cs w w' → ∃ s, s ∈ nodes ∧ w ∈ s ∧ w' ∈ s).
Proof.
  intros Hok Hm Hcs Hlinks. unfold form_nodes.
  intros (o1 & Hrun & ([o2 ns] & Hcollect & [= <- <-])%bind_Ok)%bind_Ok.
  assert (Hknown : Forall (λ c, ∃ a b, m !! c.1 = Some a ∧ m !! c.2 = Some b
                      ∧ a ∈ wires_keys o ∧ b ∈ wires_keys o) cs).
  { eapply Forall_impl; [exact Hcs|]. intros c [[a Ha] [b Hb]].
    exists a, b. split_and!; eauto. }
  destruct (connections_spec m cs o Hok Hknown)
    as (o1' & Hrun' & Hok1 & Hkeys1 & _).
  assert (o1' = o1) as -> by congruence.
  assert (Hlinks1 := connections_links m cs [] o o1 Hok Hlinks Hknown Hrun).
  simpl in Hlinks1. destruct Hlinks1 as [HA HB].
  destruct (wires_items_spec o1 Hok1) as [Hfst Hitems].
  destruct (collect_all o1 (wires_items o1) Hok1 [] (o1, []))
    as (st & Hrun2 & Hst).
  { unfold collected. simpl. split_and!; try done.
    - constructor.
    - by intros l ?%elem_of_nil.
    - by intros w ?%elem_of_nil.
    - by intros l1 l2 w ?%elem_of_nil. }
  { simpl. rewrite Hfst. apply Hok1. }
  { done. }
  assert (st = (o2, ns)) as -> by congruence.
  simpl in Hst. rewrite Hfst in Hst.
  assert (Hmem := proj1 (proj2 (proj2 Hok1))).
  split.
  - intros s w w' (l & -> & Hl)%list_elem_of_fmap Hw Hw'.
    destruct (collected_members _ _ _ _ _ Hok1 Hst Hl Hw)
      as [[Hr Hd]|[_ Hd]].
    + rewrite Hd in Hw'. by eapply HB.
    + rewrite Hd in Hw'. apply elem_of_singleton in Hw' as ->. done.
  - intros w w' Hj. destruct (HA _ _ Hj) as (l & Hwl & Hwl').
    destruct Hst as (_ & _ & _ & _ & _ & Hseen & _). simpl in Hseen.
    destruct (Hseen w) as (l' & Hl' & Hin).
    { apply (proj1 (proj2 Hok1)). by rewrite Hwl. }
    assert (Hst' : collected o1 (wires_keys o1) (o2, ns)).
    { destruct (collect_all o1 (wires_items o1) Hok1 [] (o1, []))
        as (st & Hrun3 & Hst').
      - unfold collected. simpl. split_and!; try done.
        + constructor.
        + by intros ? ?%elem_of_nil.
        + by intros ? ?%elem_of_nil.
        + by intros ? ? ? ?%elem_of_nil.
      - simpl. rewrite Hfst. apply Hok1.
      - done.
      - assert (st = (o2, ns)) as -> by congruence.
        simpl in Hst'. by rewrite Hfst in Hst'. }
    destruct (collected_members _ _ _ _ _ Hok1 Hst' Hl' Hin)
      as [[Hr Hd]|[Hr _]]; [|congruence].
    assert (l' = l) as -> by congruence.
    exists (deref o2 l). split_and!; [|done|].
    + apply list_elem_of_fmap. by exists l.
    + rewrite Hd. by apply (Hmem _ _ Hwl').
Qed.

(** X13.  The nodes of stage 2 are the classes of connected wires: two
    wires of the catalog get the same node exactly when a chain of
    connections, followed in either direction, leads from one to the
    other. *)
Theorem import_nodes_connectivity wd nd tiles cs conn conn1 m o1 :
  foldM (add_tile wd)
        (conn, ∅, {| heap := []; wires := ∅; wires_keys := [] |}) tiles
  = Ok (conn1, m, o1) →
  Forall (known m) cs →
  ∃ conn',
    import_nodes wd nd tiles cs conn = Ok conn'
    ∧ ∀ w w' wr wr',
        length (wire conn) < w → length (wire conn) < w' →
        row_at (wire conn') w = Some wr → row_at (wire conn') w' = Some wr' →
        wire_node_pkey wr = wire_node_pkey wr' ↔ linked m cs w w'.
Proof.
  intros Hcat Hcs.
  assert (Hinit : catalog_ok (length (wire conn))
            (conn, ∅, {| heap := []; wires := ∅; wires_keys := [] |})).
  { unfold catalog_ok. simpl. rewrite Nat.sub_diag.
    split_and!; try done.
    - by intros w ?%elem_of_nil.
    - intros w [? Hw]. by rewrite lookup_empty in Hw. }
  destruct (add_tiles_ok wd _ tiles _ _ Hinit Hcat) as [Hok Hnode].
  simpl in Hnode.
  assert (Hobj := catalog_ok_objects _ _ Hok).
  destruct Hok as (Hn0 & Hheap & Hkeys & Hnone & Hsome & Hm). simpl in *.
  destruct (form_nodes_spec m o1 cs Hobj Hm Hcs)
    as (o' & nodes & Hform & Hkeys' & Hpart & Hsingle).
  destruct (form_nodes_links m o1 cs o' nodes Hobj Hm Hcs) as [Hsame Hends];
    [|done|].
  { split.
    - by intros a b (c & ?%elem_of_nil & _).
    - intros w w' l Hw. assert (Hin : w ∈ wires_keys o1)
        by (apply Hsome; by rewrite Hw).
      apply Hnone in Hin. congruence. }
  destruct (foldl_insert_node nd nodes conn1 ∅)
    as (conn2 & Hfold & Hnode2 & Hlen2 & Hrows).
  exists conn2. split.
  { unfold import_nodes. rewrite Hcat. simpl. rewrite Hform. simpl.
    rewrite Hfold. rewrite Hkeys', (partitions_union _ _ Hpart).
    rewrite bool_decide_true; [done|].
    apply size_empty_iff. set_solver. }
  assert (Hrow : ∀ w wr, w ∈ wires_keys o1 → row_at (wire conn2) w = Some wr →
            ∃ i s, nodes !! i = Some s ∧ w ∈ s
                   ∧ wire_node_pkey wr = Some (length (node conn1) + S i)
                   ∧ ∀ j s', nodes !! j = Some s' → w ∈ s' → j = i).
  { intros w wr Hkey Hw.
    destruct (proj1 Hpart _ Hkey) as (i0 & (s0 & Hi0 & Hin0) & Huniq).
    destruct (Hrows _ _ Hw) as (wr0 & _ & [[Hnot _]|(i & s & Hi & Hin & ->)]).
    - destruct (Hnot s0); [by eapply list_elem_of_lookup_2|done].
    - exists i, s. split_and!; [done..|].
      intros j s' Hj Hin'. rewrite (Huniq _ _ Hj Hin').
      symmetry. by eapply Huniq. }
  assert (Hkey : ∀ w wr, length (wire conn) < w →
            row_at (wire conn2) w = Some wr → w ∈ wires_keys o1).
  { intros w wr Hlt Hw. rewrite Hkeys, elem_of_seq.
    apply row_at_Some_lt in Hw. lia. }
  assert (Hstep : ∀ x y, joined m cs x y →
            wire_node_pkey <$> row_at (wire conn2) x
            = wire_node_pkey <$> row_at (wire conn2) y).
  { intros x y Hj. destruct (Hends _ _ Hj) as (s & Hs & Hx & Hy).
    apply list_elem_of_lookup in Hs as [i0 Hi0].
    assert (Hxk : x ∈ wires_keys o1)
      by (apply (proj2 Hpart s); [by eapply list_elem_of_lookup_2|done]).
    assert (Hyk : y ∈ wires_keys o1)
      by (apply (proj2 Hpart s); [by eapply list_elem_of_lookup_2|done]).
    destruct (proj2 (row_at_is_Some (wire conn2) x)) as [wrx Hwx].
    { rewrite Hkeys, elem_of_seq in Hxk. lia. }
    destruct (proj2 (row_at_is_Some (wire conn2) y)) as [wry Hwy].
    { rewrite Hkeys, elem_of_seq in Hyk. lia. }
    destruct (Hrow _ _ Hxk Hwx) as (i & si & _ & _ & Hkx & Hux).
    destruct (Hrow _ _ Hyk Hwy) as (j & sj & _ & _ & Hky & Huy).
    rewrite Hwx, Hwy. simpl. rewrite Hkx, Hky.
    by rewrite <- (Hux _ _ Hi0 Hx), <- (Huy _ _ Hi0 Hy). }
  intros w w' wr wr' Hlt Hlt' Hw Hw'. split.
  - intros Heq.
    destruct (Hrow _ _ (Hkey _ _ Hlt Hw) Hw) as (i & s & Hi & Hin & Hk & _).
    destruct (Hrow _ _ (Hkey _ _ Hlt' Hw') Hw')
      as (i' & s' & Hi' & Hin' & Hk' & _).
    assert (i' = i) as -> by (rewrite Hk, Hk' in Heq; injection Heq; lia).
    assert (s' = s) as -> by congruence.
    eapply Hsame; [by eapply list_elem_of_lookup_2|done..].
  - intros Hlinked.
    assert (Hall : wire_node_pkey <$> row_at (wire conn2) w
                   = wire_node_pkey <$> row_at (wire conn2) w').
    { clear Hw Hw' Hlt Hlt'.
      induction Hlinked as [x|x y z [Hxy|Hyx] _ IH]; [done|..].
      - by rewrite (Hstep _ _ Hxy).
      - by rewrite <- (Hstep _ _ Hyx). }
    rewrite Hw, Hw' in Hall. by injection Hall.
Qed.

Lemma import_nodes_connectivity_witness :
  ∃ conn1 m o1,
    foldM (add_tile null_wire)
          (scenario_a_grid, ∅, {| heap := []; wires := ∅; wires_keys := [] |})
          scenario_a_tiles
    = Ok (conn1, m, o1)
    ∧ Forall (known m) scenario_a_connections
    ∧ ∃ conn',
        import_nodes null_wire null_node scenario_a_tiles
                     scenario_a_connections scenario_a_grid = Ok conn'
        ∧ ∀ w w' wr wr',
            length (wire scenario_a_grid) < w →
            length (wire scenario_a_grid) < w' →
            row_at (wire conn') w = Some wr →
            row_at (wire conn') w' = Some wr' →
            wire_node_pkey wr = wire_node_pkey wr'
            ↔ linked m scenario_a_connections w w'.
Proof.
  assert (Hreturns :
            returns (foldM (add_tile null_wire)
              (scenario_a_grid, ∅,
               {| heap := []; wires := ∅; wires_keys := [] |})
              scenario_a_tiles) = true) by (vm_compute; reflexivity).
  destruct (foldM (add_tile null_wire)
              (scenario_a_grid, ∅,
               {| heap := []; wires := ∅; wires_keys := [] |})
              scenario_a_tiles) as [[[conn1 m] o1]|e] eqn:Hcat;
    [|discriminate Hreturns].
  assert (Hknown : Forall (known m) scenario_a_connections).
  { destruct (add_tiles_known _ _ _ _ Hcat) as [Hall _].
    constructor; [|constructor]. split.
    - apply (Hall {| grid_tile_name := "T_X1Y1";
                     get_wires := ["W"; "V"]%string |} "W"%string);
        [left|left].
    - apply (Hall {| grid_tile_name := "T_X2Y1";
                     get_wires := ["W"; "V"]%string |} "W"%string);
        [right; left|left]. }
  exists conn1, m, o1. split; [reflexivity|]. split; [exact Hknown|].
  exact (import_nodes_connectivity null_wire null_node scenario_a_tiles
           scenario_a_connections scenario_a_grid _ _ _ Hcat Hknown).
Defined.

Lemma connections_unknown m cs o :
  objects_ok o →
  (∀ key w, m !! key = Some w → w ∈ wires_keys o) →
  ¬ Forall (known m) cs →
  foldM (connect m) o cs = Raise KeyError.
Proof.
  revert o. induction cs as [|c cs IH]; intros o Hok Hm Hcs; simpl.
  - destruct Hcs. constructor.
  - destruct (m !! c.1) as [a|] eqn:Hma; [|by unfold connect; rewrite Hma].
    destruct (m !! c.2) as [b|] eqn:Hmb;
      [|by unfold connect; rewrite Hma, Hmb].
    destruct (connect_spec m o c a b Hok Hma Hmb)
      as (o1 & -> & Hok1 & Hkeys1 & _); [by eapply Hm..|].
    simpl. apply IH; [done|by rewrite Hkeys1|].
    intros Hrest. apply Hcs. constructor; [|done].
    split; by eexists.
Qed.

(** X14.  A connection that names a wire the grid does not have stops
    stage 2: once the wire catalog is built, [import_nodes] raises
    [KeyError] when an end of some connection is not in it. *)
Theorem import_nodes_unknown_wire wd nd tiles cs conn conn1 m o1 :
  foldM (add_tile wd)
        (conn, ∅, {| heap := []; wires := ∅; wires_keys := [] |}) tiles
  = Ok (conn1, m, o1) →
  ¬ Forall (known m) cs →
  import_nodes wd nd tiles cs conn = Raise KeyError.
Proof.
  intros Hcat Hcs.
  assert (Hinit : catalog_ok (length (wire conn))
            (conn, ∅, {| heap := []; wires := ∅; wires_keys := [] |})).
  { unfold catalog_ok. simpl. rewrite Nat.sub_diag.
    split_and!; try done.
    - by intros w ?%elem_of_nil.
    - intros w [? Hw]. by rewrite lookup_empty in Hw. }
  destruct (add_tiles_ok wd _ tiles _ _ Hinit Hcat) as [Hok _].
  assert (Hobj := catalog_ok_objects _ _ Hok).
  destruct Hok as (_ & _ & _ & _ & _ & Hm). simpl in *.
  unfold import_nodes, form_nodes. rewrite Hcat. simpl.
  by rewrite (connections_unknown m cs o1 Hobj Hm Hcs).
Qed.

(** ** Stage 2: the wire catalog *)

Lemma add_wire_cataloged wd conn ks tile phy pt rest st name st' :
  cataloged wd conn ks st →
  phy_tiles_named conn tile = (phy, pt) :: rest →
  add_wire wd tile phy (phy_tile_tile_type_pkey pt) st name = Ok st' →
  cataloged wd conn (ks ++ [(tile, name)]) st'.
Proof.
  destruct st as [[c m] o].
  intros (Hphy & Hwit & (rows & Hrows & Hall) & Hnd & Hm) Hpt. simpl in *.
  unfold add_wire.
  intros ([wit rest'] & Hfetch%fetchone_Ok
          & ([] & Hnew%assert_Ok%bool_decide_eq_true & [= <-])%bind_Ok)%bind_Ok.
  rewrite Hwit in Hfetch. fold (wires_in_tile_named conn name
                                  (phy_tile_tile_type_pkey pt)) in Hfetch.
  assert (Hlen := Forall2_length _ _ _ Hall).
  assert (Hfresh : (tile, name) ∉ ks).
  { intros [i Hi]%list_elem_of_lookup.
    assert (Hsome : m !! (tile, name) = Some (length (wire conn) + S i))
      by (apply Hm; by exists i).
    unfold tile_wire, pkey in *. congruence. }
  unfold cataloged. simpl. split_and!; [done|done| | |].
  - exists (rows ++ [new_wire wd phy wit]). split.
    + by rewrite Hrows, <- app_assoc.
    + apply Forall2_app; [done|]. constructor; [|constructor].
      by exists phy, pt, rest, wit, rest'.
  - apply NoDup_app. split_and!; [done| |apply NoDup_singleton].
    by intros key Hkey ->%list_elem_of_singleton.
  - intros key w. rewrite length_app, Hrows, length_app. simpl.
    replace (length (wire conn) + length rows + 1)
      with (length (wire conn) + S (length ks)) by lia.
    destruct (decide (key = (tile, name))) as [->|Hne].
    + rewrite lookup_insert_eq. split.
      * intros [= <-]. exists (length ks). split; [|done].
        by apply list_lookup_middle.
      * intros (i & [Hi|[Hi Hi2]]%lookup_app_Some & ->).
        -- destruct Hfresh. by eapply list_elem_of_lookup_2.
        -- destruct (i - length ks) as [|?] eqn:Hd; [|done].
           do 2 f_equal. lia.
    + rewrite lookup_insert_ne by done. rewrite Hm. split.
      * intros (i & Hi & ->). exists i. split; [|done].
        by apply lookup_app_l_Some.
      * intros (i & [Hi|[_ Hi]]%lookup_app_Some & ->); [by exists i|].
        destruct (i - length ks) as [|?]; simplify_eq/=.
Qed.

Lemma add_tile_cataloged wd conn ks st t st' :
  cataloged wd conn ks st →
  add_tile wd st t = Ok st' →
  cataloged wd conn
    (ks ++ ((λ w, (grid_tile_name t, w)) <$> get_wires t)) st'.
Proof.
  intros Hst. unfold add_tile.
  intros ([[phy pt] rest] & Hfetch%fetchone_Ok & Hrun)%bind_Ok.
  rewrite (proj1 Hst) in Hfetch.
  fold (phy_tiles_named conn (grid_tile_name t)) in Hfetch. simpl in Hrun.
  revert Hrun. generalize (get_wires t). intros ws. revert ks st Hst.
  induction ws as [|w ws IH]; intros ks st Hst Hrun; simpl in Hrun.
  - injection Hrun as <-. by rewrite fmap_nil, app_nil_r.
  - apply bind_Ok in Hrun as (st1 & Hstep & Hrest).
    rewrite fmap_cons, cons_middle, app_assoc.
    apply (IH _ st1); [|done].
    by eapply add_wire_cataloged.
Qed.

Lemma add_tiles_cataloged wd conn tiles :
  ∀ ks st st',
    cataloged wd conn ks st →
    foldM (add_tile wd) st tiles = Ok st' →
    cataloged wd conn (ks ++ tile_wires tiles) st'.
Proof.
  induction tiles as [|t tiles IH]; intros ks st st' Hst; simpl.
  - intros [= <-]. by rewrite app_nil_r.
  - intros (st1 & Hstep & Hrest)%bind_Ok.
    change (tile_wires (t :: tiles))
      with (((λ w, (grid_tile_name t, w)) <$> get_wires t)
            ++ tile_wires tiles).
    rewrite app_assoc. apply (IH _ st1); [|done].
    by eapply add_tile_cataloged.
Qed.

(** X15.  The wire catalog of stage 2.  When the first loop of
    [import_nodes] returns, the wires of the grid are pairwise distinct
    (tile, wire) pairs; the i-th of them has the i-th new key of the
    [wire] table and is found under exactly that key in [tile_wire_map];
    its row holds the keys of the first [phy_tile] row of its tile's name
    and of the first [wire_in_tile] row of its name in the tile's type,
    both of which exist; the rows that were there before are kept. *)
Theorem import_nodes_catalog wd tiles conn conn1 m o1 :
  foldM (add_tile wd)
        (conn, ∅, {| heap := []; wires := ∅; wires_keys := [] |}) tiles
  = Ok (conn1, m, o1) →
  NoDup (tile_wires tiles)
  ∧ (∀ key w, m !! key = Some w
              ↔ ∃ i, tile_wires tiles !! i = Some key
                     ∧ w = length (wire conn) + S i)
  ∧ ∃ rows, wire conn1 = wire conn ++ rows
            ∧ Forall2 (catalog_row wd conn) (tile_wires tiles) rows.
Proof.
  intros Hcat.
  assert (Hinit : cataloged wd conn []
            (conn, ∅, {| heap := []; wires := ∅; wires_keys := [] |})).
  { unfold cataloged. simpl. split_and!; [done|done| |constructor|].
    - exists []. by rewrite app_nil_r.
    - intros key w. rewrite lookup_empty. split; [done|].
      by intros (i & ? & _). }
  destruct (add_tiles_cataloged wd conn tiles _ _ _ Hinit Hcat)
    as (_ & _ & Hrows & Hnd & Hm).
  done.
Qed.

Lemma import_nodes_catalog_witness :
  ∃ conn1 m o1,
    foldM (add_tile null_wire)
          (scenario_a_grid, ∅, {| heap := []; wires := ∅; wires_keys := [] |})
          scenario_a_tiles
    = Ok (conn1, m, o1)
    ∧ NoDup (tile_wires scenario_a_tiles)
    ∧ (∀ key w, m !! key = Some w
                ↔ ∃ i, tile_wires scenario_a_tiles !! i = Some key
                       ∧ w = length (wire scenario_a_grid) + S i)
    ∧ ∃ rows, wire conn1 = wire scenario_a_grid ++ rows
              ∧ Forall2 (catalog_row null_wire scenario_a_grid)
                        (tile_wires scenario_a_tiles) rows.
Proof.
  assert (Hreturns :
            returns (foldM (add_tile null_wire)
              (scenario_a_grid, ∅,
               {| heap := []; wires := ∅; wires_keys := [] |})
              scenario_a_tiles) = true) by (vm_compute; reflexivity).
  destruct (foldM (add_tile null_wire)
              (scenario_a_grid, ∅,
               {| heap := []; wires := ∅; wires_keys := [] |})
              scenario_a_tiles) as [[[conn1 m] o1]|e] eqn:Hcat;
    [|discriminate Hreturns].
  exists conn1, m, o1. split; [reflexivity|].
  exact (import_nodes_catalog null_wire scenario_a_tiles scenario_a_grid
           _ _ _ Hcat).
Defined.

(** [tile_wire_map] names wires of the grid only. *)
Lemma catalog_keys wd tiles conn conn1 m o1 key :
  foldM (add_tile wd)
        (conn, ∅, {| heap := []; wires := ∅; wires_keys := [] |}) tiles
  = Ok (conn1, m, o1) →
  is_Some (m !! key) → key ∈ tile_wires tiles.
Proof.
  intros Hcat [w Hw].
  assert (Hinit : cataloged wd conn []
            (conn, ∅, {| heap := []; wires := ∅; wires_keys := [] |})).
  { unfold cataloged. simpl. split_and!; [done|done| |constructor|].
    - exists []. by rewrite app_nil_r.
    - intros key' w'. rewrite lookup_empty. split; [done|].
      by intros (i & ? & _). }
  destruct (add_tiles_cataloged wd conn tiles _ _ _ Hinit Hcat)
    as (_ & _ & _ & _ & Hm).
  simpl in Hm. apply Hm in Hw as (i & Hi & _).
  by eapply list_elem_of_lookup_2.
Qed.

Lemma import_nodes_unknown_wire_witness :
  ∃ conn1 m o1,
    foldM (add_tile null_wire)
          (scenario_a_grid, ∅, {| heap := []; wires := ∅; wires_keys := [] |})
          scenario_a_tiles
    = Ok (conn1, m, o1)
    ∧ ¬ Forall (known m) [(("T_X1Y1", "W"), ("T_X9Y9", "W"))]%string
    ∧ import_nodes null_wire null_node scenario_a_tiles
        [(("T_X1Y1", "W"), ("T_X9Y9", "W"))]%string scenario_a_grid
      = Raise KeyError.
Proof.
  assert (Hreturns :
            returns (foldM (add_tile null_wire)
              (scenario_a_grid, ∅,
               {| heap := []; wires := ∅; wires_keys := [] |})
              scenario_a_tiles) = true) by (vm_compute; reflexivity).
  destruct (foldM (add_tile null_wire)
              (scenario_a_grid, ∅,
               {| heap := []; wires := ∅; wires_keys := [] |})
              scenario_a_tiles) as [[[conn1 m] o1]|e] eqn:Hcat;
    [|discriminate Hreturns].
  assert (Hnot : ("T_X9Y9", "W")%string ∉ tile_wires scenario_a_tiles)
    by compute_done.
  assert (Hunknown :
            ¬ Forall (known m) [(("T_X1Y1", "W"), ("T_X9Y9", "W"))]%string).
  { intros [[_ Hb] _]%Forall_cons. apply Hnot.
    by eapply catalog_keys. }
  exists conn1, m, o1. split; [reflexivity|]. split; [exact Hunknown|].
  exact (import_nodes_unknown_wire null_wire null_node scenario_a_tiles _
           scenario_a_grid _ _ _ Hcat Hunknown).
Defined.

(** ** Stage 2: when the run returns *)







(** ** Stage 5: the track former *)

Lemma bind_Return {A B : Type} (m : outcome A) (k : A → outcome B) (b : B) :
  m ≫= k = Return b ↔ ∃ a, m = Return a ∧ k a = Return b.
Proof.
  destruct m as [a|e]; simpl.
  - split; [by exists a|]. by intros (a' & [= <-] & ?).
  - split; [done|]. by intros (a' & ? & _).
Qed.

Lemma lift_Return {A : Type} (m : result A) (a : A) :
  lift m = Return a ↔ m = Ok a.
Proof. destruct m; simpl; naive_solver. Qed.

Lemma index_Return {A : Type} (l : list A) (i : nat) (a : A) :
  index l i = Return a ↔ l !! i = Some a.
Proof. unfold index. destruct (l !! i); naive_solver. Qed.

Section track_former.

Context (nd : node_row) {tracks pin_dir : Type}.
Context (make_tracks : gset (Z * Z) → tracks).
Context (tracks_list : tracks → list Track).
Context (track_connections : tracks → list (nat * nat)).
Context (get_tracks_for_wire_at_coord : tracks → Z * Z → list (nat * pin_dir)).

Lemma insert_graph_nodes_Return track_pkey node_pkey ts :
  ∀ db gn db' gn',
    foldO (insert_graph_node track_pkey node_pkey) (db, gn) ts
    = Return (db', gn') →
    Forall (λ t, direction t = "X" ∨ direction t = "Y") ts
    ∧ db' = with_graph_node
              (λ rows, rows ++ (graph_node_of track_pkey node_pkey <$> ts)) db
    ∧ gn' = gn ++ seq (S (length (graph_node db))) (length ts).
Proof.
  induction ts as [|t ts IH]; intros db gn db' gn'; simpl.
  - intros [= <- <-]. split_and!; [constructor| |by rewrite app_nil_r].
    destruct db. unfold with_graph_node. simpl. by rewrite app_nil_r.
  - intros ([db1 gn1] & Hstep & Hrest)%bind_Return.
    unfold insert_graph_node in Hstep.
    apply bind_Return in Hstep as (ty & Hty & [= <- <-]).
    apply IH in Hrest as (Hdir & -> & ->).
    assert (Hcase : (direction t = "X" ∨ direction t = "Y")
                    ∧ ty = graph_node_type (graph_node_of track_pkey node_pkey t)).
    { unfold graph_node_of. simpl.
      destruct (decide (direction t = "X")); [by simplify_eq; auto|].
      destruct (decide (direction t = "Y")); by simplify_eq; auto. }
    destruct Hcase as [Hxy ->].
    split_and!; [by constructor| |].
    + unfold with_graph_node. simpl. f_equal. by rewrite <- app_assoc.
    + simpl. rewrite length_app. simpl. rewrite <- app_assoc. simpl.
      do 3 f_equal; lia.
Qed.

Lemma insert_graph_edges_Return short_pkey track_pkey gn cs :
  ∀ db db',
    foldO (insert_graph_edge short_pkey track_pkey gn) db cs = Return db' →
    Forall (λ c, c.1 < length gn ∧ c.2 < length gn) cs
    ∧ db' = with_graph_edge
              (λ rows, rows ++ mjoin (graph_edges_of short_pkey track_pkey gn
                                      <$> cs)) db.
Proof.
  induction cs as [|c cs IH]; intros db db'; simpl.
  - intros [= <-]. split; [constructor|].
    destruct db. unfold with_graph_edge. simpl. by rewrite app_nil_r.
  - intros (db1 & Hstep & Hrest)%bind_Return.
    unfold insert_graph_edge in Hstep.
    apply bind_Return in Hstep as (a & Ha%index_Return & Hstep).
    apply bind_Return in Hstep as (b & Hb%index_Return & [= <-]).
    apply IH in Hrest as (Hcs & ->).
    split.
    + constructor; [|done]. split; by eapply lookup_lt_Some.
    + unfold with_graph_edge, graph_edges_of at 2. simpl.
      rewrite Ha, Hb. simpl. f_equal. by rewrite <- app_assoc.
Qed.

Lemma insert_track_Return short_pkey db tgn keys entry db' tgn' keys' :
  insert_track tracks tracks_list track_connections short_pkey
               (db, tgn, keys) entry
  = Return (db', tgn', keys') →
  db' = track_effect tracks_list track_connections short_pkey db entry
  ∧ keys' = keys ++ [S (track db)]
  ∧ tgn' = <[entry.1 := seq (S (length (graph_node db)))
                            (length (tracks_list entry.2))]> tgn
  ∧ Forall (λ t, direction t = "X" ∨ direction t = "Y") (tracks_list entry.2)
  ∧ Forall (λ c, c.1 < length (tracks_list entry.2)
                 ∧ c.2 < length (tracks_list entry.2))
           (track_connections entry.2).
Proof.
  destruct entry as [node_pkey tr]. unfold insert_track.
  intros ([db1 gn] & Hnodes & (db2 & Hedges & [= <- <- <-])%bind_Return)%bind_Return.
  apply insert_graph_nodes_Return in Hnodes as (Hdir & -> & ->).
  apply insert_graph_edges_Return in Hedges as (Hcs & ->).
  simpl in *. rewrite length_seq in Hcs. by split_and!.
Qed.

Lemma track_effect_row short_pkey db entry k :
  row_at (node (tables (track_effect tracks_list track_connections short_pkey db entry))) k
  = (λ n, if decide (k = entry.1) then set_track_pkey (Some (S (track db))) n
          else n) <$> row_at (node (tables db)) k.
Proof.
  unfold track_effect. simpl. rewrite row_at_update_where.
  destruct (row_at (node (tables db)) k); simpl; [|done].
  rewrite bool_decide_decide. by destruct (decide _).
Qed.

Lemma foldl_track_effect_track short_pkey entries db :
  track (foldl (track_effect tracks_list track_connections short_pkey) db entries) = track db + length entries.
Proof.
  revert db. induction entries as [|e entries IH]; intros db; simpl; [lia|].
  rewrite IH. simpl. lia.
Qed.

(** The first loop of [insert_tracks] writes to [node], [track],
    [graph_node] and [graph_edge] only, and in [node] to the track
    reference only. *)
Lemma foldl_track_effect_frame short_pkey entries db :
  let db' := foldl (track_effect tracks_list track_connections short_pkey) db entries in
  switch db' = switch db ∧ constant_sources db' = constant_sources db
  ∧ wire_graph_node_pkey db' = wire_graph_node_pkey db
  ∧ site_type (tables db') = site_type (tables db)
  ∧ site_pin (tables db') = site_pin (tables db)
  ∧ wire_in_tile (tables db') = wire_in_tile (tables db)
  ∧ pip_in_tile (tables db') = pip_in_tile (tables db)
  ∧ phy_tile (tables db') = phy_tile (tables db)
  ∧ tile (tables db') = tile (tables db)
  ∧ wire (tables db') = wire (tables db)
  ∧ edge_with_mux (tables db') = edge_with_mux (tables db)
  ∧ length (node (tables db')) = length (node (tables db))
  ∧ ∀ k, set_track_pkey None <$> row_at (node (tables db')) k
         = set_track_pkey None <$> row_at (node (tables db)) k.
Proof.
  revert db. induction entries as [|e entries IH]; intros db; simpl.
  - by split_and!.
  - destruct (IH (track_effect tracks_list track_connections short_pkey db e))
      as (-> & -> & -> & -> & -> & -> & -> & -> & -> & -> & -> & -> & Hrow).
    split_and!; try done.
    + simpl. by rewrite length_update_where.
    + intros k. rewrite Hrow, track_effect_row.
      destruct (row_at (node (tables db)) k); simpl; [|done].
      by destruct (decide _).
Qed.

Lemma foldl_track_effect_other short_pkey entries db k :
  k ∉ entries.*1 →
  row_at (node (tables (foldl (track_effect tracks_list track_connections short_pkey) db entries))) k
  = row_at (node (tables db)) k.
Proof.
  revert db. induction entries as [|e entries IH]; intros db Hk; simpl;
    [done|].
  rewrite fmap_cons in Hk. apply not_elem_of_cons in Hk as [Hne Hk].
  rewrite IH by done. rewrite track_effect_row.
  destruct (row_at (node (tables db)) k); simpl; [|done].
  by rewrite decide_False.
Qed.

Lemma foldl_track_effect_node short_pkey entries :
  ∀ db i e,
    NoDup entries.*1 → entries !! i = Some e →
    track_pkey <$> row_at (node (tables (foldl (track_effect tracks_list track_connections short_pkey) db
                                                entries))) e.1
    = (λ _, Some (track db + S i)) <$> row_at (node (tables db)) e.1.
Proof.
  induction entries as [|e0 entries IH]; intros db i e Hnd Hi; [done|].
  rewrite fmap_cons in Hnd. apply NoDup_cons in Hnd as [Hfresh Hnd].
  destruct i as [|i]; simpl in *.
  - injection Hi as ->. rewrite foldl_track_effect_other by done.
    rewrite track_effect_row.
    destruct (row_at (node (tables db)) e.1); simpl; [|done].
    rewrite decide_True by done. simpl. do 2 f_equal. lia.
  - rewrite (IH _ i e Hnd Hi), track_effect_row. simpl.
    destruct (row_at (node (tables db)) e.1); simpl; [|done].
    do 2 f_equal. lia.
Qed.

Lemma foldl_track_effect_graph_node short_pkey entries :
  ∀ db,
    graph_node (foldl (track_effect tracks_list track_connections short_pkey) db entries)
    = graph_node db
      ++ mjoin (imap (λ i e, graph_node_of (track db + S i) e.1
                             <$> tracks_list e.2) entries).
Proof.
  induction entries as [|e entries IH]; intros db; simpl.
  - by rewrite app_nil_r.
  - rewrite IH. simpl. rewrite <- app_assoc. do 2 f_equal.
    + do 2 f_equal. lia.
    + f_equal. apply imap_ext. intros i e' _. simpl. do 2 f_equal. lia.
Qed.

(** Every [graph_edge] row the first loop appends has its reverse among
    the rows appended, goes through the switch [short_pkey], and joins two
    [graph_node] rows of its own track. *)
Lemma foldl_track_effect_graph_edge short_pkey entries :
  ∀ db,
    ∃ new,
      graph_edge (foldl (track_effect tracks_list track_connections short_pkey) db entries)
      = graph_edge db ++ new
      ∧ ∀ e, e ∈ new →
          reverse_edge e ∈ new ∧ switch_pkey e = short_pkey
          ∧ ∃ s d,
              row_at (graph_node (foldl (track_effect tracks_list track_connections short_pkey) db entries))
                     (src_graph_node_pkey e) = Some s
              ∧ row_at (graph_node (foldl (track_effect tracks_list track_connections short_pkey) db entries))
                       (dest_graph_node_pkey e) = Some d
              ∧ graph_node_track_pkey s = graph_edge_track_pkey e
              ∧ graph_node_track_pkey d = graph_edge_track_pkey e.
Proof.
  induction entries as [|e0 entries IH]; intros db; simpl.
  - exists []. rewrite app_nil_r. split; [done|]. by intros e ?%elem_of_nil.
  - destruct (IH (track_effect tracks_list track_connections short_pkey db e0)) as (new & Hnew & Hall).
    set (gn := seq (S (length (graph_node db)))
                   (length (tracks_list e0.2))) in *.
    exists (mjoin (graph_edges_of short_pkey (S (track db)) gn
                   <$> track_connections e0.2) ++ new).
    split; [by rewrite Hnew; simpl; rewrite <- app_assoc|].
    intros e [He|He]%elem_of_app; [|destruct (Hall e He) as (? & ? & ?)].
    2:{ split_and!; [|done..]. apply elem_of_app. by right. }
    apply list_elem_of_join in He
      as (l & He & (c & -> & Hc)%list_elem_of_fmap).
    unfold graph_edges_of in He.
    destruct (_ !! c.1) as [a|] eqn:Ha in He; [|by apply elem_of_nil in He].
    destruct (_ !! c.2) as [b|] eqn:Hb in He; [|by apply elem_of_nil in He].
    assert (Hrow : ∀ i g, gn !! i = Some g →
              ∃ r, row_at (graph_node (foldl (track_effect tracks_list track_connections short_pkey)
                                             (track_effect tracks_list track_connections short_pkey db e0)
                                             entries)) g = Some r
                   ∧ graph_node_track_pkey r = S (track db)).
    { intros i g Hg. unfold gn in Hg. apply lookup_seq in Hg as [-> Hi].
      destruct (lookup_lt_is_Some_2 (tracks_list e0.2) i Hi) as [t Ht].
      exists (graph_node_of (S (track db)) e0.1 t). split; [|done].
      rewrite foldl_track_effect_graph_node. simpl.
      rewrite lookup_app_l
        by (rewrite length_app, length_fmap; apply lookup_lt_Some in Ht; lia).
      rewrite lookup_app_r by lia.
      replace (length (graph_node db) + i - length (graph_node db)) with i
        by lia.
      by rewrite list_lookup_fmap, Ht. }
    destruct (Hrow _ _ Ha) as (ra & Hra & Hta).
    destruct (Hrow _ _ Hb) as (rb & Hrb & Htb).
    assert (Hin : ∀ e', e' ∈ [ {| src_graph_node_pkey := a;
                                  dest_graph_node_pkey := b;
                                  switch_pkey := short_pkey;
                                  graph_edge_track_pkey := S (track db) |};
                               reverse_edge
                                 {| src_graph_node_pkey := a;
                                    dest_graph_node_pkey := b;
                                    switch_pkey := short_pkey;
                                    graph_edge_track_pkey := S (track db) |} ] →
              e' ∈ mjoin (graph_edges_of short_pkey (S (track db)) gn
                          <$> track_connections e0.2) ++ new).
    { intros e' He'. apply elem_of_app. left. apply list_elem_of_join.
      eexists. split; [|apply list_elem_of_fmap; by exists c].
      unfold graph_edges_of. by rewrite Ha, Hb. }
    apply elem_of_cons in He as [->|He].
    + split_and!; [apply Hin; right; left|done|].
      by exists ra, rb.
    + apply list_elem_of_singleton in He as ->.
      split_and!; [apply Hin; left|done|].
      by exists rb, ra.
Qed.

(** The first loop of [insert_tracks]. *)
Lemma insert_tracks_loop short_pkey entries :
  ∀ db tgn keys db' tgn' keys',
    foldO (insert_track tracks tracks_list track_connections short_pkey)
          (db, tgn, keys) entries
    = Return (db', tgn', keys') →
    db' = foldl (track_effect tracks_list track_connections short_pkey)
                db entries
    ∧ keys' = keys ++ seq (S (track db)) (length entries)
    ∧ (∀ k, is_Some (tgn !! k) ∨ k ∈ entries.*1 → is_Some (tgn' !! k))
    ∧ (∀ k l, tgn' !! k = Some l →
         tgn !! k = Some l
         ∨ ∀ g, g ∈ l → ∃ r, row_at (graph_node db') g = Some r
                             ∧ graph_node_node_pkey r = k).
Proof.
  induction entries as [|e entries IH]; intros db tgn keys db' tgn' keys';
    simpl.
  - intros [= <- <- <-]. rewrite app_nil_r. split_and!; [done..| |auto].
    by intros k [?|?%elem_of_nil].
  - intros ([[db1 tgn1] keys1] & Hstep & Hrest)%bind_Return.
    apply insert_track_Return in Hstep as (-> & -> & -> & _ & _).
    apply IH in Hrest as (-> & -> & Hdom & Htgn).
    split_and!; [done| | |].
    + by rewrite <- app_assoc.
    + intros k Hk. apply Hdom. rewrite lookup_insert_is_Some.
      destruct (decide (e.1 = k)) as [|Hne]; [by left; left|].
      destruct Hk as [?|[?|?]%elem_of_cons]; [by left; right|done|by right].
    + intros k l Hl. destruct (Htgn _ _ Hl) as [Hold|?]; [|by right].
      destruct (decide (e.1 = k)) as [<-|Hne].
      * rewrite lookup_insert_eq in Hold. injection Hold as <-. right.
        intros g [i [-> Hi]%lookup_seq]%list_elem_of_lookup.
        destruct (lookup_lt_is_Some_2 (tracks_list e.2) i Hi) as [t Ht].
        exists (graph_node_of (S (track db)) e.1 t). split; [|done].
        rewrite foldl_track_effect_graph_node. simpl.
        rewrite lookup_app_l
          by (rewrite length_app, length_fmap; apply lookup_lt_Some in Ht;
              lia).
        rewrite lookup_app_r by lia.
        replace (length (graph_node db) + i - length (graph_node db)) with i
          by lia.
        by rewrite list_lookup_fmap, Ht.
      * rewrite lookup_insert_ne in Hold by done. by left.
Qed.

Lemma foldl_set_graph_node_pkey_frame items :
  ∀ db,
    tables (foldl set_graph_node_pkey db items) = tables db
    ∧ switch (foldl set_graph_node_pkey db items) = switch db
    ∧ track (foldl set_graph_node_pkey db items) = track db
    ∧ graph_node (foldl set_graph_node_pkey db items) = graph_node db
    ∧ graph_edge (foldl set_graph_node_pkey db items) = graph_edge db
    ∧ constant_sources (foldl set_graph_node_pkey db items)
      = constant_sources db.
Proof.
  induction items as [|item items IH]; intros db; simpl; [done|].
  destruct (IH (set_graph_node_pkey db item)) as (-> & -> & -> & -> & -> & ->).
  unfold set_graph_node_pkey. by destruct (decide _).
Qed.

(** What a run of [insert_tracks] that returns did, the column
    [graph_node_pkey] of [wire] apart. *)
Lemma insert_tracks_Return db entries db' keys :
  insert_tracks tracks pin_dir tracks_list track_connections
                get_tracks_for_wire_at_coord db entries
  = Return (db', keys) →
  ∃ short_pkey rest db1,
    short_switches db = short_pkey :: rest
    ∧ db1 = foldl (track_effect tracks_list track_connections short_pkey)
                  db entries
    ∧ keys = seq (S (track db)) (length entries)
    ∧ tables db' = tables db1 ∧ switch db' = switch db1
    ∧ track db' = track db1 ∧ graph_node db' = graph_node db1
    ∧ graph_edge db' = graph_edge db1
    ∧ constant_sources db' = constant_sources db1.
Proof.
  unfold insert_tracks.
  intros ([short_pkey rest] & Hshort%lift_Return%fetchone_Ok
          & ([[db1 tgn] keys1] & Hloop
             & (wtg & _ & [= <- <-])%bind_Return)%bind_Return)%bind_Return.
  apply insert_tracks_loop in Hloop as (-> & -> & _).
  exists short_pkey, rest. eexists. split_and!; [done|done|done|..];
    apply foldl_set_graph_node_pkey_frame.
Qed.

(** A run of the first loop that returns met tracks along X or Y only,
    and connections between tracks of the list only. *)
Lemma insert_tracks_loop_valid short_pkey entries :
  ∀ st st',
    foldO (insert_track tracks tracks_list track_connections short_pkey)
          st entries = Return st' →
    Forall (λ e, Forall (λ t, direction t = "X" ∨ direction t = "Y")
                        (tracks_list e.2)
                 ∧ Forall (λ c, c.1 < length (tracks_list e.2)
                                ∧ c.2 < length (tracks_list e.2))
                          (track_connections e.2)) entries.
Proof.
  induction entries as [|e entries IH]; intros st st'; simpl; [done|].
  intros ([[db1 tgn1] keys1] & Hstep & Hrest)%bind_Return.
  destruct st as [[db tgn] keys].
  apply insert_track_Return in Hstep as (_ & _ & _ & Hdir & Hcs).
  constructor; [done|]. by eapply IH.
Qed.

(** X17.  [insert_tracks] hands out the next keys of the [track] table,
    one per entry and in order, and returns them; it writes the key of
    an entry's track into the [node] row of the entry (the entries naming
    distinct nodes), leaves the rows of all other nodes alone and changes
    nothing else in the tables of the earlier stages. *)
Theorem insert_tracks_track_keys db entries db' keys :
  insert_tracks tracks pin_dir tracks_list track_connections
                get_tracks_for_wire_at_coord db entries
  = Return (db', keys) →
  keys = seq (S (track db)) (length entries)
  ∧ track db' = track db + length entries
  ∧ (∀ k, k ∉ entries.*1 →
          row_at (node (tables db')) k = row_at (node (tables db)) k)
  ∧ (NoDup entries.*1 →
     ∀ i e, entries !! i = Some e →
            track_pkey <$> row_at (node (tables db')) e.1
            = (λ _, Some (track db + S i)) <$> row_at (node (tables db)) e.1)
  ∧ (∀ k, set_track_pkey None <$> row_at (node (tables db')) k
          = set_track_pkey None <$> row_at (node (tables db)) k)
  ∧ wire (tables db') = wire (tables db)
  ∧ tile (tables db') = tile (tables db)
  ∧ site_pin (tables db') = site_pin (tables db)
  ∧ site_type (tables db') = site_type (tables db)
  ∧ wire_in_tile (tables db') = wire_in_tile (tables db)
  ∧ edge_with_mux (tables db') = edge_with_mux (tables db)
  ∧ constant_sources db' = constant_sources db.
Proof.
  intros (short_pkey & rest & db1 & _ & -> & -> & Htables & _ & Htrack & _
          & _ & Hconst)%insert_tracks_Return.
  rewrite Htables, Htrack, Hconst.
  destruct (foldl_track_effect_frame short_pkey entries db)
    as (_ & -> & _ & -> & -> & -> & _ & _ & -> & -> & -> & _ & Hrow).
  split_and!; try done.
  - apply foldl_track_effect_track.
  - intros k Hk. by apply foldl_track_effect_other.
  - intros Hnd i e Hi. by apply foldl_track_effect_node.
Qed.

(** X18.  The [graph_node] rows [insert_tracks] appends are, entry by
    entry and track by track, one row with the entry's node, the key of
    the entry's track and the ends of the track, of type CHANX for a track
    along X and CHANY for one along Y; a run that returns met no track
    along another direction. *)
Theorem insert_tracks_graph_nodes db entries db' keys :
  insert_tracks tracks pin_dir tracks_list track_connections
                get_tracks_for_wire_at_coord db entries
  = Return (db', keys) →
  graph_node db'
  = graph_node db
    ++ mjoin (imap (λ i e, graph_node_of (track db + S i) e.1
                           <$> tracks_list e.2) entries)
  ∧ Forall (λ e, Forall (λ t, direction t = "X" ∨ direction t = "Y")
                        (tracks_list e.2)) entries.
Proof.
  intros Hrun.
  destruct (insert_tracks_Return _ _ _ _ Hrun)
    as (short_pkey & rest & db1 & _ & -> & _ & _ & _ & _ & -> & _).
  split; [apply foldl_track_effect_graph_node|].
  revert Hrun. unfold insert_tracks.
  intros ([short' rest'] & _
          & ([[db1 tgn] keys1] & Hloop & _)%bind_Return)%bind_Return.
  apply insert_tracks_loop_valid in Hloop.
  eapply Forall_impl; [exact Hloop|]. by intros e [? _].
Qed.

(** X19.  The [graph_edge] rows [insert_tracks] appends come in pairs:
    every one has its reverse among them, goes through the first switch
    named short, and joins two [graph_node] rows of its own track. *)
Theorem insert_tracks_graph_edges db entries db' keys :
  insert_tracks tracks pin_dir tracks_list track_connections
                get_tracks_for_wire_at_coord db entries
  = Return (db', keys) →
  ∃ new,
    graph_edge db' = graph_edge db ++ new
    ∧ ∀ e, e ∈ new →
        reverse_edge e ∈ new
        ∧ head (short_switches db) = Some (switch_pkey e)
        ∧ ∃ s d,
            row_at (graph_node db') (src_graph_node_pkey e) = Some s
            ∧ row_at (graph_node db') (dest_graph_node_pkey e) = Some d
            ∧ graph_node_track_pkey s = graph_edge_track_pkey e
            ∧ graph_node_track_pkey d = graph_edge_track_pkey e.
Proof.
  intros (short_pkey & rest & db1 & Hshort & -> & _ & _ & _ & _ & -> & ->
          & _)%insert_tracks_Return.
  destruct (foldl_track_effect_graph_edge short_pkey entries db)
    as (new & Hnew & Hall).
  exists new. split; [done|]. intros e He.
  destruct (Hall e He) as (Hrev & -> & Hrows).
  by rewrite Hshort.
Qed.

Lemma elem_of_dict_set {V : Type} (k : pkey) (v : V) (d : list (pkey * V))
    (item : pkey * V) :
  item ∈ dict_set k v d → item ∈ d ∨ item = (k, v).
Proof.
  unfold dict_set. destruct (decide (k ∈ d.*1)).
  - intros (kv & -> & Hkv)%list_elem_of_fmap.
    destruct (decide (kv.1 = k)); auto.
  - intros [?|?%list_elem_of_singleton]%elem_of_app; auto.
Qed.

Lemma dict_set_keys {V : Type} (k : pkey) (v : V) (d : list (pkey * V))
    (k' : pkey) :
  k' ∈ (dict_set k v d).*1 ↔ k' = k ∨ k' ∈ d.*1.
Proof.
  unfold dict_set. destruct (decide (k ∈ d.*1)) as [Hk|Hk].
  - assert (((λ kv : pkey * V, if decide (kv.1 = k) then (k, v) else kv)
             <$> d).*1 = d.*1) as ->.
    { rewrite <- list_fmap_compose. apply list_fmap_ext.
      intros i kv _. simpl. by destruct (decide (kv.1 = k)). }
    naive_solver.
  - rewrite fmap_app, elem_of_app. simpl. rewrite list_elem_of_singleton.
    naive_solver.
Qed.

Lemma elem_of_wires_from_node conn k w coord :
  (w, coord) ∈ wires_from_node conn k →
  ∃ wr, row_at (wire conn) w = Some wr ∧ wire_node_pkey wr = Some k.
Proof.
  unfold wires_from_node.
  intros ([[t tr] [w' wr]] & [= -> ->]
          & (_ & [Hk Hw%elem_of_rows]%list_elem_of_filter
             & _)%elem_of_inner_join)%list_elem_of_fmap.
  by exists wr.
Qed.

Lemma wire_to_graph_node_spec tr l ws :
  ∀ wtg wtg',
    foldO (wire_to_graph_node tracks pin_dir get_tracks_for_wire_at_coord
                              tr l) wtg ws
    = Return wtg' →
    (∀ item, item ∈ wtg' → item ∈ wtg ∨ item.1 ∈ ws.*1 ∧ item.2 ∈ l)
    ∧ (∀ w, w ∈ wtg'.*1 ↔ w ∈ wtg.*1 ∨ w ∈ ws.*1).
Proof.
  induction ws as [|[w coord] ws IH]; intros wtg wtg'; simpl.
  - intros [= <-]. split; [auto|]. intros w. rewrite elem_of_nil. tauto.
  - intros (wtg1 & Hstep & Hrest)%bind_Return.
    unfold wire_to_graph_node in Hstep.
    apply bind_Return in Hstep as ([] & _ & Hstep).
    apply bind_Return in Hstep as (c & _ & Hstep).
    apply bind_Return in Hstep as (g & Hg%index_Return & [= <-]).
    apply IH in Hrest as [Hitems Hkeys]. split.
    + intros item [[Hold| ->]%elem_of_dict_set|[? ?]]%Hitems.
      * by left.
      * right. split; [left|]. by eapply list_elem_of_lookup_2.
      * right. split; [by right|done].
    + intros w'. rewrite Hkeys, dict_set_keys, elem_of_cons. tauto.
Qed.

Lemma wires_to_graph_nodes_spec db1 tgn entries :
  (∀ k l, tgn !! k = Some l →
          ∀ g, g ∈ l → ∃ r, row_at (graph_node db1) g = Some r
                            ∧ graph_node_node_pkey r = k) →
  ∀ wtg wtg',
    foldO (wires_to_graph_nodes tracks pin_dir get_tracks_for_wire_at_coord
                                db1 tgn) wtg entries
    = Return wtg' →
    (∀ item, item ∈ wtg' →
       item ∈ wtg
       ∨ ∃ wr gr, row_at (wire (tables db1)) item.1 = Some wr
                  ∧ row_at (graph_node db1) item.2 = Some gr
                  ∧ wire_node_pkey wr = Some (graph_node_node_pkey gr))
    ∧ (∀ w, w ∈ wtg'.*1
            ↔ w ∈ wtg.*1
              ∨ ∃ e, e ∈ entries
                     ∧ w ∈ (wires_from_node (tables db1) e.1).*1).
Proof.
  intros Htgn. induction entries as [|[k tr] entries IH]; intros wtg wtg';
    simpl.
  - intros [= <-]. split; [auto|]. intros w. split; [auto|].
    by intros [?|(e & ?%elem_of_nil & _)].
  - intros (wtg1 & Hstep & Hrest)%bind_Return.
    unfold wires_to_graph_nodes in Hstep.
    apply bind_Return in Hstep as (l & Hl & Hstep).
    destruct (tgn !! k) as [l'|] eqn:Hk; [|done]. injection Hl as ->.
    apply wire_to_graph_node_spec in Hstep as [Hitems1 Hkeys1].
    apply IH in Hrest as [Hitems Hkeys]. split.
    + intros item [[Hold|[Hw Hg]]%Hitems1|?]%Hitems; [by left| |by right].
      right.
      apply list_elem_of_fmap in Hw as ([w coord] & -> & Hw).
      apply elem_of_wires_from_node in Hw as (wr & Hwr & Hnode).
      destruct (Htgn _ _ Hk _ Hg) as (gr & Hgr & <-).
      by exists wr, gr.
    + intros w. rewrite Hkeys, Hkeys1. split.
      * intros [[?|?]|(e & He & Hw)]; [by left| |].
        -- right. exists (k, tr). split; [left|done].
        -- right. exists e. split; [by right|done].
      * intros [?|(e & [->|He]%elem_of_cons & Hw)]; [by left; left| |].
        -- left. by right.
        -- right. by exists e.
Qed.

Lemma foldl_set_graph_node_pkey_lookup items :
  ∀ db w,
    (∀ g, wire_graph_node_pkey (foldl set_graph_node_pkey db items) !! w
          = Some g →
          wire_graph_node_pkey db !! w = Some g ∨ (w, g) ∈ items)
    ∧ (is_Some (wire_graph_node_pkey db !! w)
       ∨ w ∈ items.*1 ∧ is_Some (row_at (wire (tables db)) w) →
       is_Some (wire_graph_node_pkey (foldl set_graph_node_pkey db items)
                !! w)).
Proof.
  induction items as [|[w0 g0] items IH]; intros db w; simpl.
  - split; [auto|]. by intros [?|[?%elem_of_nil _]].
  - destruct (IH (set_graph_node_pkey db (w0, g0)) w) as [Hfrom Hto].
    assert (Htables : tables (set_graph_node_pkey db (w0, g0)) = tables db).
    { unfold set_graph_node_pkey. by destruct (decide _). }
    split.
    + intros g [Hold|?]%Hfrom; [|by right; right].
      unfold set_graph_node_pkey in Hold. simpl in Hold.
      destruct (decide _); simpl in Hold; [|by left].
      destruct (decide (w0 = w)) as [->|Hne].
      * rewrite lookup_insert_eq in Hold. injection Hold as ->.
        right. left.
      * rewrite lookup_insert_ne in Hold by done. by left.
    + intros Hw. apply Hto. rewrite Htables.
      unfold set_graph_node_pkey. simpl.
      destruct (decide (w0 = w)) as [->|Hne].
      * destruct Hw as [Hw|[_ Hw]].
        -- left. destruct (decide _); simpl; [|done].
           by rewrite lookup_insert_eq.
        -- left. rewrite decide_True by done. simpl.
           by rewrite lookup_insert_eq.
      * destruct Hw as [Hw|[[?|Hw]%elem_of_cons Hrow]]; [|done|by right].
        left. destruct (decide _); simpl; [|done].
        by rewrite lookup_insert_ne.
Qed.

(** X20.  [insert_tracks] attaches a wire to a graph node of the wire's
    own node only, and it attaches every wire of an inserted node that
    lies in a tile. *)
Theorem insert_tracks_wire_graph_nodes db entries db' keys :
  insert_tracks tracks pin_dir tracks_list track_connections
                get_tracks_for_wire_at_coord db entries
  = Return (db', keys) →
  (∀ w g, wire_graph_node_pkey db' !! w = Some g →
     wire_graph_node_pkey db !! w = Some g
     ∨ ∃ wr gr, row_at (wire (tables db)) w = Some wr
                ∧ row_at (graph_node db') g = Some gr
                ∧ wire_node_pkey wr = Some (graph_node_node_pkey gr))
  ∧ (∀ e w coord, e ∈ entries →
       (w, coord) ∈ wires_from_node (tables db) e.1 →
       is_Some (wire_graph_node_pkey db' !! w)).
Proof.
  unfold insert_tracks.
  intros ([short_pkey rest] & _
          & ([[db1 tgn] keys1] & Hloop
             & (wtg & Hwires & [= <- <-])%bind_Return)%bind_Return)%bind_Return.
  apply insert_tracks_loop in Hloop as (Hdb1 & _ & _ & Htgn).
  destruct (foldl_track_effect_frame short_pkey entries db)
    as (_ & _ & Hwgn & _ & _ & _ & _ & _ & Htile & Hwire & _).
  rewrite <- Hdb1 in Hwgn, Htile, Hwire.
  assert (Hfrom : ∀ k, wires_from_node (tables db1) k
                       = wires_from_node (tables db) k).
  { intros k. unfold wires_from_node. by rewrite Htile, Hwire. }
  apply wires_to_graph_nodes_spec in Hwires as [Hitems Hkeys].
  2:{ intros k l Hl. destruct (Htgn _ _ Hl) as [Hempty|?]; [|done].
      by rewrite lookup_empty in Hempty. }
  destruct (foldl_set_graph_node_pkey_frame wtg db1)
    as (_ & _ & _ & Hgn & _).
  split.
  - intros w g Hg.
    destruct (proj1 (foldl_set_graph_node_pkey_lookup wtg db1 w) g Hg)
      as [Hold|Hitem].
    + left. by rewrite <- Hwgn.
    + right. destruct (Hitems _ Hitem) as [?%elem_of_nil|(wr & gr & ? & ? & ?)];
        [done|].
      exists wr, gr. by rewrite Hgn, <- Hwire.
  - intros e w coord He Hw.
    apply (proj2 (foldl_set_graph_node_pkey_lookup wtg db1 w)). right.
    split.
    + apply Hkeys. right. exists e. split; [done|]. rewrite Hfrom.
      apply list_elem_of_fmap. by exists (w, coord).
    + apply elem_of_wires_from_node in Hw as (wr & Hwr & _).
      rewrite Hwire. by eexists.
Qed.

Lemma NoDup_channel_nodes conn : NoDup (channel_nodes conn).
Proof.
  unfold channel_nodes. assert (Hnd := NoDup_rows_fst (node conn)).
  induction (rows (node conn)) as [|[k n] l IH]; [constructor|].
  rewrite fmap_cons in Hnd. apply NoDup_cons in Hnd as [Hk Hnd].
  rewrite filter_cons. destruct (decide _); [|by apply IH].
  rewrite fmap_cons. apply NoDup_cons. split; [|by apply IH].
  simpl.
  intros ([k' n'] & -> & [_ Hin]%list_elem_of_filter)%list_elem_of_fmap.
  apply Hk. apply list_elem_of_fmap. by exists (k', n').
Qed.

Lemma elem_of_channel_nodes conn k :
  k ∈ channel_nodes conn
  ↔ ∃ n, row_at (node conn) k = Some n ∧ classification n = Some CHANNEL.
Proof.
  unfold channel_nodes. rewrite list_elem_of_fmap. split.
  - intros ([k' n] & -> & [Hc Hin%elem_of_rows]%list_elem_of_filter).
    by exists n.
  - intros (n & Hn & Hc). exists (k, n). split; [done|].
    apply list_elem_of_filter. split; [done|]. by apply elem_of_rows.
Qed.

(** Stage 6 leaves the row of a node without a wire bound to HARD1 or
    HARD0 of a TIEOFF site. *)
Lemma connect_hardpins_other_row conn conn' vcc gnd k :
  connect_hardpins_to_constant_network conn vcc gnd = Ok conn' →
  (∀ name w, ¬ tieoff_wire conn name w k) →
  row_at (node conn') k = row_at (node conn) k.
Proof.
  intros Hrun Hnone.
  destruct (connect_hardpins_tieoff _ _ _ _ Hrun) as (t & st & Ht & Hname).
  apply connect_hardpins_to_constant_network_Ok in Hrun
    as (tieoff & vp & gp & Htieoff & Hvp & Hgp & _ & Hrow).
  assert (t = tieoff) as -> by (by eapply Htieoff).
  assert (Hbound : ∀ name p, p ∈ site_pins_named conn tieoff name →
            ¬ owns conn (wires_of_site_pin conn p) k).
  { intros name p (pin & Hp & Hty & Hpin)%elem_of_site_pins_named
      (wr & [i Hi]%list_elem_of_lookup & Hk
       & (wit & Hwit & Hsp)%elem_of_wires_of_site_pin)%Exists_exists.
    apply (Hnone name (S i)). exists wr, wit, p, pin, st.
    split_and!; try done. by rewrite Hty. }
  rewrite Hrow. destruct (row_at (node conn) k) as [n|]; simpl; [|done].
  rewrite !decide_False; [done|by eapply Hbound..].
Qed.

(** X21.  [form_tracks] end to end.  With [n] nodes classified CHANNEL,
    a run that returns has inserted [n + 2] tracks; the last two are the
    power and the ground track, recorded as the one new row of
    [constant_sources] and referred to by the two constant nodes; the
    i-th CHANNEL node refers to the i-th new track, unless one of its
    wires is bound to a fixed-value pin. *)
Theorem form_tracks_constant_network db db' :
  wires_refer_to_nodes (tables db) →
  form_tracks nd tracks pin_dir make_tracks tracks_list track_connections
              get_tracks_for_wire_at_coord db
  = Return db' →
  let n := length (channel_nodes (tables db)) in
  let vcc_node := S (length (node (tables db))) in
  let gnd_node := S (S (length (node (tables db)))) in
  let vcc := track db + S n in
  let gnd := track db + S (S n) in
  track db' = track db + n + 2
  ∧ constant_sources db' = constant_sources db ++ [(vcc, gnd)]
  ∧ row_at (node (tables db')) vcc_node
    = Some (set_track_pkey (Some vcc) (set_classification CHANNEL nd))
  ∧ row_at (node (tables db')) gnd_node
    = Some (set_track_pkey (Some gnd) (set_classification CHANNEL nd))
  ∧ ∀ i k, channel_nodes (tables db) !! i = Some k →
           (∀ name w, ¬ tieoff_wire (tables db) name w k) →
           track_pkey <$> row_at (node (tables db')) k
           = Some (Some (track db + S i)).
Proof.
  intros Hrefer. unfold form_tracks.
  destruct (create_constant_tracks_node nd tracks make_tracks (tables db))
    as (Hwire0 & Hnode0 & Hvcc & Hgnd).
  assert (Hframe0 :
            site_type (create_constant_tracks nd tracks make_tracks
                         (tables db)).1 = site_type (tables db)
            ∧ site_pin (create_constant_tracks nd tracks make_tracks
                          (tables db)).1 = site_pin (tables db)
            ∧ wire_in_tile (create_constant_tracks nd tracks make_tracks
                              (tables db)).1 = wire_in_tile (tables db)) by done.
  destruct Hframe0 as (Hst0 & Hsp0 & Hwit0).
  destruct (create_constant_tracks nd tracks make_tracks (tables db))
    as [conn1 [[vcc_node vcc_tr] [gnd_node gnd_tr]]] eqn:Hcc.
  simpl in Hwire0, Hnode0, Hvcc, Hgnd, Hst0, Hsp0, Hwit0.
  subst vcc_node gnd_node.
  lazymatch goal with
  | |- context [insert_tracks _ _ _ _ _ ?d ?l] =>
      remember l as entries eqn:Hent; remember d as db0 eqn:Hdb0
  end.
  lazymatch type of Hent with
  | _ = (?c ++ _) ++ _ => remember c as chan eqn:Hchan
  end.
  assert (Htables0 : tables db0 = conn1) by (by subst db0).
  assert (Htrack0 : track db0 = track db) by (by subst db0).
  assert (Hconst0 : constant_sources db0 = constant_sources db)
    by (by subst db0).
  assert (Hlen : length chan = length (channel_nodes (tables db)))
    by (subst chan; by rewrite length_fmap).
  assert (Hentries : length entries = length (channel_nodes (tables db)) + 2)
    by (subst entries; rewrite !length_app, Hlen; simpl; lia).
  intros ([db2 keys] & Hins & Hrest)%bind_Return.
  apply bind_Return in Hrest as (vcc & Hvccidx%index_Return & Hrest).
  apply bind_Return in Hrest as (gnd & Hgndidx%index_Return & Hrest).
  apply bind_Return in Hrest as (conn3 & Hhard%lift_Return & [= <-]).
  simpl in Hhard. simpl.
  apply insert_tracks_Return in Hins
    as (short_pkey & rest & db1 & _ & Hdb1 & -> & Htables & _ & Htrack & _
        & _ & Hconst).
  apply lookup_seq in Hvccidx as [-> _].
  apply lookup_seq in Hgndidx as [-> _].
  rewrite length_app, Hlen, Htrack0. simpl length.
  assert (Hfst : entries.*1 = channel_nodes (tables db)
                              ++ [S (length (node (tables db)));
                                  S (S (length (node (tables db))))]).
  { subst entries chan. rewrite !fmap_app, <- app_assoc. simpl. f_equal.
    rewrite <- list_fmap_compose. apply list_fmap_id. }
  assert (Hbound : ∀ k, k ∈ channel_nodes (tables db) →
                        k ≤ length (node (tables db))).
  { intros k (n & Hn & _)%elem_of_channel_nodes.
    apply row_at_Some_lt in Hn. lia. }
  assert (Hnd : NoDup entries.*1).
  { rewrite Hfst. apply NoDup_app. split_and!.
    - apply NoDup_channel_nodes.
    - intros k Hk%Hbound [->|[->|?%elem_of_nil]%elem_of_cons]%elem_of_cons;
        [lia|lia|done].
    - apply NoDup_cons. split; [|apply NoDup_singleton].
      intros ?%list_elem_of_singleton. lia. }
  destruct (foldl_track_effect_frame short_pkey entries db0)
    as (_ & Hconst1 & _ & Hst & Hsp & Hwit & _ & _ & _ & Hwire & _ & _
        & Hshape).
  rewrite <- Hdb1 in Hconst1, Hst, Hsp, Hwit, Hwire, Hshape.
  rewrite <- Htables, Htables0 in Hst, Hsp, Hwit, Hwire, Hshape.
  assert (Hrow2 : ∀ i e, entries !! i = Some e →
            track_pkey <$> row_at (node (tables db2)) e.1
            = (λ _, Some (track db + S i)) <$> row_at (node conn1) e.1).
  { intros i e Hi. rewrite Htables, Hdb1, <- Htrack0, <- Htables0.
    exact (foldl_track_effect_node short_pkey entries db0 i e Hnd Hi). }
  assert (Htieoff : ∀ name w k, tieoff_wire (tables db2) name w k
                                ↔ tieoff_wire (tables db) name w k).
  { intros name w k. unfold tieoff_wire.
    by rewrite Hst, Hsp, Hwit, Hwire, Hst0, Hsp0, Hwit0, Hwire0. }
  assert (Hunowned : ∀ k, length (node (tables db)) < k →
                          ∀ name w, ¬ tieoff_wire (tables db2) name w k).
  { intros k Hk name w (wr & _ & _ & _ & _ & Hw & Hnode & _)%Htieoff.
    destruct (wires_refer_to_nodes_row _ _ _ _ Hrefer Hw Hnode) as [n Hn].
    apply row_at_Some_lt in Hn. lia. }
  assert (Hfinal : ∀ k, (∀ name w, ¬ tieoff_wire (tables db2) name w k) →
                        row_at (node conn3) k = row_at (node (tables db2)) k).
  { intros k Hk. by eapply connect_hardpins_other_row. }
  assert (Hconstant : ∀ i e, entries !! i = Some e →
            length (node (tables db)) < e.1 →
            row_at (node conn1) e.1 = Some (set_classification CHANNEL nd) →
            row_at (node conn3) e.1
            = Some (set_track_pkey (Some (track db + S i))
                      (set_classification CHANNEL nd))).
  { intros i e Hi Hlt Hrow. rewrite Hfinal by (by apply Hunowned).
    assert (H2 := Hrow2 i e Hi). assert (H3 := Hshape e.1).
    unfold pkey in *. rewrite Hrow in H2, H3.
    destruct (row_at (node (tables db2)) e.1) as [[p t s c]|]; [|done].
    simpl in *. injection H2 as ->. injection H3 as -> -> ->. done. }
  split_and!.
  - rewrite Htrack, Hdb1, foldl_track_effect_track, Hentries, Htrack0. lia.
  - rewrite Hconst, Hconst1, Hconst0. do 3 f_equal; lia.
  - apply (Hconstant (length (channel_nodes (tables db)))
             (S (length (node (tables db))), vcc_tr)); [|simpl; lia|].
    + subst entries.
      rewrite lookup_app_l by (rewrite length_app; simpl; lia).
      rewrite <- Hlen. by rewrite list_lookup_middle.
    + simpl. rewrite Hnode0.
      by rewrite lookup_app_r, Nat.sub_diag by lia.
  - apply (Hconstant (S (length (channel_nodes (tables db))))
             (S (S (length (node (tables db)))), gnd_tr)); [|simpl; lia|].
    + subst entries. rewrite list_lookup_middle; [done|].
      rewrite length_app. simpl. lia.
    + simpl. rewrite Hnode0. rewrite lookup_app_r by lia.
      by replace (S (length (node (tables db))) - length (node (tables db)))
        with 1 by lia.
  - intros i k Hi Hnone.
    assert (Hk : k ∈ channel_nodes (tables db))
      by (by eapply list_elem_of_lookup_2).
    destruct (proj1 (elem_of_channel_nodes _ _) Hk) as (n & Hn & _).
    rewrite Hfinal by (intros name w; rewrite Htieoff; apply Hnone).
    assert (He : entries !! i
                 = Some (create_track tracks make_tracks k
                           (node_positions (tables db) k))).
    { subst entries. rewrite <- app_assoc.
      rewrite lookup_app_l by (rewrite Hlen; by eapply lookup_lt_Some).
      subst chan. by rewrite list_lookup_fmap, Hi. }
    assert (Hk2 := Hrow2 i _ He). simpl in Hk2. rewrite Hk2, Hnode0.
    rewrite (row_at_app_l _ _ k) by (by apply Hbound).
    by rewrite Hn.
Qed.

End track_former.

Lemma insert_tracks_track_keys_witness :
  ∃ db' keys,
    insert_tracks (list (Z * Z)) unit example_tracks_list
                  example_track_connections example_get_tracks
                  example_database example_entries
    = Return (db', keys)
    ∧ keys = seq (S (track example_database)) (length example_entries)
    ∧ track db' = track example_database + length example_entries
    ∧ wire (tables db') = wire (tables example_database).
Proof.
  assert (Hreturned :
            returned (insert_tracks (list (Z * Z)) unit example_tracks_list
                        example_track_connections example_get_tracks
                        example_database example_entries) = true)
    by (vm_compute; reflexivity).
  destruct (insert_tracks (list (Z * Z)) unit example_tracks_list
              example_track_connections example_get_tracks
              example_database example_entries) as [[db' keys]|e] eqn:Hrun;
    [|discriminate Hreturned].
  exists db', keys. split; [reflexivity|].
  destruct (insert_tracks_track_keys example_tracks_list
              example_track_connections example_get_tracks
              example_database example_entries db' keys Hrun)
    as (Hkeys & Htrack & _ & _ & _ & Hwire & _).
  by split_and!.
Defined.

Lemma insert_tracks_graph_nodes_witness :
  ∃ db' keys,
    insert_tracks (list (Z * Z)) unit example_tracks_list
                  example_track_connections example_get_tracks
                  example_database example_entries
    = Return (db', keys)
    ∧ graph_node db'
      = graph_node example_database
        ++ mjoin (imap (λ i e, graph_node_of (track example_database + S i)
                                 e.1 <$> example_tracks_list e.2)
                       example_entries).
Proof.
  assert (Hreturned :
            returned (insert_tracks (list (Z * Z)) unit example_tracks_list
                        example_track_connections example_get_tracks
                        example_database example_entries) = true)
    by (vm_compute; reflexivity).
  destruct (insert_tracks (list (Z * Z)) unit example_tracks_list
              example_track_connections example_get_tracks
              example_database example_entries) as [[db' keys]|e] eqn:Hrun;
    [|discriminate Hreturned].
  exists db', keys. split; [reflexivity|].
  exact (proj1 (insert_tracks_graph_nodes example_tracks_list
                  example_track_connections example_get_tracks
                  example_database example_entries db' keys Hrun)).
Defined.

Lemma insert_tracks_graph_edges_witness :
  ∃ db' keys,
    insert_tracks (list (Z * Z)) unit example_tracks_list
                  example_track_connections example_get_tracks
                  example_database example_entries
    = Return (db', keys)
    ∧ ∃ new,
        graph_edge db' = graph_edge example_database ++ new
        ∧ ∀ e, e ∈ new →
            reverse_edge e ∈ new
            ∧ head (short_switches example_database) = Some (switch_pkey e)
            ∧ ∃ s d,
                row_at (graph_node db') (src_graph_node_pkey e) = Some s
                ∧ row_at (graph_node db') (dest_graph_node_pkey e) = Some d
                ∧ graph_node_track_pkey s = graph_edge_track_pkey e
                ∧ graph_node_track_pkey d = graph_edge_track_pkey e.
Proof.
  assert (Hreturned :
            returned (insert_tracks (list (Z * Z)) unit example_tracks_list
                        example_track_connections example_get_tracks
                        example_database example_entries) = true)
    by (vm_compute; reflexivity).
  destruct (insert_tracks (list (Z * Z)) unit example_tracks_list
              example_track_connections example_get_tracks
              example_database example_entries) as [[db' keys]|e] eqn:Hrun;
    [|discriminate Hreturned].
  exists db', keys. split; [reflexivity|].
  exact (insert_tracks_graph_edges example_tracks_list
           example_track_connections example_get_tracks
           example_database example_entries db' keys Hrun).
Defined.

Lemma insert_tracks_wire_graph_nodes_witness :
  ∃ db' keys,
    insert_tracks (list (Z * Z)) unit example_tracks_list
                  example_track_connections example_get_tracks
                  example_database example_entries
    = Return (db', keys)
    ∧ (∀ w g, wire_graph_node_pkey db' !! w = Some g →
         wire_graph_node_pkey example_database !! w = Some g
         ∨ ∃ wr gr, row_at (wire (tables example_database)) w = Some wr
                    ∧ row_at (graph_node db') g = Some gr
                    ∧ wire_node_pkey wr = Some (graph_node_node_pkey gr))
    ∧ (∀ e w coord, e ∈ example_entries →
         (w, coord) ∈ wires_from_node (tables example_database) e.1 →
         is_Some (wire_graph_node_pkey db' !! w)).
Proof.
  assert (Hreturned :
            returned (insert_tracks (list (Z * Z)) unit example_tracks_list
                        example_track_connections example_get_tracks
                        example_database example_entries) = true)
    by (vm_compute; reflexivity).
  destruct (insert_tracks (list (Z * Z)) unit example_tracks_list
              example_track_connections example_get_tracks
              example_database example_entries) as [[db' keys]|e] eqn:Hrun;
    [|discriminate Hreturned].
  exists db', keys. split; [reflexivity|].
  exact (insert_tracks_wire_graph_nodes example_tracks_list
           example_track_connections example_get_tracks
           example_database example_entries db' keys Hrun).
Defined.

Lemma form_tracks_constant_network_witness :
  wires_refer_to_nodes (tables example_database)
  ∧ ∃ db',
      form_tracks zero_node (list (Z * Z)) unit example_make_tracks
                  example_tracks_list example_track_connections
                  example_get_tracks example_database
      = Return db'
      ∧ track db'
        = track example_database
          + length (channel_nodes (tables example_database)) + 2
      ∧ constant_sources db'
        = constant_sources example_database
          ++ [(track example_database
               + S (length (channel_nodes (tables example_database))),
               track example_database
               + S (S (length (channel_nodes (tables example_database)))))].
Proof.
  assert (Hrefer : wires_refer_to_nodes (tables example_database))
    by compute_done.
  split; [exact Hrefer|].
  assert (Hreturned :
            returned (form_tracks zero_node (list (Z * Z)) unit
                        example_make_tracks example_tracks_list
                        example_track_connections example_get_tracks
                        example_database) = true)
    by (vm_compute; reflexivity).
  destruct (form_tracks zero_node (list (Z * Z)) unit example_make_tracks
              example_tracks_list example_track_connections
              example_get_tracks example_database) as [db'|e] eqn:Hrun;
    [|discriminate Hreturned].
  exists db'. split; [reflexivity|].
  destruct (form_tracks_constant_network zero_node example_make_tracks
              example_tracks_list example_track_connections
              example_get_tracks example_database db' Hrefer Hrun)
    as (Htrack & Hconst & _).
  split; [exact Htrack|exact Hconst].
Defined.

Section track_outcome.
Context {tracks pin_dir : Type}.
Context (tracks_list : tracks → list Track).
Context (track_connections : tracks → list (nat * nat)).
Context (get_tracks_for_wire_at_coord : tracks → Z * Z → list (nat * pin_dir)).













End track_outcome.


(** ** Stage 1: the dictionaries *)

Lemma foldM_cons {A S : Type} (f : S → A → result S) (s : S) (x : A)
    (l : list A) :
  foldM f s (x :: l) = f s x ≫= λ s', foldM f s' l.
Proof. reflexivity. Qed.

Lemma Ok_bind {A B : Type} (a : A) (k : A → result B) : Ok a ≫= k = k a.
Proof. reflexivity. Qed.

Lemma Raise_bind {A B : Type} (e : error) (k : A → result B) :
  Raise e ≫= k = Raise e.
Proof. reflexivity. Qed.

Lemma foldM_Ok_foldl {A S : Type} (f : S → A → result S) (g : S → A → S)
    (l : list A) :
  (∀ s x, f s x = Ok (g s x)) → ∀ s, foldM f s l = Ok (foldl g s l).
Proof.
  intros Hf. induction l as [|x l IH]; intros s; [done|].
  by rewrite foldM_cons, Hf, Ok_bind, IH.
Qed.

Lemma foldl_invariant {A S : Type} (I : S → Prop) (f : S → A → S)
    (l : list A) :
  (∀ s x, x ∈ l → I s → I (f s x)) → ∀ s, I s → I (foldl f s l).
Proof.
  induction l as [|x l IH]; intros Hf s Hs; simpl; [done|].
  apply IH.
  - intros s' y Hy. apply Hf. by right.
  - apply Hf; [by left|done].
Qed.

Lemma dict_put_new {V : Type} (k : string) (v : V) (d : list (string * V)) :
  k ∉ d.*1 → dict_put k v d = d ++ [(k, v)].
Proof. intros Hk. unfold dict_put. by rewrite decide_False. Qed.

Lemma dict_get_Ok {V : Type} (d : list (string * V)) (k : string) (v : V) :
  dict_get d k = Ok v → (k, v) ∈ d.
Proof.
  unfold dict_get.
  destruct (filter _ d) as [|item rest] eqn:Hf; [done|]. intros [= <-].
  assert (item ∈ filter (λ item, item.1 = k) d) as [Hk Hin]%list_elem_of_filter
    by (rewrite Hf; left).
  destruct item; simpl in *. by subst.
Qed.

Lemma dict_get_is_Ok {V : Type} (d : list (string * V)) (k : string) :
  k ∈ d.*1 → ∃ v, dict_get d k = Ok v.
Proof.
  intros ([k' v] & -> & Hin)%list_elem_of_fmap. unfold dict_get.
  destruct (filter _ d) as [|item rest] eqn:Hf; [|by eexists].
  assert ((k', v) ∈ filter (λ item : string * V, item.1 = (k', v).1) d) as Hin'
    by by apply list_elem_of_filter.
  rewrite Hf in Hin'. by apply elem_of_nil in Hin'.
Qed.

Lemma dict_get_NoDup {V : Type} (d : list (string * V)) (k : string) (v : V) :
  NoDup d.*1 → (k, v) ∈ d → dict_get d k = Ok v.
Proof.
  intros Hnodup Hin.
  destruct (dict_get_is_Ok d k) as [v' Hv'].
  { apply list_elem_of_fmap. by exists (k, v). }
  rewrite Hv'. f_equal. apply dict_get_Ok in Hv'.
  apply list_elem_of_lookup in Hin as [i Hi].
  apply list_elem_of_lookup in Hv' as [j Hj].
  assert (i = j) as ->; [|congruence].
  eapply (NoDup_lookup d.*1 i j k); [done|..];
    rewrite list_lookup_fmap; [by rewrite Hi|by rewrite Hj].
Qed.

Lemma dict_get_snoc {V : Type} (d : list (string * V)) (k : string) (v : V) :
  k ∉ d.*1 → dict_get (d ++ [(k, v)]) k = Ok v.
Proof.
  intros Hk. unfold dict_get. rewrite filter_app.
  assert (filter (λ item : string * V, item.1 = k) d = []) as ->.
  { apply filter_nil_iff. intros item Hin <-. apply Hk.
    by apply list_elem_of_fmap_2. }
  simpl. rewrite filter_cons_True by done. done.
Qed.

Section phy_grid.
Context (get_site_type : string → list prjxray.SiteTypePin).
Context (get_tile_type : string → prjxray.TileType).
Context (wire_in_tile_default : wire_in_tile_row).

Lemma insert_site_pins_run site_types site_type_name k pins :
  dict_get site_types site_type_name = Ok k →
  ∀ c,
    foldM (insert_site_pin site_types site_type_name) c pins
    = Ok (with_site_pin_direction
            (λ t, t ++ (prjxray.direction <$> pins))
            (with_phy_tables
               (with_site_pin (λ t, t ++ site_pin_rows k pins)) c)).
Proof.
  intros Hk.
  assert (Hstep : ∀ c p,
            insert_site_pin site_types site_type_name c p
            = Ok (with_site_pin_direction (λ t, t ++ [prjxray.direction p])
                    (with_phy_tables
                       (with_site_pin (λ t, t ++ site_pin_rows k [p])) c))).
  { intros c p. unfold insert_site_pin. by rewrite Hk. }
  induction pins as [|p pins IH]; intros c.
  - simpl. f_equal. destruct c as [[] ? ? ?].
    unfold with_site_pin_direction, with_phy_tables, with_site_pin. simpl.
    by rewrite !app_nil_r.
  - rewrite foldM_cons, Hstep, Ok_bind, IH. f_equal. destruct c as [[] ? ? ?].
    unfold with_site_pin_direction, with_phy_tables, with_site_pin. simpl.
    by rewrite <- !app_assoc.
Qed.

Lemma import_site_type_run c site_types site_type_name :
  import_site_type get_site_type (c, site_types) site_type_name
  = if decide (site_type_name ∈ site_types.*1) then Raise AssertionError
    else Ok (site_type_effect get_site_type c site_type_name,
             site_types ++ [(site_type_name,
                             S (length (site_type (phy_tables c))))]).
Proof.
  unfold import_site_type.
  destruct (decide (site_type_name ∈ site_types.*1)) as [Hin|Hin].
  - by rewrite bool_decide_eq_false_2 by tauto.
  - rewrite bool_decide_eq_true_2 by done. simpl.
    rewrite dict_put_new by done.
    rewrite (insert_site_pins_run _ _ (S (length (site_type (phy_tables c))))).
    + rewrite Ok_bind, length_app, Nat.add_1_r. by destruct c as [[] ? ? ?].
    + rewrite length_app, Nat.add_1_r. by apply dict_get_snoc.
Qed.

Lemma import_site_types_run sites :
  ∀ st, foldM (import_site_type_of get_site_type) st sites
        = Ok (foldl (site_types_effect get_site_type) st sites).
Proof.
  apply foldM_Ok_foldl. intros [c site_types] site_obj.
  unfold import_site_type_of, site_types_effect. cbn [fst snd].
  destruct (decide (prjxray.type site_obj ∈ site_types.*1)) as [Hin|Hin].
  - by rewrite decide_False by tauto.
  - rewrite decide_True by done. rewrite import_site_type_run.
    by rewrite decide_False by done.
Qed.

Lemma insert_wires_in_tile_run tile_types tile_type_name k l :
  dict_get tile_types tile_type_name = Ok k →
  ∀ c wires,
    foldM (insert_wire_in_tile wire_in_tile_default tile_types tile_type_name)
          (c, wires) l
    = Ok (with_phy_tables
            (with_wire_in_tile
               (λ t, t ++ ((λ w, new_wire_in_tile wire_in_tile_default w k)
                           <$> l))) c,
          wire_keys (length (wire_in_tile (phy_tables c))) l wires).
Proof.
  intros Hk.
  assert (Hstep : ∀ c wires w,
            insert_wire_in_tile wire_in_tile_default tile_types tile_type_name
                                (c, wires) w
            = Ok (with_phy_tables
                    (with_wire_in_tile
                       (λ t, t ++ [new_wire_in_tile wire_in_tile_default w k]))
                    c,
                  <[w := S (length (wire_in_tile (phy_tables c)))]> wires)).
  { intros c wires w. unfold insert_wire_in_tile. rewrite Hk, Ok_bind.
    simpl. by rewrite length_app, Nat.add_1_r. }
  induction l as [|w l IH]; intros c wires.
  - simpl. do 2 f_equal. destruct c as [[] ? ? ?].
    unfold with_phy_tables, with_wire_in_tile. simpl. by rewrite !app_nil_r.
  - rewrite foldM_cons, Hstep, Ok_bind, IH. simpl.
    rewrite length_app, Nat.add_1_r. do 2 f_equal.
    destruct c as [[] ? ? ?].
    unfold with_phy_tables, with_wire_in_tile. simpl.
    by rewrite <- !app_assoc.
Qed.

Lemma wire_keys_is_Some l :
  ∀ base wires x,
    is_Some (wire_keys base l wires !! x) ↔ x ∈ l ∨ is_Some (wires !! x).
Proof.
  induction l as [|w l IH]; intros base wires x; simpl.
  - rewrite elem_of_nil. tauto.
  - rewrite IH, elem_of_cons. destruct (decide (x = w)) as [->|Hne].
    + rewrite lookup_insert_eq. split; [auto|]. intros _. right. by eexists.
    + rewrite lookup_insert_ne by done. tauto.
Qed.

Lemma wire_keys_lookup l :
  ∀ base wires x key,
    wire_keys base l wires !! x = Some key →
    wires !! x = Some key
    ∨ ∃ i, l !! i = Some x ∧ key = S (base + i).
Proof.
  induction l as [|w l IH]; intros base wires x key; simpl; [auto|].
  intros [Hold|(i & Hi & ->)]%IH.
  - destruct (decide (x = w)) as [->|Hne].
    + rewrite lookup_insert_eq in Hold. injection Hold as <-.
      right. exists 0. split; [done|]. by rewrite Nat.add_0_r.
    + rewrite lookup_insert_ne in Hold by done. by left.
  - right. exists (S i). split; [done|]. lia.
Qed.

Lemma insert_pips_in_tile_run tile_types tile_type_name k wires pips :
  dict_get tile_types tile_type_name = Ok k →
  ∀ c,
    foldM (insert_pip_in_tile tile_types tile_type_name wires) c pips
    = if decide (Forall (λ pip, is_Some (wires !! prjxray.net_from pip)
                                ∧ is_Some (wires !! prjxray.net_to pip))
                        pips)
      then Ok (with_phy_tables
                 (with_pip_in_tile (λ t, t ++ (pip_row k wires <$> pips))) c)
      else Raise KeyError.
Proof.
  intros Hk. induction pips as [|pip pips IH]; intros c.
  - rewrite decide_True by constructor. simpl. f_equal.
    destruct c as [[] ? ? ?].
    unfold with_phy_tables, with_pip_in_tile. simpl. by rewrite !app_nil_r.
  - rewrite foldM_cons.
    assert (Hstep :
              insert_pip_in_tile tile_types tile_type_name wires c pip
              = match wires !! prjxray.net_from pip,
                      wires !! prjxray.net_to pip with
                | Some _, Some _ =>
                    Ok (with_phy_tables
                          (with_pip_in_tile (λ t, t ++ [pip_row k wires pip]))
                          c)
                | _, _ => Raise KeyError
                end).
    { unfold insert_pip_in_tile, wires_lookup, pip_row.
      rewrite Hk, Ok_bind.
      destruct (wires !! prjxray.net_from pip); [|done].
      by destruct (wires !! prjxray.net_to pip). }
    rewrite Hstep.
    destruct (wires !! prjxray.net_from pip) as [a|] eqn:Ha.
    + destruct (wires !! prjxray.net_to pip) as [b|] eqn:Hb.
      * rewrite Ok_bind, IH.
        destruct (decide (Forall _ pips)) as [Hall|Hall].
        -- rewrite decide_True.
           ++ f_equal. destruct c as [[] ? ? ?].
              unfold with_phy_tables, with_pip_in_tile. simpl.
              by rewrite <- !app_assoc.
           ++ constructor; [|done]. rewrite Ha, Hb. by split; eexists.
        -- rewrite decide_False; [done|]. by intros [_ ?]%Forall_cons.
      * rewrite Raise_bind, decide_False; [done|].
        intros [[_ [? Hb']] _]%Forall_cons. by rewrite Hb in Hb'.
    + rewrite Raise_bind, decide_False; [done|].
      intros [[[? Ha'] _] _]%Forall_cons. by rewrite Ha in Ha'.
Qed.

Lemma import_tile_type_run st tile_type_name :
  import_tile_type get_site_type get_tile_type wire_in_tile_default st
                   tile_type_name
  = if decide (tile_type_name ∈ st.1.2.*1) then Raise AssertionError
    else if decide (pips_ok get_tile_type tile_type_name)
         then Ok (tile_type_effect get_site_type get_tile_type
                                   wire_in_tile_default st tile_type_name)
         else Raise KeyError.
Proof.
  destruct st as [[c tile_types] site_types]. unfold import_tile_type. simpl.
  destruct (decide (tile_type_name ∈ tile_types.*1)) as [Hin|Hin].
  { by rewrite bool_decide_eq_false_2 by tauto. }
  rewrite bool_decide_eq_true_2 by done. unfold assert. rewrite Ok_bind.
  rewrite dict_put_new by done.
  rewrite length_app, Nat.add_1_r.
  assert (Hk : dict_get (tile_types ++ [(tile_type_name, S (length (tile_type c)))])
                        tile_type_name = Ok (S (length (tile_type c))))
    by by apply dict_get_snoc.
  rewrite (insert_wires_in_tile_run _ _ _ _ Hk), Ok_bind.
  rewrite (insert_pips_in_tile_run _ _ _ _ _ Hk).
  simpl.
  destruct (decide (pips_ok get_tile_type tile_type_name)) as [Hok|Hok].
  - rewrite decide_True.
    + rewrite Ok_bind, import_site_types_run, Ok_bind.
      unfold tile_type_effect. simpl.
      by destruct (foldl _ _ _).
    + eapply Forall_impl; [exact Hok|]. intros pip [? ?]. simpl.
      rewrite !wire_keys_is_Some. auto.
  - rewrite decide_False; [done|]. intros Hall. apply Hok.
    eapply Forall_impl; [exact Hall|]. intros pip. simpl.
    rewrite !wire_keys_is_Some. intros [[?|[? ?]] [?|[? ?]]]; done.
Qed.

Lemma import_tile_type_of_run st tile :
  import_tile_type_of get_site_type get_tile_type wire_in_tile_default st tile
  = if decide (prjxray.tile_type tile ∈ st.1.2.*1
               ∨ pips_ok get_tile_type (prjxray.tile_type tile))
    then Ok (tile_types_effect get_site_type get_tile_type
                               wire_in_tile_default st tile)
    else Raise KeyError.
Proof.
  unfold import_tile_type_of, tile_types_effect.
  destruct (decide (prjxray.tile_type tile ∈ st.1.2.*1)) as [Hin|Hin].
  - rewrite decide_False by tauto. by rewrite decide_True by auto.
  - rewrite decide_True by done. rewrite import_tile_type_run.
    rewrite decide_False by done.
    destruct (decide (pips_ok get_tile_type (prjxray.tile_type tile))).
    + by rewrite decide_True by auto.
    + by rewrite decide_False by tauto.
Qed.

Lemma site_types_frame_refl c : site_types_frame c c.
Proof. by repeat split. Qed.

Lemma site_types_frame_trans c1 c2 c3 :
  site_types_frame c1 c2 → site_types_frame c2 c3 → site_types_frame c1 c3.
Proof.
  unfold site_types_frame. intros (?&?&?&?&?&?&?&?&?) (?&?&?&?&?&?&?&?&?).
  split_and!; congruence.
Qed.

Lemma site_types_effect_inv c0 c site_types site_obj :
  site_types_inv get_site_type c0 c site_types →
  let st' := site_types_effect get_site_type (c, site_types) site_obj in
  site_types_inv get_site_type c0 st'.1 st'.2
  ∧ site_types_frame c st'.1
  ∧ ∀ m, m ∈ st'.2.*1 ↔ m ∈ site_types.*1 ∨ m = prjxray.type site_obj.
Proof.
  intros [Htype Hnodup Hkeys Hpin Hdir]. unfold site_types_effect.
  cbn [fst snd].
  destruct (decide (prjxray.type site_obj ∈ site_types.*1)) as [Hin|Hin];
    cbn [fst snd].
  { split_and!; [done|apply site_types_frame_refl|]. intros m. naive_solver. }
  split_and!.
  - assert (Hlen : length (site_type (phy_tables c))
                   = length (site_type (phy_tables c0)) + length site_types).
    { by rewrite Htype, length_app, !length_fmap. }
    split; simpl.
    + by rewrite Htype, !fmap_app, app_assoc.
    + rewrite fmap_app. apply NoDup_app. split_and!; [done| |apply NoDup_singleton].
      intros m Hm ->%list_elem_of_singleton. done.
    + by rewrite fmap_app, length_app, seq_app, Hkeys, Hlen.
    + rewrite Hpin, fmap_app, join_app, app_assoc. simpl.
      by rewrite app_nil_r.
    + rewrite Hdir, fmap_app, join_app, app_assoc. simpl.
      by rewrite app_nil_r.
  - by repeat split.
  - intros m. rewrite fmap_app, elem_of_app. simpl.
    by rewrite list_elem_of_singleton.
Qed.

Lemma site_types_loop_inv c0 sites :
  ∀ c site_types,
    site_types_inv get_site_type c0 c site_types →
    let st' := foldl (site_types_effect get_site_type) (c, site_types) sites in
    site_types_inv get_site_type c0 st'.1 st'.2
    ∧ site_types_frame c st'.1
    ∧ ∀ m, m ∈ st'.2.*1
           ↔ m ∈ site_types.*1
             ∨ ∃ site_obj, site_obj ∈ sites ∧ prjxray.type site_obj = m.
Proof.
  induction sites as [|site_obj sites IH]; intros c site_types Hinv.
  - simpl. split_and!; [done|apply site_types_frame_refl|].
    intros m. split; [auto|]. intros [?|(? & []%elem_of_nil & _)]. done.
  - destruct (site_types_effect_inv c0 c site_types site_obj Hinv)
      as (Hinv1 & Hframe1 & Hkeys1).
    cbn zeta in *. simpl.
    destruct (site_types_effect get_site_type (c, site_types) site_obj)
      as [c1 site_types1].
    destruct (IH c1 site_types1 Hinv1) as (Hinv2 & Hframe2 & Hkeys2).
    split_and!; [done|by eapply site_types_frame_trans|].
    intros m. rewrite Hkeys2, Hkeys1. setoid_rewrite elem_of_cons.
    naive_solver.
Qed.

Lemma row_at_app_Some {A : Type} (t1 t2 : list A) (k : pkey) (r : A) :
  row_at t1 k = Some r → row_at (t1 ++ t2) k = Some r.
Proof.
  intros Hr. rewrite row_at_app_l; [done|].
  apply row_at_Some_lt in Hr. lia.
Qed.

Lemma row_at_app_r {A : Type} (t1 t2 : list A) (i : nat) :
  row_at (t1 ++ t2) (S (length t1 + i)) = t2 !! i.
Proof. simpl. rewrite lookup_app_r by lia. f_equal. lia. Qed.

Lemma pip_joins_mono c c' p :
  (∀ k n, row_at (tile_type c) k = Some n →
          row_at (tile_type c') k = Some n) →
  (∀ k r, row_at (wire_in_tile (phy_tables c)) k = Some r →
          ∃ r', row_at (wire_in_tile (phy_tables c')) k = Some r'
                ∧ wire_in_tile_name r' = wire_in_tile_name r
                ∧ wire_in_tile_tile_type_pkey r'
                  = wire_in_tile_tile_type_pkey r) →
  pip_joins get_tile_type c p → pip_joins get_tile_type c' p.
Proof.
  intros Htypes Hwires
    (n & pip & s & d & Hn & Hpip & Hname & Hinv & Hdir & Hpseudo
     & Hs & Hsname & Hstype & Hd & Hdname & Hdtype).
  destruct (Hwires _ _ Hs) as (s' & Hs' & Hsname' & Hstype').
  destruct (Hwires _ _ Hd) as (d' & Hd' & Hdname' & Hdtype').
  exists n, pip, s', d'. split_and!; try done; try congruence.
  by apply Htypes.
Qed.

Lemma tile_type_effect_inv c0 st tile_type_name :
  tile_types_inv get_site_type get_tile_type wire_in_tile_default c0 st →
  tile_type_name ∉ st.1.2.*1 →
  pips_ok get_tile_type tile_type_name →
  tile_types_inv get_site_type get_tile_type wire_in_tile_default c0
    (tile_type_effect get_site_type get_tile_type wire_in_tile_default st
                      tile_type_name).
Proof.
  destruct st as [[c tile_types] site_types].
  intros [Hsites Htype Hnodup Hkeys Hwit (new & Hpips & Hjoins) Hsts Hused
          Hsite Hphy Htile Hwire Hnode Hedge] Hfresh Hok.
  cbn [fst snd] in *. unfold tile_type_effect. cbn [fst snd].
  set (k := S (length (tile_type c))).
  set (wires := wire_keys (length (wire_in_tile (phy_tables c)))
                  (prjxray.get_wires (get_tile_type tile_type_name)) ∅).
  set (c1 := with_phy_tables _ _).
  assert (Hsites1 : site_types_inv get_site_type c0 c1 site_types).
  { destruct Hsites. by split. }
  destruct (site_types_loop_inv c0
              (prjxray.get_sites (get_tile_type tile_type_name))
              c1 site_types Hsites1) as (Hsites2 & Hframe & Hmem).
  cbn zeta in *.
  destruct (foldl _ _ _) as [c2 site_types2]. cbn [fst snd] in *.
  destruct Hframe as (Ftype & Fsite & Fwit & Fpip & Fphy & Ftile & Fwire
                      & Fnode & Fedge).
  assert (Hlen : length (tile_type c)
                 = length (tile_type c0) + length tile_types).
  { by rewrite Htype, length_app, length_fmap. }
  split; cbn [fst snd].
  - done.
  - rewrite Ftype. simpl. by rewrite Htype, fmap_app, app_assoc.
  - rewrite fmap_app. apply NoDup_app.
    split_and!; [done| |apply NoDup_singleton].
    by intros m Hm ->%list_elem_of_singleton.
  - unfold k. by rewrite fmap_app, length_app, seq_app, Hkeys, Hlen.
  - rewrite Fwit. simpl. rewrite Hwit, fmap_app, join_app, app_assoc. simpl.
    by rewrite app_nil_r.
  - exists (new ++ (pip_row k wires
                    <$> prjxray.get_pips (get_tile_type tile_type_name))).
    split; [rewrite Fpip; simpl; by rewrite Hpips, app_assoc|].
    apply Forall_app. split.
    + eapply Forall_impl; [exact Hjoins|]. intros p. apply pip_joins_mono.
      * intros key n. rewrite Ftype. simpl. apply row_at_app_Some.
      * intros key r Hr. exists r. rewrite Fwit. simpl.
        split; [|done]. by apply row_at_app_Some.
    + apply Forall_fmap, Forall_forall. intros pip Hpip.
      unfold pips_ok in Hok. rewrite Forall_forall in Hok.
      destruct (Hok pip Hpip) as [Hfrom Hto].
      assert (Hend : ∀ x,
                x ∈ prjxray.get_wires (get_tile_type tile_type_name) →
                ∃ r, row_at (wire_in_tile (phy_tables c2))
                            (default 0 (wires !! x)) = Some r
                     ∧ wire_in_tile_name r = x
                     ∧ wire_in_tile_tile_type_pkey r = k).
      { intros x Hx.
        assert (is_Some (wires !! x)) as [key Hkey]
          by (apply wire_keys_is_Some; by left).
        unfold pkey in *. rewrite Hkey. simpl.
        apply wire_keys_lookup in Hkey as [Hkey|(i & Hi & ->)];
          [by rewrite lookup_empty in Hkey|].
        exists (new_wire_in_tile wire_in_tile_default x k).
        split; [|done]. rewrite Fwit.
        change (wire_in_tile (phy_tables c1))
          with (wire_in_tile (phy_tables c)
                ++ ((λ w, new_wire_in_tile wire_in_tile_default w k)
                    <$> prjxray.get_wires (get_tile_type tile_type_name))).
        rewrite row_at_app_r, list_lookup_fmap, Hi. done. }
      destruct (Hend _ Hfrom) as (s & Hs & Hsname & Hstype).
      destruct (Hend _ Hto) as (d & Hd & Hdname & Hdtype).
      exists tile_type_name, pip, s, d. split_and!; try done.
      rewrite Ftype. apply row_at_snoc.
  - intros n site_obj. rewrite fmap_app, elem_of_app. simpl.
    rewrite list_elem_of_singleton. intros [Hn| ->] Hin; apply Hmem.
    + left. by eapply Hsts.
    + right. by exists site_obj.
  - intros m [Hm|(site_obj & Hin & <-)]%Hmem.
    + destruct (Hused m Hm) as (n & site_obj & Hn & Hin & <-).
      exists n, site_obj. split; [|done]. rewrite fmap_app, elem_of_app.
      by left.
    + exists tile_type_name, site_obj. split; [|done].
      rewrite fmap_app, elem_of_app. right. simpl. by left.
  - by rewrite Fsite.
  - by rewrite Fphy.
  - by rewrite Ftile.
  - by rewrite Fwire.
  - by rewrite Fnode.
  - by rewrite Fedge.
Qed.

Lemma tile_types_effect_keys st tile :
  (tile_types_effect get_site_type get_tile_type wire_in_tile_default st
                     tile).1.2.*1
  = if decide (prjxray.tile_type tile ∈ st.1.2.*1) then st.1.2.*1
    else st.1.2.*1 ++ [prjxray.tile_type tile].
Proof.
  unfold tile_types_effect.
  destruct (decide (prjxray.tile_type tile ∈ st.1.2.*1)); [done|].
  unfold tile_type_effect. cbn [fst snd]. by rewrite fmap_app.
Qed.

Lemma import_tile_types_run grid :
  ∀ st,
    foldM (import_tile_type_of get_site_type get_tile_type
                               wire_in_tile_default) st grid
    = if decide (Forall (λ tile,
                           prjxray.tile_type tile ∈ st.1.2.*1
                           ∨ pips_ok get_tile_type (prjxray.tile_type tile))
                        grid)
      then Ok (foldl (tile_types_effect get_site_type get_tile_type
                                        wire_in_tile_default) st grid)
      else Raise KeyError.
Proof.
  induction grid as [|tile grid IH]; intros st.
  - by rewrite decide_True by constructor.
  - rewrite foldM_cons, import_tile_type_of_run.
    destruct (decide (prjxray.tile_type tile ∈ st.1.2.*1
                      ∨ pips_ok get_tile_type (prjxray.tile_type tile)))
      as [Hok|Hok].
    + rewrite Ok_bind, IH. simpl. apply decide_ext.
      rewrite Forall_cons.
      assert (Hiff : ∀ tile',
                prjxray.tile_type tile'
                  ∈ (tile_types_effect get_site_type get_tile_type
                       wire_in_tile_default st tile).1.2.*1
                ∨ pips_ok get_tile_type (prjxray.tile_type tile')
                ↔ prjxray.tile_type tile' ∈ st.1.2.*1
                  ∨ pips_ok get_tile_type (prjxray.tile_type tile')).
      { intros tile'. rewrite tile_types_effect_keys.
        destruct (decide (prjxray.tile_type tile ∈ st.1.2.*1)) as [Hin|Hin];
          [done|].
        rewrite elem_of_app, list_elem_of_singleton. split; [|tauto].
        intros [[?|Heq]|?]; [auto| |auto]. rewrite Heq.
        destruct Hok; [done|auto]. }
      split.
      * intros Hall. split; [done|].
        eapply Forall_impl; [exact Hall|]. intros tile'. apply Hiff.
      * intros [_ Hall].
        eapply Forall_impl; [exact Hall|]. intros tile'. apply Hiff.
    + rewrite Raise_bind, decide_False; [done|].
      by intros [? _]%Forall_cons.
Qed.

Lemma tile_types_loop_inv c0 grid :
  ∀ st,
    Forall (λ tile, prjxray.tile_type tile ∈ st.1.2.*1
                    ∨ pips_ok get_tile_type (prjxray.tile_type tile)) grid →
    tile_types_inv get_site_type get_tile_type wire_in_tile_default c0 st →
    let st' := foldl (tile_types_effect get_site_type get_tile_type
                                        wire_in_tile_default) st grid in
    tile_types_inv get_site_type get_tile_type wire_in_tile_default c0 st'
    ∧ ∀ n, n ∈ st'.1.2.*1
           ↔ n ∈ st.1.2.*1
             ∨ ∃ tile, tile ∈ grid ∧ prjxray.tile_type tile = n.
Proof.
  induction grid as [|tile grid IH]; intros st Hall Hinv.
  - simpl. split; [done|]. intros n. split; [auto|].
    by intros [?|(? & []%elem_of_nil & _)].
  - apply Forall_cons in Hall as [Hok Hall]. simpl.
    assert (Hkeys := tile_types_effect_keys st tile).
    assert (Hinv1 : tile_types_inv get_site_type get_tile_type
                      wire_in_tile_default c0
                      (tile_types_effect get_site_type get_tile_type
                         wire_in_tile_default st tile)).
    { unfold tile_types_effect.
      destruct (decide (prjxray.tile_type tile ∈ st.1.2.*1)) as [Hin|Hin];
        [done|].
      apply tile_type_effect_inv; [done..|]. by destruct Hok. }
    destruct (IH (tile_types_effect get_site_type get_tile_type
                    wire_in_tile_default st tile)) as [Hinv2 Hmem];
      [|done|].
    { eapply Forall_impl; [exact Hall|]. intros tile'. simpl.
      rewrite Hkeys.
      destruct (decide (prjxray.tile_type tile ∈ st.1.2.*1)); [done|].
      rewrite elem_of_app. tauto. }
    split; [done|]. intros n. cbn zeta in Hmem. rewrite Hmem, Hkeys.
    setoid_rewrite elem_of_cons.
    destruct (decide (prjxray.tile_type tile ∈ st.1.2.*1)) as [Hin|Hin].
    + naive_solver.
    + rewrite elem_of_app, list_elem_of_singleton. naive_solver.
Qed.

Lemma tile_types_inv_init c0 :
  tile_types_inv get_site_type get_tile_type wire_in_tile_default c0
                 (c0, [], []).
Proof.
  split; cbn [fst snd]; simpl; rewrite ?app_nil_r; try done.
  - split; simpl; rewrite ?app_nil_r; try done; apply NoDup_nil_2.
  - apply NoDup_nil_2.
  - exists []. by rewrite app_nil_r.
  - by intros n site_obj []%elem_of_nil.
  - by intros m []%elem_of_nil.
Qed.

Lemma dict_keys_row {A : Type} (f : string → A) (t0 : list A)
    (d : list (string * pkey)) (n : string) (k : pkey) :
  d.*2 = seq (S (length t0)) (length d) →
  (n, k) ∈ d →
  row_at (t0 ++ (f <$> d.*1)) k = Some (f n) ∧ length t0 < k.
Proof.
  intros Hkeys [i Hi]%list_elem_of_lookup.
  assert (Hk : d.*2 !! i = Some k) by (by rewrite list_lookup_fmap, Hi).
  rewrite Hkeys in Hk. apply lookup_seq in Hk as [-> Hlt]. split; [|lia].
  change (S (length t0) + i) with (S (length t0 + i)).
  by rewrite row_at_app_r, !list_lookup_fmap, Hi.
Qed.


Lemma dict_keys_imap (base : nat) (d : list (string * pkey)) :
  d.*2 = seq (S base) (length d) →
  d = imap (λ i n, (n, base + S i)) d.*1.
Proof.
  intros Hkeys. apply list_eq. intros i.
  rewrite list_lookup_imap, list_lookup_fmap.
  destruct (d !! i) as [[n k]|] eqn:Hi; simpl; [|done].
  assert (Hk : d.*2 !! i = Some k) by (by rewrite list_lookup_fmap, Hi).
  rewrite Hkeys in Hk. apply lookup_seq in Hk as [-> _].
  do 2 f_equal. lia.
Qed.

Lemma insert_phy_tiles_run tile_types grid :
  (∀ tile, tile ∈ grid → prjxray.tile_type tile ∈ tile_types.*1) →
  ∀ c,
    foldM (insert_phy_tile tile_types) c grid
    = Ok (with_phy_tables
            (with_phy_tile (λ t, t ++ (phy_tile_of tile_types <$> grid))) c).
Proof.
  induction grid as [|tile grid IH]; intros Hin c.
  - simpl. f_equal. destruct c as [[] ? ? ?].
    unfold with_phy_tables, with_phy_tile. simpl. by rewrite !app_nil_r.
  - rewrite foldM_cons.
    destruct (dict_get_is_Ok tile_types (prjxray.tile_type tile)) as [k Hk].
    { apply Hin. by left. }
    assert (Hstep : insert_phy_tile tile_types c tile
                    = Ok (with_phy_tables
                            (with_phy_tile
                               (λ t, t ++ [phy_tile_of tile_types tile])) c)).
    { unfold insert_phy_tile, phy_tile_of. by rewrite Hk. }
    rewrite Hstep, Ok_bind, IH.
    + f_equal. destruct c as [[] ? ? ?].
      unfold with_phy_tables, with_phy_tile. simpl. by rewrite <- !app_assoc.
    + intros tile' Htile'. apply Hin. by right.
Qed.

Lemma with_wire_in_tile_erase f conn :
  with_wire_in_tile (λ _, []) (with_wire_in_tile f conn)
  = with_wire_in_tile (λ _, []) conn.
Proof. by destruct conn. Qed.

Lemma wire_in_tile_id_update_where cond a b t :
  wire_in_tile_id <$> update_where cond (λ _, set_wire_in_tile_site a b) t
  = wire_in_tile_id <$> t.
Proof.
  apply list_eq. intros i. unfold update_where.
  rewrite !list_lookup_fmap, list_lookup_imap.
  destruct (t !! i) as [r|]; simpl; [|done]. by destruct (cond (S i) r).
Qed.

Lemma site_pin_bound_mono c c' r :
  tile_type c' = tile_type c →
  site_pin (phy_tables c') = site_pin (phy_tables c) →
  site_type (phy_tables c') = site_type (phy_tables c) →
  (∃ new, site c' = site c ++ new) →
  site_pin_bound get_tile_type c r → site_pin_bound get_tile_type c' r.
Proof.
  intros Htype Hsp' Hst' [new Hsite]
    (n & site_obj & pin & ks & s & ksp & sp & Hn & Hsite_obj & Hpin & Hwire
     & Hks & Hs & Hname & Hx & Hy & Hksp & Hsp & Hpname & Hptype & Hstype).
  exists n, site_obj, pin, ks, s, ksp, sp.
  rewrite Htype, Hsite, Hsp', Hst'. split_and!; try done.
  by apply row_at_app_Some.
Qed.

Lemma bind_site_pin_inv c1 tile_types site_types tile_type_name site_obj
    site_pkey s c pin c' :
  (∀ k, dict_get tile_types tile_type_name = Ok k →
        row_at (tile_type c1) k = Some tile_type_name) →
  (∀ k, dict_get site_types (prjxray.type site_obj) = Ok k →
        row_at (site_type (phy_tables c1)) k
        = Some {| site_type_name := prjxray.type site_obj |}
        ∧ site_row_site_type_pkey s = k) →
  site_obj ∈ prjxray.get_sites (get_tile_type tile_type_name) →
  pin ∈ prjxray.site_pins site_obj →
  site_row_name s = prjxray.site_name site_obj →
  x_coord s = prjxray.x site_obj →
  y_coord s = prjxray.y site_obj →
  site_relation_inv get_tile_type c1 c
  ∧ row_at (site c) site_pkey = Some s →
  bind_site_pin tile_types site_types tile_type_name site_obj site_pkey c pin
  = Ok c' →
  site_relation_inv get_tile_type c1 c'
  ∧ row_at (site c') site_pkey = Some s.
Proof.
  intros Htts Hsts Hsite_obj Hpin Hname Hx Hy
    [[Htype Hdir Htables Hsite Hids Hbound] Hs].
  unfold bind_site_pin.
  intros (k & Hk & ([ksp rest] & Hfetch%fetchone_Ok
                    & (kt & Hkt & [= <-])%bind_Ok)%bind_Ok)%bind_Ok.
  destruct (Hsts k Hk) as [Hst Hsk].
  assert (Hsp' := f_equal site_pin Htables).
  assert (Hst' := f_equal site_type Htables). simpl in Hsp', Hst'.
  assert (ksp ∈ (filter (λ r : pkey * site_pin_row,
                           site_pin_name r.2 = prjxray.site_pin_name pin
                           ∧ site_pin_site_type_pkey r.2 = k)
                        (rows (site_pin (phy_tables c)))).*1) as
      ([ksp' sp] & -> & [[Hpname Hptype] Hsp%elem_of_rows]%list_elem_of_filter)
      %list_elem_of_fmap
    by (rewrite Hfetch; left).
  simpl in *.
  split; [|done]. split; simpl; try done.
  - by rewrite wire_in_tile_id_update_where.
  - intros key r'. rewrite row_at_update_where.
    destruct (row_at (wire_in_tile (phy_tables c)) key) as [r|] eqn:Hr;
      [|done].
    simpl. intros [= <-]. case_bool_decide as Hcond.
    + right. destruct Hcond as [Hwire Hrt].
      exists tile_type_name, site_obj, pin, site_pkey, s, ksp', sp.
      simpl. rewrite Hrt, Htype, Hst'.
      split_and!; try done; [by apply Htts|congruence|congruence].
    + destruct (Hbound key r Hr) as [Hold|Hold]; [by left|right].
      eapply site_pin_bound_mono; [| | | |exact Hold]; simpl; try done.
      exists []. by rewrite app_nil_r.
Qed.

Lemma add_site_inv c1 tile_types site_types tile_type_name c site_obj c' :
  (∀ k, dict_get tile_types tile_type_name = Ok k →
        row_at (tile_type c1) k = Some tile_type_name) →
  (∀ m k, dict_get site_types m = Ok k →
          row_at (site_type (phy_tables c1)) k
          = Some {| site_type_name := m |}) →
  site_obj ∈ prjxray.get_sites (get_tile_type tile_type_name) →
  site_relation_inv get_tile_type c1 c →
  add_site tile_types site_types tile_type_name c site_obj = Ok c' →
  site_relation_inv get_tile_type c1 c'.
Proof.
  intros Htts Hsts Hsite_obj [Htype Hdir Htables [new Hsite] Hids Hbound].
  unfold add_site. intros (k & Hk & Hrun)%bind_Ok.
  set (s := {| site_row_name := prjxray.site_name site_obj;
               x_coord := prjxray.x site_obj; y_coord := prjxray.y site_obj;
               site_row_site_type_pkey := k |}) in *.
  simpl in Hrun.
  eapply (foldM_invariant
            (λ c2, site_relation_inv get_tile_type c1 c2
                   ∧ row_at (site c2) (length (site c ++ [s])) = Some s))
    in Hrun as [Hinv _]; [done| |].
  - intros c2 pin c3 Hpin Hinv2 Hstep.
    eapply (bind_site_pin_inv c1 tile_types site_types tile_type_name
              site_obj _ s c2 pin c3); try done.
    intros k' Hk'. split; [by apply Hsts|]. simpl. congruence.
  - split.
    + split; simpl; try done.
      * exists (new ++ [s]). by rewrite Hsite, app_assoc.
      * intros key r Hr. destruct (Hbound key r Hr) as [Hold|Hold];
          [by left|right].
        eapply site_pin_bound_mono; [| | | |exact Hold]; simpl; try done.
        by exists [s].
    + rewrite length_app, Nat.add_1_r. apply row_at_snoc.
Qed.

Lemma add_wire_to_site_relation_inv c1 tile_types site_types c
    tile_type_name c' :
  (∀ k, dict_get tile_types tile_type_name = Ok k →
        row_at (tile_type c1) k = Some tile_type_name) →
  (∀ m k, dict_get site_types m = Ok k →
          row_at (site_type (phy_tables c1)) k
          = Some {| site_type_name := m |}) →
  site_relation_inv get_tile_type c1 c →
  add_wire_to_site_relation get_tile_type tile_types site_types c
                            tile_type_name = Ok c' →
  site_relation_inv get_tile_type c1 c'.
Proof.
  intros Htts Hsts Hinv Hrun. unfold add_wire_to_site_relation in Hrun.
  eapply (foldM_invariant (site_relation_inv get_tile_type c1));
    [|exact Hinv|exact Hrun].
  intros c2 site_obj c3 Hsite_obj Hinv2 Hstep.
  by eapply add_site_inv.
Qed.

Lemma site_relation_inv_refl c1 : site_relation_inv get_tile_type c1 c1.
Proof.
  split; try done.
  - exists []. by rewrite app_nil_r.
  - intros key r ->. by left.
Qed.

Lemma site_relation_loop_inv c1 tile_types site_types names c' :
  (∀ n k, dict_get tile_types n = Ok k → row_at (tile_type c1) k = Some n) →
  (∀ m k, dict_get site_types m = Ok k →
          row_at (site_type (phy_tables c1)) k
          = Some {| site_type_name := m |}) →
  foldM (add_wire_to_site_relation get_tile_type tile_types site_types) c1
        names = Ok c' →
  site_relation_inv get_tile_type c1 c'.
Proof.
  intros Htts Hsts Hrun.
  eapply (foldM_invariant (site_relation_inv get_tile_type c1));
    [|apply site_relation_inv_refl|exact Hrun].
  intros c2 n c3 _ Hinv2 Hstep.
  eapply add_wire_to_site_relation_inv; [|exact Hsts|exact Hinv2|exact Hstep].
  intros k. apply Htts.
Qed.

Lemma fmap_join {A B : Type} (f : A → B) (ls : list (list A)) :
  f <$> mjoin ls = mjoin (fmap f <$> ls).
Proof.
  induction ls as [|l ls IH]; [done|]. simpl. by rewrite fmap_app, IH.
Qed.

Lemma dict_keys_join {A : Type} (g : string → pkey → list A) (base : nat)
    (d : list (string * pkey)) :
  d.*2 = seq (S base) (length d) →
  mjoin ((λ nk, g nk.1 nk.2) <$> d)
  = mjoin (imap (λ i n, g n (base + S i)) d.*1).
Proof.
  intros Hkeys. f_equal. apply list_eq. intros i.
  rewrite list_lookup_imap, !list_lookup_fmap.
  destruct (d !! i) as [[n k]|] eqn:Hi; simpl; [|done].
  assert (Hk : d.*2 !! i = Some k) by (by rewrite list_lookup_fmap, Hi).
  rewrite Hkeys in Hk. apply lookup_seq in Hk as [-> _].
  do 2 f_equal. lia.
Qed.

Lemma import_phy_grid_Ok grid c0 c' :
  import_phy_grid get_site_type get_tile_type wire_in_tile_default grid c0
  = Ok c' →
  ∃ c1 tile_types site_types c2,
    Forall (λ tile, pips_ok get_tile_type (prjxray.tile_type tile)) grid
    ∧ tile_types_inv get_site_type get_tile_type wire_in_tile_default c0
                     (c1, tile_types, site_types)
    ∧ (∀ n, n ∈ tile_types.*1
            ↔ ∃ tile, tile ∈ grid ∧ prjxray.tile_type tile = n)
    ∧ foldM (add_wire_to_site_relation get_tile_type tile_types site_types)
            c1 tile_types.*1 = Ok c2
    ∧ site_relation_inv get_tile_type c1 c2
    ∧ c' = with_phy_tables
             (with_phy_tile (λ t, t ++ (phy_tile_of tile_types <$> grid)))
             c2.
Proof.
  unfold import_phy_grid.
  intros ([[c1 tile_types] site_types] & Hloop1
          & (c2 & Hloop2 & Hloop3)%bind_Ok)%bind_Ok.
  rewrite import_tile_types_run in Hloop1.
  destruct (decide _) as [Hall|]; [|done]. injection Hloop1 as Hloop1.
  destruct (tile_types_loop_inv c0 grid (c0, [], []) Hall
              (tile_types_inv_init c0)) as [Hinv Hmem].
  cbn zeta in *. rewrite Hloop1 in Hinv, Hmem. cbn [fst snd] in Hmem.
  assert (Hmem' : ∀ n, n ∈ tile_types.*1
                       ↔ ∃ tile, tile ∈ grid ∧ prjxray.tile_type tile = n).
  { intros n. rewrite Hmem. split; [|auto]. by intros [[]%elem_of_nil|?]. }
  exists c1, tile_types, site_types, c2. split_and!; try done.
  - eapply Forall_impl; [exact Hall|]. simpl.
    by intros tile [[]%elem_of_nil|?].
  - destruct Hinv as [[Hst _ Hskeys _ _] Htt _ Hkeys _ _ _ _ _ _ _ _ _ _].
    cbn [fst snd] in *.
    eapply site_relation_loop_inv; [| |exact Hloop2].
    + intros n k Hk%dict_get_Ok. rewrite Htt.
      rewrite <- (list_fmap_id tile_types.*1).
      by apply (dict_keys_row id).
    + intros m k Hk%dict_get_Ok. rewrite Hst.
      by apply (dict_keys_row (λ n, {| site_type_name := n |})).
  - rewrite insert_phy_tiles_run in Hloop3; [congruence|].
    intros tile Htile. apply Hmem'. by exists tile.
Qed.

(** X23. A run of [import_phy_grid] that returns adds one [tile_type] row
    for every tile type that occurs in the grid and no other, and one
    [phy_tile] row for every tile of the grid, in the order of the grid,
    with the name and the position of the tile and the key of the new
    [tile_type] row of its tile type. *)
Theorem import_phy_grid_tiles grid c0 c' :
  import_phy_grid get_site_type get_tile_type wire_in_tile_default grid c0
  = Ok c' →
  ∃ new rows,
    tile_type c' = tile_type c0 ++ new
    ∧ NoDup new
    ∧ (∀ n, n ∈ new ↔ ∃ tile, tile ∈ grid ∧ prjxray.tile_type tile = n)
    ∧ phy_tile (phy_tables c') = phy_tile (phy_tables c0) ++ rows
    ∧ Forall2 (λ tile r,
                 phy_tile_name r = prjxray.tile tile
                 ∧ phy_tile_grid_x r = prjxray.grid_x tile
                 ∧ phy_tile_grid_y r = prjxray.grid_y tile
                 ∧ length (tile_type c0) < phy_tile_tile_type_pkey r
                 ∧ row_at (tile_type c') (phy_tile_tile_type_pkey r)
                   = Some (prjxray.tile_type tile))
              grid rows.
Proof.
  intros (c1 & tile_types & site_types & c2 & _ & Hinv & Hmem & _ & Hrel
          & ->)%import_phy_grid_Ok.
  destruct Hinv as [_ Htt Hnodup Hkeys _ _ _ _ _ Hphy _ _ _ _].
  destruct Hrel as [Rtt _ Rtables _ _ _]. cbn [fst snd] in *.
  assert (Rphy := f_equal phy_tile Rtables). simpl in Rphy.
  exists tile_types.*1, (phy_tile_of tile_types <$> grid).
  simpl. rewrite Rtt, Rphy, Htt, Hphy. split_and!; try done.
  apply Forall2_fmap_r, Forall_Forall2_diag, Forall_forall.
  intros tile Htile.
  destruct (dict_get_is_Ok tile_types (prjxray.tile_type tile)) as [k Hk].
  { apply Hmem. by exists tile. }
  unfold phy_tile_of. simpl. rewrite Hk. split_and!; try done.
  - by eapply (dict_keys_row id), dict_get_Ok.
  - rewrite <- (list_fmap_id tile_types.*1).
    by eapply (dict_keys_row id), dict_get_Ok.
Qed.

(** X24. A run of [import_phy_grid] that returns adds to [wire_in_tile],
    for one new tile type after the other, one row for every wire of the
    tile type in the order of [get_wires], with the key of the tile type;
    it changes neither the name nor the tile type of a row. *)
Theorem import_phy_grid_wires grid c0 c' :
  import_phy_grid get_site_type get_tile_type wire_in_tile_default grid c0
  = Ok c' →
  ∃ new,
    tile_type c' = tile_type c0 ++ new
    ∧ wire_in_tile_id <$> wire_in_tile (phy_tables c')
      = (wire_in_tile_id <$> wire_in_tile (phy_tables c0))
        ++ mjoin (imap (λ i n,
                          (λ w, (w, length (tile_type c0) + S i))
                          <$> prjxray.get_wires (get_tile_type n)) new).
Proof.
  intros (c1 & tile_types & site_types & c2 & _ & Hinv & _ & _ & Hrel
          & ->)%import_phy_grid_Ok.
  destruct Hinv as [_ Htt _ Hkeys Hwit _ _ _ _ _ _ _ _ _].
  destruct Hrel as [Rtt _ _ _ Rids _]. cbn [fst snd] in *.
  exists tile_types.*1. simpl. rewrite Rtt, Rids, Htt, Hwit. split; [done|].
  rewrite fmap_app, fmap_join. f_equal.
  rewrite <- (dict_keys_join
                (λ n k, (λ w, (w, k)) <$> prjxray.get_wires (get_tile_type n))
                _ _ Hkeys).
  f_equal. rewrite <- list_fmap_compose. apply list_fmap_ext.
  intros i [n k] _. simpl. rewrite <- list_fmap_compose. done.
Qed.

(** X25. After a run of [import_phy_grid] that returns, every row added
    to [pip_in_tile] has the name and the flags of a PIP of the tile type
    it refers to, and its source and destination are [wire_in_tile] rows
    of that tile type with the names of the two ends of that PIP. *)
Theorem import_phy_grid_pips grid c0 c' key p :
  import_phy_grid get_site_type get_tile_type wire_in_tile_default grid c0
  = Ok c' →
  row_at (pip_in_tile (phy_tables c')) key = Some p →
  length (pip_in_tile (phy_tables c0)) < key →
  pip_joins get_tile_type c' p.
Proof.
  intros (c1 & tile_types & site_types & c2 & _ & Hinv & _ & _ & Hrel
          & ->)%import_phy_grid_Ok.
  destruct Hinv as [_ _ _ _ _ (new & Hpips & Hjoins) _ _ _ _ _ _ _ _].
  destruct Hrel as [Rtt _ Rtables _ Rids _]. cbn [fst snd] in *.
  assert (Rpip := f_equal pip_in_tile Rtables). simpl in Rpip.
  simpl. rewrite Rpip, Hpips. intros Hp Hkey.
  assert (p ∈ new) as Hin.
  { destruct key as [|i]; [lia|]. simpl in Hp.
    rewrite lookup_app_r in Hp by lia. by eapply list_elem_of_lookup_2. }
  rewrite Forall_forall in Hjoins.
  eapply pip_joins_mono; [| |by apply Hjoins].
  - intros k n. simpl. by rewrite Rtt.
  - intros k r Hr. simpl.
    assert (Hid : wire_in_tile_id <$> row_at (wire_in_tile (phy_tables c2)) k
                  = Some (wire_in_tile_id r)).
    { destruct k as [|i]; [done|]. simpl in *.
      by rewrite <- list_lookup_fmap, Rids, list_lookup_fmap, Hr. }
    destruct (row_at (wire_in_tile (phy_tables c2)) k) as [r'|]; [|done].
    injection Hid as Hname Htype. by exists r'.
Qed.

(** X26. A run of [import_phy_grid] that returns adds one [site_type] row
    for every type of a site of a tile type of the grid and no other, and
    to [site_pin], for one new site type after the other, one row for
    every pin of the site type, with the name of the pin and the key of
    the site type; the column [direction] holds the directions of the
    same pins in the same order. *)
Theorem import_phy_grid_site_types grid c0 c' :
  import_phy_grid get_site_type get_tile_type wire_in_tile_default grid c0
  = Ok c' →
  ∃ new,
    site_type (phy_tables c')
    = site_type (phy_tables c0) ++ ((λ m, {| site_type_name := m |}) <$> new)
    ∧ NoDup new
    ∧ (∀ m, m ∈ new
            ↔ ∃ tile site_obj,
                tile ∈ grid
                ∧ site_obj ∈ prjxray.get_sites
                               (get_tile_type (prjxray.tile_type tile))
                ∧ prjxray.type site_obj = m)
    ∧ site_pin (phy_tables c')
      = site_pin (phy_tables c0)
        ++ mjoin (imap (λ i m,
                          site_pin_rows
                            (length (site_type (phy_tables c0)) + S i)
                            (get_site_type m)) new)
    ∧ site_pin_direction c'
      = site_pin_direction c0
        ++ mjoin ((λ m, prjxray.direction <$> get_site_type m) <$> new).
Proof.
  intros (c1 & tile_types & site_types & c2 & _ & Hinv & Hmem & _ & Hrel
          & ->)%import_phy_grid_Ok.
  destruct Hinv as [[Hst Hnodup Hkeys Hsp Hdir] _ _ _ _ _ Hsites Hused
                    _ _ _ _ _ _].
  destruct Hrel as [_ Rdir Rtables _ _ _]. cbn [fst snd] in *.
  assert (Rst := f_equal site_type Rtables).
  assert (Rsp := f_equal site_pin Rtables). simpl in Rst, Rsp.
  exists site_types.*1. simpl. rewrite Rst, Rsp, Rdir, Hst, Hsp, Hdir.
  split_and!; try done.
  - intros m. split.
    + intros (n & site_obj & (tile & Htile & <-)%Hmem & Hin & <-)%Hused.
      by exists tile, site_obj.
    + intros (tile & site_obj & Htile & Hin & <-).
      eapply Hsites; [|done]. apply Hmem. by exists tile.
  - f_equal.
    by rewrite <- (dict_keys_join (λ m k, site_pin_rows k (get_site_type m))
                     _ _ Hkeys).
  - f_equal. f_equal. rewrite <- list_fmap_compose. done.
Qed.

(** X27. After a run of [import_phy_grid] that returns, a [wire_in_tile]
    row either has the site columns it had before (those of the schema,
    for a new row), or it is bound to a site pin: the pin is one of a site
    of the tile type of the row and names the wire of the row, the [site]
    row is that of the site, and the [site_pin] row is a pin of that name
    of the type of the site. *)
Theorem import_phy_grid_site_pins grid c0 c' key r :
  import_phy_grid get_site_type get_tile_type wire_in_tile_default grid c0
  = Ok c' →
  row_at (wire_in_tile (phy_tables c')) key = Some r →
  site_columns r
  = match row_at (wire_in_tile (phy_tables c0)) key with
    | Some r0 => site_columns r0
    | None => site_columns wire_in_tile_default
    end
  ∨ site_pin_bound get_tile_type c' r.
Proof.
  intros (c1 & tile_types & site_types & c2 & _ & Hinv & _ & _ & Hrel
          & ->)%import_phy_grid_Ok.
  destruct Hinv as [_ _ _ _ Hwit _ _ _ _ _ _ _ _ _].
  destruct Hrel as [Rtt _ Rtables Rsite _ Rbound]. cbn [fst snd] in *.
  simpl. intros [Hold|Hnew]%Rbound.
  - left. rewrite Hwit in Hold.
    destruct (row_at (wire_in_tile (phy_tables c0)) key) as [r0|] eqn:Hr0.
    + erewrite row_at_app_Some in Hold by done. simpl in Hold. congruence.
    + destruct (row_at _ key) as [r1|] eqn:Hr1; [|done].
      assert (Heq : site_columns r = site_columns r1)
        by (simpl in Hold; congruence).
      rewrite Heq. clear Hold Heq.
      assert (key ≠ 0) by (by intros ->).
      destruct key as [|i]; [done|]. simpl in Hr0, Hr1.
      apply lookup_ge_None in Hr0. rewrite lookup_app_r in Hr1 by done.
      apply list_elem_of_lookup_2, list_elem_of_join in Hr1
        as (l & Hr1 & ([n k] & -> & _)%list_elem_of_fmap).
      by apply list_elem_of_fmap in Hr1 as (w & -> & _).
  - right. eapply site_pin_bound_mono; [| | | |exact Hnew]; simpl; try done.
    exists []. by rewrite app_nil_r.
Qed.









Lemma foldM_elem {A S : Type} (f : S → A → result S) (l : list A) (x : A)
    (s s' : S) :
  x ∈ l → foldM f s l = Ok s' →
  ∃ l1 l2 s1 s2,
    l = l1 ++ x :: l2 ∧ foldM f s l1 = Ok s1 ∧ f s1 x = Ok s2
    ∧ foldM f s2 l2 = Ok s'.
Proof.
  intros (l1 & l2 & ->)%list_elem_of_split. rewrite foldM_app.
  intros (s1 & H1 & H2)%bind_Ok. rewrite foldM_cons in H2.
  apply bind_Ok in H2 as (s2 & ? & ?). by exists l1, l2, s1, s2.
Qed.

Lemma site_relation_bound_at c c' key :
  site_relation_inv get_tile_type c c' →
  bound_at get_tile_type c key → bound_at get_tile_type c' key.
Proof.
  intros [Htype Hdir Htables Hsite Hids Hbound] (r & Hr & Hb).
  assert (Hsp := f_equal site_pin Htables).
  assert (Hst := f_equal site_type Htables). simpl in Hsp, Hst.
  assert (Hid : wire_in_tile_id <$> row_at (wire_in_tile (phy_tables c')) key
                = Some (wire_in_tile_id r)).
  { destruct key as [|i]; [done|]. simpl in *.
    by rewrite <- list_lookup_fmap, Hids, list_lookup_fmap, Hr. }
  destruct (row_at (wire_in_tile (phy_tables c')) key) as [r'|] eqn:Hr';
    [|done].
  exists r'. split; [done|].
  destruct (Hbound key r' Hr') as [Hold|Hnew]; [|done].
  rewrite Hr in Hold. simpl in Hold, Hid.
  assert (r' = r) as ->.
  { destruct r, r'. unfold wire_in_tile_id, site_columns in *. simpl in *.
    congruence. }
  by eapply site_pin_bound_mono.
Qed.

Lemma bind_site_pin_binds tile_types site_types tile_type_name site_obj
    site_pkey s c pin c' key r :
  (∀ k, dict_get tile_types tile_type_name = Ok k →
        row_at (tile_type c) k = Some tile_type_name
        ∧ wire_in_tile_tile_type_pkey r = k) →
  (∀ k, dict_get site_types (prjxray.type site_obj) = Ok k →
        row_at (site_type (phy_tables c)) k
        = Some {| site_type_name := prjxray.type site_obj |}
        ∧ site_row_site_type_pkey s = k) →
  site_obj ∈ prjxray.get_sites (get_tile_type tile_type_name) →
  pin ∈ prjxray.site_pins site_obj →
  site_row_name s = prjxray.site_name site_obj →
  x_coord s = prjxray.x site_obj →
  y_coord s = prjxray.y site_obj →
  row_at (site c) site_pkey = Some s →
  row_at (wire_in_tile (phy_tables c)) key = Some r →
  prjxray.wire pin = Some (wire_in_tile_name r) →
  bind_site_pin tile_types site_types tile_type_name site_obj site_pkey c pin
  = Ok c' →
  bound_at get_tile_type c' key.
Proof.
  intros Htts Hsts Hsite_obj Hpin Hname Hx Hy Hs Hr Hwire.
  unfold bind_site_pin.
  intros (k & Hk & ([ksp rest] & Hfetch%fetchone_Ok
                    & (kt & Hkt & [= <-])%bind_Ok)%bind_Ok)%bind_Ok.
  destruct (Hsts k Hk) as [Hst Hsk]. destruct (Htts kt Hkt) as [Htt Hrt].
  assert (ksp ∈ (filter (λ r : pkey * site_pin_row,
                           site_pin_name r.2 = prjxray.site_pin_name pin
                           ∧ site_pin_site_type_pkey r.2 = k)
                        (rows (site_pin (phy_tables c)))).*1) as
      ([ksp' sp] & -> & [[Hpname Hptype] Hsp%elem_of_rows]%list_elem_of_filter)
      %list_elem_of_fmap
    by (rewrite Hfetch; left).
  simpl in *.
  exists (set_wire_in_tile_site (Some site_pkey) (Some ksp') r). split.
  - simpl. rewrite row_at_update_where, Hr. simpl.
    by rewrite bool_decide_eq_true_2.
  - exists tile_type_name, site_obj, pin, site_pkey, s, ksp', sp.
    simpl. rewrite Hrt. split_and!; try done; congruence.
Qed.

Lemma bind_site_pins_inv c1 tile_types site_types tile_type_name site_obj
    site_pkey s pins c c' :
  (∀ k, dict_get tile_types tile_type_name = Ok k →
        row_at (tile_type c1) k = Some tile_type_name) →
  (∀ k, dict_get site_types (prjxray.type site_obj) = Ok k →
        row_at (site_type (phy_tables c1)) k
        = Some {| site_type_name := prjxray.type site_obj |}
        ∧ site_row_site_type_pkey s = k) →
  site_obj ∈ prjxray.get_sites (get_tile_type tile_type_name) →
  pins ⊆ prjxray.site_pins site_obj →
  site_row_name s = prjxray.site_name site_obj →
  x_coord s = prjxray.x site_obj →
  y_coord s = prjxray.y site_obj →
  site_relation_inv get_tile_type c1 c
  ∧ row_at (site c) site_pkey = Some s →
  foldM (bind_site_pin tile_types site_types tile_type_name site_obj
                       site_pkey) c pins = Ok c' →
  site_relation_inv get_tile_type c1 c'
  ∧ row_at (site c') site_pkey = Some s.
Proof.
  intros Htts Hsts Hsite_obj Hpins Hname Hx Hy Hinv.
  apply (foldM_invariant
           (λ c2, site_relation_inv get_tile_type c1 c2
                  ∧ row_at (site c2) site_pkey = Some s)); [|done].
  intros c2 pin c3 Hpin Hinv2.
  apply (bind_site_pin_inv c1); try done. by apply Hpins.
Qed.

Lemma add_sites_inv c1 tile_types site_types tile_type_name sites c c' :
  (∀ k, dict_get tile_types tile_type_name = Ok k →
        row_at (tile_type c1) k = Some tile_type_name) →
  (∀ m k, dict_get site_types m = Ok k →
          row_at (site_type (phy_tables c1)) k
          = Some {| site_type_name := m |}) →
  sites ⊆ prjxray.get_sites (get_tile_type tile_type_name) →
  site_relation_inv get_tile_type c1 c →
  foldM (add_site tile_types site_types tile_type_name) c sites = Ok c' →
  site_relation_inv get_tile_type c1 c'.
Proof.
  intros Htts Hsts Hsites.
  apply (foldM_invariant (site_relation_inv get_tile_type c1)).
  intros c2 site_obj c3 Hsite_obj Hinv2.
  apply add_site_inv; try done. by apply Hsites.
Qed.

Lemma with_site_inv c1 c s :
  site_relation_inv get_tile_type c1 c →
  site_relation_inv get_tile_type c1 (with_site (λ t, t ++ [s]) c)
  ∧ row_at (site (with_site (λ t, t ++ [s]) c)) (length (site c ++ [s]))
    = Some s.
Proof.
  intros [Htype Hdir Htables [new Hsite] Hids Hbound]. split.
  - split; simpl; try done.
    + exists (new ++ [s]). by rewrite Hsite, app_assoc.
    + intros key r Hr. destruct (Hbound key r Hr) as [Hold|Hold];
        [by left|right].
      eapply site_pin_bound_mono; [| | | |exact Hold]; simpl; try done.
      by exists [s].
  - simpl. rewrite length_app, Nat.add_1_r. apply row_at_snoc.
Qed.

Lemma site_relation_facts c1 c tile_types site_types :
  site_relation_inv get_tile_type c1 c →
  (∀ n k, dict_get tile_types n = Ok k → row_at (tile_type c1) k = Some n) →
  (∀ m k, dict_get site_types m = Ok k →
          row_at (site_type (phy_tables c1)) k
          = Some {| site_type_name := m |}) →
  (∀ n k, dict_get tile_types n = Ok k → row_at (tile_type c) k = Some n)
  ∧ (∀ m k, dict_get site_types m = Ok k →
            row_at (site_type (phy_tables c)) k
            = Some {| site_type_name := m |})
  ∧ wire_in_tile_id <$> wire_in_tile (phy_tables c)
    = wire_in_tile_id <$> wire_in_tile (phy_tables c1).
Proof.
  intros [Rtt _ Rtab _ Rids _] Ftts Fsts.
  assert (Rst := f_equal site_type Rtab). simpl in Rst.
  by rewrite Rtt, Rst.
Qed.

(** X29. After a run of [import_phy_grid] that returns, every wire type
    of a new tile type that a pin of a site of the tile type names as its
    wire is bound to a site pin. *)
Theorem import_phy_grid_binds grid c0 c' key r n site_obj pin :
  import_phy_grid get_site_type get_tile_type wire_in_tile_default grid c0
  = Ok c' →
  row_at (wire_in_tile (phy_tables c')) key = Some r →
  length (tile_type c0) < wire_in_tile_tile_type_pkey r →
  row_at (tile_type c') (wire_in_tile_tile_type_pkey r) = Some n →
  site_obj ∈ prjxray.get_sites (get_tile_type n) →
  pin ∈ prjxray.site_pins site_obj →
  prjxray.wire pin = Some (wire_in_tile_name r) →
  site_pin_bound get_tile_type c' r.
Proof.
  intros (c1 & tile_types & site_types & c2 & _ & Hinv & _ & Hloop2 & Hrel
          & ->)%import_phy_grid_Ok Hr Hnew Hn Hsite_obj Hpin Hwire.
  simpl in Hr, Hn.
  destruct Hinv as [[Hst _ Hskeys _ _] Htt Hnodup Hkeys _ _ Hsites _
                    _ _ _ _ _ _].
  cbn [fst snd] in *.
  assert (Ftts : ∀ n k, dict_get tile_types n = Ok k →
                        row_at (tile_type c1) k = Some n).
  { intros n' k Hk%dict_get_Ok. rewrite Htt.
    rewrite <- (list_fmap_id tile_types.*1). by apply (dict_keys_row id). }
  assert (Fsts : ∀ m k, dict_get site_types m = Ok k →
                        row_at (site_type (phy_tables c1)) k
                        = Some {| site_type_name := m |}).
  { intros m k Hk%dict_get_Ok. rewrite Hst.
    by apply (dict_keys_row (λ n, {| site_type_name := n |})). }
  rewrite (rel_tile_type _ _ _ Hrel), Htt in Hn.
  assert (Hnin : n ∈ tile_types.*1).
  { destruct (wire_in_tile_tile_type_pkey r) as [|i]; [lia|]. simpl in Hn.
    rewrite lookup_app_r in Hn by lia. by eapply list_elem_of_lookup_2. }
  assert (Hkt : ∀ k, dict_get tile_types n = Ok k →
                     wire_in_tile_tile_type_pkey r = k).
  { intros k Hk%dict_get_Ok.
    destruct (dict_keys_row id (tile_type c0) tile_types n k Hkeys Hk)
      as [Hrow Hlt].
    rewrite list_fmap_id in Hrow.
    destruct k as [|i]; [lia|].
    destruct (wire_in_tile_tile_type_pkey r) as [|j]; [lia|].
    simpl in Hrow, Hn. rewrite lookup_app_r in Hrow, Hn by lia.
    assert (j - length (tile_type c0) = i - length (tile_type c0))
      by (by eapply NoDup_lookup).
    lia. }
  assert (Hids2 := rel_wire_in_tile _ _ _ Hrel).
  (* the tile type *)
  destruct (foldM_elem _ _ n _ _ Hnin Hloop2)
    as (l1 & l2 & ca & cb & _ & Hpre & Hstep & Hpost).
  assert (Ha : site_relation_inv get_tile_type c1 ca)
    by (by eapply site_relation_loop_inv).
  assert (Hb : site_relation_inv get_tile_type c1 cb).
  { eapply add_wire_to_site_relation_inv; [|exact Fsts|exact Ha|exact Hstep].
    intros k. apply Ftts. }
  (* the site *)
  unfold add_wire_to_site_relation in Hstep.
  destruct (foldM_elem _ _ site_obj _ _ Hsite_obj Hstep)
    as (s1 & s2 & ca1 & ca2 & Hsplit & Hpre1 & Hstep1 & Hpost1).
  assert (Ha1 : site_relation_inv get_tile_type c1 ca1).
  { eapply add_sites_inv; [|exact Fsts| |exact Ha|exact Hpre1].
    - intros k. apply Ftts.
    - intros x Hx. rewrite Hsplit. apply elem_of_app. by left. }
  assert (Ha2 : site_relation_inv get_tile_type c1 ca2).
  { eapply add_site_inv; [|exact Fsts|exact Hsite_obj|exact Ha1|exact Hstep1].
    intros k. apply Ftts. }
  (* the pin *)
  unfold add_site in Hstep1. apply bind_Ok in Hstep1 as (k & Hk & Hstep1).
  simpl in Hstep1.
  set (s := {| site_row_name := prjxray.site_name site_obj;
               x_coord := prjxray.x site_obj; y_coord := prjxray.y site_obj;
               site_row_site_type_pkey := k |}) in *.
  destruct (with_site_inv c1 ca1 s Ha1) as [Hm Hms]. simpl in Hms.
  destruct (foldM_elem _ _ pin _ _ Hpin Hstep1)
    as (p1 & p2 & cp1 & cp2 & Hsplitp & Hprep & Hstepp & Hpostp).
  assert (Hsts_s : ∀ c, (∀ m k, dict_get site_types m = Ok k →
                                row_at (site_type (phy_tables c)) k
                                = Some {| site_type_name := m |}) →
                        ∀ k', dict_get site_types (prjxray.type site_obj)
                              = Ok k' →
                              row_at (site_type (phy_tables c)) k'
                              = Some {| site_type_name
                                          := prjxray.type site_obj |}
                              ∧ site_row_site_type_pkey s = k').
  { intros c Fc k' Hk'. split; [by apply Fc|]. simpl. congruence. }
  assert (Hp1 : site_relation_inv get_tile_type c1 cp1
                ∧ row_at (site cp1) (length (site ca1 ++ [s])) = Some s).
  { eapply (bind_site_pins_inv c1 _ _ n site_obj _ s p1);
      [|by apply Hsts_s|done| |done|done|done| |exact Hprep].
    - intros k'. apply Ftts.
    - intros x Hx. rewrite Hsplitp. apply elem_of_app. by left.
    - done. }
  destruct Hp1 as [Hp1 Hp1s].
  destruct (site_relation_facts c1 cp1 tile_types site_types Hp1 Ftts Fsts)
    as (Ftts1 & Fsts1 & Hids1).
  assert (Hid : wire_in_tile_id <$> row_at (wire_in_tile (phy_tables cp1)) key
                = Some (wire_in_tile_id r)).
  { destruct key as [|i]; [done|]. simpl in *.
    by rewrite <- list_lookup_fmap, Hids1, <- Hids2, list_lookup_fmap, Hr. }
  destruct (row_at (wire_in_tile (phy_tables cp1)) key) as [r1|] eqn:Hr1;
    [|done].
  simpl in Hid. injection Hid as Hname1 Htype1.
  assert (Hbound2 : bound_at get_tile_type cp2 key).
  { eapply (bind_site_pin_binds _ _ n site_obj _ s cp1 pin cp2 key r1);
      [|by apply Hsts_s|done..|congruence|exact Hstepp].
    intros k' Hk'. split; [by apply Ftts1|]. rewrite Htype1. by apply Hkt. }
  assert (Hp2 : site_relation_inv get_tile_type c1 cp2
                ∧ row_at (site cp2) (length (site ca1 ++ [s])) = Some s).
  { eapply (bind_site_pin_inv c1 _ _ n site_obj _ s cp1 pin cp2);
      [|by apply Hsts_s|done..].
    intros k'. apply Ftts. }
  destruct Hp2 as [Hp2 Hp2s].
  destruct (site_relation_facts c1 cp2 tile_types site_types Hp2 Ftts Fsts)
    as (Ftts2 & Fsts2 & _).
  (* the other pins of the site *)
  assert (Hrest_p : site_relation_inv get_tile_type cp2 ca2
                    ∧ row_at (site ca2) (length (site ca1 ++ [s])) = Some s).
  { eapply (bind_site_pins_inv cp2 _ _ n site_obj _ s p2);
      [|by apply Hsts_s|done| |done|done|done| |exact Hpostp].
    - intros k'. apply Ftts2.
    - intros x Hx. rewrite Hsplitp. apply elem_of_app. right. by right.
    - split; [apply site_relation_inv_refl|done]. }
  destruct Hrest_p as [Hrest_p _].
  apply (site_relation_bound_at _ _ _ Hrest_p) in Hbound2.
  (* the other sites of the tile type *)
  destruct (site_relation_facts c1 ca2 tile_types site_types Ha2 Ftts Fsts)
    as (Ftts3 & Fsts3 & _).
  assert (Hrest_s : site_relation_inv get_tile_type ca2 cb).
  { eapply add_sites_inv;
      [|exact Fsts3| |apply site_relation_inv_refl|exact Hpost1].
    - intros k'. apply Ftts3.
    - intros x Hx. rewrite Hsplit. apply elem_of_app. right. by right. }
  apply (site_relation_bound_at _ _ _ Hrest_s) in Hbound2.
  (* the other tile types *)
  destruct (site_relation_facts c1 cb tile_types site_types Hb Ftts Fsts)
    as (Ftts4 & Fsts4 & _).
  assert (Hrest_t : site_relation_inv get_tile_type cb c2)
    by (by eapply site_relation_loop_inv).
  apply (site_relation_bound_at _ _ _ Hrest_t) in Hbound2.
  destruct Hbound2 as (r2 & Hr2 & Hb2).
  assert (r2 = r) as -> by congruence.
  eapply site_pin_bound_mono; [| | | |exact Hb2]; simpl; try done.
  exists []. by rewrite app_nil_r.
Qed.

End phy_grid.

Section phy_grid_nodes.
Context (get_site_type : string → list prjxray.SiteTypePin).
Context (get_tile_type : string → prjxray.TileType).
Context (wire_in_tile_default : wire_in_tile_row).

(** X30. Stage 1 hands stage 2 a grid it can enumerate: after a run of
    [import_phy_grid] that returns, on a database without [phy_tile] rows
    and for a grid that names no tile twice and lists no (tile, wire) pair
    twice, every tile has a [phy_tile] row of its name, and every wire of
    the tile has a [wire_in_tile] row of its name in the tile type of the
    first such row. *)
Theorem import_phy_grid_grid_ok grid c0 c' :
  import_phy_grid get_site_type get_tile_type wire_in_tile_default grid c0
  = Ok c' →
  phy_tile (phy_tables c0) = [] →
  NoDup (prjxray.tile <$> grid) →
  NoDup (tile_wires (grid_tiles get_tile_type grid)) →
  grid_ok (phy_tables c') (grid_tiles get_tile_type grid).
Proof.
  intros (c1 & tile_types & site_types & c2 & _ & Hinv & Hmem & _ & Hrel
          & ->)%import_phy_grid_Ok Hempty Hnames Hwires.
  destruct Hinv as [_ _ _ _ Hwit _ _ _ _ Hphy _ _ _ _].
  destruct Hrel as [_ _ Rtables _ Rids _]. cbn [fst snd] in *.
  assert (Rphy := f_equal phy_tile Rtables). simpl in Rphy.
  split; [done|].
  intros t (tile & -> & Htile)%list_elem_of_fmap.
  unfold phy_tiles_named, wires_in_tile_named. simpl.
  rewrite Rphy, Hphy, Hempty. simpl.
  destruct (dict_get_is_Ok tile_types (prjxray.tile_type tile)) as [k Hk].
  { apply Hmem. by exists tile. }
  apply list_elem_of_lookup in Htile as [i Hi].
  assert (Hrow : (S i, phy_tile_of tile_types tile)
                 ∈ filter (λ r : pkey * phy_tile_row,
                             phy_tile_name r.2 = prjxray.tile tile)
                          (rows (phy_tile_of tile_types <$> grid))).
  { apply list_elem_of_filter. split; [done|]. apply elem_of_rows. simpl.
    by rewrite list_lookup_fmap, Hi. }
  destruct (filter _ (rows (phy_tile_of tile_types <$> grid)))
    as [|[phy pt] rest] eqn:Hnamed; [by apply elem_of_nil in Hrow|].
  exists phy, pt, rest. split; [done|].
  assert ((phy, pt) ∈ filter (λ r : pkey * phy_tile_row,
                                phy_tile_name r.2 = prjxray.tile tile)
                             (rows (phy_tile_of tile_types <$> grid)))
    as [Hname Hpt%elem_of_rows]%list_elem_of_filter
    by (rewrite Hnamed; left).
  simpl in Hname, Hpt. destruct phy as [|j]; [done|]. simpl in Hpt.
  rewrite list_lookup_fmap in Hpt.
  destruct (grid !! j) as [tile'|] eqn:Hj; [|done]. injection Hpt as <-.
  simpl in Hname.
  assert (j = i) as ->.
  { eapply (NoDup_lookup _ j i (prjxray.tile tile)); [exact Hnames|..];
      rewrite list_lookup_fmap; [by rewrite Hj; simpl; f_equal|
                                 by rewrite Hi]. }
  assert (tile' = tile) as -> by congruence.
  unfold phy_tile_of. simpl. rewrite Hk.
  intros w Hw.
  assert (Hid : (w, k) ∈ wire_in_tile_id <$> wire_in_tile (phy_tables c2)).
  { rewrite Rids, Hwit, fmap_app, fmap_join. apply elem_of_app. right.
    apply list_elem_of_join.
    exists ((λ w, (w, k))
            <$> prjxray.get_wires (get_tile_type (prjxray.tile_type tile))).
    split; [by apply (list_elem_of_fmap_2 (λ w, (w, k)))|].
    rewrite <- list_fmap_compose. apply list_elem_of_fmap.
    exists (prjxray.tile_type tile, k). split; [|by apply dict_get_Ok].
    simpl. by rewrite <- list_fmap_compose. }
  apply list_elem_of_fmap in Hid as (r & Hr & [key Hkey]%list_elem_of_lookup).
  injection Hr as Hrname Hrtype.
  intros Hnil.
  assert (S key ∈ (filter (λ r0 : pkey * wire_in_tile_row,
                             wire_in_tile_name r0.2 = w
                             ∧ wire_in_tile_tile_type_pkey r0.2 = k)
                          (rows (wire_in_tile (phy_tables c2)))).*1) as Hin.
  { apply list_elem_of_fmap. exists (S key, r). split; [done|].
    apply list_elem_of_filter. split; [done|]. by apply elem_of_rows. }
  rewrite Hnil in Hin. by apply elem_of_nil in Hin.
Qed.

End phy_grid_nodes.

Lemma import_phy_grid_tiles_witness :
  import_phy_grid example_site_type example_tile_type null_wire_in_tile
                  example_phy_grid empty_database
  = Ok example_imported
  ∧ ∃ new rows,
      tile_type example_imported = tile_type empty_database ++ new
      ∧ NoDup new
      ∧ (∀ n, n ∈ new
              ↔ ∃ tile, tile ∈ example_phy_grid
                        ∧ prjxray.tile_type tile = n)
      ∧ phy_tile (phy_tables example_imported)
        = phy_tile (phy_tables empty_database) ++ rows
      ∧ Forall2 (λ tile r,
                   phy_tile_name r = prjxray.tile tile
                   ∧ phy_tile_grid_x r = prjxray.grid_x tile
                   ∧ phy_tile_grid_y r = prjxray.grid_y tile
                   ∧ length (tile_type empty_database)
                     < phy_tile_tile_type_pkey r
                   ∧ row_at (tile_type example_imported)
                            (phy_tile_tile_type_pkey r)
                     = Some (prjxray.tile_type tile))
                example_phy_grid rows.
Proof.
  assert (Hrun : import_phy_grid example_site_type example_tile_type
                   null_wire_in_tile example_phy_grid empty_database
                 = Ok example_imported) by (vm_compute; reflexivity).
  split; [exact Hrun|].
  exact (import_phy_grid_tiles example_site_type example_tile_type
           null_wire_in_tile example_phy_grid empty_database
           example_imported Hrun).
Defined.

Lemma import_phy_grid_wires_witness :
  import_phy_grid example_site_type example_tile_type null_wire_in_tile
                  example_phy_grid empty_database
  = Ok example_imported
  ∧ ∃ new,
      tile_type example_imported = tile_type empty_database ++ new
      ∧ wire_in_tile_id <$> wire_in_tile (phy_tables example_imported)
        = (wire_in_tile_id <$> wire_in_tile (phy_tables empty_database))
          ++ mjoin (imap (λ i n,
                            (λ w, (w, length (tile_type empty_database) + S i))
                            <$> prjxray.get_wires (example_tile_type n))
                         new).
Proof.
  assert (Hrun : import_phy_grid example_site_type example_tile_type
                   null_wire_in_tile example_phy_grid empty_database
                 = Ok example_imported) by (vm_compute; reflexivity).
  split; [exact Hrun|].
  exact (import_phy_grid_wires example_site_type example_tile_type
           null_wire_in_tile example_phy_grid empty_database
           example_imported Hrun).
Defined.

Lemma import_phy_grid_pips_witness :
  import_phy_grid example_site_type example_tile_type null_wire_in_tile
                  example_phy_grid empty_database
  = Ok example_imported
  ∧ row_at (pip_in_tile (phy_tables example_imported)) 1
    = Some (example_pip "P1" 2 1 false)
  ∧ length (pip_in_tile (phy_tables empty_database)) < 1
  ∧ pip_joins example_tile_type example_imported
              (example_pip "P1" 2 1 false).
Proof.
  assert (Hrun : import_phy_grid example_site_type example_tile_type
                   null_wire_in_tile example_phy_grid empty_database
                 = Ok example_imported) by (vm_compute; reflexivity).
  assert (Hrow : row_at (pip_in_tile (phy_tables example_imported)) 1
                 = Some (example_pip "P1" 2 1 false)) by reflexivity.
  assert (Hkey : length (pip_in_tile (phy_tables empty_database)) < 1)
    by (simpl; lia).
  split_and!; [exact Hrun|exact Hrow|exact Hkey|].
  exact (import_phy_grid_pips example_site_type example_tile_type
           null_wire_in_tile example_phy_grid empty_database
           example_imported 1 (example_pip "P1" 2 1 false) Hrun Hrow Hkey).
Defined.

Lemma import_phy_grid_site_types_witness :
  import_phy_grid example_site_type example_tile_type null_wire_in_tile
                  example_phy_grid empty_database
  = Ok example_imported
  ∧ ∃ new,
      site_type (phy_tables example_imported)
      = site_type (phy_tables empty_database)
        ++ ((λ m, {| site_type_name := m |}) <$> new)
      ∧ NoDup new
      ∧ (∀ m, m ∈ new
              ↔ ∃ tile site_obj,
                  tile ∈ example_phy_grid
                  ∧ site_obj ∈ prjxray.get_sites
                                 (example_tile_type (prjxray.tile_type tile))
                  ∧ prjxray.type site_obj = m)
      ∧ site_pin (phy_tables example_imported)
        = site_pin (phy_tables empty_database)
          ++ mjoin (imap (λ i m,
                            site_pin_rows
                              (length (site_type (phy_tables empty_database))
                               + S i)
                              (example_site_type m)) new)
      ∧ site_pin_direction example_imported
        = site_pin_direction empty_database
          ++ mjoin ((λ m, prjxray.direction <$> example_site_type m)
                    <$> new).
Proof.
  assert (Hrun : import_phy_grid example_site_type example_tile_type
                   null_wire_in_tile example_phy_grid empty_database
                 = Ok example_imported) by (vm_compute; reflexivity).
  split; [exact Hrun|].
  exact (import_phy_grid_site_types example_site_type example_tile_type
           null_wire_in_tile example_phy_grid empty_database
           example_imported Hrun).
Defined.

Lemma import_phy_grid_site_pins_witness :
  import_phy_grid example_site_type example_tile_type null_wire_in_tile
                  example_phy_grid empty_database
  = Ok example_imported
  ∧ row_at (wire_in_tile (phy_tables example_imported)) 1
    = Some {| wire_in_tile_name := "PIN_A";
              wire_in_tile_tile_type_pkey := 1;
              wire_in_tile_site_pkey := Some 2;
              wire_in_tile_site_pin_pkey := Some 3 |}
  ∧ ((Some 2, Some 3) = site_columns null_wire_in_tile
     ∨ site_pin_bound example_tile_type example_imported
         {| wire_in_tile_name := "PIN_A";
            wire_in_tile_tile_type_pkey := 1;
            wire_in_tile_site_pkey := Some 2;
            wire_in_tile_site_pin_pkey := Some 3 |}).
Proof.
  assert (Hrun : import_phy_grid example_site_type example_tile_type
                   null_wire_in_tile example_phy_grid empty_database
                 = Ok example_imported) by (vm_compute; reflexivity).
  assert (Hrow : row_at (wire_in_tile (phy_tables example_imported)) 1
                 = Some {| wire_in_tile_name := "PIN_A";
                           wire_in_tile_tile_type_pkey := 1;
                           wire_in_tile_site_pkey := Some 2;
                           wire_in_tile_site_pin_pkey := Some 3 |})
    by reflexivity.
  split_and!; [exact Hrun|exact Hrow|].
  exact (import_phy_grid_site_pins example_site_type example_tile_type
           null_wire_in_tile example_phy_grid empty_database
           example_imported 1 _ Hrun Hrow).
Defined.


Lemma import_phy_grid_binds_witness :
  import_phy_grid example_site_type example_tile_type null_wire_in_tile
                  example_phy_grid empty_database
  = Ok example_imported
  ∧ row_at (wire_in_tile (phy_tables example_imported)) 8
    = Some {| wire_in_tile_name := "GND_WIRE";
              wire_in_tile_tile_type_pkey := 1;
              wire_in_tile_site_pkey := Some 1;
              wire_in_tile_site_pin_pkey := Some 1 |}
  ∧ site_pin_bound example_tile_type example_imported
      {| wire_in_tile_name := "GND_WIRE";
         wire_in_tile_tile_type_pkey := 1;
         wire_in_tile_site_pkey := Some 1;
         wire_in_tile_site_pin_pkey := Some 1 |}.
Proof.
  assert (Hrun : import_phy_grid example_site_type example_tile_type
                   null_wire_in_tile example_phy_grid empty_database
                 = Ok example_imported) by (vm_compute; reflexivity).
  assert (Hrow : row_at (wire_in_tile (phy_tables example_imported)) 8
                 = Some {| wire_in_tile_name := "GND_WIRE";
                           wire_in_tile_tile_type_pkey := 1;
                           wire_in_tile_site_pkey := Some 1;
                           wire_in_tile_site_pin_pkey := Some 1 |})
    by reflexivity.
  split_and!; [exact Hrun|exact Hrow|].
  refine (import_phy_grid_binds example_site_type example_tile_type
            null_wire_in_tile example_phy_grid empty_database
            example_imported 8 _ "T"
            {| prjxray.site_name := "TIEOFF_X0Y0"; prjxray.type := "TIEOFF";
               prjxray.x := 0; prjxray.y := 0;
               prjxray.site_pins :=
                 [ {| prjxray.site_pin_name := "HARD0";
                      prjxray.wire := Some "GND_WIRE" |};
                   {| prjxray.site_pin_name := "HARD1";
                      prjxray.wire := Some "VCC_WIRE" |} ] |}
            {| prjxray.site_pin_name := "HARD0";
               prjxray.wire := Some "GND_WIRE" |}
            Hrun Hrow _ _ _ _ _).
  - simpl. lia.
  - reflexivity.
  - simpl. left.
  - simpl. left.
  - reflexivity.
Defined.

Lemma import_phy_grid_grid_ok_witness :
  import_phy_grid example_site_type example_tile_type null_wire_in_tile
                  example_phy_grid empty_database
  = Ok example_imported
  ∧ phy_tile (phy_tables empty_database) = []
  ∧ NoDup (prjxray.tile <$> example_phy_grid)
  ∧ NoDup (tile_wires (grid_tiles example_tile_type example_phy_grid))
  ∧ grid_ok (phy_tables example_imported)
            (grid_tiles example_tile_type example_phy_grid).
Proof.
  assert (Hrun : import_phy_grid example_site_type example_tile_type
                   null_wire_in_tile example_phy_grid empty_database
                 = Ok example_imported) by (vm_compute; reflexivity).
  assert (Hempty : phy_tile (phy_tables empty_database) = []) by reflexivity.
  assert (Hnames : NoDup (prjxray.tile <$> example_phy_grid))
    by compute_done.
  assert (Hwires : NoDup (tile_wires
                            (grid_tiles example_tile_type example_phy_grid)))
    by compute_done.
  split_and!; [exact Hrun|exact Hempty|exact Hnames|exact Hwires|].
  exact (import_phy_grid_grid_ok example_site_type example_tile_type
           null_wire_in_tile example_phy_grid empty_database
           example_imported Hrun Hempty Hnames Hwires).
Defined.
